(* ===== verification/_CoqProject ===== *)
-Q . S2P
Prelude.v
PySort.v
PyStr.v
PyDict.v
PyNum.v
PdCsv.v
Tables.v
Frame.v
Wins.v
Ranking.v
MeanGrid.v
Dnf.v
Circuits.v
Champions.v
Failures.v
PitStops.v
Features.v
Clustering.v
Compare.v
Gui.v
Views.v
KMeansRun.v
Windows.v
Tests.v
