(* ===== verification/Prelude.v ===== *)
(** * Formula 1 world championships: a verification development

    The repository (src/) answers fixed questions over the Ergast Formula 1
    CSV tables of ./data/ twice: once with plain Python loops over the
    dicts that src/parsers/parse_csv.py returns (src/analysis/homemade/),
    once with pandas (src/analysis/pandas/); src/learning/clustering.py
    derives per-driver features and clusters them; src/app.py is the
    desktop GUI that calls both versions, and src/analysis/compare.py times
    them against each other.  The two versions read the same files and are
    meant to give the same answers: that contract, and what each version
    does on every input, errors included, is what this library states and
    proves.

    ** Layout (one file per component, in dependency order)

    - [Prelude] (this file): the [result] error monad of Python exceptions
      ([exc]: ValueError, KeyError, TypeError, ZeroDivisionError,
      UnboundLocalError, IndexError, FileNotFoundError, OSError, and
      [ValueErrorWith msg] where the message matters; [let*]
      in [py_scope]), the hint
      database [f1], the tactic [split_ifs], and the generic lemmas on
      lists, counting ([countb]), [mapM], [last], [NoDup] and integer
      maxima the components share.
    - [PySort]: Python's ordering protocol as the class [PyOrd] (a strict
      weak order; instances for [nat], [Z], [string], [Q], pairs, lists,
      [option] and the reversed order [Down]), [sorted(l, key=k,
      reverse=True)] as [sorted_desc] with its three defining properties
      (permutation, order, stability) and the theorem that they determine
      the result ([sorted_desc_unique]), so the insertion sort of the model
      and CPython's Timsort agree everywhere; [max()] as [py_max].
    - [PyStr]: [str(n)], [int(s)] (stripping, sign, underscores) with the
      round trip [py_int_str_of_Z], [str.isdigit], and the layout methods
      [ljust], [rjust], [center], [*], [join] used to print the tables.
    - [PyDict]: insertion-ordered dicts as association lists ([dict_get],
      [dict_set], comprehensions [dict_of_list]) and the counting idiom of
      the homemade code ([dict_incr], [count_by]): each counter is the
      number of elements with its key, keys come in first-occurrence order.
    - [PyNum]: [float(s)] read as the exact rational ([py_float]),
      [int(x)] ([py_trunc]), [round(x)] with ties to even ([py_round]),
      [format(x, '.2f')] ([fmt_fixed]), [sum] and [sum/len], and the
      double nearest to a rational ([dbl], ties to even) for the code
      whose result depends on float rounding.
    - [PdCsv]: the type inference of [pd.read_csv] (int64, float64,
      bool, object, pandas' NA tokens as NaN), [str] and [repr] of the
      values it gives, and the row type of [iterrows]; used where the
      program reads a CSV file with pandas and prints its cells (the
      CSV preview and clusters.csv).
    - [Tables]: the tabular store.  A [*Csv.t] record is a CSV line as
      src/parsers/parse_csv.py returns it (strings); a [*Row.t] record is
      the same line as [pd.read_csv] types it; [read_*] is that typing and
      [render_*] writes a typed row canonically.  The strategies are
      compared on the same canonical file: [read_render_driver] and its
      siblings show pandas reads back what was written, [str_of_Z_eqb]
      that the homemade string tests agree with the pandas integer tests.
    - [Frame]: the pandas operations ([groupby_size], [merge_inner],
      [merge_left], [value_counts], [head], [idxmax], [squeeze]) and the
      interface [SortValues]: [sort_values] uses an unstable quicksort, so
      the pandas queries are proved for every sort that returns a
      permutation in non-increasing key order.
    - Each question is one file, with a module per strategy:
      [Wins] (homemade/pandas mandatory1.py, modules [Homemade] and
      [Pandas]); [Ranking] (mandatory2.py, [Homemade] and [Pandas]);
      [MeanGrid] (q1.py, [Homemade] and [Pandas]); [Dnf] (q2.py,
      [HomemadeQ2] and [PandasQ2]); [Circuits] (pandas q3.py, [Q3]);
      [Champions] (pandas q4.py [Q4] and q5_graph.py's tally [Q5]);
      [Failures] (pandas q6_graph.py's counts [Q6] and q7.py [Q7]);
      [PitStops] (pandas q8.py, [Q8]).  A function of the source is a
      definition of the same name taking the tables as arguments; its loops
      are [fold_left]s or [List.filter]s, its exceptions [Raise] values.
    - [Features]: the per-driver feature table [df_pilotes] of
      src/learning/clustering.py, lines 35-132: the [groupby] aggregations
      ([mean] and [std] skipping [NaN], which is [None]), the [reduce] of
      outer merges on driverId, the left merges and [fillna(0)].
    - [Clustering]: the feature matrix, [StandardScaler().fit_transform]
      and the cluster composition table of lines 194-202, the k-means
      labels being an input.
    - [Compare]: src/analysis/compare.py as explicit state passing in a
      small state and exception monad [M] (clock readings taken, trace of
      readings and calls), the clock and the outcome of each call being
      section variables; [compare_spec] is its contract (the averages of
      the durations measured around each call), and
      [show_comparison_result] the message of src/app.py.
    - [Gui]: the question table [question_data] of src/app.py, the
      "Answer" window as a state ([window]) changed by [handle] on edit,
      toggle and "Run" events, with [reachable] its step relation, the
      conversion of the entries ([parse_entry]) and the export
      ([parse_export], [export_row], [export]).  The query functions,
      [str()] and the file system are the class [Backend], so the GUI
      theorems hold for any implementation of the queries.
    - [Views]: two windows of src/app.py as the values they display.
      [open_csv_preview] is the CSV preview.  It gives the window
      ([PreviewTable]: title, heading, column widths of [tree_columns],
      the first 15 rows) or the error dialog ([PreviewError]).  The frame
      is the file's fields typed by [PdCsv]; the widths measure [str] of
      each value of a column and follow pandas' NaN semantics ([num],
      [py_max2], [py_min2]); the rows print the values of [iterrows],
      where an int of an all-numeric frame becomes a float; [data_menu]
      is the Data menu.  [contrib_text] and
      [cluster_preview_text] are the texts of the k-means window.
    - [KMeansRun]: [cluster_driving_styles] of src/learning/clustering.py
      and [open_kmeans_window] of src/app.py.  They are one program in a
      state and exception monad [FS] over the file store (a [gmap] from
      paths to contents) and the widgets packed so far.  The run scales
      the features ([Clustering]), runs the elbow loop, KMeans for
      k = 3 and PCA, and saves four files when [save_outputs].  The
      window moves the four files into the chosen folder, reads two of
      them back and packs the views of [Views].  KMeans and PCA are the
      class [Learner], whose laws [LearnerLaws] are scikit-learn's input
      checks.  [cluster_outputs] is the pure specification of the run.
    - [Windows]: the rest of src/app.py and the two charts.
      - The code windows: one pane, or a pandas pane and a homemade
        pane, each showing [inspect.getsource] or its error.
      - The about window.
      - The frame of each question ([question_frame]) and what each of
        its buttons does ([press]).
      - The bar charts of src/analysis/pandas/q5_graph.py and
        q6_graph.py ([Q5Graph], [Q6Graph]), saved to [save_path] when it
        is truthy and shown otherwise.
    - [Tests]: the pytest modules of src/tests as boolean verdicts on
      the models of the functions they call, with their parametrised
      cases.

    ** What is proved

    - Equivalence and refinement between the two strategies on canonical
      files: the same rows for the wins table up to the order of ties
      ([Wins.wins_strategies_agree]), the same last race when the season's
      raceIds have one width ([Ranking.last_race_agree]), the same mean
      grid sentence for a unique driver name
      ([MeanGrid.mean_grid_strategies_agree]), the same DNF classification
      outside lap deficits ([Dnf.dnf_classification_agree]).
    - Where they differ, a characterisation: the string [max] of raceIds
      takes another race of the season as soon as one id sorts after the
      last as a string ([Ranking.last_race_string_max]), truncated points
      ([Ranking.ranking_points_truncated]), unknown names, for which
      pandas raises the truth-value error of a Series and never its own
      "Driver not found" ([MeanGrid.mean_grid_not_found]), ['+k Laps']
      statuses ([Dnf.laps_status_classification],
      [Dnf.dnf_strategies_differ]).
    - The code against its own documentation: q8.py filters the long
      pit stops when [outliers] is false, the docstring says when it is
      true ([PitStops.kept_docstring_inverted]).
    - Functional behaviour of each query on every branch, errors included:
      ranks 1..N in points order, top-k tables as prefixes of the stable
      descending sort with exact counts, the champion at the last round,
      the championship tally, the circuit with most accidents, the
      pit-stop statistics; [ValueError], [KeyError] and
      [UnboundLocalError] exactly where the source raises them.
    - Bounds: a rounded mean lies between the extreme values, feature
      rates lie in [0, 1]; raising
      the wins threshold by one removes exactly the drivers at the old
      threshold ([Wins.top_winners_named_mono]).
    - The feature table and the clustering input: a driver without data
      has no row ([Features.features_no_row_without_data]); the
      qualifying features are 0 for every driver before and after scaling
      ([Features.qualifying_features_zero],
      [Clustering.qualifying_features_scaled_zero]); the scaler raises
      nothing, gives finite values ([Clustering.scaled_features_shape])
      and centres each column; the cluster table has equal-length
      columns.
    - The harness and the GUI: [compare_execution_time] refines its
      contract ([Compare.compare_refines_spec]) and stops at the first
      exception without calling the other function
      ([Compare.compare_first_exception]); every window reachable by user
      events calls its function with one value of the declared type (or
      [None]) per parameter ([Gui.window_call_args], an invariant by rule
      induction on [reachable]); untouched entries reproduce the
      "Compare" arguments ([Gui.answer_defaults_roundtrip]); a blank
      [int] is [None] for "Answer" and an error for the export
      ([Gui.blank_int_answer_export]).
    - The views: every column of a CSV preview is 80 to 300 pixels wide,
      at most 15 rows are shown, and a file without rows has every column
      80 wide whatever its name ([Views.preview_widths_bounded]).  The
      k-means texts take as many lines as the height their widgets are
      given ([Views.views_fit_widgets]).
    - The clustering run and its window:
      - [KMeansRun.cluster_driving_styles_no_save]: without
        [save_outputs] the run writes nothing, on any path.
      - [KMeansRun.cluster_run_completes]: with at least ten drivers it
        completes and writes exactly its four outputs.
      - [KMeansRun.kmeans_window_few_drivers]: with fewer than ten it
        fails in the elbow loop, before any write, and the window shows
        only the error box.
      - [KMeansRun.kmeans_window_exports]: whenever the outputs exist,
        the window refines "export them to the folder and show them".
      - [KMeansRun.clusters_csv_roundtrip]: the preview of clusters.csv
        shows what [to_csv] wrote, every NA token of pandas (the padding
        among them) blank and an unnamed driver as [0], whenever each
        column holds a name pandas reads as text; a column of unnamed
        drivers only is read as floats and shows [0.0].
    - The charts: the nationalities chart has one bar per nationality,
      tallest first, and the bars add up to the number of drivers; it
      is saved exactly when [save_path] is a non-empty path
      ([Windows.nationalities_chart_spec]).
    - The tests: each test of src/tests passes exactly when the function
      it calls returns, so a wrong result that returns passes
      ([Tests.tests_pass_iff_return]).

    ** Numbers, bounds and assumptions

    Integers are unbounded [Z], as Python's are.  Floats are exact
    rationals [Q]: the cells are short decimals and every comparison and
    rounding the queries make on them gives the same result on the doubles
    CPython uses, except where [PyNum] says otherwise (a [5] exactly at the
    rounding position of [format]).  Where that exception can occur,
    q8's [round(x / 1000, 2)], every float operation is [dbl] of its
    exact result and NumPy's rounding is modelled step by step.  Square roots ([std], the scaler) are a
    section variable [sqrt]: the theorems hold for any function.  Nothing
    runs on fuel: every definition is structurally recursive, the loops of
    the source being [fold_left]s, [mapM]s or recursion on the number of
    passes left ([Compare.loop]).
    Every loop of the program is a [for] over a finite sequence, so
    termination holds by construction.  The loops that may not end are
    the Tk main loop and [wait_window], which are not modelled.  The
    clustering theorems that need KMeans or PCA to succeed assume only
    [LearnerLaws]: KMeans raises [ValueError] exactly when there are
    fewer rows than clusters, and PCA fits two or more finite rows.
    [toy_learner] shows that these laws can be met.  The ten of
    [cluster_run_completes] is the last k of the elbow loop,
    [range(1, 11)].

    ** Not modelled

    - The widget layout, colours and fonts of src/app.py.  The text of
      [inspect.getsource] and of about_f1.md are section variables.
    - The pixels of the plots: a figure or chart is the data it draws.
    - CSV delimiter sniffing (csv.Sniffer).
    - The reading of the data files.  A query takes its tables as
      arguments, each the list of lines of one file.  pandas' read_csv is
      an argument of [Views], and the clustering tables are arguments of
      [KMeansRun].
    - The numerical internals of KMeans and PCA (seeded k-means++, SVD),
      which are the [Learner] interface.
    - The text of [str(e)] and [str(result)], left to the [Backend] of
      [Gui] and to section variables.
    - The clock of compare.py, which is an input.
    - Paths are strings: "x" and "./x" are different keys of the store,
      and no two keys name the same file (no links, no case folding);
      the program only builds paths as [folder + "/" + name] from one
      folder, so the store never aliases a file under two names.
    - The precision of numeric parsing beyond 15 significant digits,
      where [repr] of the double read differs from the decimal written,
      and integers beyond int64, which pandas reads as uint64.
    - Strings are sequences of ASCII characters, one per code point. *)

From Stdlib Require Export String Ascii List ZArith NArith QArith Lia
  Sorted Permutation DecimalString DecimalN.
From stdpp Require Export base decidable list sets strings.

Declare Scope py_scope.
Delimit Scope py_scope with py.

(** ** Python exceptions and the result monad

    A Python function of the repository either returns a value or raises.
    The exceptions that the modelled code can raise are listed here. *)

Inductive exc : Type :=
  | ValueError        (* int("x"), max(()) , round(nan), ... *)
  | KeyError          (* d[k] with k not in d *)
  | TypeError         (* len(None), None + str *)
  | ZeroDivisionError (* sum(l) / len(l) with l empty *)
  | UnboundLocalError (* a local read before its first assignment *)
  | IndexError        (* s.iloc[0] on an empty Series *)
  | FileNotFoundError (* shutil.move, open or read_csv of a missing file *)
  | OSError           (* Image.open of a file that is not an image *)
  | ValueErrorWith (msg : string). (* a ValueError whose message a theorem states *)

#[export] Instance exc_eq_dec : EqDecision exc.
Proof. solve_decision. Defined.

Inductive result (A : Type) : Type :=
  | Ok (a : A)
  | Raise (e : exc).
Arguments Ok {A} a.
Arguments Raise {A} e.

Definition bind {A B} (m : result A) (k : A -> result B) : result B :=
  match m with Ok a => k a | Raise e => Raise e end.

Definition fmap_result {A B} (f : A -> B) (m : result A) : result B :=
  bind m (fun a => Ok (f a)).

Notation "'let*' x := m 'in' k" := (bind m (fun x => k))
  (at level 10, x name, m at level 100, k at level 200) : py_scope.
Open Scope py_scope.

(** [Raise] is a failing execution; [raises m] says that [m] did not return. *)
Definition raises {A} (m : result A) : bool :=
  match m with Raise _ => true | Ok _ => false end.

Lemma bind_Ok {A B} (a : A) (k : A -> result B) : bind (Ok a) k = k a.
Proof. reflexivity. Qed.

Lemma bind_Raise {A B} e (k : A -> result B) : bind (Raise e) k = Raise e.
Proof. reflexivity. Qed.

Lemma bind_Ok_inv {A B} (m : result A) (k : A -> result B) b :
  bind m k = Ok b -> exists a, m = Ok a /\ k a = Ok b.
Proof. destruct m; simpl; [eauto | discriminate]. Qed.

(** [for x in l: ys.append(f(x))] where [f] may raise: the first
    exception aborts the loop. *)
Fixpoint mapM {A B} (f : A -> result B) (l : list A) : result (list B) :=
  match l with
  | [] => Ok []
  | x :: l' => let* y := f x in let* ys := mapM f l' in Ok (y :: ys)
  end.

Lemma mapM_Ok {A B} (f : A -> result B) l ys :
  mapM f l = Ok ys -> Forall2 (fun x y => f x = Ok y) l ys.
Proof.
  revert ys. induction l as [|x l IH]; simpl; intros ys H; [by injection H as <-|].
  destruct (f x) eqn:Hx; [|discriminate]. simpl in H.
  destruct (mapM f l) eqn:Hl; [|discriminate]. simpl in H. injection H as <-.
  constructor; auto.
Qed.

Lemma mapM_ext_Ok {A B} (f : A -> result B) (g : A -> B) l :
  (forall x, In x l -> f x = Ok (g x)) -> mapM f l = Ok (map g l).
Proof.
  induction l as [|x l IH]; intros H; simpl; [done|].
  rewrite (H x (or_introl eq_refl)), IH; [done|]. intros; apply H; by right.
Qed.

Lemma mapM_map_Ok {A B C} (f : B -> result C) (h : A -> B) (g : A -> C) l :
  (forall x, In x l -> f (h x) = Ok (g x)) -> mapM f (map h l) = Ok (map g l).
Proof.
  induction l as [|x l IH]; intros H; simpl; [done|].
  rewrite (H x (or_introl eq_refl)), IH; [done|]. intros; apply H; by right.
Qed.

Lemma mapM_Raise {A B} (f : A -> result B) l e :
  mapM f l = Raise e -> exists x, In x l /\ f x = Raise e.
Proof.
  induction l as [|x l IH]; simpl; [discriminate|].
  destruct (f x) eqn:Hx; simpl; [|intros [= ->]; exists x; auto].
  destruct (mapM f l); simpl; [discriminate|]. intros [= ->].
  destruct IH as (y & Hy & Hfy); [done|]. exists y; auto.
Qed.

Lemma mapM_total {A B} (f : A -> result B) l :
  (forall x, In x l -> exists y, f x = Ok y) ->
  exists ys, mapM f l = Ok ys /\ length ys = length l.
Proof.
  induction l as [|x l IH]; intros H; simpl; [by exists []|].
  destruct (H x (or_introl eq_refl)) as [y ->].
  destruct IH as (ys & -> & Hlen); [intros; apply H; by right|].
  exists (y :: ys). simpl. auto.
Qed.

(** Sortedness through a map that preserves the relation. *)
Lemma Sorted_map {A B} (R : B -> B -> Prop) (f : A -> B) l :
  Sorted (fun x y => R (f x) (f y)) l -> Sorted R (map f l).
Proof. induction 1 as [|x l Hs IH Hd]; constructor; [done|]. destruct Hd; by constructor. Qed.

(** The loop raises the exception of the first element that raises. *)
Lemma mapM_app_Raise {A B} (f : A -> result B) l1 x l2 e :
  (forall y, In y l1 -> exists z, f y = Ok z) -> f x = Raise e -> mapM f (l1 ++ x :: l2) = Raise e.
Proof.
  induction l1 as [|y l1 IH]; intros H Hx; simpl; [by rewrite Hx|].
  destruct (H y (or_introl eq_refl)) as [z ->]. simpl. rewrite IH; [done| |done].
  intros; apply H; by right.
Qed.

(** [[x for x in l if p(x)]] where [p] may raise. *)
Fixpoint filterM {A} (p : A -> result bool) (l : list A) : result (list A) :=
  match l with
  | [] => Ok []
  | x :: l' => let* b := p x in let* r := filterM p l' in Ok (if b then x :: r else r)
  end.

(** [for x in l: acc = f(acc, x)] where [f] may raise. *)
Fixpoint foldM {A B} (f : B -> A -> result B) (l : list A) (acc : B) : result B :=
  match l with
  | [] => Ok acc
  | x :: l' => let* acc' := f acc x in foldM f l' acc'
  end.

(** [enumerate(l, start)] *)
Fixpoint enumerate {A} (start : nat) (l : list A) : list (nat * A) :=
  match l with
  | [] => []
  | x :: l' => (start, x) :: enumerate (S start) l'
  end.

Lemma enumerate_fst {A} start (l : list A) : map fst (enumerate start l) = seq start (length l).
Proof. revert start. induction l as [|x l IH]; intros start; simpl; [done|]. by rewrite IH. Qed.

Lemma enumerate_snd {A} start (l : list A) : map snd (enumerate start l) = l.
Proof. revert start. induction l as [|x l IH]; intros start; simpl; [done|]. by rewrite IH. Qed.

(** When every element maps to [Ok (g x)], [mapM f] is [map g]. *)
Lemma mapM_Ok_map_in {A B} (f : A -> result B) (g : A -> B) l ys :
  mapM f l = Ok ys -> (forall x y, In x l -> f x = Ok y -> y = g x) -> ys = map g l.
Proof.
  intros Hm%mapM_Ok. revert Hm. generalize ys. clear ys.
  induction l as [|x l IH]; intros ys Hm Hg; inversion Hm; subst; simpl; [done|].
  f_equal; [by apply Hg; [left|] | apply IH; [done|]]. intros; apply Hg; [right|]; done.
Qed.

Lemma Sorted_map_impl {A B} (R : A -> A -> Prop) (S : B -> B -> Prop) (f : A -> B) l :
  (forall x y, R x y -> S (f x) (f y)) -> Sorted R l -> Sorted S (map f l).
Proof.
  intros HRS. induction 1 as [|x l Hs IH Hd]; simpl; constructor; [done|].
  destruct Hd; constructor. by apply HRS.
Qed.

Lemma Sorted_enumerate {A} (R : A -> A -> Prop) start l :
  Sorted R l -> Sorted (fun a b => R a.2 b.2) (enumerate start l).
Proof.
  intros Hs. revert start. induction Hs as [|x l Hs IH Hd]; intros n; simpl; constructor; [done|].
  destruct Hd; constructor. done.
Qed.

Lemma filterM_Ok_map {A} (p : A -> result bool) (q : A -> bool) l :
  (forall x, In x l -> p x = Ok (q x)) -> filterM p l = Ok (List.filter q l).
Proof.
  induction l as [|x l IH]; intros H; simpl; [done|].
  rewrite (H x (or_introl eq_refl)), IH; [done|]. intros; apply H; by right.
Qed.

(** ** Automation *)

Create HintDb f1 discriminated.
Create Rewrite HintDb f1.
#[export] Hint Rewrite @bind_Ok @bind_Raise : f1.

(** Case split on every [if] / [match] of the goal, keeping the equations. *)
Ltac split_ifs :=
  repeat match goal with
  | |- context [if ?b then _ else _] =>
      let E := fresh "E" in destruct b eqn:E
  end.

(** ** Counting with a boolean predicate *)

Definition countb {A} (p : A -> bool) (l : list A) : nat :=
  List.length (List.filter p l).

Lemma countb_app {A} (p : A -> bool) l1 l2 :
  countb p (l1 ++ l2) = countb p l1 + countb p l2.
Proof. unfold countb. by rewrite List.filter_app, length_app. Qed.

Lemma countb_cons {A} (p : A -> bool) x l :
  countb p (x :: l) = (if p x then 1 else 0) + countb p l.
Proof. unfold countb. simpl. by destruct (p x). Qed.

Lemma countb_single {A} (p : A -> bool) x : countb p [x] = if p x then 1 else 0.
Proof. unfold countb. simpl. by destruct (p x). Qed.

Lemma countb_perm {A} (p : A -> bool) l1 l2 :
  Permutation l1 l2 -> countb p l1 = countb p l2.
Proof.
  induction 1; rewrite ?countb_cons; try lia.
  all: destruct (p x); try destruct (p y); lia.
Qed.

Lemma countb_le {A} (p : A -> bool) l : countb p l <= List.length l.
Proof.
  induction l as [|x l IH]; [done|]. rewrite countb_cons. simpl.
  destruct (p x); lia.
Qed.

Lemma filter_ext_in {A} (p q : A -> bool) l :
  (forall x, In x l -> p x = q x) -> List.filter p l = List.filter q l.
Proof.
  induction l as [|x l IH]; intros H; [done|]. simpl.
  rewrite (H x (or_introl eq_refl)), IH by (intros; apply H; by right). done.
Qed.

Lemma filter_none {A} (p : A -> bool) l :
  (forall x, In x l -> p x = false) -> List.filter p l = [].
Proof.
  induction l as [|x l IH]; intros H; [done|]. simpl.
  rewrite (H x (or_introl eq_refl)). apply IH. intros; apply H; by right.
Qed.

Lemma filter_map_comm {A B} (p : B -> bool) (f : A -> B) l :
  List.filter p (map f l) = map f (List.filter (fun x => p (f x)) l).
Proof. induction l as [|x l IH]; simpl; [done|]. destruct (p (f x)); simpl; by rewrite IH. Qed.

Lemma perm_filter {A} (p : A -> bool) l1 l2 :
  Permutation l1 l2 -> Permutation (List.filter p l1) (List.filter p l2).
Proof.
  induction 1; simpl; try done.
  - destruct (p x); [by constructor|done].
  - destruct (p x), (p y); try done. apply perm_swap.
  - by etransitivity.
Qed.

Lemma NoDup_map_inj_in {A B} (f : A -> B) l :
  (forall x y, In x l -> In y l -> f x = f y -> x = y) -> NoDup l -> NoDup (map f l).
Proof.
  intros Hinj Hnd. induction Hnd as [|x l Hx _ IH]; simpl; constructor.
  - rewrite list_elem_of_In, in_map_iff. intros (y & Hy & Hin).
    apply Hinj in Hy as ->; [|by right|by left]. apply Hx. by apply list_elem_of_In.
  - apply IH. intros; apply Hinj; auto; by right.
Qed.

Lemma NoDup_map_inj {A B} (f : A -> B) l :
  (forall x y, f x = f y -> x = y) -> NoDup l -> NoDup (map f l).
Proof. intros Hinj. apply NoDup_map_inj_in. auto. Qed.

Lemma last_map {A B} (f : A -> B) l : last (map f l) = option_map f (last l).
Proof. induction l as [|x [|y l] IH]; simpl in *; done. Qed.

Lemma last_In {A} (l : list A) x : last l = Some x -> In x l.
Proof.
  induction l as [|y [|z l] IH]; simpl; intros H; try discriminate.
  - injection H as ->. by left.
  - right. by apply IH.
Qed.

Lemma last_None {A} (l : list A) : last l = None -> l = [].
Proof.
  induction l as [|x [|y l] IH]; simpl; intros H; [done|discriminate|].
  by specialize (IH H).
Qed.

Lemma last_filter_Some {A} (p : A -> bool) l :
  (exists x, In x l /\ p x = true) -> exists y, last (List.filter p l) = Some y /\ In y l /\ p y = true.
Proof.
  intros (x & Hx & Hp).
  destruct (last (List.filter p l)) as [y|] eqn:Hl.
  - exists y. split; [done|]. by apply filter_In, last_In.
  - apply last_None in Hl. exfalso.
    assert (Hin : In x (List.filter p l)) by (by apply filter_In).
    by rewrite Hl in Hin.
Qed.

Lemma NoDup_perm {A} (l1 l2 : list A) : Permutation l1 l2 -> NoDup l1 -> NoDup l2.
Proof. intros Hp. by rewrite Hp. Qed.

Lemma NoDup_map_filter {A B} (f : A -> B) (p : A -> bool) l :
  NoDup (map f l) -> NoDup (map f (List.filter p l)).
Proof.
  induction l as [|x l IH]; simpl; [done|]. intros Hnd. apply NoDup_cons in Hnd as [Hx Hnd].
  destruct (p x); simpl; [|by apply IH]. constructor; [|by apply IH].
  rewrite list_elem_of_In, in_map_iff. intros (y & Hy & Hin%filter_In).
  apply Hx. rewrite list_elem_of_In, in_map_iff. exists y. tauto.
Qed.

Lemma fold_left_map_comm {A B C} (f : C -> B -> C) (g : A -> B) l a :
  fold_left f (map g l) a = fold_left (fun acc x => f acc (g x)) l a.
Proof. revert a. induction l as [|x l IH]; simpl; [done|]. intros a. apply IH. Qed.

Lemma last_map_const {A B} (c : B) (l : list A) :
  last (map (fun _ => c) l) = match l with [] => None | _ => Some c end.
Proof. induction l as [|x [|y l] IH]; simpl in *; try done. Qed.

(** With distinct keys, selecting one key leaves one element. *)
Lemma filter_unique_key {A} (key : A -> Z) l d i :
  NoDup (map key l) -> In d l -> key d = i -> List.filter (fun x => Z.eqb (key x) i) l = [d].
Proof.
  intros Hnd Hd <-. induction l as [|x l IH]; [done|]. simpl in *.
  apply NoDup_cons in Hnd as [Hx Hnd]. destruct Hd as [->|Hd].
  - rewrite Z.eqb_refl. f_equal. apply filter_none. intros y Hy.
    apply Z.eqb_neq. intros E. apply Hx. rewrite <- E.
    apply list_elem_of_In, in_map, Hy.
  - destruct (Z.eqb_spec (key x) (key d)) as [E|E]; [|by apply IH].
    exfalso. apply Hx. rewrite E. apply list_elem_of_In, in_map, Hd.
Qed.

#[export] Hint Rewrite @countb_app @countb_cons : f1.

Lemma countb_In {A} (p : A -> bool) l : countb p l <> 0 -> exists x, In x l /\ p x = true.
Proof.
  induction l as [|x l IH]; [done|]. rewrite countb_cons.
  destruct (p x) eqn:Hx; [eauto with datatypes|]. intros H. destruct IH as (y & ? & ?); [lia|eauto with datatypes].
Qed.

Lemma Forall2_compose {A B C} (P : A -> B -> Prop) (Q : B -> C -> Prop) l1 l2 l3 :
  Forall2 P l1 l2 -> Forall2 Q l2 l3 -> Forall2 (fun a c => exists b, P a b /\ Q b c) l1 l3.
Proof. intros H1. revert l3. induction H1; intros l3 H2; inversion H2; subst; constructor; eauto. Qed.

(** ** [max] and [min] of a non-empty column *)

Lemma fold_Z_max_bounds l x :
  (x <= fold_left Z.max l x)%Z /\ (forall y, In y l -> y <= fold_left Z.max l x)%Z
  /\ (fold_left Z.max l x = x \/ In (fold_left Z.max l x) l).
Proof.
  revert x. induction l as [|y l IH]; intros x; simpl; [split; [lia|split; [done|by left]]|].
  destruct (IH (Z.max x y)) as (H1 & H2 & H3). split; [lia|]. split.
  - intros z [<-|Hz]; [lia|auto].
  - destruct H3 as [->|]; [|auto]. destruct (Z.max_spec x y) as [[_ ->]|[_ ->]]; auto.
Qed.

Lemma fold_Z_min_bounds l x :
  (fold_left Z.min l x <= x)%Z /\ (forall y, In y l -> fold_left Z.min l x <= y)%Z
  /\ (fold_left Z.min l x = x \/ In (fold_left Z.min l x) l).
Proof.
  revert x. induction l as [|y l IH]; intros x; simpl; [split; [lia|split; [done|by left]]|].
  destruct (IH (Z.min x y)) as (H1 & H2 & H3). split; [lia|]. split.
  - intros z [<-|Hz]; [lia|auto].
  - destruct H3 as [->|]; [|auto]. destruct (Z.min_spec x y) as [[_ ->]|[_ ->]]; auto.
Qed.
