(* ===== verification/PySort.v ===== *)
(** * Python's ordering protocol and [sorted(..., reverse=True)]

    The queries rank their rows with [sorted(items, key=f, reverse=True)]
    (and [max]), which only call [<] on the keys.  [PyOrd K] is the contract
    such a key type fulfils: [<] is a strict weak order.  [sorted_desc] is
    an insertion sort; the theorems show that it returns a permutation, in
    non-increasing key order, keeping the input order of equivalent keys,
    and that these three properties determine the result, so the model
    agrees with CPython's Timsort on every input. *)

From S2P Require Import Prelude.

Class PyOrd (K : Type) := {
  py_lt : K -> K -> bool;
  py_lt_irrefl : forall a, py_lt a a = false;
  py_lt_trans : forall a b c, py_lt a b = true -> py_lt b c = true -> py_lt a c = true;
  py_nlt_trans : forall a b c, py_lt a b = false -> py_lt b c = false -> py_lt a c = false
}.

(** Two keys are equivalent when neither is [<] the other. *)
Definition py_equiv {K} `{PyOrd K} (a b : K) : bool :=
  negb (py_lt a b) && negb (py_lt b a).

(** ** Orders built from a three-way comparison *)

Section OfCompare.
Context {K : Type} (cmp : K -> K -> comparison).
Hypothesis cmp_eq : forall a b, cmp a b = Eq -> a = b.
Hypothesis cmp_refl : forall a, cmp a a = Eq.
Hypothesis cmp_antisym : forall a b, cmp a b = CompOpp (cmp b a).
Hypothesis cmp_trans : forall a b c, cmp a b = Lt -> cmp b c = Lt -> cmp a c = Lt.

Definition lt_of_cmp (a b : K) : bool :=
match cmp a b with Lt => true | _ => false end.

Lemma lt_of_cmp_irrefl a : lt_of_cmp a a = false.
Proof. unfold lt_of_cmp. by rewrite cmp_refl. Qed.

Lemma lt_of_cmp_trans a b c :
lt_of_cmp a b = true -> lt_of_cmp b c = true -> lt_of_cmp a c = true.
Proof.
unfold lt_of_cmp.
destruct (cmp a b) eqn:E1, (cmp b c) eqn:E2; try discriminate.
by rewrite (cmp_trans a b c).
Qed.

Lemma lt_of_cmp_nlt_trans a b c :
lt_of_cmp a b = false -> lt_of_cmp b c = false -> lt_of_cmp a c = false.
Proof.
unfold lt_of_cmp. intros Hab Hbc.
destruct (cmp a c) eqn:Eac; try done.
destruct (cmp a b) eqn:Eab; try discriminate.
- apply cmp_eq in Eab. subst. by rewrite Eac in Hbc.
- rewrite cmp_antisym in Eab.
  destruct (cmp b a) eqn:Eba; try discriminate.
  rewrite (cmp_trans b a c Eba Eac) in Hbc. discriminate.
Qed.
End OfCompare.

#[export] Instance nat_PyOrd : PyOrd nat.
Proof.
  refine {| py_lt := Nat.ltb |}.
  - intros a. apply Nat.ltb_irrefl.
  - intros a b c. rewrite !Nat.ltb_lt. lia.
  - intros a b c. rewrite !Nat.ltb_ge. lia.
Defined.

#[export] Instance Z_PyOrd : PyOrd Z.
Proof.
  refine {| py_lt := Z.ltb |}.
  - intros a. apply Z.ltb_irrefl.
  - intros a b c. rewrite !Z.ltb_lt. lia.
  - intros a b c. rewrite !Z.ltb_ge. lia.
Defined.

(** ** Python [str] comparison: lexicographic on code points *)

Lemma ascii_compare_trans (a b c : ascii) :
  Ascii.compare a b = Lt -> Ascii.compare b c = Lt -> Ascii.compare a c = Lt.
Proof. unfold Ascii.compare. rewrite !N.compare_lt_iff. lia. Qed.

Lemma ascii_compare_refl (a : ascii) : Ascii.compare a a = Eq.
Proof. unfold Ascii.compare. apply N.compare_refl. Qed.

Lemma string_compare_refl s : String.compare s s = Eq.
Proof.
  induction s as [|c s IH]; [done|]. simpl.
  by rewrite ascii_compare_refl, IH.
Qed.

Lemma string_compare_eq s1 s2 : String.compare s1 s2 = Eq -> s1 = s2.
Proof. apply String.compare_eq_iff. Qed.

Lemma string_compare_trans s1 s2 s3 :
  String.compare s1 s2 = Lt -> String.compare s2 s3 = Lt -> String.compare s1 s3 = Lt.
Proof.
  revert s2 s3.
  induction s1 as [|c1 s1 IH]; intros [|c2 s2] [|c3 s3]; simpl; try done.
  destruct (Ascii.compare c1 c2) eqn:E12; try discriminate;
  destruct (Ascii.compare c2 c3) eqn:E23; try discriminate; intros H1 H2.
  - apply Ascii.compare_eq_iff in E12, E23. subst.
    rewrite ascii_compare_refl. eauto.
  - apply Ascii.compare_eq_iff in E12. subst. by rewrite E23.
  - apply Ascii.compare_eq_iff in E23. subst. by rewrite E12.
  - by rewrite (ascii_compare_trans c1 c2 c3).
Qed.

#[export] Instance string_PyOrd : PyOrd string.
Proof.
  refine {| py_lt := lt_of_cmp String.compare |}.
  - intros a. apply lt_of_cmp_irrefl, string_compare_refl.
  - intros a b c. apply lt_of_cmp_trans, string_compare_trans.
  - intros a b c. apply lt_of_cmp_nlt_trans.
    + apply string_compare_eq.
    + apply String.compare_antisym.
    + apply string_compare_trans.
Defined.

(** ** Consequences of the strict weak order laws *)

Section OrdFacts.
Context {K : Type} `{PyOrd K}.

Lemma py_lt_asym a b : py_lt a b = true -> py_lt b a = false.
Proof.
intros Hab. destruct (py_lt b a) eqn:Hba; [|done].
rewrite <- (py_lt_irrefl a). symmetry. by apply (py_lt_trans a b a).
Qed.

Lemma py_lt_nlt a b c : py_lt a b = true -> py_lt c b = false -> py_lt a c = true.
Proof.
intros Hab Hcb. destruct (py_lt a c) eqn:Hac; [done|].
by rewrite (py_nlt_trans a c b Hac Hcb) in Hab.
Qed.

Lemma py_nlt_lt a b c : py_lt a b = false -> py_lt a c = true -> py_lt b c = true.
Proof.
intros Hab Hac. destruct (py_lt b c) eqn:Hbc; [done|].
by rewrite (py_nlt_trans a b c Hab Hbc) in Hac.
Qed.

Lemma py_equiv_spec a b :
py_equiv a b = true <-> py_lt a b = false /\ py_lt b a = false.
Proof.
unfold py_equiv. destruct (py_lt a b), (py_lt b a); simpl; intuition congruence.
Qed.

Lemma py_equiv_refl a : py_equiv a a = true.
Proof. apply py_equiv_spec. by rewrite py_lt_irrefl. Qed.

Lemma py_equiv_sym a b : py_equiv a b = py_equiv b a.
Proof. unfold py_equiv. apply andb_comm. Qed.

Lemma py_equiv_trans a b c :
py_equiv a b = true -> py_equiv b c = true -> py_equiv a c = true.
Proof.
rewrite !py_equiv_spec. intros [H1 H2] [H3 H4].
split; eapply py_nlt_trans; eauto.
Qed.

(** A key strictly below [b] is not equivalent to it. *)
Lemma py_lt_not_equiv a b : py_lt a b = true -> py_equiv a b = false.
Proof. intros Hab. unfold py_equiv. by rewrite Hab. Qed.
End OrdFacts.

#[export] Hint Resolve py_equiv_refl py_lt_irrefl : f1.

(** ** [sorted(l, key=key, reverse=True)] *)

Section SortedDesc.
Context {A K : Type} `{PyOrd K} (key : A -> K).

(** [y] may precede [x] in a list in non-increasing key order. *)
Definition desc_rel (y x : A) : Prop := py_lt (key y) (key x) = false.

(** Insert [x] before the first element whose key is [<] its key, that
  is after every element whose key is equivalent: this keeps the
  sort stable. *)
Fixpoint insert_desc (x : A) (l : list A) : list A :=
match l with
| [] => [x]
| y :: l' => if py_lt (key y) (key x) then x :: y :: l' else y :: insert_desc x l'
end.

Definition sorted_desc (l : list A) : list A :=
fold_left (fun acc x => insert_desc x acc) l [].

(** The elements whose key is equivalent to [k]. *)
Definition same_key (k : K) (x : A) : bool := py_equiv k (key x).

Lemma sorted_desc_snoc l x : sorted_desc (l ++ [x]) = insert_desc x (sorted_desc l).
Proof. unfold sorted_desc. by rewrite fold_left_app. Qed.

Lemma insert_desc_perm x l : Permutation (insert_desc x l) (x :: l).
Proof.
induction l as [|y l IH]; simpl; [done|].
destruct (py_lt (key y) (key x)); [done|].
rewrite IH. apply perm_swap.
Qed.

Lemma desc_rel_trans : Relations_1.Transitive desc_rel.
Proof. intros x y z. unfold desc_rel. apply py_nlt_trans. Qed.

Lemma insert_desc_hd y x l :
HdRel desc_rel y l -> desc_rel y x -> HdRel desc_rel y (insert_desc x l).
Proof.
destruct l as [|z l]; simpl; intros Hhd Hyx; [by constructor|].
destruct (py_lt (key z) (key x)); constructor; [done|]. by inversion Hhd.
Qed.

Lemma insert_desc_sorted x l : Sorted desc_rel l -> Sorted desc_rel (insert_desc x l).
Proof.
induction 1 as [|y l Hl IH Hhd]; simpl; [by repeat constructor|].
destruct (py_lt (key y) (key x)) eqn:Hyx.
- constructor; [by constructor|]. constructor. unfold desc_rel.
  by apply py_lt_asym.
- constructor; [done|]. by apply insert_desc_hd.
Qed.

Lemma insert_desc_filter k x l :
Sorted desc_rel l ->
List.filter (same_key k) (insert_desc x l)
= List.filter (same_key k) l ++ List.filter (same_key k) [x].
Proof.
intros Hs. apply Sorted_StronglySorted in Hs; [|apply desc_rel_trans].
induction Hs as [|y l Hl IH Hall]; simpl; [done|].
destruct (py_lt (key y) (key x)) eqn:Hyx.
- (* every element of [y :: l] has a key [<] key x *)
  assert (Hlt : Forall (fun z => py_lt (key z) (key x) = true) (y :: l)).
  { constructor; [done|]. eapply Forall_impl; [exact Hall|].
    intros z Hyz. by apply (py_nlt_lt (key y)). }
  simpl. destruct (same_key k x) eqn:Hkx.
  + assert (Hnone : List.filter (same_key k) (y :: l) = []).
    { apply filter_none. intros z Hz. rewrite List.Forall_forall in Hlt.
      apply Hlt in Hz. destruct (same_key k z) eqn:Hkz; [|done]. exfalso. unfold same_key in *.
      rewrite py_equiv_sym in Hkz.
      pose proof (py_equiv_trans _ _ _ Hkz Hkx) as Hzx.
      by rewrite (py_lt_not_equiv _ _ Hz) in Hzx. }
    simpl in Hnone. rewrite Hnone. done.
  + by rewrite app_nil_r.
- simpl. rewrite IH. by destruct (same_key k y).
Qed.

Theorem sorted_desc_perm l : Permutation (sorted_desc l) l.
Proof.
induction l as [|x l IH] using rev_ind; [done|].
rewrite sorted_desc_snoc, insert_desc_perm, IH.
apply Permutation_cons_append.
Qed.

Theorem sorted_desc_sorted l : Sorted desc_rel (sorted_desc l).
Proof.
induction l as [|x l IH] using rev_ind; [constructor|].
rewrite sorted_desc_snoc. by apply insert_desc_sorted.
Qed.

Theorem sorted_desc_stable k l :
List.filter (same_key k) (sorted_desc l) = List.filter (same_key k) l.
Proof.
induction l as [|x l IH] using rev_ind; [done|].
rewrite sorted_desc_snoc, insert_desc_filter by apply sorted_desc_sorted.
by rewrite IH, List.filter_app.
Qed.
End SortedDesc.

(** ** The three properties determine the result *)

Section SortedUnique.
Context {A K : Type} `{PyOrd K} (key : A -> K).

Lemma same_key_self x : same_key key (key x) x = true.
Proof. apply py_equiv_refl. Qed.

Lemma in_same_filters s1 s2 x :
(forall k, List.filter (same_key key k) s1 = List.filter (same_key key k) s2) ->
In x s1 -> In x s2.
Proof.
intros Hf Hx.
assert (Hin : In x (List.filter (same_key key (key x)) s1))
  by (apply filter_In; split; [done | apply same_key_self]).
rewrite Hf in Hin. by apply filter_In in Hin as [? _].
Qed.

(** The head of a sorted list is not below any element of a list with the
  same key classes. *)
Lemma sorted_head_max h t s x :
StronglySorted (desc_rel key) (h :: t) ->
(forall k, List.filter (same_key key k) s = List.filter (same_key key k) (h :: t)) ->
In x s -> py_lt (key h) (key x) = false.
Proof.
intros Hs Hf Hx. apply (in_same_filters _ _ x Hf) in Hx.
destruct Hx as [<-|Hx]; [apply py_lt_irrefl|].
inversion Hs as [|? ? _ Hall]; subst.
by apply (proj1 (List.Forall_forall _ _) Hall).
Qed.

Lemma sorted_same_filters_eq s1 s2 :
StronglySorted (desc_rel key) s1 -> StronglySorted (desc_rel key) s2 ->
(forall k, List.filter (same_key key k) s1 = List.filter (same_key key k) s2) ->
s1 = s2.
Proof.
intros Hs1. revert s2.
induction Hs1 as [|h1 t1 Ht1 IH Hall1]; intros s2 Hs2 Hf.
- destruct s2 as [|h2 t2]; [done|].
  exfalso. apply (in_same_filters _ [] h2 (fun k => eq_sym (Hf k))). by left.
- destruct s2 as [|h2 t2].
  { exfalso. apply (in_same_filters _ [] h1 Hf). by left. }
  assert (Heqv : py_equiv (key h1) (key h2) = true).
  { apply py_equiv_spec. split.
    - apply (sorted_head_max h1 t1 (h2 :: t2)); [by constructor| |by left].
      intros k. by rewrite Hf.
    - apply (sorted_head_max h2 t2 (h1 :: t1)); [done|done|by left]. }
  pose proof (Hf (key h1)) as Hk. simpl in Hk.
  rewrite same_key_self in Hk. unfold same_key at 2 in Hk. rewrite Heqv in Hk.
  injection Hk as <- _.
  inversion Hs2 as [|? ? Ht2 _]; subst.
  f_equal. apply IH; [done|]. intros k.
  pose proof (Hf k) as Hk. simpl in Hk.
  destruct (same_key key k h1); [by injection Hk|done].
Qed.

(** Python's [sorted(l, key=key, reverse=True)] is specified by three
  properties: the result is a permutation of [l] (implied by the
  equality of the key classes), it is in non-increasing key order, and
  elements with equivalent keys keep their input order.  Any list with
  these properties is [sorted_desc key l]. *)
Theorem sorted_desc_unique l s :
Sorted (desc_rel key) s ->
(forall k, List.filter (same_key key k) s = List.filter (same_key key k) l) ->
s = sorted_desc key l.
Proof.
intros Hs Hf. apply sorted_same_filters_eq.
- by apply Sorted_StronglySorted; [apply desc_rel_trans|].
- apply Sorted_StronglySorted; [apply desc_rel_trans|apply sorted_desc_sorted].
- intros k. by rewrite Hf, sorted_desc_stable.
Qed.
End SortedUnique.

(** ** Ascending order: [sorted(l, key=key)] *)

Record Down (K : Type) := down { undown : K }.
Arguments down {K} _.
Arguments undown {K} _.

#[export] Instance Down_PyOrd {K} `{PyOrd K} : PyOrd (Down K).
Proof.
  refine {| py_lt a b := py_lt (undown b) (undown a) |}.
  - intros a. apply py_lt_irrefl.
  - intros a b c Hab Hbc. exact (py_lt_trans _ _ _ Hbc Hab).
  - intros a b c Hab Hbc. exact (py_nlt_trans _ _ _ Hbc Hab).
Defined.

Definition sorted_asc {A K} `{PyOrd K} (key : A -> K) (l : list A) : list A :=
  sorted_desc (fun x => down (key x)) l.

(** ** Sorting commutes with key-preserving maps; sorting is idempotent *)

Section SortedMap.
Context {A B K : Type} `{PyOrd K} (ka : A -> K) (kb : B -> K) (g : A -> B).
Hypothesis g_key : forall x, kb (g x) = ka x.

Lemma insert_desc_map x l : insert_desc kb (g x) (map g l) = map g (insert_desc ka x l).
Proof.
induction l as [|y l IH]; simpl; [done|]. rewrite !g_key.
destruct (py_lt (ka y) (ka x)); simpl; [done|]. by rewrite IH.
Qed.

Theorem sorted_desc_map l : sorted_desc kb (map g l) = map g (sorted_desc ka l).
Proof.
induction l as [|x l IH] using rev_ind; [done|].
rewrite map_app. cbn [map]. by rewrite !sorted_desc_snoc, IH, insert_desc_map.
Qed.
End SortedMap.

Lemma sorted_desc_idem {A K} `{PyOrd K} (key : A -> K) l :
  Sorted (desc_rel key) l -> sorted_desc key l = l.
Proof. intros Hs. symmetry. by apply sorted_desc_unique. Qed.

(** ** Floats, tuples, lists and missing values *)

(** A float of the data is a decimal; its order is the order of [Q]. *)
Definition Qltb (a b : Q) : bool := negb (Qle_bool b a).

Lemma Qltb_lt a b : Qltb a b = true <-> (a < b)%Q.
Proof.
  unfold Qltb. rewrite negb_true_iff. split.
  - intros H. apply Qnot_le_lt. intros Hle. apply Qle_bool_iff in Hle. congruence.
  - intros H. destruct (Qle_bool b a) eqn:E; [|done].
    apply Qle_bool_iff in E. exfalso. by apply (Qlt_not_le a b).
Qed.

Lemma Qltb_ge a b : Qltb a b = false <-> (b <= a)%Q.
Proof. unfold Qltb. rewrite negb_false_iff. apply Qle_bool_iff. Qed.

#[export] Instance Q_PyOrd : PyOrd Q.
Proof.
  refine {| py_lt := Qltb |}.
  - intros a. apply Qltb_ge, Qle_refl.
  - intros a b c. rewrite !Qltb_lt. apply Qlt_trans.
  - intros a b c. rewrite !Qltb_ge. intros H1 H2. by apply (Qle_trans _ b).
Defined.

(** Lexicographic order: Python compares tuples and lists element by
    element with [==], then decides on the first difference with [<]. *)
Section Lex.
Context {A : Type} `{PyOrd A}.

Definition lex_lt {B} (ltb : B -> B -> bool) (a1 : A) (b1 : B) (a2 : A) (b2 : B) : bool :=
  py_lt a1 a2 || (py_equiv a1 a2 && ltb b1 b2).

Lemma lex_irrefl {B} (ltb : B -> B -> bool) a b : ltb b b = false -> lex_lt ltb a b a b = false.
Proof. intros Hb. unfold lex_lt. by rewrite py_lt_irrefl, Hb, andb_false_r. Qed.

Lemma lex_trans {B} (ltb : B -> B -> bool) a1 a2 a3 b1 b2 b3 :
  (ltb b1 b2 = true -> ltb b2 b3 = true -> ltb b1 b3 = true) ->
  lex_lt ltb a1 b1 a2 b2 = true -> lex_lt ltb a2 b2 a3 b3 = true -> lex_lt ltb a1 b1 a3 b3 = true.
Proof.
  unfold lex_lt. intros Hb H12 H23.
  apply orb_true_iff in H12 as [H12|[E12 B12]%andb_true_iff];
  apply orb_true_iff in H23 as [H23|[E23 B23]%andb_true_iff]; apply orb_true_iff.
  - left. by apply (py_lt_trans _ a2).
  - left. apply py_equiv_spec in E23 as [_ E]. by apply (py_lt_nlt _ a2).
  - left. apply py_equiv_spec in E12 as [_ E]. by apply (py_nlt_lt a2).
  - right. apply andb_true_iff. split; [by apply (py_equiv_trans _ a2)|auto].
Qed.

Lemma lex_nlt_trans {B} (ltb : B -> B -> bool) a1 a2 a3 b1 b2 b3 :
  (ltb b1 b2 = false -> ltb b2 b3 = false -> ltb b1 b3 = false) ->
  lex_lt ltb a1 b1 a2 b2 = false -> lex_lt ltb a2 b2 a3 b3 = false -> lex_lt ltb a1 b1 a3 b3 = false.
Proof.
  unfold lex_lt. intros Hb H12 H23.
  apply orb_false_iff in H12 as [L12 R12], H23 as [L23 R23].
  apply orb_false_iff. split; [by apply (py_nlt_trans _ a2)|].
  destruct (py_equiv a1 a3) eqn:E13; [|done]. simpl.
  apply py_equiv_spec in E13 as [N13 N31].
  assert (N21 : py_lt a2 a1 = false) by (by apply (py_nlt_trans _ a3)).
  assert (E12 : py_equiv a1 a2 = true) by (by apply py_equiv_spec).
  assert (E23 : py_equiv a2 a3 = true).
  { apply py_equiv_spec. split; [done|]. by apply (py_nlt_trans _ a1). }
  rewrite E12 in R12. rewrite E23 in R23. simpl in *. auto.
Qed.
End Lex.

#[export] Instance prod_PyOrd {A B} `{PyOrd A} `{PyOrd B} : PyOrd (A * B).
Proof.
  refine {| py_lt p q := lex_lt py_lt p.1 p.2 q.1 q.2 |}.
  - intros [a b]. apply lex_irrefl, py_lt_irrefl.
  - intros [a1 b1] [a2 b2] [a3 b3]. apply lex_trans, py_lt_trans.
  - intros [a1 b1] [a2 b2] [a3 b3]. apply lex_nlt_trans, py_nlt_trans.
Defined.

Lemma prod_lt_false_fst {A B} `{PyOrd A} `{PyOrd B} (p q : A * B) :
  py_lt p q = false -> py_lt p.1 q.1 = false.
Proof. cbn. unfold lex_lt. by intros [-> _]%orb_false_iff. Qed.

Fixpoint list_lt {A} `{PyOrd A} (l1 l2 : list A) : bool :=
  match l1, l2 with
  | [], [] => false
  | [], _ :: _ => true
  | _ :: _, [] => false
  | x :: xs, y :: ys => lex_lt list_lt x xs y ys
  end.

#[export] Instance list_PyOrd {A} `{PyOrd A} : PyOrd (list A).
Proof.
  refine {| py_lt := list_lt |}.
  - induction a as [|x xs IH]; [done|]. simpl. by apply lex_irrefl.
  - induction a as [|x xs IH]; intros [|y ys] [|z zs]; simpl; try done.
    apply lex_trans, IH.
  - induction a as [|x xs IH]; intros [|y ys] [|z zs]; simpl; try done.
    apply lex_nlt_trans, IH.
Defined.

(** pandas' [na_position="last"] in a descending sort: a missing value
    ([NaN], here [None]) is below every value. *)
#[export] Instance option_PyOrd {A} `{PyOrd A} : PyOrd (option A).
Proof.
  refine {| py_lt o1 o2 := match o1, o2 with
                           | None, Some _ => true
                           | Some a, Some b => py_lt a b
                           | _, _ => false end |}.
  - intros [a|]; [apply py_lt_irrefl|done].
  - intros [a|] [b|] [c|]; try done. apply py_lt_trans.
  - intros [a|] [b|] [c|]; try done. apply py_nlt_trans.
Defined.

(** ** [max(iterable)]: the first maximal element; [ValueError] when empty *)

Definition py_max {K} `{PyOrd K} (l : list K) : result K :=
  match l with
  | [] => Raise ValueError
  | x :: r => Ok (fold_left (fun m y => if py_lt m y then y else m) r x)
  end.

(** [max] returns an element of its argument that no element exceeds. *)
Lemma py_max_spec {K} `{PyOrd K} (l : list K) m :
  py_max l = Ok m -> In m l /\ Forall (fun y => py_lt m y = false) l.
Proof.
  destruct l as [|x r]; [discriminate|]. cbn [py_max]. intros [= <-].
  enough (Hg : forall acc, (fold_left (fun m y => if py_lt m y then y else m) r acc = acc
                            \/ In (fold_left (fun m y => if py_lt m y then y else m) r acc) r)
                           /\ py_lt (fold_left (fun m y => if py_lt m y then y else m) r acc) acc = false
                           /\ Forall (fun y => py_lt (fold_left (fun m y => if py_lt m y then y else m) r acc) y = false) r).
  { destruct (Hg x) as ([E|Hin] & Hx & Hr); split; [rewrite E; by left|by constructor|by right|by constructor]. }
  induction r as [|y r IH]; intros acc; cbn [fold_left]; [split; [by left|split; [apply py_lt_irrefl|done]]|].
  destruct (py_lt acc y) eqn:Hay.
  - destruct (IH y) as (Hin & Hy & Hr). split; [|split; [|by constructor]].
    + right. destruct Hin as [->|Hin]; [by left|by right].
    + destruct (py_lt _ acc) eqn:Hra; [|done]. by rewrite (py_lt_trans _ _ _ Hra Hay) in Hy.
  - destruct (IH acc) as (Hin & Hy & Hr). split; [|split; [done|]].
    + destruct Hin as [->|Hin]; [by left|right; by right].
    + constructor; [exact (py_nlt_trans _ _ _ Hy Hay)|done].
Qed.

(** A map that preserves [<] on the elements commutes with [max]. *)
Lemma py_max_map {A K} `{PyOrd A} `{PyOrd K} (f : A -> K) (l : list A) :
  (forall x y, In x l -> In y l -> py_lt (f x) (f y) = py_lt x y) ->
  py_max (map f l) = fmap_result f (py_max l).
Proof.
  destruct l as [|x r]; intros Hf; [done|]. simpl. f_equal.
  assert (Hgen : forall m, In m (x :: r) -> forall r', incl r' (x :: r) ->
    fold_left (fun m y => if py_lt m y then y else m) (map f r') (f m)
    = f (fold_left (fun m y => if py_lt m y then y else m) r' m)).
  { intros m Hm r'. revert m Hm. induction r' as [|y r' IH]; intros m Hm Hincl; [done|].
    simpl. rewrite Hf by (done || apply Hincl; by left).
    destruct (py_lt m y); apply IH; try done; try (apply Hincl; by left);
      intros z Hz; apply Hincl; by right. }
  apply Hgen; [by left|]. intros z Hz; by right.
Qed.

(** A descending sort on [(points, tie-break)] lists the points in
    non-increasing order. *)
Lemma sorted_desc_points {A C} `{PyOrd C} (q : A -> Q) (c : A -> C) l :
  Sorted (fun a b => (q b <= q a)%Q) (sorted_desc (fun x => (q x, c x)) l).
Proof.
  rewrite <- (map_id (sorted_desc _ l)). apply (Sorted_map_impl (desc_rel (fun x => (q x, c x)))).
  - intros x y Hxy%(prod_lt_false_fst (q x, c x) (q y, c y)). by apply Qltb_ge.
  - apply sorted_desc_sorted.
Qed.

Lemma StronglySorted_app_rel {A} (R : A -> A -> Prop) l1 l2 x y :
  StronglySorted R (l1 ++ l2) -> In x l1 -> In y l2 -> R x y.
Proof.
  induction l1 as [|a l1 IH]; simpl; [done|]. intros [Hs Hf]%StronglySorted_inv [->|Hx] Hy.
  - apply (proj1 (List.Forall_forall _ _) Hf). apply in_or_app. by right.
  - by apply IH.
Qed.

(** In a descending list, no element of the first [n] is below an element
    of the rest: [sorted(...)[:n]] and [.head(n)] keep a top [n]. *)
Lemma sorted_desc_top {A K} `{PyOrd K} (key : A -> K) l n x y :
  Sorted (desc_rel key) l -> In x (firstn n l) -> In y (skipn n l) -> py_lt (key x) (key y) = false.
Proof.
  intros Hs. apply (StronglySorted_app_rel (desc_rel key)). rewrite firstn_skipn.
  apply Sorted_StronglySorted; [apply desc_rel_trans|done].
Qed.

(** [max] of a list of ints is one of them and bounds all of them. *)
Lemma py_max_nat_spec (l : list nat) m :
  py_max l = Ok m -> In m l /\ Forall (fun x => (x <= m)%nat) l.
Proof.
  destruct l as [|x r]; [discriminate|]. cbn [py_max]. intros [= <-].
  enough (H : forall x, (fold_left (fun m y => if Nat.ltb m y then y else m) r x = x
                         \/ In (fold_left (fun m y => if Nat.ltb m y then y else m) r x) r)
                        /\ (x <= fold_left (fun m y => if Nat.ltb m y then y else m) r x)%nat
                        /\ Forall (fun y => (y <= fold_left (fun m y => if Nat.ltb m y then y else m) r x)%nat) r).
  { destruct (H x) as ([E|Hin] & Hle & Hall); split; [rewrite E; by left|by constructor|by right|by constructor]. }
  induction r as [|y r IH]; intros m; simpl; [split; [by left|done]|].
  destruct (Nat.ltb_spec m y) as [Hlt|Hge].
  - destruct (IH y) as (Hin & Hle & Hall). split; [right; destruct Hin as [->|]; auto|].
    split; [lia|]. constructor; [lia|done].
  - destruct (IH m) as (Hin & Hle & Hall). split; [destruct Hin as [->|]; auto|].
    split; [lia|]. constructor; [lia|done].
Qed.
