(* ===== verification/PyStr.v ===== *)
(** * Python strings and integer conversion

    [str(n)] for integers, [int(s)] (with its stripping of whitespace, its
    optional sign and its underscores between digits), [str.isdigit], and the
    padding methods [ljust], [rjust], [center], [*] and [join] that the
    homemade queries use to lay out their tables.  A Python [str] is
    modelled as a [string] whose characters are the code points (the data's
    names are read as one [ascii] per character). *)

From S2P Require Import Prelude.

(** ** [str(n)] *)

Definition str_of_N (n : N) : string := NilEmpty.string_of_uint (N.to_uint n).

Definition str_of_Z (z : Z) : string :=
  match z with
  | Zneg p => String "-" (str_of_N (Npos p))
  | _ => str_of_N (Z.to_N z)
  end.

Definition str_of_nat (n : nat) : string := str_of_N (N.of_nat n).

(** ** [int(s)] *)

Definition is_digit (c : ascii) : bool :=
  let n := N_of_ascii c in (48 <=? n)%N && (n <=? 57)%N.

(** [str.isspace] on the ASCII range: [" \t\n\v\f\r"] and [\x1c-\x1f]. *)
Definition is_space (c : ascii) : bool :=
  let n := N_of_ascii c in
  (n =? 32)%N || ((9 <=? n)%N && (n <=? 13)%N) || ((28 <=? n)%N && (n <=? 31)%N).

Fixpoint lstrip (l : list ascii) : list ascii :=
  match l with
  | c :: r => if is_space c then lstrip r else l
  | [] => []
  end.

Definition strip (l : list ascii) : list ascii := rev (lstrip (rev (lstrip l))).

(** The digits after the first one: each [_] must sit between two digits. *)
Fixpoint digits_tail (l : list ascii) : option (list ascii) :=
  match l with
  | [] => Some []
  | c :: r =>
      if is_digit c then option_map (cons c) (digits_tail r)
      else if Ascii.eqb c "_" then
        match r with
        | c' :: r' => if is_digit c' then option_map (cons c') (digits_tail r') else None
        | [] => None
        end
      else None
  end.

Definition digits_value (l : list ascii) : option N :=
  match l with
  | c :: r =>
      if is_digit c then
        match digits_tail r with
        | Some ds => option_map N.of_uint (NilEmpty.uint_of_string (string_of_list_ascii (c :: ds)))
        | None => None
        end
      else None
  | [] => None
  end.

(** [int(s)]: [ValueError] unless [s] is, after stripping, an optional sign
    and a non-empty run of digits. *)
Definition py_int (s : string) : result Z :=
  let l := strip (list_ascii_of_string s) in
  let r := match l with
           | "-"%char :: t => option_map (fun n => Z.opp (Z.of_N n)) (digits_value t)
           | "+"%char :: t => option_map Z.of_N (digits_value t)
           | _ => option_map Z.of_N (digits_value l)
           end in
  match r with Some z => Ok z | None => Raise ValueError end.

(** [str.isdigit()]: non-empty and only digits. *)
Definition isdigit (s : string) : bool :=
  match s with
  | EmptyString => false
  | _ => forallb is_digit (list_ascii_of_string s)
  end.

(** ** Layout *)

Fixpoint str_repeat (s : string) (n : nat) : string :=
  match n with O => "" | S k => s +:+ str_repeat s k end.

Definition spaces (n : nat) : string := str_repeat " " n.

Definition ljust (s : string) (w : nat) : string := s +:+ spaces (w - String.length s).
Definition rjust (s : string) (w : nat) : string := spaces (w - String.length s) +:+ s.

(** CPython's [str.center]: the extra space goes left when the margin and
    the width are both odd. *)
Definition center (s : string) (w : nat) : string :=
  let marg := w - String.length s in
  let left := Nat.div2 marg + (if Nat.odd marg && Nat.odd w then 1 else 0) in
  spaces left +:+ s +:+ spaces (marg - left).

Definition newline : string := String "010"%char EmptyString.

Fixpoint join (sep : string) (l : list string) : string :=
  match l with
  | [] => ""
  | [s] => s
  | s :: r => s +:+ sep +:+ join sep r
  end.

(** ** [int(str(z)) == z] *)

Lemma string_of_uint_digits d :
  Forall (fun c => is_digit c = true) (list_ascii_of_string (NilEmpty.string_of_uint d)).
Proof. induction d; simpl; by constructor. Qed.

Lemma str_of_N_digits n :
  Forall (fun c => is_digit c = true) (list_ascii_of_string (str_of_N n)).
Proof. apply string_of_uint_digits. Qed.

Lemma str_of_N_nonempty n : list_ascii_of_string (str_of_N n) <> [].
Proof.
  unfold str_of_N. intros Hnil.
  pose proof (DecimalN.Unsigned.of_to n) as Hn.
  destruct (N.to_uint n) eqn:Hu; try discriminate.
  simpl in Hn. subst n. discriminate.
Qed.

Lemma digit_not_space c : is_digit c = true -> is_space c = false.
Proof.
  unfold is_digit, is_space. intros Hd.
  apply andb_prop in Hd as [H1 H2]. apply N.leb_le in H1, H2.
  destruct (N.eqb_spec (N_of_ascii c) 32); [lia|].
  destruct (N.leb_spec 9 (N_of_ascii c)), (N.leb_spec (N_of_ascii c) 13),
    (N.leb_spec 28 (N_of_ascii c)), (N.leb_spec (N_of_ascii c) 31); simpl; lia.
Qed.

Lemma lstrip_id l : Forall (fun c => is_space c = false) l -> lstrip l = l.
Proof. intros Hl. destruct Hl as [|c l Hc _]; simpl; [done|]. by rewrite Hc. Qed.

Lemma strip_id l : Forall (fun c => is_space c = false) l -> strip l = l.
Proof.
  intros Hs. unfold strip. rewrite (lstrip_id l) by done.
  rewrite lstrip_id; [apply rev_involutive|]. by apply Forall_rev.
Qed.

Lemma strip_digits l : Forall (fun c => is_digit c = true) l -> strip l = l.
Proof.
  intros Hd. apply strip_id.
  eapply Forall_impl; [exact Hd|]. intros; by apply digit_not_space.
Qed.

Lemma digits_tail_digits l : Forall (fun c => is_digit c = true) l -> digits_tail l = Some l.
Proof. induction 1 as [|c l Hc _ IH]; simpl; [done|]. by rewrite Hc, IH. Qed.

Lemma digits_value_str_of_N n : digits_value (list_ascii_of_string (str_of_N n)) = Some n.
Proof.
  pose proof (str_of_N_digits n) as Hd. pose proof (str_of_N_nonempty n) as Hne.
  pose proof (string_of_list_ascii_of_string (str_of_N n)) as Hs.
  destruct (list_ascii_of_string (str_of_N n)) as [|c r]; [done|].
  inversion Hd as [|? ? Hc Hr]; subst.
  unfold digits_value. rewrite Hc, digits_tail_digits, Hs by done.
  unfold str_of_N. rewrite NilEmpty.usu. simpl. by rewrite DecimalN.Unsigned.of_to.
Qed.

(** Python: [int(str(z)) == z] for every integer. *)
Theorem py_int_str_of_Z z : py_int (str_of_Z z) = Ok z.
Proof.
  unfold py_int, str_of_Z. destruct z as [|p|p].
  - rewrite strip_digits by apply str_of_N_digits. by rewrite digits_value_str_of_N.
  - rewrite strip_digits by apply str_of_N_digits.
    pose proof (digits_value_str_of_N (Npos p)) as Hv.
    destruct (list_ascii_of_string (str_of_N (Z.to_N (Zpos p)))) as [|c r] eqn:Hl.
    { by destruct (str_of_N_nonempty (Npos p)). }
    pose proof (str_of_N_digits (Npos p)) as Hd. simpl in Hl. rewrite Hl in Hd, Hv.
    inversion Hd as [|? ? Hc _]; subst.
    assert (Hm : c <> "-"%char /\ c <> "+"%char)
      by (split; intros ->; discriminate Hc).
    destruct Hm as [Hm Hp].
    destruct c as [[] [] [] [] [] [] [] []]; try (by rewrite Hv); done.
  - simpl. rewrite strip_id.
    + simpl. by rewrite digits_value_str_of_N.
    + constructor; [done|]. eapply Forall_impl; [apply str_of_N_digits|].
      intros; by apply digit_not_space.
Qed.

Corollary str_of_Z_inj z1 z2 : str_of_Z z1 = str_of_Z z2 -> z1 = z2.
Proof.
  intros H. apply (f_equal py_int) in H. rewrite !py_int_str_of_Z in H. by injection H.
Qed.

Lemma isdigit_str_of_N n : isdigit (str_of_N n) = true.
Proof.
  pose proof (str_of_N_digits n) as Hd. pose proof (str_of_N_nonempty n) as Hne.
  unfold isdigit. destruct (str_of_N n); [by destruct Hne|].
  apply forallb_forall. intros c Hc. by apply (proj1 (List.Forall_forall _ _) Hd).
Qed.

(** ** The value of a digit string, and the order of decimal strings *)

Definition digit_value (c : ascii) : N := (N_of_ascii c - 48)%N.

Definition digit_step (acc : N) (c : ascii) : N := (acc * 10 + digit_value c)%N.

Definition digits_N (ds : list ascii) : N := fold_left digit_step ds 0%N.

Lemma of_uint_acc_fold d acc :
  Npos (Pos.of_uint_acc d acc)
  = fold_left digit_step (list_ascii_of_string (NilEmpty.string_of_uint d)) (Npos acc).
Proof.
  revert acc. induction d; intros acc; simpl; try done;
    rewrite IHd; f_equal; unfold digit_step, digit_value; simpl; lia.
Qed.

Lemma of_uint_digits d : N.of_uint d = digits_N (list_ascii_of_string (NilEmpty.string_of_uint d)).
Proof.
  unfold digits_N. induction d; simpl; try done;
    rewrite of_uint_acc_fold; f_equal; unfold digit_step, digit_value; simpl; lia.
Qed.

Lemma digits_N_str_of_N n : digits_N (list_ascii_of_string (str_of_N n)) = n.
Proof. unfold str_of_N. by rewrite <- of_uint_digits, DecimalN.Unsigned.of_to. Qed.

Lemma fold_digit_step l acc :
  fold_left digit_step l acc = (acc * 10 ^ N.of_nat (length l) + digits_N l)%N.
Proof.
  unfold digits_N. revert acc. induction l as [|c l IH]; intros acc; simpl; [lia|].
  rewrite IH, (IH (digit_step 0 c)). unfold digit_step.
  rewrite Nat2N.inj_succ, N.pow_succ_r'. lia.
Qed.

Lemma digit_value_lt c : is_digit c = true -> (digit_value c < 10)%N.
Proof. unfold is_digit, digit_value. intros [H1 H2]%andb_prop. apply N.leb_le in H1, H2. lia. Qed.

Lemma digits_N_bound l :
  Forall (fun c => is_digit c = true) l -> (digits_N l < 10 ^ N.of_nat (length l))%N.
Proof.
  induction 1 as [|c l Hc _ IH]; [by compute|].
  unfold digits_N. simpl. rewrite fold_digit_step. unfold digit_step.
  pose proof (digit_value_lt c Hc). rewrite Nat2N.inj_succ, N.pow_succ_r'. nia.
Qed.

(** Digit strings of equal length compare (lexicographically, as Python
    compares [str]) like the numbers they denote. *)
Lemma compare_digit_strings l1 l2 :
  length l1 = length l2 ->
  Forall (fun c => is_digit c = true) l1 -> Forall (fun c => is_digit c = true) l2 ->
  String.compare (string_of_list_ascii l1) (string_of_list_ascii l2)
  = N.compare (digits_N l1) (digits_N l2).
Proof.
  revert l2. induction l1 as [|c1 l1 IH]; intros [|c2 l2] Hlen D1 D2; try discriminate; [done|].
  simpl in Hlen. injection Hlen as Hlen.
  inversion D1 as [|? ? Hc1 Hl1]; inversion D2 as [|? ? Hc2 Hl2]; subst.
  unfold digits_N. simpl. rewrite !fold_digit_step. fold (digits_N l1) (digits_N l2).
  rewrite <- Hlen. pose proof (digits_N_bound l1 Hl1). pose proof (digits_N_bound l2 Hl2).
  rewrite <- Hlen in *. set (P := (10 ^ N.of_nat (length l1))%N) in *.
  pose proof (digit_value_lt c1 Hc1). pose proof (digit_value_lt c2 Hc2).
  unfold digit_step, digit_value in *. simpl.
  unfold is_digit in Hc1, Hc2. apply andb_prop in Hc1 as [A1 B1], Hc2 as [A2 B2].
  apply N.leb_le in A1, B1, A2, B2. unfold Ascii.compare.
  destruct (N.compare_spec (N_of_ascii c1) (N_of_ascii c2)) as [E|L|G].
  - assert (c1 = c2) as <- by (rewrite <- (ascii_N_embedding c1), <- (ascii_N_embedding c2); congruence).
    rewrite IH by done. symmetry. destruct (N.compare_spec (digits_N l1) (digits_N l2));
      [apply N.compare_eq_iff | apply N.compare_lt_iff | apply N.compare_gt_iff]; nia.
  - symmetry. apply N.compare_lt_iff. nia.
  - symmetry. apply N.compare_gt_iff. nia.
Qed.

Lemma length_list_ascii s : length (list_ascii_of_string s) = String.length s.
Proof. induction s as [|c s IH]; simpl; [done|]. by rewrite IH. Qed.

Corollary compare_str_of_N a b :
  String.length (str_of_N a) = String.length (str_of_N b) ->
  String.compare (str_of_N a) (str_of_N b) = N.compare a b.
Proof.
  intros Hlen.
  rewrite <- (string_of_list_ascii_of_string (str_of_N a)), <- (string_of_list_ascii_of_string (str_of_N b)).
  rewrite compare_digit_strings, !digits_N_str_of_N; try apply str_of_N_digits.
  - done.
  - by rewrite !length_list_ascii.
Qed.

Lemma list_ascii_app s1 s2 :
  list_ascii_of_string (s1 +:+ s2) = list_ascii_of_string s1 ++ list_ascii_of_string s2.
Proof. induction s1 as [|c s1 IH]; simpl; [done|]. by rewrite IH. Qed.

Lemma str_of_nat_inj a b : str_of_nat a = str_of_nat b -> a = b.
Proof.
  unfold str_of_nat. intros E. apply Nat2N.inj.
  by rewrite <- (digits_N_str_of_N (N.of_nat a)), <- (digits_N_str_of_N (N.of_nat b)), E.
Qed.

Lemma str_of_nat_digits n : Forall (fun c => is_digit c = true) (list_ascii_of_string (str_of_nat n)).
Proof. apply str_of_N_digits. Qed.

Lemma str_of_nat_nonempty n : list_ascii_of_string (str_of_nat n) <> [].
Proof. apply str_of_N_nonempty. Qed.

(** [str.lower()] on ASCII. *)
Definition ascii_lower (c : ascii) : ascii :=
  let n := nat_of_ascii c in if (65 <=? n) && (n <=? 90) then ascii_of_nat (n + 32) else c.

Definition lower (s : string) : string := string_of_list_ascii (map ascii_lower (list_ascii_of_string s)).

(** [str.strip()] *)
Definition str_strip (s : string) : string := string_of_list_ascii (strip (list_ascii_of_string s)).

Lemma str_strip_id s : Forall (fun c => is_space c = false) (list_ascii_of_string s) -> str_strip s = s.
Proof. intros Hs. unfold str_strip. rewrite strip_id by done. apply string_of_list_ascii_of_string. Qed.

Lemma str_of_Z_no_space z : Forall (fun c => is_space c = false) (list_ascii_of_string (str_of_Z z)).
Proof.
  assert (HN : forall n, Forall (fun c => is_space c = false) (list_ascii_of_string (str_of_N n))).
  { intros n. eapply Forall_impl; [apply str_of_N_digits|]. intros; by apply digit_not_space. }
  destruct z; [apply HN|apply HN|]. simpl. constructor; [done|apply HN].
Qed.

Lemma str_of_Z_nonempty z : str_of_Z z <> "".
Proof.
  destruct z as [|p|p]; simpl; try discriminate; intros E;
    apply (str_of_N_nonempty (N.pos p)); by rewrite E.
Qed.
