(* ===== verification/PyDict.v ===== *)
(** * Python dictionaries (insertion ordered)

    The homemade queries build [dict]s and iterate over them; since Python
    3.7 iteration follows insertion order and the queries' tie-breaks depend
    on it.  A [dict] is an association list in insertion order with distinct
    keys: [d[k] = v] updates in place or appends, and the counting idiom
    [if k in d.keys(): d[k] += 1 else: d[k] = 1] is [dict_incr]. *)

From S2P Require Import Prelude.

Section Dict.
Context {K V : Type} `{EqDecision K}.

Definition dict := list (K * V).

Definition dict_keys (d : dict) : list K := map fst d.

(** [d.get(k)] *)
Fixpoint dict_get (k : K) (d : dict) : option V :=
  match d with
  | [] => None
  | (k', v) :: d' => if decide (k = k') then Some v else dict_get k d'
  end.

(** [d[k]]: [KeyError] when [k] is absent. *)
Definition dict_index (k : K) (d : dict) : result V :=
  match dict_get k d with Some v => Ok v | None => Raise KeyError end.

(** [d[k] = v] *)
Fixpoint dict_set (k : K) (v : V) (d : dict) : dict :=
  match d with
  | [] => [(k, v)]
  | (k', v') :: d' => if decide (k = k') then (k, v) :: d' else (k', v') :: dict_set k v d'
  end.

(** [dict(pairs)] and [{k: v for k, v in pairs}]: later pairs overwrite
    the value of an earlier equal key but keep its position. *)
Definition dict_of_list (l : list (K * V)) : dict :=
  fold_left (fun d kv => dict_set (fst kv) (snd kv) d) l [].

Lemma dict_get_set_eq k v d : dict_get k (dict_set k v d) = Some v.
Proof.
  induction d as [|[k' v'] d IH]; simpl; [by rewrite decide_True|].
  case_decide; simpl; [by rewrite decide_True|]. by rewrite decide_False.
Qed.

Lemma dict_get_set_ne k k' v d : k <> k' -> dict_get k' (dict_set k v d) = dict_get k' d.
Proof.
  intros Hne. induction d as [|[k'' v'] d IH]; simpl.
  - by rewrite decide_False.
  - case_decide as Hk; simpl.
    + do 2 (rewrite decide_False by congruence). done.
    + case_decide; [done|]. apply IH.
Qed.

Lemma dict_keys_set k v d :
  dict_keys (dict_set k v d) =
  if decide (k ∈ dict_keys d) then dict_keys d else dict_keys d ++ [k].
Proof.
  induction d as [|[k' v'] d IH]; cbn [dict_set]; [done|].
  destruct (decide (k = k')) as [->|Hk]; cbn [dict_keys map fst].
  - rewrite decide_True by set_solver. done.
  - fold (dict_keys d). fold (dict_keys (dict_set k v d)). rewrite IH.
    destruct (decide (k ∈ dict_keys d)).
    + rewrite decide_True by set_solver. done.
    + rewrite decide_False by set_solver. done.
Qed.

Lemma dict_get_in k d : is_Some (dict_get k d) <-> k ∈ dict_keys d.
Proof.
  induction d as [|[k' v'] d IH]; simpl; [split; [by intros []|set_solver]|].
  case_decide; subst; [split; [set_solver|eauto]|].
  rewrite IH. set_solver.
Qed.

Lemma dict_set_nodup k v d : NoDup (dict_keys d) -> NoDup (dict_keys (dict_set k v d)).
Proof.
  intros Hd. rewrite dict_keys_set. case_decide as Hin; [done|].
  apply NoDup_app. repeat split; [done | set_solver | apply NoDup_singleton].
Qed.
End Dict.

(** ** Counting: [if k in d.keys(): d[k] += 1 else: d[k] = 1] *)

Section Count.
Context {A K : Type} `{EqDecision K} (f : A -> K).

Definition dict_incr (k : K) (d : @dict K nat) : @dict K nat :=
  match dict_get k d with
  | Some c => dict_set k (S c) d
  | None => dict_set k 1 d
  end.

(** [for x in l: count(f(x))] starting from the empty dict. *)
Definition count_by (l : list A) : @dict K nat :=
  fold_left (fun d x => dict_incr (f x) d) l [].

(** The number of elements of [l] with key [k]. *)
Definition key_count (k : K) (l : list A) : nat :=
  countb (fun x => bool_decide (f x = k)) l.

Lemma count_by_snoc l x : count_by (l ++ [x]) = dict_incr (f x) (count_by l).
Proof. unfold count_by. by rewrite fold_left_app. Qed.

(** The counter of [k] is the number of elements with key [k] (absent
    when there is none). *)
Theorem count_by_get k l :
  dict_get k (count_by l) = if decide (key_count k l = 0) then None else Some (key_count k l).
Proof.
  induction l as [|x l IH] using rev_ind; [done|].
  rewrite count_by_snoc. unfold key_count in *. rewrite countb_app, countb_single.
  unfold dict_incr.
  case_bool_decide as Hfx.
  - subst k. rewrite decide_False by lia.
    destruct (dict_get (f x) (count_by l)); rewrite dict_get_set_eq; f_equal;
      revert IH; case_decide; intros IH; inversion IH; lia.
  - rewrite Nat.add_0_r.
    destruct (dict_get (f x) (count_by l)); by rewrite dict_get_set_ne.
Qed.

Lemma count_by_nodup l : NoDup (dict_keys (count_by l)).
Proof.
  induction l as [|x l IH] using rev_ind; [constructor|].
  rewrite count_by_snoc. unfold dict_incr.
  destruct (dict_get (f x) (count_by l)); by apply dict_set_nodup.
Qed.
End Count.

(** ** Key order: the order of first occurrence *)

Definition first_occ {K} `{EqDecision K} (l : list K) : list K :=
  fold_left (fun acc x => if decide (x ∈ acc) then acc else acc ++ [x]) l [].

Lemma first_occ_snoc {K} `{EqDecision K} (l : list K) x :
  first_occ (l ++ [x]) = if decide (x ∈ first_occ l) then first_occ l else first_occ l ++ [x].
Proof. unfold first_occ. by rewrite fold_left_app. Qed.

Section CountKeys.
Context {A K : Type} `{EqDecision K} (f : A -> K).

Lemma dict_keys_incr k (d : @dict K nat) :
  dict_keys (dict_incr k d) = if decide (k ∈ dict_keys d) then dict_keys d else dict_keys d ++ [k].
Proof. unfold dict_incr. destruct (dict_get k d); apply dict_keys_set. Qed.

(** The counters appear in the order in which their key first occurs. *)
Theorem count_by_keys l : dict_keys (count_by f l) = first_occ (map f l).
Proof.
  induction l as [|x l IH] using rev_ind; [done|].
  rewrite count_by_snoc, dict_keys_incr, map_app. cbn [map]. by rewrite first_occ_snoc, IH.
Qed.
End CountKeys.

(** ** Dicts built from lists with distinct keys *)

Section OfList.
Context {K V : Type} `{EqDecision K}.

Lemma dict_set_absent (k : K) (v : V) d : k ∉ dict_keys d -> dict_set k v d = d ++ [(k, v)].
Proof.
  induction d as [|[k' v'] d IH]; simpl; intros Hk; [done|].
  rewrite decide_False by set_solver. f_equal. apply IH. set_solver.
Qed.

(** A comprehension over pairs with distinct keys rebuilds the list. *)
Lemma dict_of_list_nodup (l : list (K * V)) : NoDup (map fst l) -> dict_of_list l = l.
Proof.
  intros Hnd. unfold dict_of_list.
  assert (Hgen : forall acc, NoDup (map fst (acc ++ l)) ->
            fold_left (fun d kv => dict_set kv.1 kv.2 d) l acc = acc ++ l).
  { clear Hnd. induction l as [|[k v] l IH]; intros acc Hacc; simpl; [by rewrite app_nil_r|].
    rewrite dict_set_absent.
    - rewrite IH; [by rewrite <- app_assoc|]. by rewrite <- app_assoc.
    - rewrite map_app in Hacc. simpl in Hacc. apply NoDup_app in Hacc as (_ & Hd & _).
      unfold dict_keys. intros Hin. by apply (Hd k Hin); left. }
  by apply (Hgen []).
Qed.
End OfList.

(** ** Relabelling the keys of a dict with an injective function *)

Section Relabel.
Context {K1 K2 : Type} `{EqDecision K1} `{EqDecision K2} (h : K1 -> K2).
Hypothesis h_inj : forall a b, h a = h b -> a = b.

Definition relabel {V} (d : list (K1 * V)) : list (K2 * V) := map (fun kv => (h kv.1, kv.2)) d.

Lemma dict_get_relabel {V} k (d : list (K1 * V)) : dict_get (h k) (relabel d) = dict_get k d.
Proof.
  induction d as [|[k' v] d IH]; simpl; [done|].
  destruct (decide (k = k')) as [->|Hne].
  - by rewrite !decide_True.
  - rewrite !decide_False by (intros E; apply Hne; first [exact E | apply h_inj, E]).
    exact IH.
Qed.

Lemma dict_set_relabel {V} k (v : V) d : dict_set (h k) v (relabel d) = relabel (dict_set k v d).
Proof.
  induction d as [|[k' v'] d IH]; simpl; [done|].
  destruct (decide (k = k')) as [->|Hne].
  - by rewrite !decide_True.
  - rewrite !decide_False by (intros E; apply Hne; first [exact E | apply h_inj, E]).
    simpl. by rewrite IH.
Qed.

Lemma dict_incr_relabel k (d : list (K1 * nat)) : dict_incr (h k) (relabel d) = relabel (dict_incr k d).
Proof.
  unfold dict_incr. rewrite dict_get_relabel.
  destruct (dict_get k d); apply dict_set_relabel.
Qed.

(** Counting by [h (f x)] is counting by [f x] and relabelling. *)
Lemma count_by_relabel {A} (f : A -> K1) l :
  count_by (fun x => h (f x)) l = relabel (count_by f l).
Proof.
  induction l as [|x l IH] using rev_ind; [done|].
  by rewrite !count_by_snoc, IH, dict_incr_relabel.
Qed.
End Relabel.

Lemma count_by_map {A B K} `{EqDecision K} (f : B -> K) (g : A -> B) l :
  count_by f (map g l) = count_by (fun x => f (g x)) l.
Proof. unfold count_by. by rewrite fold_left_map_comm. Qed.

Section OfListGet.
Context {K V : Type} `{EqDecision K}.

Lemma dict_of_list_snoc (l : list (K * V)) kv :
  dict_of_list (l ++ [kv]) = dict_set kv.1 kv.2 (dict_of_list l).
Proof. unfold dict_of_list. by rewrite fold_left_app. Qed.

(** In a comprehension the last pair of a key wins. *)
Lemma dict_get_of_list k (l : list (K * V)) :
  dict_get k (dict_of_list l) = last (map snd (List.filter (fun kv => bool_decide (kv.1 = k)) l)).
Proof.
  induction l as [|[k' v] l IH] using rev_ind; [done|].
  rewrite dict_of_list_snoc, List.filter_app. simpl.
  case_bool_decide as Hk.
  - subst. rewrite dict_get_set_eq, map_app. simpl. by rewrite last_snoc.
  - rewrite dict_get_set_ne by congruence. by rewrite app_nil_r.
Qed.

Lemma dict_set_nonempty (k : K) (v : V) d : dict_set k v d <> [].
Proof. destruct d as [|[k' v'] d]; simpl; [done|]. by case_decide. Qed.

Lemma dict_of_list_nil (l : list (K * V)) : dict_of_list l = [] <-> l = [].
Proof.
  split; [|by intros ->]. destruct l as [|kv l] using rev_ind; [done|].
  rewrite dict_of_list_snoc. intros H. by apply dict_set_nonempty in H.
Qed.
End OfListGet.

Lemma first_occ_elem {K} `{EqDecision K} (l : list K) x : x ∈ first_occ l <-> x ∈ l.
Proof.
  induction l as [|y l IH] using rev_ind; [done|].
  rewrite first_occ_snoc. case_decide; set_solver.
Qed.

(** A key of the counting dict is the key of some element. *)
Lemma count_by_keys_elem {A K} `{EqDecision K} (f : A -> K) l k :
  k ∈ dict_keys (count_by f l) <-> k ∈ map f l.
Proof. by rewrite count_by_keys, first_occ_elem. Qed.

Lemma dict_get_In_nodup {K V} `{EqDecision K} (d : list (K * V)) k v :
  NoDup (dict_keys d) -> In (k, v) d -> dict_get k d = Some v.
Proof.
  induction d as [|[k' v'] d IH]; simpl; [done|]. intros Hnd [[= <- <-]|Hin].
  - by rewrite decide_True.
  - apply NoDup_cons in Hnd as [Hk' Hnd]. rewrite decide_False; [by apply IH|].
    intros E. apply Hk'. rewrite <- E. apply list_elem_of_In, in_map_iff. by exists (k, v).
Qed.

(** A pair of the counting dict holds the count of its key. *)
Lemma count_by_In {A K} `{EqDecision K} (f : A -> K) l k c :
  In (k, c) (count_by f l) -> c = key_count f k l /\ c <> 0.
Proof.
  intros Hin. apply dict_get_In_nodup in Hin; [|apply count_by_nodup].
  rewrite count_by_get in Hin. case_decide; [done|]. by injection Hin as <-.
Qed.

Lemma dict_get_Some_In {K V} `{EqDecision K} (d : list (K * V)) k v :
  dict_get k d = Some v -> In (k, v) d.
Proof.
  induction d as [|[k' v'] d IH]; simpl; [done|].
  case_decide; [intros [= <-]; subst; by left|intros; right; auto].
Qed.

Lemma In_count_by {A K} `{EqDecision K} (f : A -> K) l k :
  key_count f k l <> 0 -> In (k, key_count f k l) (count_by f l).
Proof. intros Hk. apply dict_get_Some_In. rewrite count_by_get. by case_decide. Qed.

(** ** Every counted element is counted once *)

Lemma sum_dict_incr {K} `{EqDecision K} (k : K) (d : list (K * nat)) :
  list_sum (map snd (dict_incr k d)) = S (list_sum (map snd d)).
Proof.
  unfold dict_incr. induction d as [|[k' c'] d IH]; simpl; [done|].
  case_decide as E; simpl; [lia|]. revert IH. destruct (dict_get k d); simpl; lia.
Qed.

Lemma sum_count_by {A K} `{EqDecision K} (f : A -> K) l :
  list_sum (map snd (count_by f l)) = length l.
Proof.
  induction l as [|x l IH] using rev_ind; [done|].
  rewrite count_by_snoc, sum_dict_incr, IH, length_app. simpl. lia.
Qed.
