(* ===== verification/PyNum.v ===== *)
(** * Python floats of the data: [float(s)], [int(x)], [round(x)], ['.1f']

    The float cells of the dataset (points, times) are short decimals.
    [py_float] reads the decimal notation [float()] accepts (sign, digits,
    fraction, exponent) into the exact rational it denotes; the order of
    these values is the order of the doubles CPython rounds them to, as
    long as distinct cells stay distinct doubles (15 significant digits).
    [inf], [nan] and underscores are not modelled ([ValueError] here).
    [py_trunc] is [int(x)], [py_round] is [round(x)] (half to even), and
    [fmt_fixed d] is [format(x, ".<d>f")] on the exact value: CPython
    rounds the binary double instead, which differs only when the decimal
    has a 5 exactly at position [d+1] that the double does not hold
    exactly. *)

From S2P Require Import Prelude PyStr.
From Stdlib Require Import Qround Qabs.

Fixpoint span_digits (l : list ascii) : list ascii * list ascii :=
  match l with
  | c :: r => if is_digit c then let '(ds, rest) := span_digits r in (c :: ds, rest) else ([], l)
  | [] => ([], [])
  end.

(** [m * 10^k] as a rational. *)
Definition scale10 (m : Z) (k : Z) : Q :=
  if Z.leb 0 k then inject_Z (m * 10 ^ k) else Qmake m (Z.to_pos (10 ^ (- k))).

Definition parse_exponent (l : list ascii) : option Z :=
  match l with
  | [] => Some 0%Z
  | e :: t =>
      if Ascii.eqb e "e" || Ascii.eqb e "E" then
        let '(sg, t') := match t with
                         | "-"%char :: u => (-1, u)
                         | "+"%char :: u => (1, u)
                         | _ => (1, t)
                         end%Z in
        let '(ds, rest) := span_digits t' in
        match ds, rest with
        | _ :: _, [] => Some (sg * Z.of_N (digits_N ds))%Z
        | _, _ => None
        end
      else None
  end.

(** [float(s)] *)
Definition py_float (s : string) : result Q :=
  let l := strip (list_ascii_of_string s) in
  let '(sg, l1) := match l with
                   | "-"%char :: t => (-1, t)
                   | "+"%char :: t => (1, t)
                   | _ => (1, l)
                   end%Z in
  let '(ip, l2) := span_digits l1 in
  let '(fp, l3) := match l2 with
                   | "."%char :: t => span_digits t
                   | _ => ([], l2)
                   end in
  match ip ++ fp, parse_exponent l3 with
  | _ :: _, Some e =>
      Ok (scale10 (sg * Z.of_N (digits_N (ip ++ fp))) (e - Z.of_nat (length fp)))
  | _, _ => Raise ValueError
  end.

(** [int(x)]: truncation toward zero. *)
Definition py_trunc (q : Q) : Z := Z.quot (Qnum q) (Zpos (Qden q)).

(** [round(x)]: to the nearest integer, ties to even. *)
Definition py_round (q : Q) : Z :=
  let fl := Qfloor q in
  let r := (q - inject_Z fl)%Q in
  match Qcompare r (1 # 2) with
  | Lt => fl
  | Gt => fl + 1
  | Eq => if Z.even fl then fl else fl + 1
  end.

(** ** Doubles *)

(** [2^e] as a rational. *)
Definition pow2 (e : Z) : Q :=
  if Z.leb 0 e then inject_Z (2 ^ e) else Qmake 1 (Z.to_pos (2 ^ (- e))).

(** The exponent [e] of the double nearest to [a > 0]:
    [2^52 <= a / 2^e < 2^53]. *)
Definition dbl_exp (a : Q) : Z :=
  let e0 := (Z.log2 (Qnum a) - Z.log2 (Zpos (Qden a)) - 52)%Z in
  let s := (a / pow2 e0)%Q in
  if Qle_bool (inject_Z (2 ^ 53)) s then (e0 + 1)%Z
  else if Qle_bool (inject_Z (2 ^ 52)) s then e0 else (e0 - 1)%Z.

(** The double nearest to [q], ties to even, as the rational it is: a
    53-bit significand times [2^e].  In the normal range of doubles,
    where every value of the program lies, a float [x / y] or [x * y]
    is [dbl] of the exact quotient or product. *)
Definition dbl (q : Q) : Q :=
  if Qeq_bool q 0 then 0%Q
  else let a := Qabs q in
       let e := dbl_exp a in
       let m := (inject_Z (py_round (a / pow2 e)) * pow2 e)%Q in
       if Qle_bool 0 q then m else (- m)%Q.

(** [format(x, ".<d>f")] on the exact value. *)
Definition fmt_fixed (d : nat) (q : Q) : string :=
  let p := (10 ^ Z.of_nat d)%Z in
  let n := py_round (q * inject_Z p) in
  let a := Z.abs n in
  let sign := if Z.ltb n 0 then "-" else "" in
  let frac := str_of_Z (a mod p) in
  sign +:+ str_of_Z (a / p) +:+
  (match d with
   | O => ""
   | _ => "." +:+ str_repeat "0" (d - String.length frac) +:+ frac
   end).

(** ** [round] stays between the integers around its argument *)

Lemma py_round_cases q :
  py_round q = Qfloor q \/ (py_round q = (Qfloor q + 1)%Z /\ (inject_Z (Qfloor q) < q)%Q).
Proof.
  unfold py_round. pose proof (Qfloor_le q) as Hle.
  destruct (Qcompare _ (1 # 2)) eqn:E.
  - destruct (Z.even _); [by left|right]. split; [done|].
    apply Qeq_alt in E. apply (Qplus_lt_l _ _ (- inject_Z (Qfloor q))). ring_simplify.
    rewrite Qplus_comm, E. done.
  - by left.
  - right. split; [done|]. apply Qgt_alt in E.
    apply (Qplus_lt_l _ _ (- inject_Z (Qfloor q))). ring_simplify.
    rewrite Qplus_comm. apply (Qlt_trans _ (1 # 2)); [done|exact E].
Qed.

Lemma py_round_between lo hi q :
  (inject_Z lo <= q)%Q -> (q <= inject_Z hi)%Q -> (lo <= py_round q <= hi)%Z.
Proof.
  intros Hlo Hhi.
  assert (Hfl : (lo <= Qfloor q)%Z) by (rewrite <- (Qfloor_Z lo); by apply Qfloor_resp_le).
  assert (Hfh : (Qfloor q <= hi)%Z) by (rewrite Zle_Qle; apply (Qle_trans _ q); [apply Qfloor_le|done]).
  destruct (py_round_cases q) as [->|[-> Hlt]]; [lia|].
  enough (Qfloor q < hi)%Z by lia. rewrite Zlt_Qlt. by apply (Qlt_le_trans _ q).
Qed.

(** ** The longest run of digits *)

Lemma span_digits_app ds rest :
  Forall (fun c => is_digit c = true) ds ->
  match rest with c :: _ => is_digit c = false | [] => True end ->
  span_digits (ds ++ rest) = (ds, rest).
Proof.
  intros Hds Hr. induction Hds as [|c ds Hc Hds IH]; simpl.
  - destruct rest as [|c rest]; simpl; [done|]. by rewrite Hr.
  - by rewrite Hc, IH.
Qed.

(** ** [sum(l)] and [sum(l)/len(l)] on ints, and the mean's bounds *)

(** Python's [sum] of a list of ints. *)
Definition py_sum (l : list Z) : Z := fold_left Z.add l 0%Z.

(** [sum(l) / len(l)] as the exact rational. *)
Definition mean_Q (l : list Z) : Q := (inject_Z (py_sum l) / inject_Z (Z.of_nat (length l)))%Q.

Lemma py_sum_acc l a : fold_left Z.add l a = (a + py_sum l)%Z.
Proof.
  unfold py_sum. revert a. induction l as [|x l IH]; intros a; simpl; [lia|].
  rewrite (IH (a + x)%Z), (IH (0 + x)%Z). lia.
Qed.

Lemma py_sum_bounds lo hi l :
  Forall (fun g => (lo <= g <= hi)%Z) l ->
  (lo * Z.of_nat (length l) <= py_sum l <= hi * Z.of_nat (length l))%Z.
Proof.
  induction 1 as [|x l Hx Hl IH]; [unfold py_sum; cbn [fold_left length Z.of_nat]; lia|].
  unfold py_sum. cbn [fold_left length]. rewrite py_sum_acc. fold (py_sum l). lia.
Qed.

Lemma mean_Q_bounds lo hi l :
  l <> [] -> Forall (fun g => (lo <= g <= hi)%Z) l ->
  (inject_Z lo <= mean_Q l)%Q /\ (mean_Q l <= inject_Z hi)%Q.
Proof.
  intros Hne Hb. apply py_sum_bounds in Hb as [Hlo Hhi].
  assert (Hn : (0 < inject_Z (Z.of_nat (length l)))%Q).
  { change (inject_Z 0 < inject_Z (Z.of_nat (length l)))%Q. rewrite <- Zlt_Qlt.
    destruct l; [done|]. simpl. lia. }
  unfold mean_Q. split.
  - apply Qle_shift_div_l; [done|]. rewrite <- inject_Z_mult, <- Zle_Qle. done.
  - apply Qle_shift_div_r; [done|]. rewrite <- inject_Z_mult, <- Zle_Qle. done.
Qed.

(** ** [sum] of floats *)

Definition Qsum (l : list Q) : Q := fold_left Qplus l 0%Q.

Lemma Qsum_acc l a : (fold_left Qplus l a == a + Qsum l)%Q.
Proof.
  unfold Qsum. revert a. induction l as [|x l IH]; intros a; simpl; [ring|].
  rewrite (IH (a + x)%Q), (IH (0 + x)%Q). ring.
Qed.

Lemma Qsum_cons x l : (Qsum (x :: l) == x + Qsum l)%Q.
Proof. unfold Qsum at 1. cbn [fold_left]. rewrite Qsum_acc. ring. Qed.

