(* ===== verification/PdCsv.v ===== *)
(** * What [pd.read_csv] makes of the text of a CSV file, and how a value
      it read is printed

    pandas' C parser (pandas/_libs/parsers.pyx, [_infer_types], and the
    number parsers of tokenizer.c) reads every column as text and then
    gives it the first type that fits all its cells: [int64] when every
    cell is an integer literal ([str_to_int64]: spaces, a sign, digits,
    spaces), [float64] when every cell is a missing-value token or a
    decimal literal ([xstrtod]) or an infinity, [bool] when every cell is
    [True]/[TRUE]/[true] or [False]/[FALSE]/[false] (with a missing
    value the column is [object] but keeps the booleans), and [object]
    otherwise, a missing-value token being [NaN] in every case but
    [int64], which it rules out.  [str] of a value is then its text for
    a string, the digits for an integer, [repr] for a float ([nan],
    [inf], [5.0], [1e-05], ...), [True] or [False].  [iterrows] builds
    each row as one Series of the common type of the columns, so an
    integer of a frame whose other columns are floats prints as a float.

    A float is kept as the decimal it was written as, sign, digits and
    exponent: [repr] prints the shortest decimal that reads back as the
    same double, which is that decimal without its trailing zeros when it
    has at most 15 significant digits and lies in the range of doubles;
    longer literals, whose double [repr] prints rounded, and the integers
    beyond [int64] (read as [uint64] or float) are not modelled. *)

From S2P Require Import Prelude PyStr.

(** ** Values and column types *)

Inductive dtype := Int64 | Float64 | Bool | Object.

#[export] Instance dtype_eq_dec : EqDecision dtype.
Proof. solve_decision. Defined.

(** A cell as pandas holds it: the float [(-1)^neg * m * 10^e]. *)
Inductive pdval :=
  | VStr (s : string)
  | VInt (z : Z)
  | VFloat (neg : bool) (m : N) (e : Z)
  | VInf (neg : bool)
  | VBool (b : bool)
  | VNaN.

#[export] Instance pyval_eq_dec : EqDecision pdval.
Proof. solve_decision. Defined.

(** pandas' default [na_values]: the cells [read_csv] reads as NaN. *)
Definition na_values : list string :=
  [""; "#N/A"; "#N/A N/A"; "#NA"; "-1.#IND"; "-1.#QNAN"; "-NaN"; "-nan"; "1.#IND"; "1.#QNAN";
   "<NA>"; "N/A"; "NA"; "NULL"; "NaN"; "None"; "n/a"; "nan"; "null"].

Definition is_na_token (s : string) : bool := existsb (String.eqb s) na_values.

(** ** The number parsers of tokenizer.c *)

(** [isspace_ascii]: [' '] and [\t] to [\r]. *)
Definition c_isspace (c : ascii) : bool :=
  let n := N_of_ascii c in (n =? 32)%N || ((9 <=? n)%N && (n <=? 13)%N).

Fixpoint skip_spaces (l : list ascii) : list ascii :=
  match l with c :: r => if c_isspace c then skip_spaces r else l | [] => [] end.

Fixpoint span_dec (l : list ascii) : list ascii * list ascii :=
  match l with
  | c :: r => if is_digit c then let '(ds, rest) := span_dec r in (c :: ds, rest) else ([], l)
  | [] => ([], [])
  end.

(** An optional sign: [true] for [-]. *)
Definition split_sign (l : list ascii) : bool * list ascii :=
  match l with
  | "-"%char :: r => (true, r)
  | "+"%char :: r => (false, r)
  | _ => (false, l)
  end.

Definition int64_min : Z := (- 2 ^ 63)%Z.
Definition int64_max : Z := (2 ^ 63 - 1)%Z.

(** [str_to_int64]: spaces, a sign, at least one digit, spaces, and a
    value in the range of [int64]. *)
Definition int_literal (s : string) : option Z :=
  let '(neg, l1) := split_sign (skip_spaces (list_ascii_of_string s)) in
  let '(ds, rest) := span_dec l1 in
  match ds, skip_spaces rest with
  | _ :: _, [] =>
      let z := (if neg then - Z.of_N (digits_N ds) else Z.of_N (digits_N ds))%Z in
      if (int64_min <=? z)%Z && (z <=? int64_max)%Z then Some z else None
  | _, _ => None
  end.

(** The exponent of [xstrtod]: [e] or [E], a sign and digits; without a
    digit the [e] is left unread, which makes the literal invalid. *)
Definition exponent_part (l : list ascii) : option (Z * list ascii) :=
  match l with
  | c :: r =>
      if Ascii.eqb c "e" || Ascii.eqb c "E" then
        let '(neg, r1) := split_sign r in
        let '(ds, rest) := span_dec r1 in
        match ds with
        | [] => None
        | _ => Some ((if neg then - Z.of_N (digits_N ds) else Z.of_N (digits_N ds))%Z, rest)
        end
      else Some (0%Z, l)
  | [] => Some (0%Z, [])
  end.

(** [xstrtod] with trailing spaces skipped: digits, an optional [.] and
    digits (one digit at least in all), an optional exponent. *)
Definition decimal_literal (s : string) : option (bool * N * Z) :=
  let '(neg, l1) := split_sign (skip_spaces (list_ascii_of_string s)) in
  let '(ip, l2) := span_dec l1 in
  let '(fp, l3) := match l2 with "."%char :: t => span_dec t | _ => ([], l2) end in
  match ip ++ fp, exponent_part l3 with
  | _ :: _, Some (e, rest) =>
      match skip_spaces rest with
      | [] => Some (neg, digits_N (ip ++ fp), (e - Z.of_nat (length fp))%Z)
      | _ => None
      end
  | _, _ => None
  end.

(** [_try_double]: a cell [xstrtod] rejects may still be an infinity,
    in any case. *)
Definition float_value (s : string) : option pdval :=
  match decimal_literal s with
  | Some (neg, m, e) => Some (VFloat neg m e)
  | None =>
      let t := lower s in
      if existsb (String.eqb t) ["inf"; "+inf"; "infinity"; "+infinity"] then Some (VInf false)
      else if existsb (String.eqb t) ["-inf"; "-infinity"] then Some (VInf true)
      else None
  end.

(** [_true_values] and [_false_values]. *)
Definition bool_literal (s : string) : option bool :=
  if existsb (String.eqb s) ["True"; "TRUE"; "true"] then Some true
  else if existsb (String.eqb s) ["False"; "FALSE"; "false"] then Some false
  else None.

(** ** The inference of a column *)

Fixpoint all_some {A B} (f : A -> option B) (l : list A) : option (list B) :=
  match l with
  | [] => Some []
  | x :: r => match f x, all_some f r with Some y, Some ys => Some (y :: ys) | _, _ => None end
  end.

(** [_infer_types] of one column: integers, then floats, then booleans,
    then strings; a column without cells is [object]. *)
Definition infer_column (cells : list string) : dtype * list pdval :=
  match cells with
  | [] => (Object, [])
  | _ =>
    match all_some int_literal cells with
    | Some zs => (Int64, map VInt zs)
    | None =>
      match all_some (fun s => if is_na_token s then Some VNaN else float_value s) cells with
      | Some vs => (Float64, vs)
      | None =>
        match all_some (fun s => if is_na_token s then Some VNaN else option_map VBool (bool_literal s)) cells with
        | Some vs => (if existsb is_na_token cells then Object else Bool, vs)
        | None => (Object, map (fun s => if is_na_token s then VNaN else VStr s) cells)
        end
      end
    end
  end.

(** A cell no numeric or boolean reading accepts: a column holding one
    is a column of strings. *)
Definition text_cell (s : string) : bool :=
  negb (is_na_token s) && bool_decide (int_literal s = None) && bool_decide (float_value s = None)
  && bool_decide (bool_literal s = None).

(** ** [str] and [repr] *)

Definition zeros (k : nat) : string := str_repeat "0" k.

(** [m * 10^e] without the trailing zeros of [m]. *)
Fixpoint strip_zeros (fuel : nat) (m : N) (e : Z) : N * Z :=
  match fuel with
  | O => (m, e)
  | S f => if (m =? 0)%N then (m, e)
           else if (m mod 10 =? 0)%N then strip_zeros f (m / 10)%N (e + 1)%Z else (m, e)
  end.

(** [repr] of a non-zero [m * 10^e] (no trailing zero in [m]): fixed
    notation when the decimal exponent [x] is in [-4 <= x < 16], with
    [.0] after an integer, and [d.ddde+xx] otherwise. *)
Definition repr_digits (ds : string) (e : Z) : string :=
  let n := Z.of_nat (String.length ds) in
  let p := (n + e)%Z in
  let x := (p - 1)%Z in
  if (-4 <=? x)%Z && (x <? 16)%Z then
    if (p <=? 0)%Z then "0." +:+ zeros (Z.to_nat (- p)) +:+ ds
    else if (n <=? p)%Z then ds +:+ zeros (Z.to_nat (p - n)) +:+ ".0"
    else substring 0 (Z.to_nat p) ds +:+ "." +:+ substring (Z.to_nat p) (Z.to_nat (n - p)) ds
  else
    substring 0 1 ds +:+ (if (1 <? n)%Z then "." +:+ substring 1 (Z.to_nat (n - 1)) ds else "")
    +:+ "e" +:+ (if (x <? 0)%Z then "-" else "+") +:+ (if (Z.abs x <? 10)%Z then "0" else "")
    +:+ str_of_Z (Z.abs x).

Definition float_repr (neg : bool) (m : N) (e : Z) : string :=
  (if neg then "-" else "")
  +:+ (if (m =? 0)%N then "0.0"
       else let '(m', e') := strip_zeros (String.length (str_of_N m)) m e in repr_digits (str_of_N m') e').

(** [str(v)] *)
Definition str_val (v : pdval) : string :=
  match v with
  | VStr s => s
  | VInt z => str_of_Z z
  | VFloat neg m e => float_repr neg m e
  | VInf neg => if neg then "-inf" else "inf"
  | VBool b => if b then "True" else "False"
  | VNaN => "nan"
  end.

(** [pd.isna(v)] *)
Definition isna (v : pdval) : bool := match v with VNaN => true | _ => false end.

(** ** Rows *)

(** The type of the rows of [iterrows]: [int64] when all the columns
    are, [float64] for integers and floats, [bool] for booleans only,
    [object] otherwise. *)
Definition common_dtype (ds : list dtype) : dtype :=
  if forallb (fun d => bool_decide (d = Int64)) ds then Int64
  else if forallb (fun d => bool_decide (d = Int64) || bool_decide (d = Float64)) ds then Float64
  else if forallb (fun d => bool_decide (d = Bool)) ds then Bool
  else Object.

(** A cell of a row of that type: an integer becomes a float in a
    [float64] row. *)
Definition upcast (d : dtype) (v : pdval) : pdval :=
  match d, v with
  | Float64, VInt z => VFloat (z <? 0)%Z (Z.to_N (Z.abs z)) 0
  | _, _ => v
  end.

(** [df.itertuples(index=False)]: the rows of a table of columns, as
    many as the first column has cells. *)
Definition itertuples {A} (d : A) (cols : list (string * list A)) : list (list A) :=
  let n := match cols with [] => 0%nat | c :: _ => length c.2 end in
  map (fun r => map (fun c => nth r c.2 d) cols) (seq 0 n).

(** ** Properties *)

Lemma all_some_length {A B} (f : A -> option B) l ys : all_some f l = Some ys -> length ys = length l.
Proof.
  revert ys. induction l as [|x l IH]; intros ys; cbn; [by intros [= <-]|].
  destruct (f x), (all_some f l) eqn:E; intros; simplify_eq/=. by rewrite (IH _ eq_refl).
Qed.

Lemma all_some_None {A B} (f : A -> option B) l x : In x l -> f x = None -> all_some f l = None.
Proof.
  induction l as [|y l IH]; [done|]. intros [<-|Hx] Hf; cbn; [by rewrite Hf|].
  by rewrite IH; [destruct (f y)| |].
Qed.

(** Every cell is read. *)
Lemma infer_column_length cells : length (infer_column cells).2 = length cells.
Proof.
  unfold infer_column. destruct cells as [|s r]; [done|]. set (l := s :: r).
  destruct (all_some int_literal l) as [zs|] eqn:E1;
    [cbn [snd]; rewrite length_map; exact (all_some_length _ _ _ E1)|].
  destruct (all_some (fun s => if is_na_token s then Some VNaN else float_value s) l) as [vs|] eqn:E2;
    [exact (all_some_length _ _ _ E2)|].
  destruct (all_some (fun s => if is_na_token s then Some VNaN else option_map VBool (bool_literal s)) l)
    as [vs|] eqn:E3; [exact (all_some_length _ _ _ E3)|].
  apply length_map.
Qed.

(** A column with a cell of text is a column of strings: each cell is
    its text, or [NaN] for a missing-value token. *)
Lemma infer_text_column cells :
  existsb text_cell cells = true ->
  infer_column cells = (Object, map (fun s => if is_na_token s then VNaN else VStr s) cells).
Proof.
  intros (s & Hin & Hs)%existsb_exists. unfold text_cell in Hs.
  apply andb_prop in Hs as [Hs Hb]. apply andb_prop in Hs as [Hs Hf]. apply andb_prop in Hs as [Hna Hi].
  apply negb_true_iff in Hna. apply bool_decide_eq_true in Hi, Hf, Hb.
  unfold infer_column. destruct cells as [|c r]; [done|].
  rewrite (all_some_None _ _ s Hin Hi), (all_some_None _ _ s Hin) by by rewrite Hna.
  by rewrite (all_some_None _ _ s Hin) by by rewrite Hna, Hb.
Qed.

(** [str] of the cells of a column of strings gives back their text. *)
Lemma str_val_text s : is_na_token s = false -> str_val (if is_na_token s then VNaN else VStr s) = s.
Proof. by intros ->. Qed.

(** ** Examples *)

(** [repr] of the floats read: an integer gets [.0], the trailing zeros
    go, small and large exponents switch to the scientific notation. *)
Example float_repr_examples :
  map (fun s => map str_val (infer_column [s; ""]).2)
      ["0"; "5"; "1.50"; "1e-5"; "1e16"; "0.0001"; "-0"; "-Inf"]
  = [["0.0"; "nan"]; ["5.0"; "nan"]; ["1.5"; "nan"]; ["1e-05"; "nan"]; ["1e+16"; "nan"];
     ["0.0001"; "nan"]; ["-0.0"; "nan"]; ["-inf"; "nan"]].
Proof. vm_compute. reflexivity. Qed.

(** Without a missing value the same integers stay integers, leading
    zeros and sign dropped. *)
Example int_column_example : map str_val (infer_column ["0"; "007"; "+12"]).2 = ["0"; "7"; "12"].
Proof. vm_compute. reflexivity. Qed.
