(* ===== verification/Tables.v ===== *)
(** * The tabular store: the dataset's CSV tables

    Each table of [./data/] is read twice by the program: by
    [src/parsers/parse_csv.py] ([csv.DictReader]: one dict of strings per
    line, keyed by the header) for the homemade queries, and by
    [pd.read_csv] (typed columns) for the pandas queries.  A [*Csv.t]
    record is a line as [parse_csv] returns it, restricted to the columns the
    program reads; a [*Row.t] record is the same line as [pd.read_csv]
    types it: identifiers and counters are int64 ([Z]), text and the
    ["\N"]-bearing [position] column stay strings (object dtype).
    [read_*] is that conversion.  The CSV text is the common source of both
    views; [canonical_int] says an integer cell is written as Python's
    [str] would write it, which holds for the dataset and is what makes the
    homemade string comparisons agree with the pandas integer ones. *)

From S2P Require Import Prelude PyStr PyNum.

(** ** drivers.csv *)
Module DriverCsv.
Record t := mk { driverId : string; forename : string; surname : string; nationality : string }.
End DriverCsv.
Module DriverRow.
Record t := mk { driverId : Z; forename : string; surname : string; nationality : string }.
End DriverRow.

(** ** results.csv *)
Module ResultCsv.
Record t := mk { raceId : string; driverId : string; constructorId : string; grid : string;
                 position : string; positionOrder : string; statusId : string }.
End ResultCsv.
Module ResultRow.
Record t := mk { raceId : Z; driverId : Z; constructorId : Z; grid : Z;
                 position : string; positionOrder : Z; statusId : Z }.
End ResultRow.

(** ** races.csv *)
Module RaceCsv.
Record t := mk { raceId : string; year : string; round : string; circuitId : string }.
End RaceCsv.
Module RaceRow.
Record t := mk { raceId : Z; year : Z; round : Z; circuitId : Z }.
End RaceRow.

(** ** status.csv *)
Module StatusCsv.
Record t := mk { statusId : string; status : string }.
End StatusCsv.
Module StatusRow.
Record t := mk { statusId : Z; status : string }.
End StatusRow.

(** ** driver_standings.csv *)
Module DriverStandingCsv.
Record t := mk { raceId : string; driverId : string; points : string }.
End DriverStandingCsv.
Module DriverStandingRow.
Record t := mk { raceId : Z; driverId : Z; points : Q }.
End DriverStandingRow.

(** ** The tables only the pandas code and the clustering read

    Only their typed view is needed.  [qualifying.csv] keeps its session
    times as strings (["1:26.572"], ["\N"]), as [pd.read_csv] does. *)
Module CircuitRow.
Record t := mk { circuitId : Z; name : string; country : string }.
End CircuitRow.
Module ConstructorRow.
Record t := mk { constructorId : Z; name : string }.
End ConstructorRow.
Module ConstructorStandingRow.
Record t := mk { raceId : Z; constructorId : Z; position : Z }.
End ConstructorStandingRow.
Module PitStopRow.
Record t := mk { driverId : Z; milliseconds : Z }.
End PitStopRow.
Module LapTimeRow.
Record t := mk { driverId : Z; milliseconds : Z }.
End LapTimeRow.
Module QualifyingRow.
Record t := mk { driverId : Z; q1 : string; q2 : string; q3 : string }.
End QualifyingRow.

(** ** [pd.read_csv]: typing the integer columns *)

Definition read_driver (r : DriverCsv.t) : result DriverRow.t :=
  let* i := py_int (DriverCsv.driverId r) in
  Ok (DriverRow.mk i (DriverCsv.forename r) (DriverCsv.surname r) (DriverCsv.nationality r)).

Definition read_result (r : ResultCsv.t) : result ResultRow.t :=
  let* ra := py_int (ResultCsv.raceId r) in
  let* d := py_int (ResultCsv.driverId r) in
  let* c := py_int (ResultCsv.constructorId r) in
  let* g := py_int (ResultCsv.grid r) in
  let* po := py_int (ResultCsv.positionOrder r) in
  let* st := py_int (ResultCsv.statusId r) in
  Ok (ResultRow.mk ra d c g (ResultCsv.position r) po st).

Definition read_race (r : RaceCsv.t) : result RaceRow.t :=
  let* ra := py_int (RaceCsv.raceId r) in
  let* y := py_int (RaceCsv.year r) in
  let* ro := py_int (RaceCsv.round r) in
  let* c := py_int (RaceCsv.circuitId r) in
  Ok (RaceRow.mk ra y ro c).

Definition read_status (r : StatusCsv.t) : result StatusRow.t :=
  let* i := py_int (StatusCsv.statusId r) in Ok (StatusRow.mk i (StatusCsv.status r)).

Definition read_driver_standing (r : DriverStandingCsv.t) : result DriverStandingRow.t :=
  let* ra := py_int (DriverStandingCsv.raceId r) in
  let* d := py_int (DriverStandingCsv.driverId r) in
  let* p := py_float (DriverStandingCsv.points r) in
  Ok (DriverStandingRow.mk ra d p).

(** ** Canonical integer cells *)

Definition canonical_int (s : string) : bool :=
  match py_int s with Ok z => String.eqb (str_of_Z z) s | Raise _ => false end.

Lemma canonical_int_spec s :
  canonical_int s = true <-> exists z, s = str_of_Z z.
Proof.
  unfold canonical_int. split.
  - destruct (py_int s) as [z|]; [|done]. intros H%String.eqb_eq. by exists z.
  - intros [z ->]. rewrite py_int_str_of_Z. apply String.eqb_refl.
Qed.

(** A canonical cell is [str(z)] of the integer [int] reads from it. *)
Lemma canonical_int_str s z : canonical_int s = true -> py_int s = Ok z -> s = str_of_Z z.
Proof.
  intros [z' ->]%canonical_int_spec Hz. rewrite py_int_str_of_Z in Hz. by injection Hz as ->.
Qed.

(** Comparing canonical cells as strings is comparing their integers. *)
Lemma canonical_eqb s1 s2 z1 z2 :
  canonical_int s1 = true -> canonical_int s2 = true ->
  py_int s1 = Ok z1 -> py_int s2 = Ok z2 ->
  String.eqb s1 s2 = Z.eqb z1 z2.
Proof.
  intros C1 C2 P1 P2.
  rewrite (canonical_int_str s1 z1), (canonical_int_str s2 z2) by done.
  destruct (String.eqb_spec (str_of_Z z1) (str_of_Z z2)) as [E|E].
  - apply str_of_Z_inj in E. subst. symmetry. apply Z.eqb_refl.
  - symmetry. apply Z.eqb_neq. congruence.
Qed.

(** ** Writing a typed row in canonical form *)

Definition render_driver (d : DriverRow.t) : DriverCsv.t :=
  DriverCsv.mk (str_of_Z (DriverRow.driverId d)) (DriverRow.forename d) (DriverRow.surname d)
    (DriverRow.nationality d).

Definition render_result (r : ResultRow.t) : ResultCsv.t :=
  ResultCsv.mk (str_of_Z (ResultRow.raceId r)) (str_of_Z (ResultRow.driverId r))
    (str_of_Z (ResultRow.constructorId r)) (str_of_Z (ResultRow.grid r)) (ResultRow.position r)
    (str_of_Z (ResultRow.positionOrder r)) (str_of_Z (ResultRow.statusId r)).

Definition render_race (r : RaceRow.t) : RaceCsv.t :=
  RaceCsv.mk (str_of_Z (RaceRow.raceId r)) (str_of_Z (RaceRow.year r)) (str_of_Z (RaceRow.round r))
    (str_of_Z (RaceRow.circuitId r)).

Definition render_status (s : StatusRow.t) : StatusCsv.t :=
  StatusCsv.mk (str_of_Z (StatusRow.statusId s)) (StatusRow.status s).

#[export] Hint Rewrite py_int_str_of_Z : f1.

(** [pd.read_csv] recovers the typed rows of a canonical file. *)
Lemma read_render_driver d : read_driver (render_driver d) = Ok d.
Proof. destruct d. unfold read_driver, render_driver. simpl. by autorewrite with f1. Qed.

Lemma read_render_race r : read_race (render_race r) = Ok r.
Proof. destruct r. unfold read_race, render_race. simpl. by autorewrite with f1. Qed.

Lemma read_render_status s : read_status (render_status s) = Ok s.
Proof. destruct s. unfold read_status, render_status. simpl. by autorewrite with f1. Qed.

Lemma mapM_read_render {A B} (read : A -> result B) (render : B -> A) l :
  (forall x, read (render x) = Ok x) -> mapM read (map render l) = Ok l.
Proof. intros H. induction l as [|x l IH]; simpl; [done|]. by rewrite H, IH. Qed.

(** [str(z) == "1"] exactly when [z == 1]. *)
Lemma str_of_Z_eqb z1 z2 : String.eqb (str_of_Z z1) (str_of_Z z2) = Z.eqb z1 z2.
Proof.
  destruct (String.eqb_spec (str_of_Z z1) (str_of_Z z2)) as [E|E].
  - apply str_of_Z_inj in E. subst. symmetry. apply Z.eqb_refl.
  - symmetry. apply Z.eqb_neq. congruence.
Qed.
