(* ===== verification/Frame.v ===== *)
(** * The pandas operations the queries use

    A DataFrame is a list of typed records (one per row, in index order).
    [groupby(k).size()] yields one row per distinct key in ascending key
    order; [merge(..., on=k)] pairs every left row with the matching right
    rows (inner: left rows without a match are dropped; left: they are kept
    with missing right columns); [value_counts()] counts in descending
    order.  [sort_values(ascending=False)] uses quicksort, which does not
    promise any order among equal keys: [SortValues] is its contract, so
    that the pandas queries are proved for every sort that honours it. *)

From S2P Require Import Prelude PySort PyDict.

(** ** [sort_values(by=key, ascending=False)] *)

Class SortValues := {
  sort_values_desc : forall {A K : Type} `{PyOrd K}, (A -> K) -> list A -> list A;
  sort_values_perm : forall A K `{PyOrd K} (key : A -> K) l,
    Permutation (sort_values_desc key l) l;
  sort_values_sorted : forall A K `{PyOrd K} (key : A -> K) l,
    Sorted (desc_rel key) (sort_values_desc key l)
}.

(** A stable sort ([kind="mergesort"]) honours the contract. *)
#[export] Instance stable_sort_values : SortValues.
Proof.
  refine {| sort_values_desc A K _ key l := sorted_desc key l |}.
  - intros. apply sorted_desc_perm.
  - intros. apply sorted_desc_sorted.
Defined.

(** ** [df.groupby(key).size()] *)

Definition groupby_size {A} (key : A -> Z) (l : list A) : list (Z * nat) :=
  sorted_asc fst (count_by key l).

(** ** [pd.merge(left, right, on=key)] *)

Definition merge_inner {A B} (ka : A -> Z) (kb : B -> Z) (l : list A) (r : list B) : list (A * B) :=
  flat_map (fun a => map (fun b => (a, b)) (List.filter (fun b => Z.eqb (kb b) (ka a)) r)) l.

Definition merge_left {A B} (ka : A -> Z) (kb : B -> Z) (l : list A) (r : list B)
    : list (A * option B) :=
  flat_map (fun a =>
    match List.filter (fun b => Z.eqb (kb b) (ka a)) r with
    | [] => [(a, None)]
    | ms => map (fun b => (a, Some b)) ms
    end) l.

(** A key matched by exactly one right row merges into one row. *)
Lemma merge_inner_unique {A B} (ka : A -> Z) (kb : B -> Z) (a : A) (r : list B) (b : B) :
  List.filter (fun b' => Z.eqb (kb b') (ka a)) r = [b] ->
  merge_inner ka kb [a] r = [(a, b)].
Proof. intros H. unfold merge_inner. simpl. by rewrite H. Qed.

Lemma merge_inner_app {A B} (ka : A -> Z) (kb : B -> Z) l1 l2 (r : list B) :
  merge_inner ka kb (l1 ++ l2) r = merge_inner ka kb l1 r ++ merge_inner ka kb l2 r.
Proof. unfold merge_inner. apply flat_map_app. Qed.

Lemma merge_inner_In {A B} (ka : A -> Z) (kb : B -> Z) l r p :
  In p (merge_inner ka kb l r) <-> In p.1 l /\ In p.2 r /\ kb p.2 = ka p.1.
Proof.
  destruct p as [a b]. unfold merge_inner. rewrite in_flat_map. simpl. split.
  - intros (a' & Ha' & Hp). apply in_map_iff in Hp as (b' & [= <- <-] & Hb).
    apply filter_In in Hb as [Hb Heq]. apply Z.eqb_eq in Heq. auto.
  - intros (Ha & Hb & Heq). exists a. split; [done|]. apply in_map_iff.
    exists b. split; [done|]. apply filter_In. split; [done|]. by apply Z.eqb_eq.
Qed.

(** On a right table with unique keys, a left merge keeps the left rows,
    in order, one merged row each. *)
Lemma merge_left_fst {A B} (ka : A -> Z) (kb : B -> Z) l (r : list B) :
  NoDup (map kb r) -> map fst (merge_left ka kb l r) = l.
Proof.
  intros Hnd. induction l as [|a l IH]; simpl; [done|]. rewrite map_app, IH.
  destruct (List.filter (fun b => Z.eqb (kb b) (ka a)) r) as [|b [|b' ms]] eqn:E; [done|done|].
  exfalso. assert (Hb : In b (List.filter (fun b => Z.eqb (kb b) (ka a)) r)) by (rewrite E; left; done).
  apply filter_In in Hb as [Hb Heq]. apply Z.eqb_eq in Heq.
  rewrite (filter_unique_key kb r b (ka a) Hnd Hb Heq) in E. discriminate.
Qed.

Lemma groupby_size_In {A} (key : A -> Z) l kv :
  In kv (groupby_size key l) <-> In kv (count_by key l).
Proof. unfold groupby_size, sorted_asc. split; apply Permutation_in; [|symmetry]; apply sorted_desc_perm. Qed.

Lemma In_sort_values `{SortValues} {A K} `{PyOrd K} (key : A -> K) l x :
  In x (sort_values_desc key l) <-> In x l.
Proof. split; apply Permutation_in; [|symmetry]; apply sort_values_perm. Qed.

(** ** More Series operations *)

Section WithSortValues.
Context `{SortValues}.

(** [s.value_counts()]: the counts in first-occurrence order, sorted
    descending. *)
Definition value_counts {K} `{EqDecision K} (l : list K) : list (K * nat) :=
  sort_values_desc snd (count_by (fun x => x) l).
End WithSortValues.

(** [s.head(n)]: a negative [n] keeps all rows but the last [-n]. *)
Definition series_head {A} (n : Z) (l : list A) : list A :=
  if Z.leb 0 n then firstn (Z.to_nat n) l else firstn (length l - Z.to_nat (- n)) l.

(** [s.idxmax()] on counts: the label of the first maximum. *)
Definition idxmax {K} (l : list (K * nat)) : option K :=
  match l with
  | [] => None
  | x :: r => Some (fold_left (fun m y => if Nat.ltb m.2 y.2 then y else m) r x).1
  end.

(** [df[col].squeeze()]: a one-row selection gives the scalar, any other
    the Series itself. *)
Inductive squeezed (A : Type) := Scalar (a : A) | Series (l : list A).
Arguments Scalar {A} a.
Arguments Series {A} l.

Definition squeeze {A} (l : list A) : squeezed A :=
  match l with [x] => Scalar x | _ => Series l end.

(** [merge(..., how='left')] on a key column that may hold [NaN] (here
    [None]) on the left, the right keys being integers: a [NaN] key
    matches nothing. *)
Definition merge_left_opt {A B} (ka : A -> option Z) (kb : B -> Z) (l : list A) (r : list B)
    : list (A * option B) :=
  flat_map (fun a =>
    match ka a with
    | None => [(a, None)]
    | Some k =>
        match List.filter (fun b => Z.eqb (kb b) k) r with
        | [] => [(a, None)]
        | ms => map (fun b => (a, Some b)) ms
        end
    end) l.

Lemma fold_max_spec {K} (r : list (K * nat)) m :
  let res := fold_left (fun m y => if Nat.ltb m.2 y.2 then y else m) r m in
  (res = m \/ In res r) /\ m.2 <= res.2 /\ forall kv, In kv r -> kv.2 <= res.2.
Proof.
  revert m. induction r as [|y r IH]; intros m; simpl; [split; [by left|done]|].
  destruct (Nat.ltb_spec m.2 y.2) as [Hlt|Hge].
  - destruct (IH y) as (Hin & Hle & Hall). split; [right; destruct Hin as [->|]; auto|].
    split; [lia|]. intros kv [<-|Hkv]; [lia|auto].
  - destruct (IH m) as (Hin & Hle & Hall). split; [destruct Hin as [->|]; auto|].
    split; [lia|]. intros kv [<-|Hkv]; [lia|auto].
Qed.

(** [idxmax] names a row whose count is the largest. *)
Lemma idxmax_spec {K} (l : list (K * nat)) k :
  idxmax l = Some k -> exists c, In (k, c) l /\ forall kv, In kv l -> kv.2 <= c.
Proof.
  destruct l as [|x r]; [done|]. simpl. intros [= <-].
  destruct (fold_max_spec r x) as (Hin & Hle & Hall).
  set (res := fold_left _ r x) in *. exists res.2. split.
  - destruct res as [k c]. simpl. destruct Hin as [<-|]; auto.
  - intros kv [<-|Hkv]; auto.
Qed.

Lemma idxmax_None {K} (l : list (K * nat)) : idxmax l = None <-> l = [].
Proof. by destruct l. Qed.

Lemma In_value_counts `{SortValues} {K} `{EqDecision K} (l : list K) k c :
  In (k, c) (value_counts l) <-> c = key_count (fun x => x) k l /\ c <> 0.
Proof.
  unfold value_counts. rewrite (In_sort_values snd). split.
  - apply count_by_In.
  - intros [-> Hc]. by apply In_count_by.
Qed.

Lemma value_counts_nil `{SortValues} {K} `{EqDecision K} (l : list K) :
  value_counts l = [] <-> l = [].
Proof.
  split; [|intros ->; apply Permutation_nil, Permutation_sym, (sort_values_perm _ _ snd)].
  intros E. destruct l as [|x l]; [done|].
  assert (Hx : In (x, key_count (fun y => y) x (x :: l)) (value_counts (x :: l))).
  { apply In_value_counts. split; [done|]. unfold key_count. rewrite countb_cons, bool_decide_eq_true_2; done. }
  by rewrite E in Hx.
Qed.

(** ** The first rows of a descending order of counts *)

Lemma In_firstn_In {A} k (l : list A) x : In x (firstn k l) -> In x l.
Proof. intros H. rewrite <- (firstn_skipn k l). apply in_or_app. by left. Qed.

Lemma In_not_firstn {A} k (l : list A) x : In x l -> ~ In x (firstn k l) -> In x (skipn k l).
Proof. rewrite <- (firstn_skipn k l) at 1. intros [H|H]%in_app_or Hn; [done|done]. Qed.

Lemma NoDup_firstn_map_fst {A B} k (l : list (A * B)) :
  NoDup (map fst l) -> NoDup (map fst (firstn k l)).
Proof.
  rewrite <- (firstn_skipn k l) at 1. rewrite map_app. intros (Hnd & _ & _)%NoDup_app. done.
Qed.

(** The first [k] rows of any descending order of the counts: at most [k]
    of them, each with its exact, non-zero count, none below a row left
    out. *)
Lemma top_k_spec {A K} `{EqDecision K} (f : A -> K) (l : list A) (s : list (K * nat)) k :
  Permutation s (count_by f l) -> Sorted (desc_rel snd) s ->
  length (firstn k s) = Nat.min k (length (count_by f l))
  /\ (forall d c, In (d, c) (firstn k s) -> c = key_count f d l /\ 0 < c)
  /\ (forall d c d' c', In (d, c) (firstn k s) -> In (d', c') (count_by f l) ->
                        ~ In (d', c') (firstn k s) -> c' <= c).
Proof.
  intros Hp Hs. split; [|split].
  - by rewrite length_firstn, (Permutation_length Hp).
  - intros d c Hin%In_firstn_In. apply (Permutation_in _ Hp), count_by_In in Hin. lia.
  - intros d c d' c' Hin Hin' Hout.
    apply (Permutation_in _ (Permutation_sym Hp)), (In_not_firstn k) in Hin'; [|done].
    pose proof (sorted_desc_top snd s k _ _ Hs Hin Hin') as Hlt. cbn in Hlt.
    by apply Nat.ltb_ge in Hlt.
Qed.

(** Every row of a left merge comes from a left row, with a matching
    right row or none. *)
Lemma merge_left_In {A B} (ka : A -> Z) (kb : B -> Z) l r p :
  In p (merge_left ka kb l r) ->
  In p.1 l /\ (p.2 = None \/ exists b, p.2 = Some b /\ In b r /\ kb b = ka p.1).
Proof.
  unfold merge_left. rewrite in_flat_map. intros (a & Ha & Hp).
  destruct (List.filter (fun b => Z.eqb (kb b) (ka a)) r) as [|b0 ms] eqn:E.
  - destruct Hp as [<-|[]]. auto.
  - apply in_map_iff in Hp as (b & <- & Hb). rewrite <- E in Hb.
    apply filter_In in Hb as [Hb Heq%Z.eqb_eq]. simpl. split; [done|]. right. eauto.
Qed.
