(* ===== verification/Wins.v ===== *)
(** * Query "drivers with at least n wins" (mandatory question 1)

    [Homemade] models [at_least_n_races_nopd] of
    [src/analysis/homemade/mandatory1.py] line by line: the string filter
    on [positionOrder], the counting dict, the [>= n] filter, the name
    lookup loop, the dict comprehension keyed by full name and
    [format_dict] (which raises on an empty table).  [Pandas] models
    [at_least_n_races] of [src/analysis/pandas/mandatory1.py]: a filter,
    [groupby().size()], an inner merge with the drivers and
    [sort_values]. *)

From S2P Require Import Prelude PySort PyStr PyDict Tables Frame.

(** [max(...)] over a generator of lengths: [ValueError] when empty. *)
Definition py_max_nat (l : list nat) : result nat :=
  match l with [] => Raise ValueError | x :: r => Ok (fold_left Nat.max r x) end.

(** [len(name)] where [name] may be [None]. *)
Definition len_opt (o : option string) : result nat :=
  match o with Some s => Ok (String.length s) | None => Raise TypeError end.

Definition as_str (o : option string) : result string :=
  match o with Some s => Ok s | None => Raise TypeError end.

Module Homemade.

(** [format_dict(dico, title)], with the header label of the second
    column as a parameter. *)
Definition format_dict (label : string) (dico : @dict (option string) nat) (title : string)
    : result string :=
  let sorted_items := sorted_desc snd dico in
  let* name_lens := mapM len_opt (dict_keys dico) in
  let* max_name := py_max_nat name_lens in
  let driver_width := Nat.max (String.length "Driver") max_name in
  let* max_wins := py_max_nat (map (fun kv => String.length (str_of_nat (snd kv))) dico) in
  let wins_width := Nat.max (String.length "Wins") max_wins in
  let line := str_repeat "-" (2 * (driver_width + wins_width + 5)) in
  let header := center "Driver" driver_width +:+ "        " +:+ center label wins_width in
  let* rows := mapM (fun kv =>
                 let* name := as_str (fst kv) in
                 Ok (ljust name driver_width +:+ "         " +:+ rjust (str_of_nat (snd kv)) wins_width))
               sorted_items in
  Ok (join newline ([title; line; header; line] ++ rows ++ [line])).

Definition wins (results : list ResultCsv.t) : list ResultCsv.t :=
  List.filter (fun line => String.eqb (ResultCsv.positionOrder line) "1") results.

Definition wins_by_driver (wins : list ResultCsv.t) : @dict string nat :=
  count_by ResultCsv.driverId wins.

Definition more_than_n_wins_by_driver (n : Z) (wbd : @dict string nat) : @dict string nat :=
  dict_of_list (List.filter (fun kv => Z.leb n (Z.of_nat (snd kv))) wbd).

Definition full_name (d : DriverCsv.t) : string :=
  DriverCsv.forename d +:+ " " +:+ DriverCsv.surname d.

(** [{id: None for id in ids}], then for every driver line and every id,
    [drivers_fullnames[id] = forename + ' ' + surname] on a match. *)
Definition drivers_fullnames (drivers : list DriverCsv.t) (ids : list string)
    : @dict string (option string) :=
  fold_left (fun names driver =>
      fold_left (fun names id =>
          if String.eqb (DriverCsv.driverId driver) id
          then dict_set id (Some (full_name driver)) names else names) ids names)
    drivers (dict_of_list (map (fun id => (id, None)) ids)).

(** [{drivers_fullnames[driver_id]: count for driver_id, count in
    sorted(more.items(), key=lambda x: x[1], reverse=True)}] *)
Definition more_than_n_wins_by_driver_named (names : @dict string (option string))
    (more : @dict string nat) : result (@dict (option string) nat) :=
  let* pairs := mapM (fun kv => let* nm := dict_index (fst kv) names in Ok (nm, snd kv))
                  (sorted_desc snd more) in
  Ok (dict_of_list pairs).

Definition title (n : Z) : string := "Drivers who won more than " +:+ str_of_Z n +:+ " races".

Definition at_least_n_races_nopd (drivers : list DriverCsv.t) (results : list ResultCsv.t)
    (n : Z) : result string :=
  let more := more_than_n_wins_by_driver n (wins_by_driver (wins results)) in
  let names := drivers_fullnames drivers (dict_keys more) in
  let* named := more_than_n_wins_by_driver_named names more in
  format_dict "Wins" named (title n).
End Homemade.

Module Pandas.
(** [wins = results[results["positionOrder"] == 1]] *)
Definition wins (results : list ResultRow.t) : list ResultRow.t :=
  List.filter (fun r => Z.eqb (ResultRow.positionOrder r) 1) results.

Section WithSort.
Context `{SortValues}.

Definition dashes : string := str_repeat "-" 48.

(** The rows [(forename, surname, win_count)] of the final frame. *)
Definition top_winners_named (drivers : list DriverRow.t) (results : list ResultRow.t) (n : Z)
    : list (string * string * nat) :=
  let wins_by_driver := groupby_size ResultRow.driverId (wins results) in
  let top_winners := List.filter (fun kv => Z.leb n (Z.of_nat (snd kv))) wins_by_driver in
  let merged := merge_inner fst DriverRow.driverId top_winners drivers in
  let projected :=
    map (fun p => (DriverRow.forename (snd p), DriverRow.surname (snd p), snd (fst p))) merged in
  sort_values_desc (fun r => snd r) projected.

Definition at_least_n_races (drivers : list DriverRow.t) (results : list ResultRow.t) (n : Z)
    : string :=
  let rows :=
    map (fun r => ljust (fst (fst r) +:+ " " +:+ snd (fst r)) 30 +:+ rjust (str_of_nat (snd r)) 9)
      (top_winners_named drivers results n) in
  join newline ([Homemade.title n; dashes; ljust "Driver" 30 +:+ "Wins"; dashes] ++ rows ++ [dashes]).
End WithSort.
End Pandas.

(** ** The homemade query on a canonical CSV file *)

Definition full_name_t (d : DriverRow.t) : string :=
  DriverRow.forename d +:+ " " +:+ DriverRow.surname d.

(** The name the homemade loop finds for an id: the last matching line. *)
Definition name_of (dt : list DriverRow.t) (id : Z) : option string :=
  last (map full_name_t (List.filter (fun d => Z.eqb (DriverRow.driverId d) id) dt)).

Section HomemadeSemantics.
Lemma wins_render rt : Homemade.wins (map render_result rt) = map render_result (Pandas.wins rt).
Proof.
  unfold Homemade.wins. rewrite filter_map_comm. f_equal.
  apply List.filter_ext. intros r. exact (str_of_Z_eqb _ 1).
Qed.

Lemma wins_by_driver_render ws :
  Homemade.wins_by_driver (map render_result ws) = relabel str_of_Z (count_by ResultRow.driverId ws).
Proof.
  unfold Homemade.wins_by_driver. rewrite count_by_map.
  exact (count_by_relabel str_of_Z str_of_Z_inj ResultRow.driverId ws).
Qed.

Lemma more_render n (C : list (Z * nat)) :
  NoDup (map fst C) ->
  Homemade.more_than_n_wins_by_driver n (relabel str_of_Z C)
  = relabel str_of_Z (List.filter (fun kv => Z.leb n (Z.of_nat kv.2)) C).
Proof.
  intros Hnd. unfold Homemade.more_than_n_wins_by_driver, relabel.
  rewrite filter_map_comm. apply dict_of_list_nodup.
  rewrite map_map. simpl. rewrite <- (map_map fst str_of_Z).
  apply NoDup_map_inj; [apply str_of_Z_inj|]. by apply NoDup_map_filter.
Qed.

(** One pass of the inner loop over the ids. *)
Lemma fullnames_inner_get (dr : DriverCsv.t) ids names s :
  dict_get s (fold_left (fun names id =>
      if String.eqb (DriverCsv.driverId dr) id
      then dict_set id (Some (Homemade.full_name dr)) names else names) ids names)
  = if String.eqb (DriverCsv.driverId dr) s && bool_decide (s ∈ ids)
    then Some (Some (Homemade.full_name dr)) else dict_get s names.
Proof.
  revert names. induction ids as [|id ids IH]; intros names; cbn [fold_left].
  - rewrite (bool_decide_eq_false_2 (s ∈ [])) by set_solver. by rewrite andb_false_r.
  - rewrite IH. destruct (String.eqb_spec (DriverCsv.driverId dr) s) as [Hs|Hs]; cbn [andb].
    + destruct (String.eqb_spec (DriverCsv.driverId dr) id) as [Hi|Hi].
      * rewrite (bool_decide_eq_true_2 (s ∈ id :: ids)) by set_solver.
        subst. case_bool_decide; [done|]. apply dict_get_set_eq.
      * rewrite (bool_decide_ext (s ∈ id :: ids) (s ∈ ids)) by set_solver. done.
    + destruct (String.eqb (DriverCsv.driverId dr) id) eqn:Hi; [|done].
      apply String.eqb_eq in Hi. apply dict_get_set_ne. congruence.
Qed.

(** [drivers_fullnames[id]] is the name of the last driver line with that id. *)
Lemma drivers_fullnames_get drivers ids s :
  s ∈ ids ->
  dict_get s (Homemade.drivers_fullnames drivers ids)
  = Some (last (map Homemade.full_name
                 (List.filter (fun d => String.eqb (DriverCsv.driverId d) s) drivers))).
Proof.
  intros Hs. unfold Homemade.drivers_fullnames.
  induction drivers as [|dr drivers IH] using rev_ind.
  - simpl. rewrite dict_get_of_list, filter_map_comm, map_map. simpl.
    rewrite last_map_const.
    destruct (List.filter _ ids) as [|x l] eqn:Hf; [|done]. exfalso.
    assert (Hin : In s (List.filter (fun id => bool_decide (id = s)) ids))
      by (apply filter_In; split; [by apply list_elem_of_In | by case_bool_decide]).
    by rewrite Hf in Hin.
  - rewrite fold_left_app. simpl. rewrite fullnames_inner_get, IH, List.filter_app. simpl.
    rewrite bool_decide_true by done. rewrite andb_true_r.
    destruct (String.eqb (DriverCsv.driverId dr) s); simpl.
    + rewrite map_app. cbn [map]. by rewrite last_snoc.
    + by rewrite app_nil_r.
Qed.

Lemma fullnames_render dt ids id :
  id ∈ ids ->
  dict_get (str_of_Z id) (Homemade.drivers_fullnames (map render_driver dt) (map str_of_Z ids))
  = Some (name_of dt id).
Proof.
  intros Hid. rewrite drivers_fullnames_get.
  - unfold name_of. rewrite filter_map_comm, map_map. do 3 f_equal.
    apply List.filter_ext. intros d. apply str_of_Z_eqb.
  - apply list_elem_of_In, in_map, list_elem_of_In, Hid.
Qed.

(** The comprehension keyed by names, before the keys are deduplicated. *)
Lemma named_render dt (F : list (Z * nat)) :
  Homemade.more_than_n_wins_by_driver_named
    (Homemade.drivers_fullnames (map render_driver dt) (dict_keys (relabel str_of_Z F)))
    (relabel str_of_Z F)
  = Ok (dict_of_list (map (fun kv => (name_of dt kv.1, kv.2)) (sorted_desc snd F))).
Proof.
  assert (Hdk : dict_keys (relabel str_of_Z F) = map str_of_Z (map fst F))
    by (unfold dict_keys, relabel; by rewrite !map_map).
  unfold Homemade.more_than_n_wins_by_driver_named. rewrite Hdk. unfold relabel.
  rewrite (sorted_desc_map snd snd (fun kv => (str_of_Z kv.1, kv.2))) by done.
  rewrite (mapM_map_Ok _ _ (fun kv => (name_of dt kv.1, kv.2))); [done|].
  intros [id c] Hin. simpl. unfold dict_index. rewrite fullnames_render; [done|].
  apply list_elem_of_In, in_map_iff. exists (id, c). split; [done|].
  by apply (Permutation_in _ (sorted_desc_perm snd F)).
Qed.
End HomemadeSemantics.

(** ** Hypotheses on the data under which the strategies agree *)

(** Every winning result names a driver of [drivers.csv]. *)
Definition winners_present (dt : list DriverRow.t) (rt : list ResultRow.t) : Prop :=
  Forall (fun r => Exists (fun d => DriverRow.driverId d = ResultRow.driverId r) dt) (Pandas.wins rt).

(** Two driver lines with the same full name have the same id. *)
Definition names_identify (dt : list DriverRow.t) : Prop :=
  Forall (fun d1 => Forall (fun d2 =>
    full_name_t d1 = full_name_t d2 -> DriverRow.driverId d1 = DriverRow.driverId d2) dt) dt.

#[export] Instance winners_present_dec dt rt : Decision (winners_present dt rt).
Proof. unfold winners_present. apply _. Defined.
#[export] Instance names_identify_dec dt : Decision (names_identify dt).
Proof. unfold names_identify. apply _. Defined.

(** The win counts, in the order of each driver's first win. *)
Definition win_counts (rt : list ResultRow.t) : list (Z * nat) :=
  count_by ResultRow.driverId (Pandas.wins rt).

Definition at_least (n : Z) (C : list (Z * nat)) : list (Z * nat) :=
  List.filter (fun kv => Z.leb n (Z.of_nat kv.2)) C.

Section NameOf.
Context (dt : list DriverRow.t).

Lemma name_of_present id :
  Exists (fun d => DriverRow.driverId d = id) dt ->
  exists d, In d dt /\ DriverRow.driverId d = id /\ name_of dt id = Some (full_name_t d).
Proof.
  intros Hex. apply Exists_exists in Hex as (d & Hd & Hid).
  destruct (last_filter_Some (fun d => Z.eqb (DriverRow.driverId d) id) dt) as (d' & Hl & Hin & Hp).
  { exists d. split; [by apply list_elem_of_In|]. by apply Z.eqb_eq. }
  exists d'. apply Z.eqb_eq in Hp. repeat split; [done|done|].
  unfold name_of. by rewrite last_map, Hl.
Qed.

Lemma name_of_inj i j :
  names_identify dt ->
  Exists (fun d => DriverRow.driverId d = i) dt -> Exists (fun d => DriverRow.driverId d = j) dt ->
  name_of dt i = name_of dt j -> i = j.
Proof.
  intros Hni Hi Hj Heq.
  destruct (name_of_present i Hi) as (di & Hdi & <- & Ei).
  destruct (name_of_present j Hj) as (dj & Hdj & <- & Ej).
  rewrite Ei, Ej in Heq. injection Heq as Heq.
  unfold names_identify in Hni. rewrite List.Forall_forall in Hni.
  specialize (Hni di Hdi). rewrite List.Forall_forall in Hni. by apply Hni.
Qed.
End NameOf.

(** Every driver counted in [win_counts] has a driver line. *)
Lemma win_counts_present dt rt id :
  winners_present dt rt -> id ∈ map fst (win_counts rt) ->
  Exists (fun d => DriverRow.driverId d = id) dt.
Proof.
  intros Hw Hin. apply (count_by_keys_elem ResultRow.driverId (Pandas.wins rt) id) in Hin. apply list_elem_of_In, in_map_iff in Hin as (r & <- & Hr).
  unfold winners_present in Hw. rewrite List.Forall_forall in Hw. by apply Hw.
Qed.

(** On a canonical CSV file the homemade query formats the list of
    (name, wins) of the drivers with at least [n] wins, sorted by wins,
    ties in the order of their first win. *)
Lemma nopd_format_eq dt rt n :
  winners_present dt rt -> names_identify dt ->
  Homemade.at_least_n_races_nopd (map render_driver dt) (map render_result rt) n
  = Homemade.format_dict "Wins"
      (map (fun kv => (name_of dt kv.1, kv.2)) (sorted_desc snd (at_least n (win_counts rt))))
      (Homemade.title n).
Proof.
  intros Hw Hni. unfold Homemade.at_least_n_races_nopd.
  rewrite wins_render, wins_by_driver_render, more_render by apply count_by_nodup.
  rewrite named_render. simpl. f_equal.
  apply dict_of_list_nodup. rewrite map_map. simpl.
  set (l := sorted_desc snd (at_least n (win_counts rt))).
  assert (Hl : forall i, In i (map fst l) -> Exists (fun d => DriverRow.driverId d = i) dt).
  { intros i Hi. apply (win_counts_present dt rt); [done|].
    apply list_elem_of_In. apply in_map_iff in Hi as (kv & <- & Hkv). apply in_map.
    assert (Hkv' : In kv (at_least n (win_counts rt)))
      by (eapply Permutation_in; [apply (sorted_desc_perm snd)|exact Hkv]).
    by apply filter_In in Hkv' as [? _]. }
  assert (H : NoDup (map (name_of dt) (map fst l))).
  { apply NoDup_map_inj_in.
    - intros i j Hi Hj. apply name_of_inj; auto.
    - eapply NoDup_perm; [apply Permutation_map; symmetry; apply (sorted_desc_perm snd)|].
      apply NoDup_map_filter, count_by_nodup. }
  by rewrite map_map in H.
Qed.

(** ** The pandas query *)

Section PandasSemantics.
Context `{SortValues}.

Definition show_row (r : string * string * nat) : option string * nat :=
  (Some (r.1.1 +:+ " " +:+ r.1.2), r.2).

Lemma merge_named dt (F : list (Z * nat)) :
  NoDup (map DriverRow.driverId dt) ->
  Forall (fun kv => Exists (fun d => DriverRow.driverId d = kv.1) dt) F ->
  map show_row (map (fun p => (DriverRow.forename p.2, DriverRow.surname p.2, p.1.2))
                  (merge_inner fst DriverRow.driverId F dt))
  = map (fun kv => (name_of dt kv.1, kv.2)) F.
Proof.
  intros Hnd. induction 1 as [|kv F Hkv _ IH]; [done|].
  apply Exists_exists in Hkv as (d & Hd%list_elem_of_In & Hid).
  unfold merge_inner in *. simpl.
  rewrite (filter_unique_key DriverRow.driverId dt d kv.1 Hnd Hd Hid). simpl.
  rewrite IH. f_equal. unfold show_row, name_of. simpl.
  by rewrite (filter_unique_key DriverRow.driverId dt d kv.1 Hnd Hd Hid).
Qed.

(** The pandas rows are, up to order, the drivers with at least [n] wins. *)
Lemma top_winners_named_perm dt rt n :
  NoDup (map DriverRow.driverId dt) -> winners_present dt rt ->
  Permutation (map show_row (Pandas.top_winners_named dt rt n))
              (map (fun kv => (name_of dt kv.1, kv.2)) (at_least n (win_counts rt))).
Proof.
  intros Hnd Hw. unfold Pandas.top_winners_named.
  rewrite sort_values_perm, <- (merge_named dt); [|done|].
  - apply Permutation_map, Permutation_map, Permutation_flat_map, perm_filter.
    apply sorted_desc_perm.
  - apply List.Forall_forall. intros kv Hkv. apply (win_counts_present dt rt); [done|].
    apply filter_In in Hkv as [Hkv _]. apply list_elem_of_In, in_map, Hkv.
Qed.
End PandasSemantics.

(** ** When the homemade query raises *)

Lemma format_dict_ValueError label dico title :
  Homemade.format_dict label dico title = Raise ValueError <-> dico = [].
Proof.
  split; [|intros ->; reflexivity].
  destruct dico as [|kv d]; [done|]. unfold Homemade.format_dict.
  destruct (mapM len_opt (dict_keys (kv :: d))) as [lens|e] eqn:Hl; simpl.
  - apply mapM_Ok, Forall2_length in Hl. destruct lens as [|l0 lens]; [done|]. simpl.
    destruct (mapM _ (sorted_desc snd (kv :: d))) as [rows|e] eqn:Hr; simpl; [done|].
    apply mapM_Raise in Hr as ([o c] & _ & Hx). destruct o; simpl in Hx; congruence.
  - apply mapM_Raise in Hl as ([o|] & _ & Hx); simpl in Hx; congruence.
Qed.

Lemma more_than_n_nodup n (wbd : @dict string nat) :
  NoDup (dict_keys wbd) ->
  Homemade.more_than_n_wins_by_driver n wbd = List.filter (fun kv => Z.leb n (Z.of_nat kv.2)) wbd.
Proof. intros Hnd. apply dict_of_list_nodup. by apply NoDup_map_filter. Qed.

(** C2: the homemade query raises [ValueError] (from [max()] of an empty
    sequence in [format_dict]) exactly when no driver has [n] wins; it
    does so on any CSV content. *)
Theorem at_least_n_races_nopd_ValueError drivers results n :
  Homemade.at_least_n_races_nopd drivers results n = Raise ValueError <->
  Forall (fun kv => (Z.of_nat kv.2 < n)%Z) (Homemade.wins_by_driver (Homemade.wins results)).
Proof.
  unfold Homemade.at_least_n_races_nopd.
  rewrite more_than_n_nodup by apply count_by_nodup.
  set (wbd := Homemade.wins_by_driver (Homemade.wins results)).
  set (more := List.filter _ wbd).
  assert (Hmore : more = [] <-> Forall (fun kv => (Z.of_nat kv.2 < n)%Z) wbd).
  { unfold more. rewrite List.Forall_forall. split.
    - intros Hf kv Hkv. apply Z.leb_gt. destruct (Z.leb n (Z.of_nat kv.2)) eqn:E; [|done].
      assert (Hin : In kv []) by (rewrite <- Hf; by apply filter_In). done.
    - intros Hall. apply filter_none. intros kv Hkv. by apply Z.leb_gt, Hall. }
  rewrite <- Hmore. unfold Homemade.more_than_n_wins_by_driver_named.
  destruct (mapM_total (fun kv => let* nm := dict_index kv.1
      (Homemade.drivers_fullnames drivers (dict_keys more)) in Ok (nm, kv.2)) (sorted_desc snd more))
    as (pairs & Hp & Hlen).
  { intros [k c] Hin. unfold dict_index. rewrite drivers_fullnames_get; [by eexists|].
    apply list_elem_of_In, in_map_iff. exists (k, c). split; [done|].
    by apply (Permutation_in _ (sorted_desc_perm snd more)). }
  rewrite Hp. simpl. rewrite format_dict_ValueError, dict_of_list_nil.
  rewrite (Permutation_length (sorted_desc_perm snd more)) in Hlen.
  split; intros H.
  - subst pairs. simpl in Hlen. by apply length_zero_iff_nil.
  - rewrite H in Hlen. simpl in Hlen. by apply length_zero_iff_nil.
Qed.

(** ** The two strategies agree *)

(** C1: on the same canonical CSV files (the rendering of [dt] and [rt],
    which [pd.read_csv] reads back as [dt] and [rt]), the homemade query
    prints, through [format_dict], a list of (name, wins) rows in
    non-increasing order of wins which is a permutation of the rows of the
    pandas frame, for any [sort_values] that honours its contract.  The
    hypotheses: driver ids are unique, every winner has a driver line, and
    full names identify drivers. *)
Theorem wins_strategies_agree `{SortValues} dt rt n :
  NoDup (map DriverRow.driverId dt) -> winners_present dt rt -> names_identify dt ->
  exists items,
    Homemade.at_least_n_races_nopd (map render_driver dt) (map render_result rt) n
      = Homemade.format_dict "Wins" items (Homemade.title n)
    /\ sorted_desc snd items = items
    /\ Permutation items (map show_row (Pandas.top_winners_named dt rt n)).
Proof.
  intros Hnd Hw Hni.
  exists (map (fun kv => (name_of dt kv.1, kv.2)) (sorted_desc snd (at_least n (win_counts rt)))).
  split; [by apply nopd_format_eq|]. split.
  - rewrite (sorted_desc_map snd snd (fun kv => (name_of dt kv.1, kv.2))) by done.
    by rewrite sorted_desc_idem by apply sorted_desc_sorted.
  - rewrite top_winners_named_perm by done. apply Permutation_map, sorted_desc_perm.
Qed.

(** ** Properties of the pandas rows for any data *)

Section PandasRows.
Context `{SortValues}.

Lemma top_winners_named_In dt rt n r :
  In r (Pandas.top_winners_named dt rt n) <->
  exists d c, r = (DriverRow.forename d, DriverRow.surname d, c) /\ In d dt /\
    In (DriverRow.driverId d, c) (win_counts rt) /\ (n <= Z.of_nat c)%Z.
Proof.
  unfold Pandas.top_winners_named.
  rewrite In_sort_values, in_map_iff.
  split.
  - intros ([[id c] d] & <- & Hm). apply merge_inner_In in Hm as (Hkv & Hd & Hid).
    simpl in *. apply filter_In in Hkv as [Hkv Hn]. apply groupby_size_In in Hkv.
    exists d, c. subst id. split; [done|]. split; [done|]. split; [exact Hkv|].
    by apply Z.leb_le.
  - intros (d & c & -> & Hd & Hkv & Hn). exists ((DriverRow.driverId d, c), d).
    split; [done|]. apply merge_inner_In. simpl. split; [|done].
    apply filter_In. split; [by apply groupby_size_In|]. by apply Z.leb_le.
Qed.

(** C3: every row of the pandas table is a driver of [drivers.csv] with
    its exact number of wins, and that number is at least [n]. *)
Theorem top_winners_named_counts dt rt n f s c :
  In (f, s, c) (Pandas.top_winners_named dt rt n) ->
  exists d, In d dt /\ DriverRow.forename d = f /\ DriverRow.surname d = s /\
    c = key_count ResultRow.driverId (DriverRow.driverId d) (Pandas.wins rt) /\
    c <> 0 /\ (n <= Z.of_nat c)%Z.
Proof.
  intros Hin. apply top_winners_named_In in Hin as (d & c' & [= -> -> ->] & Hd & Hc & Hn).
  apply count_by_In in Hc as [Hc Hnz]. exists d. auto 6.
Qed.

(** C4: raising the threshold from [n] to [n + 1] removes exactly the
    rows of [n] wins: a row is listed for [n + 1] if and only if it is
    listed for [n] and its count is at least [n + 1]. *)
Theorem top_winners_named_mono dt rt n r :
  In r (Pandas.top_winners_named dt rt (n + 1))
  <-> In r (Pandas.top_winners_named dt rt n) /\ (n + 1 <= Z.of_nat r.2)%Z.
Proof.
  rewrite !top_winners_named_In. split.
  - intros (d & c & -> & Hd & Hc & Hn). split; [exists d, c; repeat split; auto; lia|done].
  - intros [(d & c & -> & Hd & Hc & _) Hn]. by exists d, c.
Qed.
End PandasRows.

(** ** A three-driver extract of the dataset *)

Definition ex_drivers : list DriverRow.t :=
  [DriverRow.mk 1 "Lewis" "Hamilton" "British"; DriverRow.mk 2 "Nick" "Heidfeld" "German";
   DriverRow.mk 3 "Nico" "Rosberg" "German"].

(** raceId, driverId, constructorId, grid, position, positionOrder, statusId *)
Definition ex_results : list ResultRow.t :=
  [ResultRow.mk 18 3 3 1 "1" 1 1; ResultRow.mk 18 1 1 2 "2" 2 1;
   ResultRow.mk 19 1 1 1 "1" 1 1; ResultRow.mk 20 2 2 1 "1" 1 1;
   ResultRow.mk 21 1 1 1 "1" 1 1].

Lemma wins_strategies_agree_witness :
  exists items,
    Homemade.at_least_n_races_nopd (map render_driver ex_drivers) (map render_result ex_results) 1
      = Homemade.format_dict "Wins" items (Homemade.title 1)
    /\ sorted_desc snd items = items
    /\ Permutation items (map show_row (Pandas.top_winners_named ex_drivers ex_results 1)).
Proof.
  apply wins_strategies_agree; apply (bool_decide_eq_true_1 _); vm_compute; reflexivity.
Defined.

Lemma top_winners_named_counts_witness :
  exists d, In d ex_drivers /\ DriverRow.forename d = "Lewis" /\ DriverRow.surname d = "Hamilton" /\
    2 = key_count ResultRow.driverId (DriverRow.driverId d) (Pandas.wins ex_results) /\
    2 <> 0 /\ (1 <= Z.of_nat 2)%Z.
Proof. apply (top_winners_named_counts ex_drivers ex_results 1). vm_compute. by left. Defined.

Lemma top_winners_named_mono_witness :
  In ("Lewis", "Hamilton", 2) (Pandas.top_winners_named ex_drivers ex_results (1 + 1)).
Proof.
  apply (top_winners_named_mono ex_drivers ex_results 1). split; [vm_compute; by left | cbn; lia].
Defined.

Example at_least_n_races_nopd_ValueError_ex :
  Homemade.at_least_n_races_nopd (map render_driver ex_drivers) (map render_result ex_results) 3
  = Raise ValueError.
Proof. vm_compute. reflexivity. Qed.
