(* ===== verification/Ranking.v ===== *)
(** * Query "final drivers' ranking of a season" (mandatory question 2)

    [Homemade] models [ranking_nopd] of src/analysis/homemade/mandatory2.py:
    the races of the year (its [year] cells go through [int()]), the
    [max] of their raceId strings as the last race, the standings dict at
    that race, the [float()] of every points cell, the defaultdict of
    finishing counts 1..10 (from the [position] column, when it is a digit
    string), the stable descending sort on [(float(points), finishes)],
    the enumeration from 1 and [format_list].  [Pandas] models [ranking] of
    src/analysis/pandas/mandatory2.py: integer [max] of the raceIds, the
    [groupby(['driverId', 'positionOrder']).size().unstack(fill_value=0)]
    count table, two left merges, the multi-column [sort_values] (a
    stable lexsort, missing counts last) and the line layout. *)

From S2P Require Import Prelude PySort PyStr PyNum PyDict Tables Frame.

(** [[0]*10] and [l[i] += 1] *)
Definition zeros10 : list nat := repeat 0 10.

Fixpoint incr_nth (i : nat) (l : list nat) : list nat :=
  match l, i with
  | [], _ => []
  | x :: r, O => S x :: r
  | x :: r, S j => x :: incr_nth j r
  end.

Module Homemade.

(** [races_yy = [line for line in races if int(line['year']) == yy]] *)
Definition races_yy (races : list RaceCsv.t) (yy : Z) : result (list RaceCsv.t) :=
  filterM (fun line => let* y := py_int (RaceCsv.year line) in Ok (Z.eqb y yy)) races.

Definition races_yy_ids (ry : list RaceCsv.t) : list string := map RaceCsv.raceId ry.

(** [ranking_with_exaequos[line['driverId']] = line['points']] for the
    lines of the last race. *)
Definition ranking_with_exaequos (standings : list DriverStandingCsv.t) (id_last : string)
    : @dict string string :=
  fold_left (fun d line =>
      if String.eqb (DriverStandingCsv.raceId line) id_last
      then dict_set (DriverStandingCsv.driverId line) (DriverStandingCsv.points line) d else d)
    standings [].

Definition id_to_name (drivers : list DriverCsv.t) : @dict string string :=
  dict_of_list (map (fun d => (DriverCsv.driverId d, DriverCsv.forename d +:+ " " +:+ DriverCsv.surname d))
                  drivers).

(** [finishes[d]] of the [defaultdict(lambda: [0]*10)] *)
Definition finishes_get (f : @dict string (list nat)) (d : string) : list nat :=
  match dict_get d f with Some l => l | None => zeros10 end.

(** One turn of the loop over results. *)
Definition record_finish (ids : list string) (f : @dict string (list nat)) (res : ResultCsv.t)
    : result (@dict string (list nat)) :=
  if bool_decide (ResultCsv.raceId res ∈ ids) then
    let position := ResultCsv.position res in
    let driver_id := ResultCsv.driverId res in
    if isdigit position then
      let* pos := py_int position in
      if Z.leb 1 pos && Z.leb pos 10
      then Ok (dict_set driver_id (incr_nth (Z.to_nat (pos - 1)) (finishes_get f driver_id)) f)
      else Ok f
    else Ok f
  else Ok f.

Definition finishes (results : list ResultCsv.t) (ids : list string)
    : result (@dict string (list nat)) :=
  foldM (record_finish ids) results [].

(** [sorted(keys, key=lambda d: (float(points[d]), finishes[d]), reverse=True)] *)
Definition final_ranking_ids (rwe : @dict string string) (fin : @dict string (list nat))
    : result (list string) :=
  let* keyed := mapM (fun kv => let* p := py_float kv.2 in Ok (kv.1, (p, finishes_get fin kv.1))) rwe in
  Ok (map fst (sorted_desc snd keyed)).

(** [[(rank, id_to_name[d], float(points[d])) for rank, d in enumerate(ids, 1)]] *)
Definition final_ranking_named (rwe : @dict string string) (names : @dict string string)
    (ids : list string) : result (list (nat * string * Q)) :=
  mapM (fun rd =>
      let* name := dict_index rd.2 names in
      let* s := dict_index rd.2 rwe in
      let* p := py_float s in
      Ok (rd.1, name, p))
    (enumerate 1 ids).

Definition format_list (standings : list (nat * string * Q)) (title : string) : result string :=
  let* rank_max := py_max (map (fun r => String.length (str_of_nat r.1.1)) standings) in
  let rank_width := Nat.max (String.length "Rank") rank_max in
  let* name_max := py_max (map (fun r => String.length r.1.2) standings) in
  let name_width := Nat.max (String.length "Driver") name_max in
  let* points_max := py_max (map (fun r => String.length (str_of_Z (py_trunc r.2))) standings) in
  let points_width := Nat.max (String.length "Points") points_max in
  let header := ljust "Rank" rank_width +:+ "   " +:+ ljust "Driver" name_width +:+ "   "
                +:+ rjust "Points" points_width in
  let separator := str_repeat "-" (String.length header) in
  let rows := map (fun r => ljust (str_of_nat r.1.1) rank_width +:+ "   " +:+ ljust r.1.2 name_width
                            +:+ "   " +:+ rjust (str_of_Z (py_trunc r.2)) points_width) standings in
  Ok (join newline ([title; separator; header; separator] ++ rows ++ [separator])).

Definition season_title (yy : Z) : string := "Drivers' ranking - Season " +:+ str_of_Z yy.

Definition ranking_nopd (drivers : list DriverCsv.t) (results : list ResultCsv.t)
    (driver_standings : list DriverStandingCsv.t) (races : list RaceCsv.t) (yy : Z) : result string :=
  let* ry := races_yy races yy in
  let ids := races_yy_ids ry in
  let* id_last_race_yy := py_max ids in
  let rwe := ranking_with_exaequos driver_standings id_last_race_yy in
  let* _ranking_sorted := mapM (fun kv => py_float kv.2) rwe in
  let names := id_to_name drivers in
  let* fin := finishes results ids in
  let* final_ids := final_ranking_ids rwe fin in
  let* named := final_ranking_named rwe names final_ids in
  format_list named (season_title yy).
End Homemade.

Module Pandas.

Definition races_yy (races : list RaceRow.t) (yy : Z) : list RaceRow.t :=
  List.filter (fun r => Z.eqb (RaceRow.year r) yy) races.

(** [races_yy['raceId'].max()]: [NaN] (here [None]) for an empty column. *)
Definition last_race_id (ry : list RaceRow.t) : option Z :=
  match map RaceRow.raceId ry with [] => None | x :: r => Some (fold_left Z.max r x) end.

(** [driver_standings[driver_standings['raceId'] == yy_last_race_id]] *)
Definition standings_at (ds : list DriverStandingRow.t) (last : option Z) : list DriverStandingRow.t :=
  List.filter (fun s => match last with
                        | Some i => Z.eqb (DriverStandingRow.raceId s) i
                        | None => false end) ds.

(** [results[results['raceId'].isin(race_ids_yy)]] *)
Definition results_yy (results : list ResultRow.t) (ids : list Z) : list ResultRow.t :=
  List.filter (fun r => existsb (Z.eqb (ResultRow.raceId r)) ids) results.

(** The columns of the unstacked count table: the positionOrder values
    that occur, ascending. *)
Definition count_columns (ryr : list ResultRow.t) : list Z :=
  sorted_asc (fun z => z) (first_occ (map ResultRow.positionOrder ryr)).

Definition count_of (ryr : list ResultRow.t) (d k : Z) : nat :=
  countb (fun r => Z.eqb (ResultRow.driverId r) d && Z.eqb (ResultRow.positionOrder r) k) ryr.

(** The row of [position_counts] for driver [d] on the given columns, [NaN]
    ([None]) for a driver without result that season (left merge). *)
Definition count_row (ryr : list ResultRow.t) (cols : list Z) (d : Z) : option (list nat) :=
  if existsb (fun r => Z.eqb (ResultRow.driverId r) d) ryr
  then Some (map (count_of ryr d) cols) else None.

(** [range(1, m + 1)] *)
Definition range1 (m : Z) : list Z := map Z.of_nat (seq 1 (Z.to_nat m)).

(** The sorted rows [(driver, points)] of the ranking frame. *)
Definition ranking_rows (drivers : list DriverRow.t) (results : list ResultRow.t)
    (races : list RaceRow.t) (driver_standings : list DriverStandingRow.t) (yy : Z)
    : result (list (option DriverRow.t * Q)) :=
  let ry := races_yy races yy in
  let standings := standings_at driver_standings (last_race_id ry) in
  let ryr := results_yy results (map RaceRow.raceId ry) in
  let cols := count_columns ryr in
  match last cols with
  | None => Raise TypeError
  | Some mx =>
      let cols_sort := range1 mx in
      let with_counts := map (fun s => (s, count_row ryr cols_sort (DriverStandingRow.driverId s))) standings in
      let merged := merge_left (fun p => DriverStandingRow.driverId p.1) DriverRow.driverId with_counts drivers in
      if forallb (fun k => bool_decide (k ∈ cols)) cols_sort then
        let sorted := sorted_desc (fun r => (DriverStandingRow.points r.1.1, r.1.2)) merged in
        if forallb (fun k => bool_decide (k ∈ cols)) (range1 10)
        then Ok (map (fun r => (r.2, DriverStandingRow.points r.1.1)) sorted)
        else Raise KeyError
      else Raise KeyError
  end.

(** The en dash of the title, as its UTF-8 bytes. *)
Definition endash : string := String "226" (String "128" (String "147" EmptyString)).

Definition season_title (yy : Z) : string := "Drivers' ranking " +:+ endash +:+ " Season " +:+ str_of_Z yy.

Definition rule48 : string := str_repeat "-" 48.

(** [f"{row['forename']} {row['surname']}"], ["nan nan"] after a failed merge. *)
Definition full_name (o : option DriverRow.t) : string :=
  match o with
  | Some d => DriverRow.forename d +:+ " " +:+ DriverRow.surname d
  | None => "nan nan"
  end.

Definition ranking (drivers : list DriverRow.t) (results : list ResultRow.t) (races : list RaceRow.t)
    (driver_standings : list DriverStandingRow.t) (yy : Z) : result string :=
  let* rows := ranking_rows drivers results races driver_standings yy in
  let lines := map (fun r => ljust (str_of_nat r.1) 10 +:+ ljust (full_name r.2.1) 25
                             +:+ fmt_fixed 1 r.2.2) (enumerate 1 rows) in
  Ok (join newline ([season_title yy; rule48; ljust "Rank" 10 +:+ ljust "Driver" 25 +:+ "Points"; rule48]
                    ++ lines ++ [rule48])).
End Pandas.

(** ** The last race of the season

    The homemade code takes [max] of the raceId strings, the pandas code
    [max] of the integer column.  Both agree when the ids of the season
    are written with the same number of digits; otherwise the string
    [max] can pick an earlier race. *)

Local Open Scope Z_scope.

(** The raceIds of a season are non-negative and written with the same
    number of digits. *)
Definition same_width (ids : list Z) : bool :=
  forallb (fun z => Z.leb 0 z && Nat.eqb (String.length (str_of_Z z)) (String.length (str_of_Z (hd 0 ids)))) ids.

Lemma str_of_Z_nonneg z : 0 <= z -> str_of_Z z = str_of_N (Z.to_N z).
Proof. by destruct z. Qed.

(** On non-negative ids of equal width, the string [<] is the integer [<]. *)
Lemma str_of_Z_lt a b :
  0 <= a -> 0 <= b -> String.length (str_of_Z a) = String.length (str_of_Z b) ->
  py_lt (str_of_Z a) (str_of_Z b) = Z.ltb a b.
Proof.
  intros Ha Hb. rewrite !str_of_Z_nonneg by done. intros Hlen.
  cbn [py_lt string_PyOrd]. unfold lt_of_cmp. rewrite compare_str_of_N by done.
  rewrite Z2N.inj_compare by done. done.
Qed.

Lemma same_width_lt ids a b :
  same_width ids = true -> In a ids -> In b ids -> py_lt (str_of_Z a) (str_of_Z b) = py_lt a b.
Proof.
  unfold same_width. rewrite forallb_forall. intros Hw Ha Hb.
  apply Hw in Ha as [Ha1 Ha2]%andb_prop. apply Hw in Hb as [Hb1 Hb2]%andb_prop.
  apply str_of_Z_lt; [lia|lia|]. apply Nat.eqb_eq in Ha2, Hb2. congruence.
Qed.

Lemma fold_left_Z_max r x :
  fold_left Z.max r x = fold_left (fun m y => if py_lt m y then y else m) r x.
Proof.
  revert x. induction r as [|y r IH]; intros x; simpl; [done|]. rewrite IH. f_equal.
  cbn [py_lt Z_PyOrd]. unfold Z.max, Z.ltb. by destruct (x ?= y).
Qed.

Lemma last_race_id_py_max ry :
  Pandas.last_race_id ry = match py_max (map RaceRow.raceId ry) with Ok m => Some m | Raise _ => None end.
Proof. unfold Pandas.last_race_id. destruct (map RaceRow.raceId ry); [done|]. by rewrite fold_left_Z_max. Qed.

Lemma races_yy_render rt yy :
  Homemade.races_yy (map render_race rt) yy = Ok (map render_race (Pandas.races_yy rt yy)).
Proof.
  unfold Homemade.races_yy, Pandas.races_yy.
  rewrite (filterM_Ok_map _ (fun line => match py_int (RaceCsv.year line) with
                                         | Ok y => Z.eqb y yy | Raise _ => false end)).
  - rewrite filter_map_comm. do 2 f_equal. apply List.filter_ext. intros r.
    cbn. by rewrite py_int_str_of_Z.
  - intros x [r [<- _]]%in_map_iff. unfold render_race. cbn [RaceCsv.year].
    by rewrite py_int_str_of_Z.
Qed.

Lemma races_yy_ids_render ry :
  Homemade.races_yy_ids (map render_race ry) = map str_of_Z (map RaceRow.raceId ry).
Proof. unfold Homemade.races_yy_ids. by rewrite !map_map. Qed.

(** C6: on a canonical races.csv, the homemade [max(races_yy_ids)] is the
    string of the pandas [races_yy['raceId'].max()] whenever the season's
    raceIds are non-negative and written with the same number of digits;
    a season without races raises [ValueError] in the homemade code where
    pandas gets [NaN]. *)
Theorem last_race_agree rt yy :
  same_width (map RaceRow.raceId (Pandas.races_yy rt yy)) = true ->
  (let* ry := Homemade.races_yy (map render_race rt) yy in py_max (Homemade.races_yy_ids ry))
  = match Pandas.last_race_id (Pandas.races_yy rt yy) with
    | Some m => Ok (str_of_Z m)
    | None => Raise ValueError
    end.
Proof.
  intros Hw. rewrite races_yy_render, bind_Ok, races_yy_ids_render, last_race_id_py_max.
  rewrite (py_max_map str_of_Z) by (intros; by apply (same_width_lt _ _ _ Hw)).
  by destruct (map RaceRow.raceId _).
Qed.

(** *** A season whose raceIds cross a power of ten *)

Definition rk_drivers : list DriverRow.t :=
  [DriverRow.mk 1 "Lewis" "Hamilton" "British"; DriverRow.mk 20 "Sebastian" "Vettel" "German";
   DriverRow.mk 8 "Kimi" "Raikkonen" "Finnish"].

Definition rk_races : list RaceRow.t :=
  [RaceRow.mk 998 2018 10 1; RaceRow.mk 999 2018 11 2; RaceRow.mk 1000 2018 12 3;
   RaceRow.mk 1001 2019 1 1].

Definition rk_results : list ResultRow.t :=
  [ResultRow.mk 999 20 6 1 "1" 1 1; ResultRow.mk 999 1 131 2 "2" 2 1; ResultRow.mk 999 8 6 3 "\N" 3 5;
   ResultRow.mk 1000 1 131 1 "1" 1 1; ResultRow.mk 1000 20 6 2 "2" 2 1; ResultRow.mk 1000 8 6 3 "3" 3 1].

Definition rk_standings : list DriverStandingCsv.t :=
  [DriverStandingCsv.mk "999" "20" "25"; DriverStandingCsv.mk "999" "1" "18";
   DriverStandingCsv.mk "999" "8" "0"; DriverStandingCsv.mk "1000" "20" "43";
   DriverStandingCsv.mk "1000" "1" "43"; DriverStandingCsv.mk "1000" "8" "15.5"].

(** C5: the homemade [max(races_yy_ids)] compares raceId strings: as
    soon as the season has a raceId whose decimal string sorts after
    that of its last race (999 after 1000), the homemade code takes the
    standings of another race of the season than the pandas code, the
    largest raceId as a string. *)
Theorem last_race_string_max rt yy a m :
  Pandas.last_race_id (Pandas.races_yy rt yy) = Some m ->
  In a (map RaceRow.raceId (Pandas.races_yy rt yy)) ->
  py_lt (str_of_Z m) (str_of_Z a) = true ->
  exists b, In b (map RaceRow.raceId (Pandas.races_yy rt yy)) /\ b <> m
    /\ (let* ry := Homemade.races_yy (map render_race rt) yy in py_max (Homemade.races_yy_ids ry))
       = Ok (str_of_Z b).
Proof.
  intros _ Ha Hlt. rewrite races_yy_render, bind_Ok, races_yy_ids_render.
  destruct (py_max (map str_of_Z (map RaceRow.raceId (Pandas.races_yy rt yy)))) as [s|e] eqn:E.
  - apply py_max_spec in E as [(b & <- & Hb)%in_map_iff Hall].
    exists b. split; [done|split; [|done]]. intros ->.
    pose proof (proj1 (List.Forall_forall _ _) Hall (str_of_Z a) (in_map _ _ _ Ha)) as Hf. cbv beta in Hf.
    congruence.
  - destruct (map RaceRow.raceId _); [done|discriminate].
Qed.

(** The ranking of such a season: the homemade code prints the
    standings after race 999 ("999" > "1000" as strings), pandas takes
    race 1000, where Vettel and Hamilton are level on 43 points. *)
Example ranking_string_max_example :
  Homemade.ranking_nopd (map render_driver rk_drivers) (map render_result rk_results)
    rk_standings (map render_race rk_races) 2018
  = Ok (join newline
          ["Drivers' ranking - Season 2018";
           "--------------------------------";
           "Rank   Driver             Points";
           "--------------------------------";
           "1      Sebastian Vettel       25";
           "2      Lewis Hamilton         18";
           "3      Kimi Raikkonen          0";
           "--------------------------------"])
  /\ Pandas.last_race_id (Pandas.races_yy rk_races 2018) = Some 1000.
Proof. split; vm_compute; reflexivity. Qed.

Lemma last_race_string_max_witness :
  exists b, In b (map RaceRow.raceId (Pandas.races_yy rk_races 2018)) /\ b <> 1000
    /\ (let* ry := Homemade.races_yy (map render_race rk_races) 2018 in py_max (Homemade.races_yy_ids ry))
       = Ok (str_of_Z b).
Proof.
  apply (last_race_string_max rk_races 2018 999 1000); [vm_compute; reflexivity | vm_compute; tauto | vm_compute; reflexivity].
Defined.

(** ** Ranks and order of the homemade ranking *)

Section HomemadeOrder.
Context (rwe : @dict string string) (fin : @dict string (list nat)) (names : @dict string string).

(** [float(ranking_with_exaequos[d])] *)
Definition points_of (d : string) : Q :=
  match dict_get d rwe with
  | Some s => match py_float s with Ok p => p | Raise _ => 0%Q end
  | None => 0%Q
  end.

(** [id_to_name[d]] *)
Definition ranked_name (d : string) : string :=
  match dict_get d names with Some n => n | None => EmptyString end.

Lemma points_of_float k v p :
  NoDup (dict_keys rwe) -> In (k, v) rwe -> py_float v = Ok p -> points_of k = p.
Proof. intros Hnd Hin Hp. unfold points_of. by rewrite (dict_get_In_nodup _ _ _ Hnd Hin), Hp. Qed.

(** [final_ranking_ids] is the stable descending sort of the keys on
    [(float(points), finishes)]. *)
Lemma final_ranking_ids_spec ids :
  NoDup (dict_keys rwe) -> Homemade.final_ranking_ids rwe fin = Ok ids ->
  ids = sorted_desc (fun d => (points_of d, Homemade.finishes_get fin d)) (dict_keys rwe).
Proof.
  intros Hnd. unfold Homemade.final_ranking_ids. intros (keyed & Hk & [= <-])%bind_Ok_inv.
  rewrite (mapM_Ok_map_in _ (fun kv => (kv.1, (points_of kv.1, Homemade.finishes_get fin kv.1))) _ _ Hk).
  - unfold dict_keys. rewrite <- (map_map fst (fun k => (k, (points_of k, Homemade.finishes_get fin k)))).
    rewrite (sorted_desc_map (fun d => (points_of d, Homemade.finishes_get fin d)) snd); [|done].
    rewrite map_map. apply map_id.
  - intros [k v] y Hin (p & Hp & [= <-])%bind_Ok_inv. simpl. by rewrite (points_of_float k v p).
Qed.

Lemma final_ranking_named_spec ids named :
  Homemade.final_ranking_named rwe names ids = Ok named ->
  named = map (fun rd => (rd.1, ranked_name rd.2, points_of rd.2)) (enumerate 1 ids).
Proof.
  unfold Homemade.final_ranking_named. intros Hm. apply (mapM_Ok_map_in _ _ _ _ Hm).
  intros [r d] y _. unfold dict_index, points_of, ranked_name. simpl.
  destruct (dict_get d names); [|done]. destruct (dict_get d rwe); [|done]. simpl.
  destruct (py_float s0); simpl; congruence.
Qed.
End HomemadeOrder.

Lemma ranking_with_exaequos_nodup ds id_last :
  NoDup (dict_keys (Homemade.ranking_with_exaequos ds id_last)).
Proof.
  unfold Homemade.ranking_with_exaequos.
  assert (H : NoDup (dict_keys (@nil (string * string)))) by constructor.
  revert H. generalize (@nil (string * string)).
  induction ds as [|l ds IH]; intros d Hd; simpl; [done|].
  apply IH. destruct (String.eqb _ _); [by apply dict_set_nodup|done].
Qed.

(** C7: the homemade ranking gives ranks 1..N without gap or repeat to the
    N drivers of the standings at the chosen race, each exactly once, and
    their points are non-increasing down the list. *)
Theorem homemade_ranks_sorted ds id_last fin names ids named :
  let rwe := Homemade.ranking_with_exaequos ds id_last in
  Homemade.final_ranking_ids rwe fin = Ok ids ->
  Homemade.final_ranking_named rwe names ids = Ok named ->
  map (fun r => r.1.1) named = seq 1 (length rwe)
  /\ Sorted (fun a b => (b.2 <= a.2)%Q) named
  /\ Permutation ids (dict_keys rwe).
Proof.
  intros rwe Hids Hnamed. pose proof (ranking_with_exaequos_nodup ds id_last) as Hnd.
  apply final_ranking_ids_spec in Hids; [|done]. apply final_ranking_named_spec in Hnamed. subst.
  split; [|split].
  - rewrite map_map. erewrite map_ext; [rewrite enumerate_fst|done].
    by rewrite (Permutation_length (sorted_desc_perm _ _)); unfold dict_keys; rewrite length_map.
  - apply (Sorted_map_impl (fun a b => (points_of rwe b.2 <= points_of rwe a.2)%Q)); [done|].
    apply (Sorted_enumerate (fun a b => (points_of rwe b <= points_of rwe a)%Q)).
    apply sorted_desc_points.
  - apply sorted_desc_perm.
Qed.

Lemma homemade_ranks_sorted_witness :
  let rwe := Homemade.ranking_with_exaequos rk_standings "1000" in
  let fin := match Homemade.finishes (map render_result rk_results) ["998"; "999"; "1000"] with
             | Ok f => f | Raise _ => [] end in
  let names := Homemade.id_to_name (map render_driver rk_drivers) in
  let named := match Homemade.final_ranking_named rwe names ["20"; "1"; "8"] with
               | Ok n => n | Raise _ => [] end in
  map (fun r => r.1.1) named = seq 1 (length rwe)
  /\ Sorted (fun a b => (b.2 <= a.2)%Q) named
  /\ Permutation ["20"; "1"; "8"] (dict_keys rwe).
Proof.
  intros rwe fin names named.
  apply (homemade_ranks_sorted rk_standings "1000" fin names ["20"; "1"; "8"] named);
    vm_compute; reflexivity.
Defined.

(** ** Order of the pandas ranking *)

(** When the pandas ranking succeeds, its points are non-increasing
    down the table and, on a drivers table with unique ids, they are the
    points of the standings at the season's last race, each once. *)
Theorem pandas_ranks_sorted drivers results races ds yy rows :
  NoDup (map DriverRow.driverId drivers) ->
  Pandas.ranking_rows drivers results races ds yy = Ok rows ->
  Sorted (fun a b => (b.2 <= a.2)%Q) rows
  /\ Permutation (map snd rows)
       (map DriverStandingRow.points (Pandas.standings_at ds (Pandas.last_race_id (Pandas.races_yy races yy)))).
Proof.
  intros Hnd. unfold Pandas.ranking_rows.
  destruct (last _) as [mx|]; [|discriminate]. repeat case_match; try discriminate.
  intros [= <-]. split.
  - apply (Sorted_map_impl (fun a b => (DriverStandingRow.points b.1.1 <= DriverStandingRow.points a.1.1)%Q));
      [done|].
    apply (sorted_desc_points (fun r => DriverStandingRow.points r.1.1) (fun r => r.1.2)).
  - rewrite map_map. cbn [snd].
    rewrite (Permutation_map _ (sorted_desc_perm _ _)).
    rewrite <- (map_map fst (fun r => DriverStandingRow.points r.1)), merge_left_fst by done.
    by rewrite map_map.
Qed.

(** ** A season without races *)

(** C8: for a year without races, both strategies raise instead of
    returning an empty ranking: the homemade code [ValueError] from
    [max()] of an empty list, the pandas code [TypeError] from
    [range(1, NaN)] (the count table has no column). *)
Theorem empty_season_raises drivers results ds_csv ds races yy :
  Forall (fun r => RaceRow.year r <> yy) races ->
  Homemade.ranking_nopd (map render_driver drivers) (map render_result results) ds_csv
    (map render_race races) yy = Raise ValueError
  /\ Pandas.ranking drivers results races ds yy = Raise TypeError.
Proof.
  intros Hno. assert (Hry : Pandas.races_yy races yy = []).
  { apply filter_none. intros r Hr. apply Z.eqb_neq. by apply (proj1 (List.Forall_forall _ _) Hno). }
  split.
  - unfold Homemade.ranking_nopd. by rewrite races_yy_render, Hry.
  - assert (Hres : Pandas.results_yy results [] = []) by (by apply filter_none).
    unfold Pandas.ranking, Pandas.ranking_rows. rewrite Hry. cbn [map]. by rewrite Hres.
Qed.

(** *** A season with ten classified finishers per race *)

Definition ex10_ids : list Z := map Z.of_nat (seq 1 10).

Definition ex10_drivers : list DriverRow.t :=
  map (fun i => DriverRow.mk i ("F" +:+ str_of_Z i) ("S" +:+ str_of_Z i) "X") ex10_ids.

Definition ex10_races : list RaceRow.t := [RaceRow.mk 1030 2020 1 1; RaceRow.mk 1031 2020 2 2].

(** Race 1030 finishes in driver order, race 1031 in reverse order. *)
Definition ex10_results : list ResultRow.t :=
  map (fun i => ResultRow.mk 1030 i 1 i (str_of_Z i) i 1) ex10_ids
  ++ map (fun i => ResultRow.mk 1031 i 1 i (str_of_Z (11 - i)) (11 - i) 1) ex10_ids.

Definition ex10_standings_csv : list DriverStandingCsv.t :=
  map (fun i => DriverStandingCsv.mk "1031" (str_of_Z i)
                  (if Z.leb i 2 then "26" else if Z.eqb i 3 then "8.5" else "4")) ex10_ids.

Definition ex10_standings : list DriverStandingRow.t :=
  match mapM read_driver_standing ex10_standings_csv with Ok l => l | Raise _ => [] end.

Lemma last_race_agree_witness :
  (let* ry := Homemade.races_yy (map render_race ex10_races) 2020 in py_max (Homemade.races_yy_ids ry))
  = match Pandas.last_race_id (Pandas.races_yy ex10_races 2020) with
    | Some m => Ok (str_of_Z m)
    | None => Raise ValueError
    end.
Proof. apply last_race_agree. vm_compute. reflexivity. Defined.

Lemma pandas_ranks_sorted_witness :
  let rows := match Pandas.ranking_rows ex10_drivers ex10_results ex10_races ex10_standings 2020 with
              | Ok r => r | Raise _ => [] end in
  Sorted (fun a b => (b.2 <= a.2)%Q) rows
  /\ Permutation (map snd rows)
       (map DriverStandingRow.points
          (Pandas.standings_at ex10_standings (Pandas.last_race_id (Pandas.races_yy ex10_races 2020)))).
Proof.
  intros rows. apply (pandas_ranks_sorted ex10_drivers ex10_results ex10_races ex10_standings 2020 rows).
  - apply (bool_decide_eq_true_1 _). vm_compute. reflexivity.
  - vm_compute. reflexivity.
Defined.

Lemma empty_season_raises_witness :
  Homemade.ranking_nopd (map render_driver rk_drivers) (map render_result rk_results) rk_standings
    (map render_race rk_races) 2017 = Raise ValueError
  /\ Pandas.ranking rk_drivers rk_results rk_races [] 2017 = Raise TypeError.
Proof.
  apply empty_season_raises. apply (bool_decide_eq_true_1 _). vm_compute. reflexivity.
Defined.

(** The two strategies print different points: on a season where a
    driver has 8.5 points, both rank the same drivers in the same order,
    but the homemade table prints [int(points)] (8) and the pandas table
    [f"{points:.1f}"] (8.5). *)
Example ranking_points_truncated :
  Homemade.ranking_nopd (map render_driver ex10_drivers) (map render_result ex10_results)
    ex10_standings_csv (map render_race ex10_races) 2020
  = Ok (join newline
          ["Drivers' ranking - Season 2020"; "-----------------------";
           "Rank   Driver    Points"; "-----------------------";
           "1      F1 S1         26"; "2      F2 S2         26"; "3      F3 S3          8";
           "4      F10 S10        4"; "5      F9 S9          4"; "6      F8 S8          4";
           "7      F4 S4          4"; "8      F7 S7          4"; "9      F5 S5          4";
           "10     F6 S6          4"; "-----------------------"])
  /\ Pandas.ranking ex10_drivers ex10_results ex10_races ex10_standings 2020
  = Ok (join newline
          ["Drivers' ranking " +:+ Pandas.endash +:+ " Season 2020"; Pandas.rule48;
           "Rank      Driver                   Points"; Pandas.rule48;
           "1         F1 S1                    26.0"; "2         F2 S2                    26.0";
           "3         F3 S3                    8.5"; "4         F10 S10                  4.0";
           "5         F9 S9                    4.0"; "6         F8 S8                    4.0";
           "7         F4 S4                    4.0"; "8         F7 S7                    4.0";
           "9         F5 S5                    4.0"; "10        F6 S6                    4.0";
           Pandas.rule48]).
Proof. split; vm_compute; reflexivity. Qed.
