(* ===== verification/MeanGrid.v ===== *)
(** * Query "a driver's mean grid position" (question q1)

    [Homemade] models [driver_mean_grid_nopd] of
    src/analysis/homemade/q1.py: the first driver whose forename and
    surname match (a [for] loop with [break]; no match leaves [driver_Id]
    unbound), the [int()] of the grid cells of that driver's results, and
    [round(sum(l)/len(l))].  [Pandas] models [driver_mean_grid] of
    src/analysis/pandas/q1.py: the [squeeze] of the matching driverIds
    (one id, or an error), the grid column of that driver's results and
    [round(mean)].  Averages are the exact rationals: for lists of at most
    a few thousand grid values the double [sum/len] is never close enough
    to a half-integer for [round] to differ. *)

From S2P Require Import Prelude PySort PyStr PyNum Tables.

(** [f"{first_name} {last_name}'s mean position on the grid is {r}"] *)
Definition mean_sentence (first_name last_name : string) (r : Z) : string :=
  first_name +:+ " " +:+ last_name +:+ "'s mean position on the grid is " +:+ str_of_Z r.

Module Homemade.

(** [for line in drivers: if ...: driver_Id = line['driverId']; break] *)
Definition find_driver_id (drivers : list DriverCsv.t) (first_name last_name : string) : option string :=
  option_map DriverCsv.driverId
    (List.find (fun line => String.eqb (DriverCsv.forename line) first_name
                            && String.eqb (DriverCsv.surname line) last_name) drivers).

(** [driver_grid_list.append(int(line['grid']))] for the driver's lines. *)
Definition driver_grid_list (results : list ResultCsv.t) (driver_Id : string) : result (list Z) :=
  mapM (fun line => py_int (ResultCsv.grid line))
    (List.filter (fun line => String.eqb (ResultCsv.driverId line) driver_Id) results).

(** [round(sum(l)/len(l))]: [ZeroDivisionError] on an empty list. *)
Definition mean_position (l : list Z) : result Z :=
  match l with
  | [] => Raise ZeroDivisionError
  | _ => Ok (py_round (mean_Q l))
  end.

Definition driver_mean_grid_nopd (drivers : list DriverCsv.t) (results : list ResultCsv.t)
    (first_name last_name : string) : result string :=
  match find_driver_id drivers first_name last_name with
  | None =>
      (* [driver_Id] is read at the first line of results; with no line
         the loop is skipped and [len([])] is 0 *)
      match results with [] => Raise ZeroDivisionError | _ :: _ => Raise UnboundLocalError end
  | Some driver_Id =>
      let* grids := driver_grid_list results driver_Id in
      let* r := mean_position grids in
      Ok (mean_sentence first_name last_name r)
  end.
End Homemade.

Module Pandas.

(** [drivers[(forename == first_name) & (surname == last_name)]['driverId']] *)
Definition matching_ids (drivers : list DriverRow.t) (first_name last_name : string) : list Z :=
  map DriverRow.driverId
    (List.filter (fun d => String.eqb (DriverRow.forename d) first_name
                           && String.eqb (DriverRow.surname d) last_name) drivers).

(** What [.squeeze()] returns: the scalar of a one-row Series, the
    Series itself for no row or several. *)
Inductive squeezed := Scalar (i : Z) | SeriesOf (ids : list Z).

Definition squeeze (ids : list Z) : squeezed :=
  match ids with [i] => Scalar i | _ => SeriesOf ids end.

(** [pd.isna] of an [int64] cell: [driverId] has no missing value. *)
Definition isna_Z (i : Z) : bool := false.

(** The message of [Series.__bool__]. *)
Definition ambiguous_truth : string :=
  "The truth value of a Series is ambiguous. Use a.empty, a.bool(), a.item(), a.any() or a.all().".

(** [driver_id = ... .squeeze()], then [if pd.isna(driver_id): raise
    ValueError('Driver not found')] (lines 28-32): on a scalar, [isna] is
    a boolean; on a Series it is a Series of booleans, whose truth test
    raises. *)
Definition squeeze_id (ids : list Z) : result Z :=
  match squeeze ids with
  | Scalar i => if isna_Z i then Raise (ValueErrorWith "Driver not found") else Ok i
  | SeriesOf _ => Raise (ValueErrorWith ambiguous_truth)
  end.

(** [results[results['driverId'] == driver_id]['grid']] *)
Definition driver_grids (results : list ResultRow.t) (driver_id : Z) : list Z :=
  map ResultRow.grid (List.filter (fun r => Z.eqb (ResultRow.driverId r) driver_id) results).

(** [round(series.mean())]: the mean of an empty column is [NaN] and
    [round(NaN)] raises [ValueError].  Otherwise the mean is the sum of
    the [int64] column (exact) divided by its length, rounded once to a
    double; a quotient [p/n] that is not a half is at least [1/(2n)]
    away from one, far more than that rounding, so [round] (half to
    even) sees the exact quotient.  [round] of a NumPy float without
    [ndigits] is taken to return a Python [int], as recent NumPy does
    (older versions returned a float, which the sentence would print as
    [2.0]); the repository pins no version. *)
Definition round_mean (l : list Z) : result Z :=
  match l with
  | [] => Raise (ValueErrorWith "cannot convert float NaN to integer")
  | _ => Ok (py_round (mean_Q l))
  end.

Definition driver_mean_grid (drivers : list DriverRow.t) (results : list ResultRow.t)
    (first_name last_name : string) : result string :=
  let* driver_id := squeeze_id (matching_ids drivers first_name last_name) in
  let* r := round_mean (driver_grids results driver_id) in
  Ok (mean_sentence first_name last_name r).
End Pandas.

(** ** The two lookups on the same drivers and results *)

Lemma find_map {A B} (p : B -> bool) (f : A -> B) l :
  List.find p (map f l) = option_map f (List.find (fun x => p (f x)) l).
Proof. induction l as [|x l IH]; simpl; [done|]. by destruct (p (f x)). Qed.

Lemma find_head_filter {A} (p : A -> bool) l : List.find p l = head (List.filter p l).
Proof. induction l as [|x l IH]; simpl; [done|]. by destruct (p x). Qed.

Lemma find_driver_id_render dt first_name last_name :
  Homemade.find_driver_id (map render_driver dt) first_name last_name
  = option_map str_of_Z (head (Pandas.matching_ids dt first_name last_name)).
Proof.
  unfold Homemade.find_driver_id, Pandas.matching_ids.
  rewrite find_map, find_head_filter. by destruct (List.filter _ dt).
Qed.

Lemma driver_grid_list_render rt i :
  Homemade.driver_grid_list (map render_result rt) (str_of_Z i) = Ok (Pandas.driver_grids rt i).
Proof.
  unfold Homemade.driver_grid_list, Pandas.driver_grids. rewrite filter_map_comm.
  rewrite (List.filter_ext _ (fun r => Z.eqb (ResultRow.driverId r) i))
    by (intros r; apply str_of_Z_eqb).
  apply mapM_map_Ok. intros r _. apply py_int_str_of_Z.
Qed.

(** C9: on canonical drivers.csv and results.csv, when exactly one driver
    has the given forename and surname, the homemade and pandas mean grid
    sentences are the same; the only difference is the error for a
    driver without results (homemade [ZeroDivisionError] from [len] 0,
    pandas [ValueError] from [round(NaN)]). *)
Theorem mean_grid_strategies_agree dt rt first_name last_name i :
  Pandas.matching_ids dt first_name last_name = [i] ->
  Homemade.driver_mean_grid_nopd (map render_driver dt) (map render_result rt) first_name last_name
  = match Pandas.driver_grids rt i with
    | [] => Raise ZeroDivisionError
    | _ => Pandas.driver_mean_grid dt rt first_name last_name
    end.
Proof.
  intros Hm. unfold Homemade.driver_mean_grid_nopd, Pandas.driver_mean_grid.
  rewrite find_driver_id_render, Hm. simpl. rewrite driver_grid_list_render, bind_Ok.
  by destruct (Pandas.driver_grids rt i).
Qed.

(** [ValueError('Driver not found')] is raised by no input: a Series
    raises at its truth test and an [int64] id is never [NaN]; nor does
    [round] raise it. *)
Lemma driver_mean_grid_not_driver_not_found dt rt first_name last_name :
  Pandas.driver_mean_grid dt rt first_name last_name <> Raise (ValueErrorWith "Driver not found").
Proof.
  unfold Pandas.driver_mean_grid, Pandas.squeeze_id, Pandas.squeeze.
  destruct (Pandas.matching_ids dt first_name last_name) as [|i [|j l]]; cbn; [done| |done].
  by destruct (Pandas.driver_grids rt i).
Qed.

(** C10: a name that matches no driver is not reported as such: the
    homemade code raises [UnboundLocalError] (the loop variable was never
    set) and the pandas code raises [ValueError] with the message of the
    truth test of a Series ("The truth value of a Series is ambiguous"),
    because [squeeze] leaves the empty Series a Series; and on no input
    at all does the pandas code raise [ValueError('Driver not found')]. *)
Theorem mean_grid_not_found dt rt first_name last_name :
  Pandas.matching_ids dt first_name last_name = [] -> rt <> [] ->
  Homemade.driver_mean_grid_nopd (map render_driver dt) (map render_result rt) first_name last_name
    = Raise UnboundLocalError
  /\ Pandas.driver_mean_grid dt rt first_name last_name = Raise (ValueErrorWith Pandas.ambiguous_truth)
  /\ (forall dt' rt' f l, Pandas.driver_mean_grid dt' rt' f l <> Raise (ValueErrorWith "Driver not found")).
Proof.
  intros Hm Hrt. split; [|split; [|apply driver_mean_grid_not_driver_not_found]].
  - unfold Homemade.driver_mean_grid_nopd. rewrite find_driver_id_render, Hm. by destruct rt.
  - unfold Pandas.driver_mean_grid, Pandas.squeeze_id. by rewrite Hm.
Qed.

(** ** The rounded mean stays between the extreme grid positions *)

(** When every grid value of the driver is between [lo] and [hi],
    so is the rounded mean the homemade code prints (and, the formula
    being the same, the pandas one). *)
Theorem mean_position_between lo hi l r :
  Forall (fun g => (lo <= g <= hi)%Z) l -> Homemade.mean_position l = Ok r -> (lo <= r <= hi)%Z.
Proof.
  intros Hb. unfold Homemade.mean_position. destruct l as [|g l'] eqn:E; [discriminate|].
  intros [= <-]. rewrite <- E in Hb |- *.
  destruct (mean_Q_bounds lo hi l) as [H1 H2]; [by subst|done|].
  by apply py_round_between.
Qed.

(** ** Examples *)

Definition mg_drivers : list DriverRow.t :=
  [DriverRow.mk 1 "Lewis" "Hamilton" "British"; DriverRow.mk 30 "Michael" "Schumacher" "German";
   DriverRow.mk 49 "Ralf" "Schumacher" "German"].

Definition mg_results : list ResultRow.t :=
  [ResultRow.mk 18 1 1 1 "1" 1 1; ResultRow.mk 18 30 6 2 "2" 2 1; ResultRow.mk 19 1 1 2 "2" 2 1;
   ResultRow.mk 19 30 6 3 "3" 3 1; ResultRow.mk 20 1 1 3 "1" 1 1; ResultRow.mk 20 49 7 5 "\N" 9 5].

(** The spec's example: grid positions 1, 2 and 3 give a mean grid
    position of 2 in both strategies; 2 and 3 give [round(2.5)] = 2
    (ties to even) in both. *)
Example mean_grid_spec_example :
  Homemade.driver_mean_grid_nopd (map render_driver mg_drivers) (map render_result mg_results) "Lewis" "Hamilton"
    = Ok "Lewis Hamilton's mean position on the grid is 2"
  /\ Pandas.driver_mean_grid mg_drivers mg_results "Lewis" "Hamilton"
    = Ok "Lewis Hamilton's mean position on the grid is 2"
  /\ Homemade.driver_mean_grid_nopd (map render_driver mg_drivers) (map render_result mg_results) "Michael" "Schumacher"
    = Ok "Michael Schumacher's mean position on the grid is 2"
  /\ Pandas.driver_mean_grid mg_drivers mg_results "Michael" "Schumacher"
    = Ok "Michael Schumacher's mean position on the grid is 2".
Proof. repeat split; vm_compute; reflexivity. Qed.

(** Two drivers with the same name: the homemade code silently
    averages the first one's grids, the pandas code raises the
    [ValueError] of the truth test of a Series. *)
Example mean_grid_homonyms :
  let dt := mg_drivers ++ [DriverRow.mk 900 "Lewis" "Hamilton" "British"] in
  let rt := mg_results ++ [ResultRow.mk 21 900 3 20 "\N" 20 3] in
  Homemade.driver_mean_grid_nopd (map render_driver dt) (map render_result rt) "Lewis" "Hamilton"
    = Ok "Lewis Hamilton's mean position on the grid is 2"
  /\ Pandas.driver_mean_grid dt rt "Lewis" "Hamilton" = Raise (ValueErrorWith Pandas.ambiguous_truth).
Proof. split; vm_compute; reflexivity. Qed.

Lemma mean_grid_strategies_agree_witness :
  Homemade.driver_mean_grid_nopd (map render_driver mg_drivers) (map render_result mg_results) "Ralf" "Schumacher"
  = match Pandas.driver_grids mg_results 49 with
    | [] => Raise ZeroDivisionError
    | _ => Pandas.driver_mean_grid mg_drivers mg_results "Ralf" "Schumacher"
    end.
Proof. apply mean_grid_strategies_agree. vm_compute. reflexivity. Defined.

Lemma mean_grid_not_found_witness :
  Homemade.driver_mean_grid_nopd (map render_driver mg_drivers) (map render_result mg_results) "Ayrton" "Senna"
    = Raise UnboundLocalError
  /\ Pandas.driver_mean_grid mg_drivers mg_results "Ayrton" "Senna" = Raise (ValueErrorWith Pandas.ambiguous_truth)
  /\ (forall dt' rt' f l, Pandas.driver_mean_grid dt' rt' f l <> Raise (ValueErrorWith "Driver not found")).
Proof. apply mean_grid_not_found; [vm_compute; reflexivity | discriminate]. Defined.

Lemma mean_position_between_witness : (1 <= 2 <= 3)%Z.
Proof. apply (mean_position_between 1 3 [1; 2; 3]%Z 2); [repeat constructor; lia | vm_compute; reflexivity]. Defined.
