(* ===== verification/Dnf.v ===== *)
(** * Query "drivers with the most DNFs" (question q2)

    [HomemadeQ2] models [get_driver_with_most_dnfs_nopd] of
    src/analysis/homemade/q2.py: the list of finished and excluded statuses
    (seven names and ["+i Laps"] for [i] in [range(2, 100)]), the statusIds
    of the other statuses, the results with such a statusId, the count
    dict per driverId, the first three of its stable descending sort, the
    names and [format_dict].  [PandasQ2] models
    [get_driver_with_most_dnfs] of src/analysis/pandas/q2.py: the regular
    expression that classifies a status as finished or excluded, the
    [isin] filters, [value_counts().head(3)] (a descending sort whose tie
    order pandas does not fix, hence the [SortValues] interface) and the
    line layout. *)

From S2P Require Import Prelude PySort PyStr PyNum PyDict Tables Frame.

Module HomemadeQ2.

(** [finished_and_excluded_status], with the [for i in range(2, 100)] loop. *)
Definition finished_and_excluded_status : list string :=
  ["Finished"; "+1 Lap"; "Withdrew"; "Did not start"; "Did not qualify";
   "Did not prequalify"; "107% Rule"]
  ++ map (fun i => "+" +:+ str_of_nat i +:+ " Laps") (seq 2 98).

Definition dnf_status_ids (status : list StatusCsv.t) : list string :=
  map StatusCsv.statusId
    (List.filter (fun line => negb (bool_decide (StatusCsv.status line ∈ finished_and_excluded_status)))
       status).

Definition dnf_results (results : list ResultCsv.t) (ids : list string) : list ResultCsv.t :=
  List.filter (fun line => bool_decide (ResultCsv.statusId line ∈ ids)) results.

(** [if line['driverId'] in dnf_counts.keys(): += 1 else: = 1] *)
Definition dnf_counts (dnfs : list ResultCsv.t) : @dict string nat :=
  count_by ResultCsv.driverId dnfs.

(** [dict(sorted(dnf_counts.items(), key=lambda x: x[1], reverse=True)[:3])] *)
Definition top3_dnf (counts : @dict string nat) : @dict string nat :=
  dict_of_list (firstn 3 (sorted_desc snd counts)).

Definition id_to_name (drivers : list DriverCsv.t) : @dict string string :=
  dict_of_list (map (fun d => (DriverCsv.driverId d, DriverCsv.forename d +:+ " " +:+ DriverCsv.surname d))
                  drivers).

(** [{id_to_name[driver_id]: count for driver_id, count in top3_dnf.items()}] *)
Definition top3_dnf_named (names : @dict string string) (top3 : @dict string nat)
    : result (@dict string nat) :=
  let* pairs := mapM (fun kv => let* nm := dict_index kv.1 names in Ok (nm, kv.2)) top3 in
  Ok (dict_of_list pairs).

Definition format_dict (dico : @dict string nat) (title : string) : result string :=
  let sorted_items := sorted_desc snd dico in
  let* max_name := py_max (map String.length (dict_keys dico)) in
  let driver_width := Nat.max (String.length "Driver") max_name in
  let* max_dnfs := py_max (map (fun kv => String.length (str_of_nat kv.2)) dico) in
  let wins_width := Nat.max (String.length "Wins") max_dnfs in
  let line := str_repeat "-" (2 * (driver_width + wins_width + 5)) in
  let header := center "Driver" driver_width +:+ "        " +:+ center "DNFs" wins_width in
  let rows := map (fun kv => ljust kv.1 driver_width +:+ "         " +:+ rjust (str_of_nat kv.2) wins_width)
                sorted_items in
  Ok (join newline ([title; line; header; line] ++ rows ++ [line])).

Definition get_driver_with_most_dnfs_nopd (results : list ResultCsv.t) (status : list StatusCsv.t)
    (drivers : list DriverCsv.t) : result string :=
  let ids := dnf_status_ids status in
  let counts := dnf_counts (dnf_results results ids) in
  let top3 := top3_dnf counts in
  let* named := top3_dnf_named (id_to_name drivers) top3 in
  format_dict named "Drivers with most DNFs".
End HomemadeQ2.

Module PandasQ2.

(** [re.match] of [^(...)$]: [$] also matches before a final newline. *)
Definition full_match (l target : list ascii) : bool :=
  bool_decide (l = target) || bool_decide (l = target ++ ["010"%char]).

Definition named_statuses : list string :=
  ["Finished"; "Withdrew"; "Did not start"; "Did not qualify"; "Did not prequalify"; "107% Rule"].

(** [\+\d+ Lap[s]?]: a plus sign, the longest run of digits (at least
    one), then [" Lap"] or [" Laps"]. *)
Definition lap_deficit (l : list ascii) : bool :=
  match l with
  | "+"%char :: t =>
      let '(ds, rest) := span_digits t in
      match ds with
      | [] => false
      | _ :: _ => full_match rest (list_ascii_of_string " Lap") || full_match rest (list_ascii_of_string " Laps")
      end
  | _ => false
  end.

(** [status['status'].str.match(r'^(Finished|\+\d+ Lap[s]?|Withdrew|...)$')] *)
Definition status_match (s : string) : bool :=
  let l := list_ascii_of_string s in
  existsb (fun n => full_match l (list_ascii_of_string n)) named_statuses || lap_deficit l.

Definition finished_and_excluded_status (status : list StatusRow.t) : list string :=
  map StatusRow.status (List.filter (fun st => status_match (StatusRow.status st)) status).

(** [status[~status['status'].isin(finished_and_excluded_status)]['statusId']] *)
Definition dnf_status_ids (status : list StatusRow.t) (fe : list string) : list Z :=
  map StatusRow.statusId (List.filter (fun st => negb (bool_decide (StatusRow.status st ∈ fe))) status).

Definition dnf_results (results : list ResultRow.t) (ids : list Z) : list ResultRow.t :=
  List.filter (fun r => bool_decide (ResultRow.statusId r ∈ ids)) results.

Definition rule53 : string := str_repeat "-" 53.

Section WithSort.
Context `{SortValues}.

(** [dnf_results['driverId'].value_counts().head(3)] *)
Definition dnf_counts (dnfs : list ResultRow.t) : list (Z * nat) :=
  firstn 3 (sort_values_desc snd (count_by ResultRow.driverId dnfs)).

(** [drivers[drivers['driverId'] == driver_id].iloc[0]] and the line. *)
Definition driver_line (drivers : list DriverRow.t) (kv : Z * nat) : result string :=
  match List.filter (fun d => Z.eqb (DriverRow.driverId d) kv.1) drivers with
  | d :: _ => Ok (ljust (DriverRow.forename d +:+ " " +:+ DriverRow.surname d) 25 +:+ " "
                  +:+ rjust (str_of_nat kv.2) 5 +:+ " DNFs")
  | [] => Raise IndexError
  end.

Definition get_driver_with_most_dnfs (results : list ResultRow.t) (status : list StatusRow.t)
    (drivers : list DriverRow.t) : result string :=
  let fe := finished_and_excluded_status status in
  let counts := dnf_counts (dnf_results results (dnf_status_ids status fe)) in
  let* lines := mapM (driver_line drivers) counts in
  Ok (join newline (["Drivers with most DNFs"; rule53] ++ lines ++ [rule53])).
End WithSort.
End PandasQ2.

(** ** Classifying the statuses *)

(** [f"+{i} Laps"] *)
Definition laps_status (k : nat) : string := "+" +:+ str_of_nat k +:+ " Laps".

Lemma laps_status_ascii k :
  list_ascii_of_string (laps_status k)
  = "+"%char :: list_ascii_of_string (str_of_nat k) ++ list_ascii_of_string " Laps".
Proof. unfold laps_status. by rewrite !list_ascii_app. Qed.

Lemma list_ascii_inj s1 s2 : list_ascii_of_string s1 = list_ascii_of_string s2 -> s1 = s2.
Proof. intros E. by rewrite <- (string_of_list_ascii_of_string s1), E, string_of_list_ascii_of_string. Qed.

Lemma laps_status_inj a b : laps_status a = laps_status b -> a = b.
Proof.
  intros E%(f_equal list_ascii_of_string). rewrite !laps_status_ascii in E.
  injection E as E%app_inv_tail. by apply str_of_nat_inj, list_ascii_inj.
Qed.

(** Every ["+k Laps"] is a lap deficit for the regular expression. *)
Lemma laps_status_deficit k : PandasQ2.lap_deficit (list_ascii_of_string (laps_status k)) = true.
Proof.
  rewrite laps_status_ascii. unfold PandasQ2.lap_deficit.
  rewrite span_digits_app by (apply str_of_nat_digits || done).
  destruct (list_ascii_of_string (str_of_nat k)) eqn:E; [by destruct (str_of_nat_nonempty k)|].
  done.
Qed.

Lemma full_match_plain l t :
  last l <> Some "010"%char -> PandasQ2.full_match l t = bool_decide (l = t).
Proof.
  intros Hl. unfold PandasQ2.full_match. rewrite (bool_decide_eq_false_2 (l = t ++ _)); [apply orb_false_r|].
  intros ->. apply Hl. by rewrite last_snoc.
Qed.

Lemma existsb_full_match s names :
  last (list_ascii_of_string s) <> Some "010"%char ->
  existsb (fun n => PandasQ2.full_match (list_ascii_of_string s) (list_ascii_of_string n)) names
  = bool_decide (s ∈ names).
Proof.
  intros Hl. induction names as [|n names IH]; simpl; [done|].
  rewrite full_match_plain, IH by done.
  destruct (decide (list_ascii_of_string s = list_ascii_of_string n)) as [E|E].
  - rewrite bool_decide_eq_true_2 by done. apply list_ascii_inj in E. subst.
    symmetry. apply bool_decide_eq_true_2. set_solver.
  - rewrite bool_decide_eq_false_2 by done. simpl. apply bool_decide_ext. rewrite elem_of_cons.
    split; [auto|]. intros [->|]; [done|auto].
Qed.

Lemma homemade_excluded_iff s :
  s ∈ HomemadeQ2.finished_and_excluded_status
  <-> s ∈ PandasQ2.named_statuses \/ s = "+1 Lap" \/ exists i, 2 <= i <= 99 /\ s = laps_status i.
Proof.
  unfold HomemadeQ2.finished_and_excluded_status. rewrite elem_of_app, !list_elem_of_In.
  rewrite in_map_iff. setoid_rewrite in_seq. unfold PandasQ2.named_statuses. simpl. split.
  - intros [H|(i & <- & Hi)]; [intuition auto|]. right; right. exists i. split; [lia|done].
  - intros [H|[->|(i & Hi & ->)]]; [intuition auto|auto|]. right. exists i. split; [done|lia].
Qed.

Lemma laps_status_not_named k : laps_status k ∉ PandasQ2.named_statuses.
Proof.
  intros Hn. apply list_elem_of_In in Hn. simpl in Hn.
  repeat destruct Hn as [Hn|Hn]; try done;
    apply (f_equal list_ascii_of_string) in Hn; rewrite laps_status_ascii in Hn; discriminate.
Qed.

Lemma laps_status_ne_one_lap k : laps_status k <> "+1 Lap".
Proof.
  intros E%(f_equal list_ascii_of_string). rewrite laps_status_ascii in E.
  injection E as E%(f_equal length). rewrite length_app in E. simpl in E.
  pose proof (str_of_nat_nonempty k). destruct (list_ascii_of_string (str_of_nat k)); [done|].
  simpl in E. lia.
Qed.

(** C12: the two strategies disagree on lap deficits: the regular
    expression treats every ["+k Laps"] as a finished race, the homemade
    list only those with [2 <= k <= 99] (so ["+0 Laps"], ["+1 Laps"] and
    ["+100 Laps"] count as DNFs there). *)
Theorem laps_status_classification k :
  PandasQ2.status_match (laps_status k) = true
  /\ bool_decide (laps_status k ∈ HomemadeQ2.finished_and_excluded_status) = (2 <=? k) && (k <=? 99).
Proof.
  split; [unfold PandasQ2.status_match; by rewrite laps_status_deficit, orb_true_r|].
  destruct (decide (2 <= k <= 99)) as [Hk|Hk].
  - rewrite bool_decide_eq_true_2; [symmetry; apply andb_true_iff; split; apply Nat.leb_le; lia|].
    apply homemade_excluded_iff. right; right. eauto.
  - rewrite bool_decide_eq_false_2.
    + symmetry. destruct (2 <=? k) eqn:E1, (k <=? 99) eqn:E2; try done.
      apply Nat.leb_le in E1, E2. lia.
    + rewrite homemade_excluded_iff. intros [Hn|[E|(i & Hi & E)]].
      * by apply (laps_status_not_named k).
      * by apply (laps_status_ne_one_lap k).
      * apply laps_status_inj in E. lia.
Qed.

(** C11: on every status that is not a ["+<digits> Lap[s]"] lap deficit
    (and has no trailing newline, which [$] would accept), the regular
    expression of the pandas code and the list of the homemade code
    classify it the same way. *)
Theorem dnf_classification_agree s :
  PandasQ2.lap_deficit (list_ascii_of_string s) = false ->
  last (list_ascii_of_string s) <> Some "010"%char ->
  PandasQ2.status_match s = bool_decide (s ∈ HomemadeQ2.finished_and_excluded_status).
Proof.
  intros Hlap Hnl. unfold PandasQ2.status_match. rewrite Hlap, orb_false_r, existsb_full_match by done.
  apply bool_decide_ext. rewrite homemade_excluded_iff. split; [auto|].
  intros [Hn|[->|(i & _ & ->)]]; [done|by vm_compute in Hlap|by rewrite laps_status_deficit in Hlap].
Qed.

(** ** The top three *)

(** [value_counts().head(3)] of the pandas code lists at most three
    drivers (three when there are), each with its exact number of DNF
    results, which is not zero, and no driver left out has more DNFs
    than a driver listed; this holds whatever order pandas gives to ties. *)
Theorem dnf_counts_top3 `{SortValues} dnfs :
  let counts := count_by ResultRow.driverId dnfs in
  let top := PandasQ2.dnf_counts dnfs in
  length top = Nat.min 3 (length counts)
  /\ (forall d c, In (d, c) top -> c = key_count ResultRow.driverId d dnfs /\ 0 < c)
  /\ (forall d c d' c', In (d, c) top -> In (d', c') counts -> ~ In (d', c') top -> c' <= c).
Proof. apply top_k_spec; [apply sort_values_perm | apply sort_values_sorted]. Qed.

(** The homemade [top3_dnf] dict is the same kind of top three of
    its count dict, in the order of the stable sort. *)
Theorem top3_dnf_spec dnfs :
  let counts := HomemadeQ2.dnf_counts dnfs in
  let top := HomemadeQ2.top3_dnf counts in
  top = firstn 3 (sorted_desc snd counts)
  /\ length top = Nat.min 3 (length counts)
  /\ (forall d c, In (d, c) top -> c = key_count ResultCsv.driverId d dnfs /\ 0 < c)
  /\ (forall d c d' c', In (d, c) top -> In (d', c') counts -> ~ In (d', c') top -> c' <= c).
Proof.
  intros counts top.
  assert (Htop : top = firstn 3 (sorted_desc snd counts)).
  { apply dict_of_list_nodup. apply NoDup_firstn_map_fst.
    apply (NoDup_perm (dict_keys counts)); [|apply count_by_nodup].
    apply Permutation_map, Permutation_sym, sorted_desc_perm. }
  rewrite Htop. split; [done|]. apply top_k_spec; [apply sorted_desc_perm | apply sorted_desc_sorted].
Qed.

Lemma dnf_classification_agree_witness :
  PandasQ2.status_match "Engine" = bool_decide ("Engine" ∈ HomemadeQ2.finished_and_excluded_status).
Proof. apply dnf_classification_agree; vm_compute; [reflexivity|discriminate]. Defined.

(** ** Example *)

Definition q2_status : list StatusRow.t :=
  [StatusRow.mk 1 "Finished"; StatusRow.mk 2 "Disqualified"; StatusRow.mk 3 "Accident";
   StatusRow.mk 11 "+1 Lap"; StatusRow.mk 12 "+2 Laps"; StatusRow.mk 5 "Engine";
   StatusRow.mk 81 "Did not qualify"; StatusRow.mk 140 "+100 Laps"].

Definition q2_drivers : list DriverRow.t :=
  [DriverRow.mk 1 "Lewis" "Hamilton" "British"; DriverRow.mk 2 "Nick" "Heidfeld" "German";
   DriverRow.mk 3 "Nico" "Rosberg" "German"; DriverRow.mk 4 "Fernando" "Alonso" "Spanish"].

Definition q2_results : list ResultRow.t :=
  [ResultRow.mk 1 1 1 1 "1" 1 1; ResultRow.mk 1 2 1 2 "\N" 2 3; ResultRow.mk 1 3 1 3 "\N" 3 5;
   ResultRow.mk 2 3 1 3 "\N" 3 2; ResultRow.mk 2 4 1 3 "\N" 3 5; ResultRow.mk 2 2 1 3 "\N" 3 140;
   ResultRow.mk 3 1 1 3 "\N" 3 3; ResultRow.mk 3 4 1 3 "\N" 3 12].

(** A result classified "+100 Laps" is a DNF for the homemade code
    and a finish for the pandas code, so the two tables differ: Heidfeld
    has two DNFs on one side and one on the other. *)
Example dnf_strategies_differ :
  HomemadeQ2.get_driver_with_most_dnfs_nopd (map render_result q2_results) (map render_status q2_status)
    (map render_driver q2_drivers)
  = Ok (join newline
          ["Drivers with most DNFs"; str_repeat "-" 48;
           "     Driver            DNFs"; str_repeat "-" 48;
           "Nick Heidfeld              2"; "Nico Rosberg               2";
           "Fernando Alonso            1"; str_repeat "-" 48])
  /\ PandasQ2.get_driver_with_most_dnfs (H := stable_sort_values) q2_results q2_status q2_drivers
  = Ok (join newline
          ["Drivers with most DNFs"; PandasQ2.rule53;
           "Nico Rosberg                  2 DNFs"; "Nick Heidfeld                 1 DNFs";
           "Fernando Alonso               1 DNFs"; PandasQ2.rule53]).
Proof. split; vm_compute; reflexivity. Qed.
