(* ===== verification/Circuits.v ===== *)
(** * Query "most dangerous circuit" (question q3)

    [Q3] models [most_dangerous_circuit] of src/analysis/pandas/q3.py (the
    app calls it for both strategies): the statusIds of the five accident
    statuses, the results with such a status, the left merges with races
    (circuitId) and circuits (name, country), the optional country filter
    ([if country:] is false for [None] and [""]), [value_counts()] of the
    circuit names ([NaN] names dropped), the early [return None] and
    [idxmax]. *)

From S2P Require Import Prelude PySort PyStr PyDict Tables Frame.

Module Q3.

Definition accident_statuses : list string := ["Accident"; "Collision"; "Spun off"; "Damage"; "Debris"].

(** [status[(status['status'] == 'Accident') | ...]['statusId'].tolist()] *)
Definition status_ids (status : list StatusRow.t) : list Z :=
  map StatusRow.statusId
    (List.filter (fun s => bool_decide (StatusRow.status s ∈ accident_statuses)) status).

Definition accidents (results : list ResultRow.t) (ids : list Z) : list ResultRow.t :=
  List.filter (fun r => bool_decide (ResultRow.statusId r ∈ ids)) results.

Definition with_races (acc : list ResultRow.t) (races : list RaceRow.t)
    : list (ResultRow.t * option RaceRow.t) :=
  merge_left ResultRow.raceId RaceRow.raceId acc races.

Definition with_circuits (rows : list (ResultRow.t * option RaceRow.t)) (circuits : list CircuitRow.t)
    : list ((ResultRow.t * option RaceRow.t) * option CircuitRow.t) :=
  merge_left_opt (fun r => option_map RaceRow.circuitId r.2) CircuitRow.circuitId rows circuits.

(** [if country:] *)
Definition truthy (country : option string) : bool :=
  match country with Some c => negb (String.eqb c "") | None => false end.

(** [accidents[accidents['country'] == country]] when [country] is truthy. *)
Definition in_country (country : option string)
    (rows : list ((ResultRow.t * option RaceRow.t) * option CircuitRow.t))
    : list ((ResultRow.t * option RaceRow.t) * option CircuitRow.t) :=
  match country with
  | Some c => if truthy country
              then List.filter (fun r => match r.2 with
                                         | Some ci => String.eqb (CircuitRow.country ci) c
                                         | None => false end) rows
              else rows
  | None => rows
  end.

(** The [name] column, [NaN] (no circuit) left out as [value_counts] does. *)
Definition names (rows : list ((ResultRow.t * option RaceRow.t) * option CircuitRow.t)) : list string :=
  flat_map (fun r => match r.2 with Some c => [CircuitRow.name c] | None => [] end) rows.

(** The accidents of lines 26-45, as the list of their circuit names. *)
Definition accident_names (results : list ResultRow.t) (status : list StatusRow.t)
    (races : list RaceRow.t) (circuits : list CircuitRow.t) (country : option string) : list string :=
  names (in_country country (with_circuits (with_races (accidents results (status_ids status)) races) circuits)).

Definition message (country : option string) (name : string) : string :=
  match country with
  | Some c => if truthy country then c +:+ "'s most dangerous circuit is the " +:+ name
              else "The most dangerous circuit in the world is the " +:+ name
  | None => "The most dangerous circuit in the world is the " +:+ name
  end.

Section WithSort.
Context `{SortValues}.

Definition most_dangerous_circuit (results : list ResultRow.t) (status : list StatusRow.t)
    (races : list RaceRow.t) (circuits : list CircuitRow.t) (country : option string) : option string :=
  let circuits_counts := value_counts (accident_names results status races circuits country) in
  match circuits_counts with
  | [] => None
  | _ => option_map (message country) (idxmax circuits_counts)
  end.
End WithSort.
End Q3.

(** ** The answer is a circuit with the most accidents *)

Lemma key_count_id_In {K} `{EqDecision K} (l : list K) k : key_count (fun x => x) k l <> 0 -> In k l.
Proof. intros (x & Hx & Hk)%countb_In. by apply bool_decide_eq_true in Hk as <-. Qed.

(** C13: when [most_dangerous_circuit] answers, it names a circuit of the
    accidents (in the country, when one is given) and no circuit name has
    more accidents; this holds whatever order [value_counts] gives to
    ties. *)
Theorem most_dangerous_circuit_max `{SortValues} results status races circuits country msg :
  Q3.most_dangerous_circuit results status races circuits country = Some msg ->
  exists name,
    msg = Q3.message country name
    /\ In name (Q3.accident_names results status races circuits country)
    /\ forall other,
         key_count (fun x => x) other (Q3.accident_names results status races circuits country)
         <= key_count (fun x => x) name (Q3.accident_names results status races circuits country).
Proof.
  unfold Q3.most_dangerous_circuit. set (ns := Q3.accident_names results status races circuits country).
  destruct (value_counts ns) eqn:E; [done|]. rewrite <- E.
  destruct (idxmax (value_counts ns)) as [n|] eqn:Hi; [|done]. intros [= <-].
  apply idxmax_spec in Hi as (c & Hin & Hmax). apply In_value_counts in Hin as [-> Hc].
  exists n. split; [done|]. split; [by apply key_count_id_In|].
  intros other. destruct (decide (key_count (fun x => x) other ns = 0)) as [Ho|Ho]; [lia|].
  apply (Hmax (other, key_count (fun x => x) other ns)). by apply In_value_counts.
Qed.

(** [most_dangerous_circuit] returns [None] exactly when no accident
    (in the country, when one is given) has a known circuit. *)
Theorem most_dangerous_circuit_none `{SortValues} results status races circuits country :
  Q3.most_dangerous_circuit results status races circuits country = None
  <-> Q3.accident_names results status races circuits country = [].
Proof.
  unfold Q3.most_dangerous_circuit. set (ns := Q3.accident_names results status races circuits country).
  rewrite <- value_counts_nil. destruct (value_counts ns); [done|]. split; [|done]. by destruct l.
Qed.

(** ** Example *)

Definition q3_status : list StatusRow.t :=
  [StatusRow.mk 1 "Finished"; StatusRow.mk 3 "Accident"; StatusRow.mk 4 "Collision"; StatusRow.mk 5 "Engine"].

Definition q3_races : list RaceRow.t :=
  [RaceRow.mk 1 2009 1 1; RaceRow.mk 2 2009 2 2; RaceRow.mk 3 2010 1 1].

Definition q3_circuits : list CircuitRow.t :=
  [CircuitRow.mk 1 "Albert Park Grand Prix Circuit" "Australia";
   CircuitRow.mk 2 "Sepang International Circuit" "Malaysia"].

Definition q3_results : list ResultRow.t :=
  [ResultRow.mk 1 1 1 1 "1" 1 1; ResultRow.mk 1 2 2 2 "\N" 17 3; ResultRow.mk 2 3 3 3 "\N" 18 4;
   ResultRow.mk 2 4 4 4 "\N" 19 3; ResultRow.mk 3 5 5 5 "\N" 20 4; ResultRow.mk 2 6 6 6 "\N" 16 3].

Lemma most_dangerous_circuit_max_witness :
  exists name,
    "The most dangerous circuit in the world is the Sepang International Circuit" = Q3.message None name
    /\ In name (Q3.accident_names q3_results q3_status q3_races q3_circuits None)
    /\ forall other,
         key_count (fun x => x) other (Q3.accident_names q3_results q3_status q3_races q3_circuits None)
         <= key_count (fun x => x) name (Q3.accident_names q3_results q3_status q3_races q3_circuits None).
Proof.
  apply (most_dangerous_circuit_max (H := stable_sort_values)). vm_compute. reflexivity.
Defined.
