(* ===== verification/Champions.v ===== *)
(** * Queries "constructors' champion of a season" and "constructors with
      the most championships" (questions q4 and q5)

    [Q4] models [constructor_winner] of src/analysis/pandas/q4.py: the
    largest round of the year ([NaN] for a year without races), the raceId
    of the races of that round and year ([squeeze]: a scalar for one race,
    a Series otherwise), the constructorIds at position 1 of that race
    (comparing a column with a Series needs identically-labelled Series,
    hence the row labels), the [return None] of an empty Series, the
    [iloc[0]] of a longer one, and the [squeeze] of the constructor names
    (a name, or a Series when the id is missing or repeated).  [Q5] models
    [most_constructor_championships_won] of src/analysis/pandas/q5_graph.py
    up to the plot: one [constructor_winner] per year of
    [range(1958, 2025)], the count dict (a Series answer is not hashable:
    [TypeError]), the descending sort and [head(5)]. *)

From S2P Require Import Prelude PySort PyStr PyDict Tables Frame.

Module Q4.

Definition races_yy (races : list RaceRow.t) (yy : Z) : list RaceRow.t :=
  List.filter (fun r => Z.eqb (RaceRow.year r) yy) races.

(** [races_yy['round'].max()], [NaN] ([None]) for no race. *)
Definition nb_races_yy (ry : list RaceRow.t) : option Z :=
  match map RaceRow.round ry with [] => None | x :: r => Some (fold_left Z.max r x) end.

(** The rows, with their index labels, of
    [races[(races['round'] == nb_races_yy) & (races['year'] == yy)]]. *)
Definition last_race_rows (races : list RaceRow.t) (yy : Z) (nb : option Z) : list (nat * RaceRow.t) :=
  List.filter (fun p => match nb with Some n => Z.eqb (RaceRow.round p.2) n | None => false end
                        && Z.eqb (RaceRow.year p.2) yy)
    (enumerate 0 races).

(** [constructor_standings[(raceId == race_id_last_race_yy) & (position == 1)]['constructorId']]:
    against a scalar raceId the comparison is elementwise; against a
    Series it needs the same labels as the standings' index [0..n-1] and
    raises [ValueError] otherwise. *)
Definition champion_ids (cs : list ConstructorStandingRow.t) (rows : list (nat * RaceRow.t))
    : result (list Z) :=
  match squeeze rows with
  | Scalar (_, r) =>
      Ok (map ConstructorStandingRow.constructorId
            (List.filter (fun s => Z.eqb (ConstructorStandingRow.raceId s) (RaceRow.raceId r)
                                   && Z.eqb (ConstructorStandingRow.position s) 1) cs))
  | Series l =>
      if bool_decide (map fst l = seq 0 (length cs))
      then Ok (map (fun p => ConstructorStandingRow.constructorId p.1)
                 (List.filter (fun p => Z.eqb (ConstructorStandingRow.raceId p.1) (RaceRow.raceId p.2.2)
                                        && Z.eqb (ConstructorStandingRow.position p.1) 1)
                    (combine cs l)))
      else Raise ValueError
  end.

(** [.squeeze()], then [if isinstance(..., pd.Series)]: [return None] when
    empty, [.iloc[0]] otherwise. *)
Definition champion_id (ids : list Z) : option Z :=
  match squeeze ids with
  | Scalar c => Some c
  | Series [] => None
  | Series (c :: _) => Some c
  end.

Definition constructor_winner (races : list RaceRow.t) (cs : list ConstructorStandingRow.t)
    (constructors : list ConstructorRow.t) (yy : Z) : result (option (squeezed string)) :=
  let nb := nb_races_yy (races_yy races yy) in
  let* ids := champion_ids cs (last_race_rows races yy nb) in
  match champion_id ids with
  | None => Ok None
  | Some c =>
      Ok (Some (squeeze (map ConstructorRow.name
                           (List.filter (fun k => Z.eqb (ConstructorRow.constructorId k) c) constructors))))
  end.
End Q4.

Module Q5.

(** [range(1958, 2025)] *)
Definition years : list Z := map Z.of_nat (seq 1958 67).

(** [elt in counts.keys()] hashes [elt]: a Series is unhashable. *)
Definition hash_key (elt : option (squeezed string)) : result (option string) :=
  match elt with
  | None => Ok None
  | Some (Scalar s) => Ok (Some s)
  | Some (Series _) => Raise TypeError
  end.

Section WithSort.
Context `{SortValues}.

(** The five rows the bar chart draws: [counts_df.sort_values(by='championships',
    ascending=False).head(5)]. *)
Definition most_constructor_championships_won (races : list RaceRow.t)
    (cs : list ConstructorStandingRow.t) (constructors : list ConstructorRow.t)
    : result (list (option string * nat)) :=
  let* champions := mapM (Q4.constructor_winner races cs constructors) years in
  let* keys := mapM hash_key champions in
  let counts := count_by (fun x => x) keys in
  Ok (series_head 5 (sort_values_desc snd counts)).
End WithSort.
End Q5.

(** ** The champion of a season *)

(** The [max] of a column is the value that bounds the others and occurs. *)
Lemma fold_Z_max_eq l x m :
  In m (x :: l) -> (forall y, In y (x :: l) -> y <= m)%Z -> fold_left Z.max l x = m.
Proof.
  intros Hm Hub. destruct (fold_Z_max_bounds l x) as (H1 & H2 & H3).
  assert (fold_left Z.max l x <= m)%Z by (apply Hub; destruct H3 as [->|]; [left|right]; auto).
  destruct Hm as [<-|Hm]; [lia|]. specialize (H2 m Hm). lia.
Qed.

Lemma enumerate_filter_snd {A} (p : A -> bool) l n :
  map snd (List.filter (fun q => p q.2) (enumerate n l)) = List.filter p l.
Proof.
  revert n. induction l as [|x l IH]; intros n; simpl; [done|]. destruct (p x); simpl; by rewrite IH.
Qed.

Lemma map_snd_single {A B} (l : list (A * B)) b : map snd l = [b] -> exists a, l = [(a, b)].
Proof. destruct l as [|[a b'] [|]]; simpl; try discriminate. intros [= ->]. eauto. Qed.

Lemma nb_races_yy_last races yy r :
  In r races -> RaceRow.year r = yy ->
  (forall r', In r' races -> RaceRow.year r' = yy -> RaceRow.round r' <= RaceRow.round r)%Z ->
  Q4.nb_races_yy (Q4.races_yy races yy) = Some (RaceRow.round r).
Proof.
  intros Hr Hy Hmax. unfold Q4.nb_races_yy.
  assert (Hin : In (RaceRow.round r) (map RaceRow.round (Q4.races_yy races yy))).
  { apply in_map, filter_In. split; [done|]. by apply Z.eqb_eq. }
  destruct (map RaceRow.round _) as [|x l] eqn:E; [done|]. f_equal. apply fold_Z_max_eq; [done|].
  intros y Hy'. rewrite <- E in Hy'. apply in_map_iff in Hy' as (r' & <- & Hr'%filter_In).
  destruct Hr' as [Hr' Hyr%Z.eqb_eq]. by apply Hmax.
Qed.

(** C14: when the last round of the year is held by a single race, the
    constructor standing first at that race (the first such row) is
    named by [constructor_winner], provided its id names one
    constructor. *)
Theorem constructor_winner_spec races cs constructors yy r c rest k :
  List.filter (fun r' => Z.eqb (RaceRow.year r') yy && Z.eqb (RaceRow.round r') (RaceRow.round r)) races = [r] ->
  (forall r', In r' races -> RaceRow.year r' = yy -> RaceRow.round r' <= RaceRow.round r)%Z ->
  map ConstructorStandingRow.constructorId
    (List.filter (fun s => Z.eqb (ConstructorStandingRow.raceId s) (RaceRow.raceId r)
                           && Z.eqb (ConstructorStandingRow.position s) 1) cs) = c :: rest ->
  List.filter (fun k' => Z.eqb (ConstructorRow.constructorId k') c) constructors = [k] ->
  Q4.constructor_winner races cs constructors yy = Ok (Some (Scalar (ConstructorRow.name k))).
Proof.
  intros Hlast Hmax Hc Hk.
  assert (Hr : In r races /\ RaceRow.year r = yy).
  { assert (Hin : In r [r]) by by left. rewrite <- Hlast in Hin.
    apply filter_In in Hin as [Hin [Hy%Z.eqb_eq _]%andb_prop]. done. }
  destruct Hr as [Hr Hy]. unfold Q4.constructor_winner.
  rewrite (nb_races_yy_last races yy r Hr Hy Hmax). unfold Q4.last_race_rows.
  set (q := fun r' => Z.eqb (RaceRow.year r') yy && Z.eqb (RaceRow.round r') (RaceRow.round r)) in *.
  rewrite (List.filter_ext _ (fun p => q p.2)) by (intros p; apply andb_comm).
  pose proof (enumerate_filter_snd q races 0) as Hs. rewrite Hlast in Hs.
  apply map_snd_single in Hs as [i ->].
  assert (Hids : Q4.champion_ids cs [(i, r)] = Ok (c :: rest)).
  { unfold Q4.champion_ids. cbn [squeeze]. by rewrite Hc. }
  assert (Hid : Q4.champion_id (c :: rest) = Some c) by (by destruct rest).
  rewrite Hids, bind_Ok, Hid, Hk. done.
Qed.

(** C15: for a year without races the comparison with the empty Series
    of raceIds raises [ValueError] (on a non-empty standings table): the
    [return None] the code means for a missing champion is not reached. *)
Theorem constructor_winner_no_race races cs constructors yy :
  Forall (fun r => RaceRow.year r <> yy) races -> cs <> [] ->
  Q4.constructor_winner races cs constructors yy = Raise ValueError.
Proof.
  intros Hno Hcs. assert (Hry : Q4.races_yy races yy = []).
  { apply filter_none. intros r Hr. apply Z.eqb_neq. by apply (proj1 (List.Forall_forall _ _) Hno). }
  unfold Q4.constructor_winner. rewrite Hry. cbn.
  assert (Hrows : Q4.last_race_rows races yy None = []) by (by apply filter_none).
  rewrite Hrows. unfold Q4.champion_ids. cbn.
  rewrite bool_decide_eq_false_2; [done|]. destruct cs; [done|]. discriminate.
Qed.

(** ** The championship tally *)

(** C16: when the tally of [range(1958, 2025)] succeeds, its five rows are
    a top five of the champions: each row counts exactly the years its
    constructor won (as [constructor_winner] answers them), at most five
    rows, and no champion left out won more often than one listed,
    whatever order the sort gives to ties. *)
Theorem championships_top5 `{SortValues} races cs constructors top5 :
  Q5.most_constructor_championships_won races cs constructors = Ok top5 ->
  exists keys,
    Forall2 (fun y key => exists w, Q4.constructor_winner races cs constructors y = Ok w
                                   /\ Q5.hash_key w = Ok key) Q5.years keys
    /\ length top5 = Nat.min 5 (length (count_by (fun x => x) keys))
    /\ (forall key c, In (key, c) top5 -> c = key_count (fun x => x) key keys /\ 0 < c)
    /\ (forall key c key' c', In (key, c) top5 -> In (key', c') (count_by (fun x => x) keys) ->
                              ~ In (key', c') top5 -> c' <= c).
Proof.
  unfold Q5.most_constructor_championships_won.
  intros (champs & Hc & Hk)%bind_Ok_inv. apply bind_Ok_inv in Hk as (keys & Hkeys & [= <-]).
  exists keys. split; [eapply Forall2_compose; apply mapM_Ok; eauto|].
  change (series_head 5 ?l) with (firstn 5 l).
  apply top_k_spec; [apply sort_values_perm|apply sort_values_sorted].
Qed.

(** ** Example: one race a year, three constructors taking turns *)

Definition q4_races : list RaceRow.t :=
  map (fun y => RaceRow.mk (y - 1900) y 1 1) Q5.years.

Definition q4_standings : list ConstructorStandingRow.t :=
  flat_map (fun y => [ConstructorStandingRow.mk (y - 1900) (1 + y mod 3) 1;
                      ConstructorStandingRow.mk (y - 1900) (1 + (y + 1) mod 3) 2]) Q5.years.

Definition q4_constructors : list ConstructorRow.t :=
  [ConstructorRow.mk 1 "Ferrari"; ConstructorRow.mk 2 "McLaren"; ConstructorRow.mk 3 "Williams"].

Lemma constructor_winner_spec_witness :
  Q4.constructor_winner q4_races q4_standings q4_constructors 2023 = Ok (Some (Scalar "McLaren")).
Proof.
  apply (constructor_winner_spec _ _ _ _ (RaceRow.mk 123 2023 1 1) 2 [] (ConstructorRow.mk 2 "McLaren"));
    [vm_compute; reflexivity | | vm_compute; reflexivity | vm_compute; reflexivity].
  intros r' Hr' Hy. apply in_map_iff in Hr' as (y & <- & _). simpl. lia.
Defined.

Lemma constructor_winner_no_race_witness :
  Q4.constructor_winner q4_races q4_standings q4_constructors 1950 = Raise ValueError.
Proof.
  apply constructor_winner_no_race; [|discriminate].
  apply List.Forall_forall. intros r (y & <- & Hy%in_map_iff)%in_map_iff.
  destruct Hy as (n & <- & Hn%in_seq). simpl. lia.
Defined.

Lemma championships_top5_witness :
  exists keys,
    Forall2 (fun y key => exists w, Q4.constructor_winner q4_races q4_standings q4_constructors y = Ok w
                                   /\ Q5.hash_key w = Ok key) Q5.years keys
    /\ length [(Some "Williams", 23); (Some "Ferrari", 22); (Some "McLaren", 22)]
       = Nat.min 5 (length (count_by (fun x => x) keys))
    /\ (forall key c, In (key, c) [(Some "Williams", 23); (Some "Ferrari", 22); (Some "McLaren", 22)] ->
                      c = key_count (fun x => x) key keys /\ 0 < c)
    /\ (forall key c key' c', In (key, c) [(Some "Williams", 23); (Some "Ferrari", 22); (Some "McLaren", 22)] ->
                              In (key', c') (count_by (fun x => x) keys) ->
                              ~ In (key', c') [(Some "Williams", 23); (Some "Ferrari", 22); (Some "McLaren", 22)] ->
                              c' <= c).
Proof.
  apply (championships_top5 (H := stable_sort_values)). vm_compute. reflexivity.
Defined.
