(* ===== verification/Failures.v ===== *)
(** * Queries "drivers per nationality" and "constructors with the most
      technical failures" (questions q6 and q7)

    [Q6] models the count behind the bar chart of [nationalities] in
    src/analysis/pandas/q6_graph.py ([drivers['nationality'].value_counts()];
    the chart itself is [Windows.Q6Graph]).  [Q7] models [most_technical_issues_constructors]
    of src/analysis/pandas/q7.py: the statusIds of the eighteen technical
    statuses, the failed results, [value_counts().head(top_n)] of their
    constructorIds ([head] of a negative [top_n] drops the last rows), the
    renaming of each id by the first matching constructor name
    ([.values[0]]: [IndexError] when there is none) and the lines. *)

From S2P Require Import Prelude PySort PyStr PyDict Tables Frame.

Module Q6.
Section WithSort.
Context `{SortValues}.

Definition nationalities_counts (drivers : list DriverRow.t) : list (string * nat) :=
  value_counts (map DriverRow.nationality drivers).
End WithSort.
End Q6.

Module Q7.

Definition technical_statuses : list string :=
  ["Engine"; "Transmission"; "Clutch"; "Hydraulics"; "Electrical";
   "Suspension"; "Overheating"; "Fuel pressure"; "Fuel system";
   "Oil leak"; "Water leak"; "Driveshaft"; "Exhaust";
   "Power loss"; "Wheel"; "Brake failure"; "Chassis"; "Turbo"].

Definition tech_status_ids (status : list StatusRow.t) : list Z :=
  map StatusRow.statusId
    (List.filter (fun s => bool_decide (StatusRow.status s ∈ technical_statuses)) status).

Definition tech_failures (results : list ResultRow.t) (ids : list Z) : list ResultRow.t :=
  List.filter (fun r => bool_decide (ResultRow.statusId r ∈ ids)) results.

(** [constructors.loc[constructors['constructorId'] == i, 'name'].values[0]] *)
Definition constructor_name (constructors : list ConstructorRow.t) (i : Z) : result string :=
  match List.filter (fun k => Z.eqb (ConstructorRow.constructorId k) i) constructors with
  | k :: _ => Ok (ConstructorRow.name k)
  | [] => Raise IndexError
  end.

Definition rule46 : string := str_repeat "-" 46.

Section WithSort.
Context `{SortValues}.

(** [tech_failures['constructorId'].value_counts().head(top_n)] *)
Definition failure_counts (failures : list ResultRow.t) (top_n : Z) : list (Z * nat) :=
  series_head top_n (value_counts (map ResultRow.constructorId failures)).

Definition most_technical_issues_constructors (results : list ResultRow.t) (status : list StatusRow.t)
    (constructors : list ConstructorRow.t) (top_n : Z) : result string :=
  let counts := failure_counts (tech_failures results (tech_status_ids status)) top_n in
  let* named := mapM (fun kv => let* n := constructor_name constructors kv.1 in Ok (n, kv.2)) counts in
  Ok (join newline (["Constructor                 Technical failures"; rule46]
                    ++ map (fun kv => ljust kv.1 25 +:+ " " +:+ rjust (str_of_nat kv.2) 20) named
                    ++ [rule46])).
End WithSort.
End Q7.

(** ** Nationalities *)

(** The nationality counts of the bar chart count every driver once:
    they add up to the number of drivers, and the row of a nationality is
    the number of drivers who have it. *)
Theorem nationalities_counts_spec `{SortValues} drivers :
  list_sum (map snd (Q6.nationalities_counts drivers)) = length drivers
  /\ (forall n c, In (n, c) (Q6.nationalities_counts drivers)
                  <-> c = key_count (fun x => x) n (map DriverRow.nationality drivers) /\ c <> 0).
Proof.
  split; [|intros; apply In_value_counts].
  unfold Q6.nationalities_counts, value_counts.
  rewrite (Permutation_map snd (sort_values_perm _ _ snd _)), sum_count_by. apply length_map.
Qed.

(** ** Technical failures *)

(** C18: for [top_n >= 0], [value_counts().head(top_n)] keeps at most
    [top_n] constructors, each with its exact non-zero number of
    technical failures, and none left out has more failures than one
    kept. *)
Theorem failure_counts_top `{SortValues} failures top_n :
  (0 <= top_n)%Z ->
  let counts := count_by (fun x => x) (map ResultRow.constructorId failures) in
  let top := Q7.failure_counts failures top_n in
  length top = Nat.min (Z.to_nat top_n) (length counts)
  /\ (forall i c, In (i, c) top -> c = key_count (fun x => x) i (map ResultRow.constructorId failures) /\ 0 < c)
  /\ (forall i c i' c', In (i, c) top -> In (i', c') counts -> ~ In (i', c') top -> c' <= c).
Proof.
  intros Hn counts top. unfold top, Q7.failure_counts, series_head.
  rewrite (proj2 (Z.leb_le 0 top_n) Hn).
  apply top_k_spec; [apply sort_values_perm|apply sort_values_sorted].
Qed.

Lemma failure_counts_top_witness :
  let failures := [ResultRow.mk 1 1 6 1 "\N" 20 5; ResultRow.mk 1 2 6 2 "\N" 19 5;
                   ResultRow.mk 2 3 1 2 "\N" 18 6] in
  let counts := count_by (fun x => x) (map ResultRow.constructorId failures) in
  let top := Q7.failure_counts (H := stable_sort_values) failures 1 in
  length top = Nat.min (Z.to_nat 1) (length counts)
  /\ (forall i c, In (i, c) top -> c = key_count (fun x => x) i (map ResultRow.constructorId failures) /\ 0 < c)
  /\ (forall i c i' c', In (i, c) top -> In (i', c') counts -> ~ In (i', c') top -> c' <= c).
Proof. intros failures counts top. apply failure_counts_top. lia. Defined.
