(* ===== verification/PitStops.v ===== *)
(** * Query "pit-stop mean, minimum and maximum" (question q8)

    [Q8] models [average_pit_stop_time] of src/analysis/pandas/q8.py: the
    stops of at most [sup] seconds unless [outliers] is true (the code
    filters when [outliers] is false, the docstring says the opposite),
    the mean, minimum and maximum of the milliseconds ([NaN] on no stop),
    [round(x / 1000, 2)] and the [10.2f] layout.  The arithmetic is that
    of doubles: every float operation is [dbl] (PyNum) of the exact
    result, the sum of the integer column being exact below 2^53 ms;
    [round(x, 2)] of a NumPy float is NumPy's [rint(x * 100) / 100] in
    floats (so 2.675 gives 2.68 where Python's [round] gives 2.67), and
    [10.2f] formats the exact value of the double.  [sup] is the float
    the caller passes, as the rational every finite double is.
    [docstring_selection] is the selection the docstring (lines 14-16)
    describes. *)

From S2P Require Import Prelude PyStr PyNum Tables.

Module Q8.

(** [pit_stops['milliseconds'] / 1000]: a float division. *)
Definition secs (m : Z) : Q := dbl (inject_Z m / 1000).

(** [pit_stops[pit_stops['milliseconds']/1000 <= sup]] unless [outliers]. *)
Definition kept (outliers : bool) (sup : Q) (ms : list Z) : list Z :=
  if outliers then ms
  else List.filter (fun m => Qle_bool (secs m) sup) ms.

(** The docstring: "If True, excludes pit stops longer than [sup]
    seconds from the calculation.  If False, considers all pit stops." *)
Definition docstring_selection (outliers : bool) (sup : Q) (ms : list Z) : list Z :=
  if outliers then List.filter (fun m => Qle_bool (secs m) sup) ms
  else ms.

(** [mean()], [min()], [max()]: [NaN] ([None]) on an empty column; the
    mean is the float sum divided by the count. *)
Definition mean_ms (l : list Z) : option Q :=
  match l with [] => None | _ => Some (dbl (mean_Q l)) end.

Definition min_ms (l : list Z) : option Z :=
  match l with [] => None | x :: r => Some (fold_left Z.min r x) end.

Definition max_ms (l : list Z) : option Z :=
  match l with [] => None | x :: r => Some (fold_left Z.max r x) end.

(** [round(x, 2)] of a NumPy float: [rint(x * 100) / 100]. *)
Definition round2 (q : Q) : Q := dbl (inject_Z (py_round (dbl (q * 100))) / 100).

(** [f"{x:10.2f}"], [nan] included. *)
Definition fmt_stat (o : option Q) : string :=
  rjust (match o with Some q => fmt_fixed 2 q | None => "nan" end) 10.

Definition average_pit_stop_time (pit_stops : list PitStopRow.t) (outliers : bool) (sup : Q) : string :=
  let ms := kept outliers sup (map PitStopRow.milliseconds pit_stops) in
  let avg := option_map (fun m => round2 (dbl (m / 1000))) (mean_ms ms) in
  let min_time := option_map (fun m => round2 (secs m)) (min_ms ms) in
  let max_time := option_map (fun m => round2 (secs m)) (max_ms ms) in
  "-------------------------------------" +:+ newline
  +:+ " Statistic                     Value " +:+ newline
  +:+ "--------------------------------------" +:+ newline
  +:+ " Mean                      " +:+ fmt_stat avg +:+ " s " +:+ newline
  +:+ " Min                  " +:+ fmt_stat min_time +:+ " s " +:+ newline
  +:+ " Max                  " +:+ fmt_stat max_time +:+ " s " +:+ newline
  +:+ "-------------------------------------".
End Q8.

(** ** The spec's example *)

Definition q8_stops : list PitStopRow.t :=
  [PitStopRow.mk 1 10000; PitStopRow.mk 2 30000; PitStopRow.mk 3 90000].

(** On stops of 10 s, 30 s and 90 s, [outliers=False, sup=60] drops
    the 90 s stop (mean 20.00, min 10.00, max 30.00) and [outliers=True]
    keeps all three (mean 43.33, min 10.00, max 90.00). *)
Example pit_stop_spec_example :
  Q8.average_pit_stop_time q8_stops false 60%Q
  = "-------------------------------------" +:+ newline
    +:+ " Statistic                     Value " +:+ newline
    +:+ "--------------------------------------" +:+ newline
    +:+ " Mean                           20.00 s " +:+ newline
    +:+ " Min                       10.00 s " +:+ newline
    +:+ " Max                       30.00 s " +:+ newline
    +:+ "-------------------------------------"
  /\ Q8.average_pit_stop_time q8_stops true 60%Q
  = "-------------------------------------" +:+ newline
    +:+ " Statistic                     Value " +:+ newline
    +:+ "--------------------------------------" +:+ newline
    +:+ " Mean                           43.33 s " +:+ newline
    +:+ " Min                       10.00 s " +:+ newline
    +:+ " Max                       90.00 s " +:+ newline
    +:+ "-------------------------------------".
Proof. split; vm_compute; reflexivity. Qed.

(** A stop of 1015 ms shows as 1.01 s: [1.015] is a double just below
    it, [* 100] stays below 101.5 and [rint] gives 101, where rounding
    the decimal 1.015 half to even would give 1.02. *)
Example pit_stop_round_double :
  Q8.fmt_stat (Some (Q8.round2 (Q8.secs 1015))) = "      1.01" /\ fmt_fixed 2 (1015 # 1000) = "1.02".
Proof. split; vm_compute; reflexivity. Qed.

(** ** The flag and the docstring *)

Lemma filter_not_id {A} (p : A -> bool) (l : list A) x :
  In x l -> p x = false -> List.filter p l <> l.
Proof. intros Hx Hp E. rewrite <- E in Hx. apply filter_In in Hx as [_ Hx]. congruence. Qed.

Lemma long_stop_dropped sup m : (sup < Q8.secs m)%Q -> Qle_bool (Q8.secs m) sup = false.
Proof. intros H. apply not_true_is_false. rewrite Qle_bool_iff. by apply Qlt_not_le. Qed.

(** C19: the code gives [outliers] the meaning the docstring gives to its
    negation: the stops it averages are those the docstring selects for
    [not outliers]; and as soon as one stop is longer than [sup] seconds
    the two readings differ, for either value of the flag ([True]
    averages that stop, [False] drops it). *)
Theorem kept_docstring_inverted outliers sup ms :
  Q8.kept outliers sup ms = Q8.docstring_selection (negb outliers) sup ms
  /\ ((exists m, In m ms /\ (sup < Q8.secs m)%Q) ->
      Q8.kept outliers sup ms <> Q8.docstring_selection outliers sup ms).
Proof.
  split; [by destruct outliers|]. intros (m & Hin & Hlt%long_stop_dropped).
  unfold Q8.kept, Q8.docstring_selection.
  destruct outliers; [apply not_eq_sym|]; exact (filter_not_id _ _ _ Hin Hlt).
Qed.

Lemma kept_docstring_inverted_witness :
  Q8.kept true 60 [10000; 30000; 90000]%Z <> Q8.docstring_selection true 60 [10000; 30000; 90000]%Z.
Proof.
  apply (proj2 (kept_docstring_inverted true 60 [10000; 30000; 90000]%Z)).
  exists 90000%Z. split; [by right; right; left | vm_compute; reflexivity].
Defined.
