(* ===== verification/Features.v ===== *)
(** * The per-driver feature table of the clustering (src/learning/clustering.py)

    [cluster_driving_styles] builds, before any learning, one row of twelve
    numbers per driver (lines 35-132).  This file models that table:
    [groupby('driverId')] aggregations ([mean] and [std] skip [NaN];
    [std] has [ddof=1], [NaN] under two values), the [str.contains] test of
    the finished statuses, [pd.to_numeric(errors='coerce')] of the
    qualifying cells, the [reduce] of outer merges on driverId (rows in
    ascending id order, [NaN] where a table has no row), the left merges
    and [fillna(0)].  Cells are exact rationals, [NaN] is [None]; the square
    root of [std] is a parameter [sqrt] of the section, as the statements
    hold for any.  StandardScaler, KMeans and PCA (scikit-learn) and the
    plots are not modelled. *)

From S2P Require Import Prelude PySort PyStr PyNum PyDict Tables Frame.

(** ** Column aggregations *)

(** The numbers of a column, [NaN] left out. *)
Definition present (l : list (option Q)) : list Q := flat_map (fun o => match o with Some q => [q] | None => [] end) l.

(** [s.mean()] *)
Definition nanmean (l : list (option Q)) : option Q :=
  match present l with
  | [] => None
  | xs => Some (Qsum xs / inject_Z (Z.of_nat (length xs)))%Q
  end.

(** [s.count()] *)
Definition nancount (l : list (option Q)) : option Q := Some (inject_Z (Z.of_nat (length (present l)))).

(** A boolean Series as numbers, for [mean]. *)
Definition of_bool (b : bool) : option Q := Some (if b then 1 else 0)%Q.

(** [df.groupby('driverId')[col].agg(...)]: one row per driverId, ascending. *)
Definition groupby_agg {A} (key : A -> Z) (agg : list A -> option Q) (l : list A) : list (Z * option Q) :=
  map (fun k => (k, agg (List.filter (fun x => Z.eqb (key x) k) l)))
    (sorted_asc (fun z => z) (first_occ (map key l))).

(** [pd.to_numeric(s, errors='coerce')] *)
Definition to_numeric (s : string) : option Q :=
  match py_float s with Ok q => Some q | Raise _ => None end.

(** [status['status'].str.contains(r'Finished|\+')] *)
Definition is_finished_status (s : string) : bool :=
  match String.index 0 "Finished" s with Some _ => true | None => false end
  || existsb (fun c => Ascii.eqb c "+"%char) (list_ascii_of_string s).

(** ** DataFrames keyed by driverId *)

(** A table of rows [(driverId, cells)]. *)
Definition ftable := list (Z * list (option Q)).

Definition lookup_cols (t : ftable) (w : nat) (k : Z) : list (option Q) :=
  match List.find (fun r => Z.eqb r.1 k) t with Some r => r.2 | None => repeat None w end.

(** [pd.merge(left, right, on='driverId', how='outer')] on tables with one
    row per driverId: the union of the ids, ascending, [NaN] where a side
    has no row. *)
Definition merge_outer (wl wr : nat) (l r : ftable) : ftable :=
  map (fun k => (k, lookup_cols l wl k ++ lookup_cols r wr k))
    (sorted_asc (fun z => z) (first_occ (map fst l ++ map fst r))).

(** [reduce(lambda left, right: pd.merge(left, right, on='driverId', how='outer'), dfs)],
    each table with its number of columns. *)
Definition reduce_outer (dfs : list (nat * ftable)) : ftable :=
  match dfs with
  | [] => []
  | d :: rest => (fold_left (fun acc t => (acc.1 + t.1, merge_outer acc.1 t.1 acc.2 t.2)%nat) rest d).2
  end.

Definition one_col (t : list (Z * option Q)) : ftable := map (fun kv => (kv.1, [kv.2])) t.

Section Features.
Context (sqrt : Q -> Q).

(** [s.std()] with [ddof=1]. *)
Definition nanstd (l : list (option Q)) : option Q :=
  let xs := present l in
  match nanmean l with
  | Some m =>
      if Nat.ltb (length xs) 2 then None
      else Some (sqrt (Qsum (map (fun x => (x - m) * (x - m)) xs) / inject_Z (Z.of_nat (length xs) - 1)))%Q
  | None => None
  end.
End Features.

(** ** The columns of [df_pilotes] *)

Section Table.
Context (sqrt : Q -> Q).

(** [results.groupby('driverId')[col].agg(a1=..., a2=...)] *)
Definition groupby_agg2 {A} (key : A -> Z) (agg1 agg2 : list A -> option Q) (l : list A) : ftable :=
  map (fun k => let g := List.filter (fun x => Z.eqb (key x) k) l in (k, [agg1 g; agg2 g]))
    (sorted_asc (fun z => z) (first_occ (map key l))).

Definition pos (r : ResultRow.t) : option Q := Some (inject_Z (ResultRow.positionOrder r)).

Definition win_rate (results : list ResultRow.t) : list (Z * option Q) :=
  groupby_agg ResultRow.driverId
    (fun g => nanmean (map (fun r => of_bool (Z.eqb (ResultRow.positionOrder r) 1)) g)) results.

Definition podium_rate (results : list ResultRow.t) : list (Z * option Q) :=
  groupby_agg ResultRow.driverId
    (fun g => nanmean (map (fun r => of_bool (Z.leb (ResultRow.positionOrder r) 3)) g)) results.

Definition finished_ids (status : list StatusRow.t) : list Z :=
  map StatusRow.statusId (List.filter (fun s => is_finished_status (StatusRow.status s)) status).

Definition finish_rate (results : list ResultRow.t) (fids : list Z) : list (Z * option Q) :=
  groupby_agg ResultRow.driverId
    (fun g => nanmean (map (fun r => of_bool (bool_decide (ResultRow.statusId r ∈ fids))) g)) results.

Definition avg_position_gain (results : list ResultRow.t) : list (Z * option Q) :=
  groupby_agg ResultRow.driverId
    (fun g => nanmean (map (fun r => Some (inject_Z (ResultRow.grid r - ResultRow.positionOrder r))) g))
    results.

Definition lap_stats (laps : list LapTimeRow.t) : ftable :=
  groupby_agg2 LapTimeRow.driverId
    (fun g => nanmean (map (fun l => Some (inject_Z (LapTimeRow.milliseconds l))) g))
    (fun g => nanstd sqrt (map (fun l => Some (inject_Z (LapTimeRow.milliseconds l))) g)) laps.

(** [qualifying[['q1', 'q2', 'q3']].mean(axis=1)] after [to_numeric]. *)
Definition qual_row_mean (q : QualifyingRow.t) : option Q :=
  nanmean [to_numeric (QualifyingRow.q1 q); to_numeric (QualifyingRow.q2 q); to_numeric (QualifyingRow.q3 q)].

Definition mean_qual (quals : list QualifyingRow.t) : list (Z * option Q) :=
  groupby_agg QualifyingRow.driverId (fun g => nanmean (map qual_row_mean g)) quals.

Definition pit_agg (stops : list PitStopRow.t) : ftable :=
  groupby_agg2 PitStopRow.driverId
    (fun g => nanmean (map (fun s => Some (inject_Z (PitStopRow.milliseconds s))) g))
    (fun g => nancount (map (fun s => Some (inject_Z (PitStopRow.milliseconds s))) g)) stops.

(** [reduce] of the outer merges of lines 93-96. *)
Definition df_stats (results : list ResultRow.t) (status : list StatusRow.t) (laps : list LapTimeRow.t)
    (quals : list QualifyingRow.t) (stops : list PitStopRow.t) : ftable :=
  reduce_outer [(1, one_col (avg_position_gain results)); (1, one_col (win_rate results));
                (1, one_col (podium_rate results)); (1, one_col (finish_rate results (finished_ids status)));
                (2, lap_stats laps); (1, one_col (mean_qual quals)); (2, pit_agg stops)]%nat.

Definition mean_race_pos (results : list ResultRow.t) : list (Z * option Q) :=
  groupby_agg ResultRow.driverId (fun g => nanmean (map pos g)) results.

Definition option_sub (a b : option Q) : option Q :=
  match a, b with Some x, Some y => Some (x - y)%Q | _, _ => None end.

(** [mean_race_pos.merge(mean_qual, on='driverId')] (inner) and the delta. *)
Definition qualif_vs_race (results : list ResultRow.t) (quals : list QualifyingRow.t) : list (Z * option Q) :=
  flat_map (fun mr => map (fun mq => (mr.1, option_sub mq.2 mr.2))
                        (List.filter (fun mq => Z.eqb mq.1 mr.1) (mean_qual quals)))
    (mean_race_pos results).

Definition position_std (results : list ResultRow.t) : list (Z * option Q) :=
  groupby_agg ResultRow.driverId (fun g => nanstd sqrt (map pos g)) results.

Definition podium_when_finished (results : list ResultRow.t) (fids : list Z) : list (Z * option Q) :=
  groupby_agg ResultRow.driverId
    (fun g => nanmean (map (fun r => of_bool (Z.leb (ResultRow.positionOrder r) 3)) g))
    (List.filter (fun r => bool_decide (ResultRow.statusId r ∈ fids)) results).

(** A row [(driverId, driver, cells)]. *)
Definition row := (Z * option DriverRow.t * list (option Q))%type.

(** [df_pilotes.merge(drivers[['driverId', 'forename', 'surname']], on='driverId', how='left')] *)
Definition with_drivers (t : ftable) (drivers : list DriverRow.t) : list row :=
  map (fun p => (p.1.1, p.2, p.1.2)) (merge_left fst DriverRow.driverId t drivers).

(** [df_pilotes.merge(df, on='driverId', how='left')] for a one-column [df]. *)
Definition add_column (rows : list row) (t : list (Z * option Q)) : list row :=
  map (fun p => (p.1.1.1, p.1.1.2, p.1.2 ++ [match p.2 with Some kv => kv.2 | None => None end]))
    (merge_left (fun r => r.1.1) fst rows t).

(** [df_pilotes['name']], [NaN] for a driver missing from drivers.csv. *)
Definition row_name (d : option DriverRow.t) : option string :=
  option_map (fun d => DriverRow.forename d +:+ " " +:+ DriverRow.surname d) d.

(** [df_pilotes.fillna(0)], keeping [driverId], [name] and the features. *)
Definition df_pilotes (drivers : list DriverRow.t) (results : list ResultRow.t) (status : list StatusRow.t)
    (laps : list LapTimeRow.t) (quals : list QualifyingRow.t) (stops : list PitStopRow.t)
    : list (Z * option string * list Q) :=
  let fids := finished_ids status in
  let rows := with_drivers (df_stats results status laps quals stops) drivers in
  let rows := fold_left add_column
                [qualif_vs_race results quals; position_std results; podium_when_finished results fids] rows in
  map (fun r => (r.1.1, row_name r.1.2, map (fun o => match o with Some q => q | None => 0%Q end) r.2)) rows.
End Table.

(** ** Looking a driver up in the merged tables *)

Lemma sorted_asc_elem (l : list Z) k : k ∈ sorted_asc (fun z => z) (first_occ l) <-> k ∈ l.
Proof.
  unfold sorted_asc. rewrite <- (first_occ_elem l), !list_elem_of_In.
  split; apply Permutation_in.
  - apply sorted_desc_perm.
  - apply Permutation_sym, sorted_desc_perm.
Qed.

(** Tables built as [map (fun k => (k, f k)) ks]: looking [k] up finds its row. *)
Lemma find_keyed {C} (ks : list Z) (f : Z -> C) k :
  List.find (fun r => Z.eqb r.1 k) (map (fun k' => (k', f k')) ks)
  = if bool_decide (k ∈ ks) then Some (k, f k) else None.
Proof.
  induction ks as [|k' ks IH]; simpl; [done|]. destruct (Z.eqb_spec k' k) as [->|Hne].
  - by rewrite bool_decide_eq_true_2 by set_solver.
  - rewrite IH. rewrite (bool_decide_ext (k ∈ k' :: ks) (k ∈ ks)); [done|].
    rewrite elem_of_cons. split; [intros [->|]; [congruence|done]|auto].
Qed.

Lemma lookup_cols_absent (t : ftable) w k : k ∉ map fst t -> lookup_cols t w k = repeat None w.
Proof.
  intros Hk. unfold lookup_cols. destruct (List.find _ t) as [r|] eqn:E; [|done].
  apply find_some in E as [Hr Hrk%Z.eqb_eq]. subst k. exfalso. apply Hk.
  apply list_elem_of_In, in_map, Hr.
Qed.

(** The row of [k] in an outer merge is its row on the left followed by its
    row on the right. *)
Lemma lookup_merge_outer wl wr l r k :
  lookup_cols (merge_outer wl wr l r) (wl + wr) k = lookup_cols l wl k ++ lookup_cols r wr k.
Proof.
  unfold merge_outer. unfold lookup_cols at 1. rewrite find_keyed.
  case_bool_decide as Hk; [done|]. rewrite sorted_asc_elem, elem_of_app in Hk.
  rewrite !lookup_cols_absent by tauto. by rewrite repeat_app.
Qed.

(** The row of [k] in the [reduce] of outer merges is the concatenation of
    its rows in the tables, in order. *)
Lemma lookup_reduce_outer d rest k :
  let res := fold_left (fun acc t => (acc.1 + t.1, merge_outer acc.1 t.1 acc.2 t.2)%nat) rest d in
  lookup_cols res.2 res.1 k = lookup_cols d.2 d.1 k ++ flat_map (fun t => lookup_cols t.2 t.1 k) rest.
Proof.
  revert d. induction rest as [|t rest IH]; intros d; simpl; [by rewrite app_nil_r|].
  rewrite IH. simpl. by rewrite lookup_merge_outer, app_assoc.
Qed.

(** A table is keyed when looking up the key of a row finds that row. *)
Definition keyed (t : ftable) : Prop :=
  forall k c, In (k, c) t -> List.find (fun r => Z.eqb r.1 k) t = Some (k, c).

Lemma keyed_map (ks : list Z) (f : Z -> list (option Q)) : keyed (map (fun k => (k, f k)) ks).
Proof.
  intros k c (k' & [= <- <-] & Hk)%in_map_iff. rewrite find_keyed.
  by rewrite bool_decide_eq_true_2 by (by apply list_elem_of_In).
Qed.

Lemma keyed_lookup t w k c : keyed t -> In (k, c) t -> lookup_cols t w k = c.
Proof. intros Ht Hin. unfold lookup_cols. by rewrite (Ht k c Hin). Qed.

Lemma keyed_reduce_outer d rest :
  keyed d.2 ->
  keyed (fold_left (fun acc t => (acc.1 + t.1, merge_outer acc.1 t.1 acc.2 t.2)%nat) rest d).2.
Proof.
  revert d. induction rest as [|t rest IH]; intros d Hd; simpl; [done|]. apply IH. apply keyed_map.
Qed.

Lemma lookup_cols_length (t : ftable) w k :
  Forall (fun r => length r.2 = w) t -> length (lookup_cols t w k) = w.
Proof.
  intros Hw. unfold lookup_cols. destruct (List.find _ t) as [r|] eqn:E; [|apply repeat_length].
  apply find_some in E as [Hr _]. by apply (proj1 (List.Forall_forall _ _) Hw).
Qed.

Lemma one_col_groupby {A} (key : A -> Z) (agg : list A -> option Q) l :
  one_col (groupby_agg key agg l)
  = map (fun k => (k, [agg (List.filter (fun x => Z.eqb (key x) k) l)])) (sorted_asc (fun z => z) (first_occ (map key l))).
Proof. unfold one_col, groupby_agg. by rewrite map_map. Qed.

(** The cell of driver [k] in a [groupby] column: its aggregate when it has
    rows, [NaN] otherwise. *)
Lemma lookup_groupby {A} (key : A -> Z) (agg : list A -> option Q) l k :
  lookup_cols (one_col (groupby_agg key agg l)) 1 k
  = [if bool_decide (k ∈ map key l) then agg (List.filter (fun x => Z.eqb (key x) k) l) else None].
Proof.
  rewrite one_col_groupby. unfold lookup_cols. rewrite find_keyed.
  rewrite (bool_decide_ext _ _ (sorted_asc_elem (map key l) k)). by case_bool_decide.
Qed.

Lemma keyed_one_col_groupby {A} (key : A -> Z) (agg : list A -> option Q) l :
  keyed (one_col (groupby_agg key agg l)).
Proof. rewrite one_col_groupby. apply keyed_map. Qed.

Section Rows.
Context (sqrt : Q -> Q).

(** The nine cells of a row of the merged statistics. *)
Lemma df_stats_row results status laps quals stops k c :
  In (k, c) (df_stats sqrt results status laps quals stops) ->
  c = lookup_cols (one_col (avg_position_gain results)) 1 k
      ++ lookup_cols (one_col (win_rate results)) 1 k
      ++ lookup_cols (one_col (podium_rate results)) 1 k
      ++ lookup_cols (one_col (finish_rate results (finished_ids status))) 1 k
      ++ lookup_cols (lap_stats sqrt laps) 2 k
      ++ lookup_cols (one_col (mean_qual quals)) 1 k
      ++ lookup_cols (pit_agg stops) 2 k.
Proof.
  unfold df_stats, reduce_outer. set (res := fold_left _ _ _). intros Hin.
  assert (Hk : keyed res.2) by (apply keyed_reduce_outer, keyed_one_col_groupby).
  rewrite <- (keyed_lookup res.2 res.1 k c Hk Hin). unfold res.
  rewrite lookup_reduce_outer. simpl. by rewrite app_nil_r.
Qed.

Lemma add_column_In rows t r' :
  In r' (add_column rows t) ->
  exists r x, In r rows /\ r'.1 = r.1 /\ r'.2 = r.2 ++ [x]
              /\ (x = None \/ exists v, In (r.1.1, v) t /\ x = v).
Proof.
  unfold add_column. intros (p & <- & Hp)%in_map_iff. apply merge_left_In in Hp as [Hr Hm].
  exists p.1. eexists. split; [done|]. split; [by destruct p as [[[? ?] ?] ?]|]. split; [done|].
  destruct Hm as [->|(b & -> & Hb & Hk)]; [by left|right]. exists b.2. split; [|done].
  destruct b as [kb vb]. simpl in *. by subst.
Qed.

(** A row of [df_pilotes]: the nine merged statistics of its driverId, then
    the three columns merged on the left, then [fillna(0)]. *)
Lemma df_pilotes_row drivers results status laps quals stops k nm cells :
  In (k, nm, cells) (df_pilotes sqrt drivers results status laps quals stops) ->
  exists c x1 x2 x3,
    In (k, c) (df_stats sqrt results status laps quals stops)
    /\ cells = map (fun o => match o with Some q => q | None => 0%Q end) (c ++ [x1; x2; x3])
    /\ (x1 = None \/ exists v, In (k, v) (qualif_vs_race results quals) /\ x1 = v)
    /\ (x2 = None \/ exists v, In (k, v) (position_std sqrt results) /\ x2 = v)
    /\ (x3 = None \/ exists v, In (k, v) (podium_when_finished results (finished_ids status)) /\ x3 = v).
Proof.
  unfold df_pilotes. cbn [fold_left]. intros ([[k' d] c'] & Heq & Hr)%in_map_iff.
  injection Heq as Ek En Ec. subst k nm cells.
  apply add_column_In in Hr as ([[k3 d3] c3] & x3 & Hr3 & E3 & E3' & Hx3).
  cbn [fst snd] in E3, E3', Hx3. injection E3 as -> ->. subst c'.
  apply add_column_In in Hr3 as ([[k2 d2] c2] & x2 & Hr2 & E2 & E2' & Hx2).
  cbn [fst snd] in E2, E2', Hx2. injection E2 as -> ->. subst c3.
  apply add_column_In in Hr2 as ([[k1 d1] c1] & x1 & Hr1 & E1 & E1' & Hx1).
  cbn [fst snd] in E1, E1', Hx1. injection E1 as -> ->. subst c2.
  unfold with_drivers in Hr1. apply in_map_iff in Hr1 as ([[kp cp] dp] & Heq & Hp).
  injection Heq as -> -> ->. apply merge_left_In in Hp as [Hp _]. cbn [fst snd] in Hp.
  exists c1, x1, x2, x3. rewrite <- !app_assoc. cbn [app].
  exact (conj Hp (conj eq_refl (conj Hx1 (conj Hx2 Hx3)))).
Qed.
End Rows.

(** ** Which drivers get a row *)

Lemma In_map_form {C} (ks : list Z) (f : Z -> C) k v :
  In (k, v) (map (fun k' => (k', f k')) ks) -> v = f k /\ In k ks.
Proof. intros (k' & Heq & Hk)%in_map_iff. injection Heq as -> <-. auto. Qed.

Lemma keys_merge_outer wl wr l r k c :
  In (k, c) (merge_outer wl wr l r) -> k ∈ map fst l \/ k ∈ map fst r.
Proof.
  unfold merge_outer. intros [_ Hk]%In_map_form. apply list_elem_of_In in Hk.
  by rewrite sorted_asc_elem, elem_of_app in Hk.
Qed.

Lemma keys_reduce_outer d rest k c :
  In (k, c) (fold_left (fun acc t => (acc.1 + t.1, merge_outer acc.1 t.1 acc.2 t.2)%nat) rest d).2 ->
  k ∈ map fst d.2 \/ exists t, In t rest /\ k ∈ map fst t.2.
Proof.
  revert d c. induction rest as [|t rest IH]; intros d c; simpl.
  { intros Hin. left. apply list_elem_of_In, (in_map fst _ (k, c)), Hin. }
  intros [Hk|(t' & Ht' & Hk)]%IH; [|eauto].
  apply list_elem_of_In, in_map_iff in Hk as ([k' c'] & Hk' & Hin). simpl in Hk'. subst k'.
  apply keys_merge_outer in Hin as [Hk|Hk]; simpl in Hk; eauto.
Qed.

Lemma keys_map_form {C} (ks : list Z) (f : Z -> C) : map fst (map (fun k => (k, f k)) ks) = ks.
Proof. induction ks as [|k ks IH]; simpl; [done|]. by rewrite IH. Qed.

Lemma keys_groupby {A} (key : A -> Z) (agg : list A -> option Q) l k :
  k ∈ map fst (one_col (groupby_agg key agg l)) -> k ∈ map key l.
Proof. rewrite one_col_groupby, keys_map_form. apply sorted_asc_elem. Qed.

Lemma keys_groupby2 {A} (key : A -> Z) (a1 a2 : list A -> option Q) l k :
  k ∈ map fst (groupby_agg2 key a1 a2 l) -> k ∈ map key l.
Proof.
  unfold groupby_agg2.
  rewrite (keys_map_form _ (fun k => let g := List.filter (fun x => Z.eqb (key x) k) l in [a1 g; a2 g])).
  apply sorted_asc_elem.
Qed.

Section NoRow.
Context (sqrt : Q -> Q).

(** C20: a driver who appears in drivers.csv but has no result, lap,
    qualifying session or pit stop gets no row at all in [df_pilotes]
    (the outer merges only bring the drivers of the statistics tables and
    drivers.csv is merged on the left), where the spec promises such a
    driver an all-zero feature row. *)
Theorem features_no_row_without_data drivers results status laps quals stops d nm cells :
  d ∉ map ResultRow.driverId results -> d ∉ map LapTimeRow.driverId laps ->
  d ∉ map QualifyingRow.driverId quals -> d ∉ map PitStopRow.driverId stops ->
  ~ In (d, nm, cells) (df_pilotes sqrt drivers results status laps quals stops).
Proof.
  intros Hr Hl Hq Hp (c & x1 & x2 & x3 & Hin & _)%df_pilotes_row.
  unfold df_stats, reduce_outer in Hin. apply keys_reduce_outer in Hin as [Hk|(t & Ht & Hk)].
  - by apply keys_groupby in Hk.
  - simpl in Ht. repeat destruct Ht as [<-|Ht]; try done; simpl in Hk;
      first [apply keys_groupby in Hk | apply keys_groupby2 in Hk]; done.
Qed.
End NoRow.

(** ** Means of indicators *)

(** [fillna(0)] of one cell. *)
Definition fill0 (o : option Q) : Q := match o with Some q => q | None => 0%Q end.

Lemma present_bool {A} (b : A -> bool) g :
  present (map (fun x => of_bool (b x)) g) = map (fun x => if b x then 1%Q else 0%Q) g.
Proof. induction g as [|x g IH]; simpl; [done|]. by rewrite IH. Qed.

Lemma Qsum_indicator {A} (b : A -> bool) g :
  (Qsum (map (fun x => if b x then 1%Q else 0%Q) g) == inject_Z (Z.of_nat (countb b g)))%Q.
Proof.
  induction g as [|x g IH]; [done|]. unfold Qsum. cbn [map fold_left]. rewrite Qsum_acc.
  fold (Qsum (map (fun x => if b x then 1%Q else 0%Q) g)). rewrite IH, countb_cons.
  rewrite Nat2Z.inj_add, inject_Z_plus. destruct (b x); simpl; ring.
Qed.

(** The mean of an indicator is the share of the rows where it holds. *)
Lemma nanmean_bool {A} (b : A -> bool) g :
  g <> [] ->
  exists v, nanmean (map (fun x => of_bool (b x)) g) = Some v
            /\ (v == inject_Z (Z.of_nat (countb b g)) / inject_Z (Z.of_nat (length g)))%Q.
Proof.
  intros Hg. unfold nanmean. rewrite present_bool.
  destruct (map (fun x => if b x then 1%Q else 0%Q) g) as [|q l] eqn:E.
  { by apply map_eq_nil in E. }
  eexists. split; [reflexivity|]. rewrite <- E, Qsum_indicator, length_map. reflexivity.
Qed.

Lemma share_bounds c n : (c <= n)%nat -> (0 < n)%nat ->
  (0 <= inject_Z (Z.of_nat c) / inject_Z (Z.of_nat n) <= 1)%Q.
Proof.
  intros Hcn Hn. assert (Hpos : (0 < inject_Z (Z.of_nat n))%Q).
  { change 0%Q with (inject_Z 0). rewrite <- Zlt_Qlt. lia. }
  split.
  - apply Qle_shift_div_l; [done|]. rewrite Qmult_0_l. change 0%Q with (inject_Z 0). rewrite <- Zle_Qle. lia.
  - apply Qle_shift_div_r; [done|]. rewrite Qmult_1_l. rewrite <- Zle_Qle. lia.
Qed.

Lemma fill_nanmean_bool_bounds {A} (b : A -> bool) g :
  (0 <= fill0 (nanmean (map (fun x => of_bool (b x)) g)) <= 1)%Q.
Proof.
  destruct g as [|x g']; [simpl; split; discriminate|].
  destruct (nanmean_bool b (x :: g')) as (v & -> & Hv); [done|]. simpl. rewrite Hv.
  apply share_bounds; [apply countb_le|simpl; lia].
Qed.

Lemma countb_mono {A} (b1 b2 : A -> bool) g :
  (forall x, b1 x = true -> b2 x = true) -> (countb b1 g <= countb b2 g)%nat.
Proof.
  intros Hb. induction g as [|x g IH]; [done|]. rewrite !countb_cons.
  destruct (b1 x) eqn:E1; [rewrite (Hb x E1)|destruct (b2 x)]; lia.
Qed.

Lemma fill_nanmean_bool_mono {A} (b1 b2 : A -> bool) g :
  (forall x, b1 x = true -> b2 x = true) ->
  (fill0 (nanmean (map (fun x => of_bool (b1 x)) g)) <= fill0 (nanmean (map (fun x => of_bool (b2 x)) g)))%Q.
Proof.
  intros Hb. destruct g as [|x g']; [simpl; discriminate|].
  destruct (nanmean_bool b1 (x :: g')) as (v1 & -> & Hv1); [done|].
  destruct (nanmean_bool b2 (x :: g')) as (v2 & -> & Hv2); [done|]. simpl. rewrite Hv1, Hv2.
  apply Qmult_le_compat_r; [|apply Qinv_le_0_compat; change 0%Q with (inject_Z 0); rewrite <- Zle_Qle; lia].
  rewrite <- Zle_Qle. apply Nat2Z.inj_le, countb_mono, Hb.
Qed.

(** ** Columns of the feature rows *)

Lemma In_groupby {A} (key : A -> Z) (agg : list A -> option Q) l k v :
  In (k, v) (groupby_agg key agg l) -> v = agg (List.filter (fun x => Z.eqb (key x) k) l).
Proof. unfold groupby_agg. by intros [-> _]%In_map_form. Qed.

Lemma groupby_agg2_width {A} (key : A -> Z) (a1 a2 : list A -> option Q) l :
  Forall (fun r => length r.2 = 2%nat) (groupby_agg2 key a1 a2 l).
Proof. apply List.Forall_forall. intros r (k & <- & _)%in_map_iff. done. Qed.

Section Columns.
Context (sqrt : Q -> Q).

(** A row of [df_pilotes] cell by cell: the nine statistics, then the
    three left-merged columns. *)
Lemma df_pilotes_cells drivers results status laps quals stops k nm cells :
  In (k, nm, cells) (df_pilotes sqrt drivers results status laps quals stops) ->
  exists a b c d x1 x2 x3,
    cells = map fill0 (lookup_cols (one_col (avg_position_gain results)) 1 k
                       ++ lookup_cols (one_col (win_rate results)) 1 k
                       ++ lookup_cols (one_col (podium_rate results)) 1 k
                       ++ lookup_cols (one_col (finish_rate results (finished_ids status))) 1 k
                       ++ [a; b]
                       ++ lookup_cols (one_col (mean_qual quals)) 1 k
                       ++ [c; d; x1; x2; x3])
    /\ (x1 = None \/ exists v, In (k, v) (qualif_vs_race results quals) /\ x1 = v)
    /\ (x3 = None \/ exists v, In (k, v) (podium_when_finished results (finished_ids status)) /\ x3 = v).
Proof.
  intros (cs & x1 & x2 & x3 & Hin & -> & Hx1 & _ & Hx3)%df_pilotes_row.
  apply df_stats_row in Hin as ->.
  pose proof (lookup_cols_length (lap_stats sqrt laps) 2 k (groupby_agg2_width _ _ _ _)) as H4.
  pose proof (lookup_cols_length (pit_agg stops) 2 k (groupby_agg2_width _ _ _ _)) as H6.
  destruct (lookup_cols (lap_stats sqrt laps) 2 k) as [|a [|b [|]]]; try discriminate.
  destruct (lookup_cols (pit_agg stops) 2 k) as [|c [|d [|]]]; try discriminate.
  exists a, b, c, d, x1, x2, x3. split; [|done]. by rewrite <- !app_assoc.
Qed.

(** The qualifying cells of a row when no session time is a number. *)
Lemma qualifying_cells_zero drivers results status laps quals stops k nm cells :
  Forall (fun q => to_numeric (QualifyingRow.q1 q) = None /\ to_numeric (QualifyingRow.q2 q) = None
                   /\ to_numeric (QualifyingRow.q3 q) = None) quals ->
  In (k, nm, cells) (df_pilotes sqrt drivers results status laps quals stops) ->
  nth 6 cells 1%Q = 0%Q /\ nth 9 cells 1%Q = 0%Q.
Proof.
  intros Hq (a & b & c & d & x1 & x2 & x3 & -> & Hx1 & _)%df_pilotes_cells.
  assert (Hmq : forall g, incl g quals -> nanmean (map qual_row_mean g) = None).
  { intros g Hg. unfold nanmean. replace (present (map qual_row_mean g)) with (@nil Q); [done|].
    induction g as [|q g IH]; [done|]. simpl.
    destruct (proj1 (List.Forall_forall _ _) Hq q (Hg q (or_introl eq_refl))) as (E1 & E2 & E3).
    unfold qual_row_mean, nanmean. rewrite E1, E2, E3. simpl. apply IH. intros y Hy. apply Hg. by right. }
  assert (Hmq' : forall k' v, In (k', v) (mean_qual quals) -> v = None).
  { intros k' v ->%In_groupby. apply Hmq. intros y [Hy _]%filter_In. done. }
  unfold avg_position_gain, win_rate, podium_rate, finish_rate, mean_qual. rewrite !lookup_groupby.
  rewrite Hmq by (intros y [Hy _]%filter_In; done).
  assert (Hx : x1 = None).
  { destruct Hx1 as [->|(v & Hv & ->)]; [done|]. unfold qualif_vs_race in Hv.
    apply in_flat_map in Hv as (mr & _ & (mq & [= _ <-] & Hmq2%filter_In)%in_map_iff).
    destruct Hmq2 as [Hmq2 _]. destruct mq as [kq vq]. by rewrite (Hmq' kq vq Hmq2). }
  subst x1. cbn [app map nth].
  split; [by destruct (bool_decide (k ∈ map QualifyingRow.driverId quals))|done].
Qed.

(** [pd.to_numeric(errors='coerce')] turns the qualifying session
    times of qualifying.csv (["1:26.572"], ["\N"]) into [NaN]; when no
    session cell is a plain number, the mean qualifying position and the
    qualifying-versus-race delta are [NaN] for every driver and
    [fillna(0)] makes both features 0 in every row. *)
Theorem qualifying_features_zero drivers results status laps quals stops k nm cells :
  Forall (fun q => to_numeric (QualifyingRow.q1 q) = None /\ to_numeric (QualifyingRow.q2 q) = None
                   /\ to_numeric (QualifyingRow.q3 q) = None) quals ->
  In (k, nm, cells) (df_pilotes sqrt drivers results status laps quals stops) ->
  nth 6 cells 1%Q = 0%Q /\ nth 9 cells 1%Q = 0%Q.
Proof. apply qualifying_cells_zero. Qed.

(** Every row holds the twelve features. *)
Lemma df_pilotes_width drivers results status laps quals stops k nm cells :
  In (k, nm, cells) (df_pilotes sqrt drivers results status laps quals stops) -> length cells = 12%nat.
Proof.
  intros (a & b & c & d & x1 & x2 & x3 & -> & _)%df_pilotes_cells.
  unfold avg_position_gain, win_rate, podium_rate, finish_rate, mean_qual. by rewrite !lookup_groupby.
Qed.

Lemma fill_if_share_bounds {A} (c : bool) (b : A -> bool) g :
  (0 <= fill0 (if c then nanmean (map (fun x => of_bool (b x)) g) else None) <= 1)%Q.
Proof. destruct c; [apply fill_nanmean_bool_bounds|simpl; split; discriminate]. Qed.

(** C21: the win rate, the podium rate, the finish rate and the podium
    rate among finished races of every row of the feature table are
    shares: between 0 and 1, [fillna(0)] included; and a driver's win
    rate is at most the podium rate. *)
Theorem rate_features_bounded drivers results status laps quals stops k nm cells :
  In (k, nm, cells) (df_pilotes sqrt drivers results status laps quals stops) ->
  (0 <= nth 1 cells 0 <= 1)%Q /\ (0 <= nth 2 cells 0 <= 1)%Q /\ (0 <= nth 3 cells 0 <= 1)%Q
  /\ (0 <= nth 11 cells 0 <= 1)%Q /\ (nth 1 cells 0 <= nth 2 cells 0)%Q.
Proof.
  intros (a & b & c & d & x1 & x2 & x3 & -> & _ & Hx3)%df_pilotes_cells.
  unfold avg_position_gain, win_rate, podium_rate, finish_rate, mean_qual. rewrite !lookup_groupby.
  cbn [app map nth].
  assert (H11 : (0 <= fill0 x3 <= 1)%Q).
  { destruct Hx3 as [->|(v & Hv & ->)]; [simpl; split; discriminate|].
    apply In_groupby in Hv as ->. apply fill_nanmean_bool_bounds. }
  refine (conj (fill_if_share_bounds _ _ _) (conj (fill_if_share_bounds _ _ _)
            (conj (fill_if_share_bounds _ _ _) (conj H11 _)))).
  destruct (bool_decide _); [|apply Qle_refl].
  apply fill_nanmean_bool_mono. intros r ?%Z.eqb_eq. apply Z.leb_le. lia.
Qed.
End Columns.

(** ** Examples *)

Definition ft_drivers : list DriverRow.t :=
  [DriverRow.mk 1 "Lewis" "Hamilton" "British"; DriverRow.mk 830 "Max" "Verstappen" "Dutch";
   DriverRow.mk 900 "Test" "Driver" "French"].

Definition ft_status : list StatusRow.t :=
  [StatusRow.mk 1 "Finished"; StatusRow.mk 5 "Engine"; StatusRow.mk 11 "+1 Lap"].

Definition ft_results : list ResultRow.t :=
  [ResultRow.mk 18 1 1 2 "1" 1 1; ResultRow.mk 18 830 9 1 "2" 2 1;
   ResultRow.mk 19 1 1 1 "3" 3 11; ResultRow.mk 19 830 9 3 "\N" 20 5].

Definition ft_laps : list LapTimeRow.t :=
  [LapTimeRow.mk 1 90000; LapTimeRow.mk 1 92000; LapTimeRow.mk 830 91000].

(** Session times as qualifying.csv writes them. *)
Definition ft_quals : list QualifyingRow.t :=
  [QualifyingRow.mk 1 "1:26.572" "1:25.900" "1:25.404"; QualifyingRow.mk 830 "1:26.100" "\N" "\N"].

Definition ft_stops : list PitStopRow.t :=
  [PitStopRow.mk 1 22000; PitStopRow.mk 830 24000; PitStopRow.mk 830 23000].

(** The cells of the two rows, with the identity for the square root (so
    column 5 is the variance of the lap times). *)
Definition ft_rows : list (Z * option string * list Q) :=
  Eval vm_compute in df_pilotes (fun q => q) ft_drivers ft_results ft_status ft_laps ft_quals ft_stops.
Definition ft_lewis : list Q := Eval vm_compute in nth 0 (map snd ft_rows) [].
Definition ft_max : list Q := Eval vm_compute in nth 1 (map snd ft_rows) [].

Lemma features_no_row_without_data_witness :
  ~ In (900%Z, Some "Test Driver", [0%Q]) (df_pilotes (fun q => q) ft_drivers ft_results ft_status ft_laps ft_quals ft_stops).
Proof.
  apply features_no_row_without_data; apply (bool_decide_eq_false _); vm_compute; reflexivity.
Defined.

Lemma qualifying_features_zero_witness : nth 6 ft_lewis 1%Q = 0%Q /\ nth 9 ft_lewis 1%Q = 0%Q.
Proof.
  apply (qualifying_features_zero (fun q => q) ft_drivers ft_results ft_status ft_laps ft_quals ft_stops
           1 (Some "Lewis Hamilton")).
  - repeat constructor; vm_compute; reflexivity.
  - vm_compute. left. reflexivity.
Defined.

Lemma rate_features_bounded_witness :
  (0 <= nth 1 ft_max 0 <= 1)%Q /\ (0 <= nth 2 ft_max 0 <= 1)%Q /\ (0 <= nth 3 ft_max 0 <= 1)%Q
  /\ (0 <= nth 11 ft_max 0 <= 1)%Q /\ (nth 1 ft_max 0 <= nth 2 ft_max 0)%Q.
Proof.
  apply (rate_features_bounded (fun q => q) ft_drivers ft_results ft_status ft_laps ft_quals ft_stops
           830 (Some "Max Verstappen")).
  vm_compute. right. left. reflexivity.
Defined.
