(* ===== verification/Clustering.v ===== *)
(** * Standardisation of the feature table and the cluster table
      (src/learning/clustering.py, lines 134-202)

    [features] is [df_pilotes.drop(columns=[...])]: the twelve numbers of
    each row of [Features.df_pilotes].  [standard_scale] is
    [StandardScaler().fit_transform(features)]: per column the mean, the
    population variance ([ddof=0]), its square root (the section's
    [sqrt]), replaced by 1 when it is 0 (scikit-learn's
    [_handle_zeros_in_scale]), and [(x - mean) / scale] with numpy's
    division, whose [0/0] and [x/0] are not finite ([None] here).  No
    sample raises [ValueError].  [cluster_table] is the table of lines
    196-202: the names of each cluster (labels ascending, names in row
    order), padded with [''] to the largest cluster, and
    [pd.DataFrame] of those columns, which raises [ValueError] on columns
    of different lengths.  The labels are an input: KMeans and PCA
    (scikit-learn, lines 139-190) and the plots are not modelled. *)

From S2P Require Import Prelude PySort PyStr PyNum PyDict Tables Frame Features.

(** [df_pilotes.drop(columns=['driverId', 'forename', 'surname', 'name'])] *)
Definition features (rows : list (Z * option string * list Q)) : list (list Q) := map snd rows.

Section Scaler.
Context (sqrt : Q -> Q).

(** [X[:, j]] *)
Definition column (X : list (list Q)) (j : nat) : list Q := map (fun r => nth j r 0%Q) X.

Definition col_mean (c : list Q) : Q := (Qsum c / inject_Z (Z.of_nat (length c)))%Q.

(** [np.var] with [ddof=0]. *)
Definition col_var (c : list Q) : Q :=
  let m := col_mean c in (Qsum (map (fun x => (x - m) * (x - m)) c) / inject_Z (Z.of_nat (length c)))%Q.

(** [scale_ = _handle_zeros_in_scale(np.sqrt(var_))]: 1 for a constant column. *)
Definition col_scale (c : list Q) : Q :=
  let s := sqrt (col_var c) in if Qeq_bool s 0 then 1%Q else s.

(** numpy's [x / s]: not finite when [s] is 0. *)
Definition np_div (x s : Q) : option Q := if Qeq_bool s 0 then None else Some (x / s)%Q.

Definition scale_cell (c : list Q) (x : Q) : option Q := np_div (x - col_mean c) (col_scale c).

(** [StandardScaler().fit_transform(X)]; the width is the first row's. *)
Definition standard_scale (X : list (list Q)) : result (list (list (option Q))) :=
  match X with
  | [] => Raise ValueError
  | r0 :: _ =>
      let cols := map (column X) (seq 0 (length r0)) in
      Ok (map (fun r => zip_with scale_cell cols r) X)
  end.
End Scaler.

(** ** The cluster table (lines 160, 196-202) *)

(** [df['col'] = values]: [ValueError] unless there is one value per row. *)
Definition assign_column {A B} (col : list A) (vals : list B) : result (list (A * B)) :=
  if Nat.eqb (length col) (length vals) then Ok (combine col vals) else Raise ValueError.

(** The names of the rows labelled [i], in row order. *)
Definition members (rows : list (option string * Z)) (i : Z) : list (option string) :=
  map fst (List.filter (fun r => Z.eqb r.2 i) rows).

(** [df_pilotes.groupby('cluster')['name'].apply(list).to_dict()]: one
    key per label, ascending. *)
Definition clusters (rows : list (option string * Z)) : list (Z * list (option string)) :=
  map (fun i => (i, members rows i)) (sorted_asc (fun z => z) (first_occ (map snd rows))).

(** [pd.DataFrame({name: column, ...})]: [ValueError] unless the columns
    have one length. *)
Definition frame_of_columns {A} (cols : list (string * list A)) : result (list (string * list A)) :=
  match cols with
  | [] => Ok []
  | c :: _ => if forallb (fun c' => Nat.eqb (length c'.2) (length c.2)) cols then Ok cols else Raise ValueError
  end.

Definition cluster_label (i : Z) : string := "Cluster " +:+ str_of_Z i.

(** The names are [df_pilotes['name']] after [fillna(0)] ([None] is that
    0), the labels [kmeans.fit_predict(X_scaled)]. *)
Definition cluster_table (names : list (option string)) (labels : list Z)
    : result (list (string * list (option string))) :=
  let* rows := assign_column names labels in
  let cl := clusters rows in
  let* max_len := py_max (map (fun kv => length kv.2) cl) in
  frame_of_columns
    (map (fun i => let ns := default [] (dict_get i cl) in
                   (cluster_label i, ns ++ repeat (Some "") (max_len - length ns)))
         (sorted_asc (fun z => z) (map fst cl))).

(** ** Sums, means and the scaled cells *)

Lemma Qsum_affine m s c :
  (Qsum (map (fun x => (x - m) / s) c) == (Qsum c - inject_Z (Z.of_nat (length c)) * m) / s)%Q.
Proof.
  induction c as [|x c IH]; [unfold Qsum; simpl; unfold Qdiv; ring|].
  cbn [map length]. rewrite !Qsum_cons, IH, Nat2Z.inj_succ.
  unfold Z.succ. rewrite inject_Z_plus. unfold Qdiv. ring.
Qed.

Lemma col_mean_sum c : c <> [] -> (inject_Z (Z.of_nat (length c)) * col_mean c == Qsum c)%Q.
Proof.
  intros Hc. unfold col_mean. field. change 0%Q with (inject_Z 0). rewrite inject_Z_injective.
  destruct c; [done|]. simpl. lia.
Qed.

Lemma col_scale_nonzero sqrt c : ~ (col_scale sqrt c == 0)%Q.
Proof.
  unfold col_scale. destruct (Qeq_bool _ 0) eqn:E; [discriminate|]. by apply Qeq_bool_neq.
Qed.

Lemma scale_cell_Some sqrt c x :
  scale_cell sqrt c x = Some ((x - col_mean c) / col_scale sqrt c)%Q.
Proof.
  unfold scale_cell, np_div. destruct (Qeq_bool _ 0) eqn:E; [|done].
  apply Qeq_bool_iff in E. by apply col_scale_nonzero in E.
Qed.

Lemma nth_zip_with {A B C} (f : A -> B -> C) l k j da db dc :
  (j < length l)%nat -> (j < length k)%nat -> nth j (zip_with f l k) dc = f (nth j l da) (nth j k db).
Proof.
  revert k j. induction l as [|x l IH]; intros [|y k] [|j]; simpl; try lia; [done|].
  intros. apply IH; lia.
Qed.

Lemma length_zip_with_eq {A B C} (f : A -> B -> C) l k : length l = length k -> length (zip_with f l k) = length l.
Proof. intros E. rewrite length_zip_with. lia. Qed.

Lemma zip_with_map_seq {B C} (f : B -> Q -> C) (g : nat -> B) n w r :
  length r = w -> zip_with f (map g (seq n w)) r = map (fun j => f (g j) (nth (j - n) r 0%Q)) (seq n w).
Proof.
  revert n r. induction w as [|w IH]; intros n [|x r] Hr; simpl in *; try lia; [done|].
  rewrite Nat.sub_diag. f_equal. rewrite IH by lia. apply map_ext_in. intros j Hj%in_seq.
  by replace (j - n)%nat with (S (j - S n)) by lia.
Qed.

Lemma map_column {B} (h : Q -> B) X j : map h (column X j) = map (fun r => h (nth j r 0%Q)) X.
Proof. unfold column. by rewrite map_map. Qed.

(** The scaled matrix cell by cell, for rows of one width. *)
Lemma standard_scale_rect sqrt X w :
  X <> [] -> Forall (fun r => length r = w) X ->
  standard_scale sqrt X
  = Ok (map (fun r => map (fun j => scale_cell sqrt (column X j) (nth j r 0%Q)) (seq 0 w)) X).
Proof.
  intros HX Hw. destruct X as [|r0 X']; [done|]. inversion Hw as [|? ? H0 _]; subst w.
  cbn [standard_scale]. f_equal. apply map_ext_in. intros r Hr.
  rewrite zip_with_map_seq by (by apply (proj1 (List.Forall_forall _ _) Hw)).
  apply map_ext. intros j. by rewrite Nat.sub_0_r.
Qed.

Lemma standard_scale_nil sqrt : standard_scale sqrt [] = Raise ValueError.
Proof. done. Qed.

(** Column [j] of the scaled matrix is [(x - mean) / scale] of column [j]. *)
Lemma standard_scale_column sqrt X w Y j :
  Forall (fun r => length r = w) X -> standard_scale sqrt X = Ok Y -> (j < w)%nat ->
  map (fun y => nth j y None) Y
  = map (fun x => Some ((x - col_mean (column X j)) / col_scale sqrt (column X j))%Q) (column X j).
Proof.
  intros Hw HY Hj. assert (HX : X <> []) by (intros ->; discriminate).
  rewrite (standard_scale_rect sqrt X w HX Hw) in HY. injection HY as <-.
  rewrite map_column, map_map. apply map_ext. intros r.
  rewrite (nth_indep _ None (scale_cell sqrt (column X 0) (nth 0 r 0%Q))) by (rewrite length_map, length_seq; lia).
  rewrite (map_nth (fun j => scale_cell sqrt (column X j) (nth j r 0%Q))), seq_nth by done.
  apply scale_cell_Some.
Qed.

(** Every row of the closed form has [w] cells, all finite. *)
Lemma scaled_rows_finite sqrt X w :
  Forall (fun y => length y = w /\ Forall is_Some y)
    (map (fun r => map (fun j => scale_cell sqrt (column X j) (nth j r 0%Q)) (seq 0 w)) X).
Proof.
  apply Forall_map, List.Forall_forall. intros r _. rewrite length_map, length_seq. split; [done|].
  apply Forall_map, List.Forall_forall. intros j _. rewrite scale_cell_Some. by eexists.
Qed.

(** After [StandardScaler] every feature column sums to 0 (the
    columns are centred). *)
Theorem standard_scale_centred sqrt X w Y j :
  Forall (fun r => length r = w) X -> standard_scale sqrt X = Ok Y -> (j < w)%nat ->
  (Qsum (map (fun y => fill0 (nth j y None)) Y) == 0)%Q.
Proof.
  intros Hw HY Hj. assert (HX : column X j <> []) by (destruct X; [done|discriminate]).
  rewrite <- (map_map (fun y => nth j y None) fill0), (standard_scale_column sqrt X w Y j) by done.
  rewrite map_map. cbn [fill0]. rewrite Qsum_affine, col_mean_sum by done. unfold Qdiv. ring.
Qed.

Lemma Qsum_zero c : Forall (fun x => x == 0)%Q c -> (Qsum c == 0)%Q.
Proof. induction 1 as [|x c Hx _ IH]; [done|]. by rewrite Qsum_cons, Hx, IH. Qed.

(** A column of zeros is scaled to zeros. *)
Lemma standard_scale_zero_column sqrt X w Y j :
  Forall (fun r => length r = w) X -> standard_scale sqrt X = Ok Y -> (j < w)%nat ->
  Forall (fun r => nth j r 0%Q == 0)%Q X ->
  Forall (fun y => exists q, nth j y None = Some q /\ (q == 0)%Q) Y.
Proof.
  intros Hw HY Hj H0.
  enough (H : Forall (fun o => exists q, o = Some q /\ (q == 0)%Q) (map (fun y => nth j y None) Y))
    by (exact (proj1 (List.Forall_map _ _ _) H)).
  rewrite (standard_scale_column sqrt X w Y j Hw HY Hj).
  assert (Hc : Forall (fun x => x == 0)%Q (column X j)) by (by apply Forall_map).
  assert (Hm : (col_mean (column X j) == 0)%Q) by (unfold col_mean; rewrite Qsum_zero by done; unfold Qdiv; apply Qmult_0_l).
  apply Forall_map. eapply Forall_impl; [exact Hc|]. intros x Hx. eexists. split; [done|].
  rewrite Hx, Hm. unfold Qdiv. ring.
Qed.

Lemma features_width sqrt drivers results status laps quals stops :
  Forall (fun r => length r = 12%nat) (features (df_pilotes sqrt drivers results status laps quals stops)).
Proof.
  apply Forall_map, List.Forall_forall. intros [[k nm] cells] Hin. by apply df_pilotes_width in Hin.
Qed.

(** C24: the matrix [StandardScaler] receives from the feature table is
    well formed: with no driver row it raises [ValueError]; otherwise it
    returns one row per driver, each of exactly twelve finite numbers (no
    [NaN] enters KMeans). *)
Theorem scaled_features_shape sqrt sqrt' drivers results status laps quals stops :
  let X := features (df_pilotes sqrt drivers results status laps quals stops) in
  (X = [] /\ standard_scale sqrt' X = Raise ValueError)
  \/ exists Y, standard_scale sqrt' X = Ok Y /\ length Y = length X
               /\ Forall (fun y => length y = 12%nat /\ Forall is_Some y) Y.
Proof.
  intros X. destruct X as [|r X'] eqn:EX; [by left|right].
  pose proof (features_width sqrt drivers results status laps quals stops) as Hw. fold X in Hw. rewrite EX in Hw.
  eexists. split; [apply (standard_scale_rect sqrt' _ 12); [discriminate|exact Hw]|].
  rewrite length_map. split; [done|]. apply scaled_rows_finite.
Qed.

(** C22: with qualifying.csv's session times, which [to_numeric] cannot
    read, the mean qualifying position and the qualifying-versus-race
    delta are 0 in every row of the scaled matrix KMeans and PCA receive:
    the two features carry no information into the clustering. *)
Theorem qualifying_features_scaled_zero sqrt sqrt' drivers results status laps quals stops Y :
  Forall (fun q => to_numeric (QualifyingRow.q1 q) = None /\ to_numeric (QualifyingRow.q2 q) = None
                   /\ to_numeric (QualifyingRow.q3 q) = None) quals ->
  standard_scale sqrt' (features (df_pilotes sqrt drivers results status laps quals stops)) = Ok Y ->
  Forall (fun y => (exists q, nth 6 y None = Some q /\ (q == 0)%Q)
                   /\ (exists q, nth 9 y None = Some q /\ (q == 0)%Q)) Y.
Proof.
  intros Hq HY. pose proof (features_width sqrt drivers results status laps quals stops) as Hw.
  assert (Hz : forall j, j = 6%nat \/ j = 9%nat ->
            Forall (fun r => nth j r 0%Q == 0)%Q (features (df_pilotes sqrt drivers results status laps quals stops))).
  { intros j Hj. apply Forall_map, List.Forall_forall. intros [[k nm] cells] Hin. cbn [snd].
    pose proof (df_pilotes_width _ _ _ _ _ _ _ _ _ _ Hin) as Hl.
    destruct (qualifying_cells_zero sqrt _ _ _ _ _ _ _ _ _ Hq Hin) as [H6 H9].
    rewrite (nth_indep _ 0%Q 1%Q) by lia. by destruct Hj as [->| ->]; [rewrite H6|rewrite H9]. }
  apply Forall_and; split; eapply standard_scale_zero_column; eauto; lia.
Qed.

(** ** The cluster table *)

Lemma map_snd_combine {A B} (l : list A) (k : list B) : length l = length k -> map snd (combine l k) = k.
Proof. revert k. induction l as [|x l IH]; intros [|y k] Hk; simpl in *; try lia; [done|]. f_equal. apply IH. lia. Qed.

Lemma first_occ_NoDup {K} `{EqDecision K} (l : list K) : NoDup (first_occ l).
Proof. rewrite <- (map_id l), <- (count_by_keys (fun x => x)). apply count_by_nodup. Qed.

Lemma In_sorted_first_occ (l : list Z) i : In i (sorted_asc (fun z => z) (first_occ l)) <-> In i l.
Proof.
  unfold sorted_asc. split.
  - intros Hi%(Permutation_in _ (sorted_desc_perm _ _)). apply list_elem_of_In, first_occ_elem.
    by apply list_elem_of_In.
  - intros Hi. apply (Permutation_in _ (Permutation_sym (sorted_desc_perm _ _))).
    apply list_elem_of_In, first_occ_elem. by apply list_elem_of_In.
Qed.

Lemma sorted_asc_idem (l : list Z) : sorted_asc (fun z => z) (sorted_asc (fun z => z) l) = sorted_asc (fun z => z) l.
Proof. unfold sorted_asc. apply sorted_desc_idem, sorted_desc_sorted. Qed.

Lemma dict_get_clusters rows i :
  In i (map snd rows) -> dict_get i (clusters rows) = Some (members rows i).
Proof.
  intros Hi. apply dict_get_In_nodup.
  - unfold dict_keys, clusters. rewrite map_map. cbn [fst]. rewrite map_id.
    unfold sorted_asc. rewrite sorted_desc_perm. apply first_occ_NoDup.
  - apply in_map_iff. exists i. split; [done|]. by apply In_sorted_first_occ.
Qed.

Lemma frame_of_columns_ok {A} (cols : list (string * list A)) n :
  Forall (fun c => length c.2 = n) cols -> frame_of_columns cols = Ok cols.
Proof.
  destruct cols as [|c cols]; [done|]. intros Hc. cbn [frame_of_columns].
  rewrite (proj2 (forallb_forall _ _)); [done|]. intros c' Hc'. apply Nat.eqb_eq.
  rewrite (proj1 (List.Forall_forall _ _) Hc c' Hc'). inversion Hc. done.
Qed.

(** The columns of the cluster table, and the size [m] of the largest
    cluster they are padded to. *)
Lemma cluster_table_columns names labels :
  length names = length labels -> labels <> [] ->
  exists m,
    cluster_table names labels
    = Ok (map (fun i => (cluster_label i, members (combine names labels) i
                          ++ repeat (Some "") (m - length (members (combine names labels) i))))
              (sorted_asc (fun z => z) (first_occ labels)))
    /\ Forall (fun i => length (members (combine names labels) i) <= m)%nat labels
    /\ Exists (fun i => length (members (combine names labels) i) = m) labels.
Proof.
  intros Hlen Hne. set (rows := combine names labels).
  assert (Hsnd : map snd rows = labels) by (by apply map_snd_combine).
  set (ks := sorted_asc (fun z => z) (first_occ labels)).
  set (len := fun i => length (members rows i)).
  assert (Hcl : map (fun kv => length kv.2) (clusters rows) = map len ks)
    by (unfold clusters; rewrite map_map, Hsnd; done).
  destruct ks as [|k0 ks'] eqn:Eks.
  { destruct labels as [|l0 ls]; [done|].
    pose proof (proj2 (In_sorted_first_occ (l0 :: ls) l0) (or_introl eq_refl)) as H.
    unfold ks in Eks. by rewrite Eks in H. }
  set (m := fold_left (fun m y => if Nat.ltb m y then y else m) (map len ks') (len k0)).
  assert (Hm : py_max (map len ks) = Ok m) by (by rewrite Eks).
  destruct (py_max_nat_spec _ _ Hm) as [Hin Hall].
  exists m. split; [|split].
  - unfold cluster_table, assign_column. rewrite (proj2 (Nat.eqb_eq _ _) Hlen), bind_Ok. fold rows.
    rewrite Hcl, <- Eks, Hm, bind_Ok.
    assert (Hk : map fst (clusters rows) = ks) by (unfold clusters; rewrite map_map, Hsnd, map_id; done).
    rewrite Hk, Eks, <- Eks. unfold ks. rewrite sorted_asc_idem. fold ks.
    assert (Hcols : map (fun i => (cluster_label i, default [] (dict_get i (clusters rows))
                                   ++ repeat (Some "") (m - length (default [] (dict_get i (clusters rows)))))) ks
                    = map (fun i => (cluster_label i, members rows i ++ repeat (Some "") (m - length (members rows i)))) ks).
    { apply map_ext_in. intros i Hi. rewrite dict_get_clusters; [done|]. rewrite Hsnd.
      by apply In_sorted_first_occ. }
    rewrite Hcols. apply (frame_of_columns_ok _ m), Forall_map, List.Forall_forall. intros i Hi. cbn [snd].
    rewrite length_app, repeat_length.
    enough (len i <= m)%nat by (unfold len in *; lia).
    apply (proj1 (List.Forall_forall _ _) Hall), in_map_iff. by exists i.
  - apply List.Forall_forall. intros i Hi. fold rows. fold (len i).
    apply (proj1 (List.Forall_forall _ _) Hall), in_map_iff. exists i. split; [done|].
    by apply In_sorted_first_occ.
  - apply in_map_iff in Hin as (i & Hi & Hik). apply List.Exists_exists. exists i. split; [|done].
    by apply (In_sorted_first_occ labels).
Qed.

(** C23: for one label per driver and at least one driver, the cluster
    table has one column ["Cluster i"] per label, labels ascending; the
    column of label [i] lists the names of the drivers labelled [i] in
    row order, padded with [''] to the size [m] of the largest cluster;
    so every column has [m] cells and [pd.DataFrame] raises nothing. *)
Theorem cluster_table_spec names labels :
  length names = length labels -> labels <> [] ->
  exists m,
    cluster_table names labels
    = Ok (map (fun i => (cluster_label i, members (combine names labels) i
                          ++ repeat (Some "") (m - length (members (combine names labels) i))))
              (sorted_asc (fun z => z) (first_occ labels)))
    /\ Forall (fun i => length (members (combine names labels) i) <= m)%nat labels
    /\ Exists (fun i => length (members (combine names labels) i) = m) labels.
Proof. exact (cluster_table_columns names labels). Qed.

(** ** Examples *)

(** Two drivers, the second feature constant. *)
Definition cl_X : list (list Q) := [[1; 2]; [3; 2]]%Q.

Definition cl_scaled : list (list (option Q)) :=
  Eval vm_compute in match standard_scale (fun q => q) cl_X with Ok Y => Y | Raise _ => [] end.

(** The scaled feature table of [Features.ft_rows], with the identity for
    both square roots. *)
Definition ft_scaled : list (list (option Q)) :=
  Eval vm_compute in
    match standard_scale (fun q => q) (features (df_pilotes (fun q => q) ft_drivers ft_results ft_status ft_laps ft_quals ft_stops)) with
    | Ok Y => Y
    | Raise _ => []
    end.

Lemma standard_scale_centred_witness : (Qsum (map (fun y => fill0 (nth 0 y None)) cl_scaled) == 0)%Q.
Proof. apply (standard_scale_centred (fun q => q) cl_X 2); [repeat constructor | vm_compute; reflexivity | lia]. Defined.

Lemma qualifying_features_scaled_zero_witness :
  Forall (fun y => (exists q, nth 6 y None = Some q /\ (q == 0)%Q)
                   /\ (exists q, nth 9 y None = Some q /\ (q == 0)%Q)) ft_scaled.
Proof.
  apply (qualifying_features_scaled_zero (fun q => q) (fun q => q) ft_drivers ft_results ft_status ft_laps ft_quals ft_stops).
  - repeat constructor; vm_compute; reflexivity.
  - vm_compute. reflexivity.
Defined.

Lemma cluster_table_spec_witness :
  exists m,
    cluster_table [Some "Lewis Hamilton"; Some "Max Verstappen"; None] [1; 0; 1]%Z
    = Ok (map (fun i => (cluster_label i, members (combine [Some "Lewis Hamilton"; Some "Max Verstappen"; None] [1; 0; 1]%Z) i
                          ++ repeat (Some "") (m - length (members (combine [Some "Lewis Hamilton"; Some "Max Verstappen"; None] [1; 0; 1]%Z) i))))
              (sorted_asc (fun z => z) (first_occ [1; 0; 1]%Z)))
    /\ Forall (fun i => length (members (combine [Some "Lewis Hamilton"; Some "Max Verstappen"; None] [1; 0; 1]%Z) i) <= m)%nat [1; 0; 1]%Z
    /\ Exists (fun i => length (members (combine [Some "Lewis Hamilton"; Some "Max Verstappen"; None] [1; 0; 1]%Z) i) = m) [1; 0; 1]%Z.
Proof. apply cluster_table_spec; [reflexivity | discriminate]. Defined.

(** The table itself: the second column is padded with [''];
    no driver at all raises [ValueError] from [max]. *)
Example cluster_table_example :
  cluster_table [Some "Lewis Hamilton"; Some "Max Verstappen"; None] [1; 0; 1]%Z
  = Ok [("Cluster 0", [Some "Max Verstappen"; Some ""]); ("Cluster 1", [Some "Lewis Hamilton"; None])]
  /\ cluster_table [] [] = Raise ValueError.
Proof. split; vm_compute; reflexivity. Qed.
