(* ===== verification/Compare.v ===== *)
(** * Timing the two strategies (src/analysis/compare.py)

    [compare_execution_time(fct_vanilla, fct_with_module, repeats)] runs
    [repeats] times: read the clock, call [fct_vanilla], read the clock,
    read it again, call [fct_with_module], read it; it adds up the two
    durations of each pass and returns their averages and difference.
    The model threads an explicit state through a small state and
    exception monad [M]: the number of clock readings taken so far and the
    trace of the events (readings and calls), which stay observable when a
    call raises.  The clock is a section variable [clock] (its [n]-th
    reading), the outcome of each function another ([None]: it returns).
    [show_comparison_result] of src/app.py prints the three numbers with
    [:.6f] or the error. *)

From S2P Require Import Prelude PyStr PyNum.

Inductive side := Vanilla | WithModule.

#[export] Instance side_eq_dec : EqDecision side.
Proof. solve_decision. Defined.

Inductive event :=
  | ClockRead (t : Q)
  | Called (sd : side).

Record cstate := mkC { reads : nat; trace : list event }.

(** A computation of compare.py: a result, and the state reached even
    when it raises. *)
Definition M (A : Type) := cstate -> result A * cstate.

Definition mret {A} (a : A) : M A := fun s => (Ok a, s).

Definition mbind {A B} (m : M A) (k : A -> M B) : M B :=
  fun s => match m s with (Ok a, s') => k a s' | (Raise e, s') => (Raise e, s') end.

Definition lift {A} (r : result A) : M A := fun s => (r, s).

Declare Scope compare_scope.
Delimit Scope compare_scope with cmp.
Notation "x <- m ;; k" := (mbind m (fun x => k))
  (at level 100, m at next level, right associativity) : compare_scope.
Local Open Scope compare_scope.

Definition log (ev : event) (s : cstate) : cstate := mkC (reads s) (trace s ++ [ev]).

(** [a / b] on numbers: [ZeroDivisionError] when [b] is 0. *)
Definition py_div (a b : Q) : result Q := if Qeq_bool b 0 then Raise ZeroDivisionError else Ok (a / b)%Q.

(** The dict [{"vanilla": ..., "modules": ..., "difference": ...}]. *)
Record timing := mkT { vanilla : Q; modules : Q; difference : Q }.

(** [tk.messagebox.showinfo(title, text)] and [showerror(title, text)]. *)
Inductive message :=
  | ShowInfo (title body : string)
  | ShowError (title body : string).

Section Compare.
Context (clock : nat -> Q) (outcome : side -> option exc).

(** [time.perf_counter()]: the next reading of the clock. *)
Definition perf_counter : M Q :=
  fun s => let t := clock (reads s) in (Ok t, mkC (S (reads s)) (trace s ++ [ClockRead t])).

(** [fct_vanilla()] or [fct_with_module()]: the value is dropped, an
    exception propagates. *)
Definition call (sd : side) : M unit :=
  fun s => let s' := log (Called sd) s in
           match outcome sd with None => (Ok tt, s') | Some e => (Raise e, s') end.

(** One pass of the loop, lines 29-35, on [(total_time_vanilla, total_time_other)]. *)
Definition iteration (tot : Q * Q) : M (Q * Q) :=
  start <- perf_counter;; _ <- call Vanilla;; stop <- perf_counter;;
  let tv := (tot.1 + (stop - start))%Q in
  start' <- perf_counter;; _ <- call WithModule;; stop' <- perf_counter;;
  mret (tv, (tot.2 + (stop' - start'))%Q).

(** [for _ in range(n)] *)
Fixpoint loop (n : nat) (tot : Q * Q) : M (Q * Q) :=
  match n with
  | O => mret tot
  | S n' => tot' <- iteration tot;; loop n' tot'
  end.

Definition compare_execution_time (repeats : Z) : M timing :=
  tot <- loop (Z.to_nat repeats) (0, 0)%Q;;
  avg_v <- lift (py_div tot.1 (inject_Z repeats));;
  avg_o <- lift (py_div tot.2 (inject_Z repeats));;
  mret (mkT avg_v avg_o (avg_v - avg_o)%Q).

(** ** What the loop measures

    The [k]-th pass starting at reading [m] times the vanilla call
    between readings [m + 4k] and [m + 4k + 1], the other between
    [m + 4k + 2] and [m + 4k + 3]. *)

Fixpoint durations (m n off : nat) : list Q :=
  match n with
  | O => []
  | S n' => (clock (m + off + 1) - clock (m + off))%Q :: durations (m + 4) n' off
  end.

Fixpoint trace_of (m n : nat) : list event :=
  match n with
  | O => []
  | S n' => [ClockRead (clock m); Called Vanilla; ClockRead (clock (m + 1));
             ClockRead (clock (m + 2)); Called WithModule; ClockRead (clock (m + 3))]
            ++ trace_of (m + 4) n'
  end.

(** The contract: the averages of the measured durations, in a run that
    reads the clock [4 * repeats] times and calls the two functions in
    turn. *)
Definition compare_spec (repeats : Z) (s : cstate) : result timing * cstate :=
  let n := Z.to_nat repeats in
  let s' := mkC (reads s + 4 * n) (trace s ++ trace_of (reads s) n) in
  match py_div (Qsum (durations (reads s) n 0)) (inject_Z repeats),
        py_div (Qsum (durations (reads s) n 2)) (inject_Z repeats) with
  | Ok av, Ok ao => (Ok (mkT av ao (av - ao)%Q), s')
  | Raise e, _ | _, Raise e => (Raise e, s')
  end.

(** [show_comparison_result] (src/app.py, lines 251-276) with the default
    [repeats=10]: [showinfo] with the three numbers, or [showerror] with
    [str(e)] ([str_exc]) for any exception. *)
Definition show_comparison_result (str_exc : exc -> string) : M message :=
  fun s => match compare_execution_time 10 s with
           | (Ok r, s') =>
               (Ok (ShowInfo "Execution Time Comparison"
                     ("Vanilla Python: " +:+ fmt_fixed 6 (vanilla r) +:+ " s" +:+ newline
                      +:+ "Pandas: " +:+ fmt_fixed 6 (modules r) +:+ " s" +:+ newline
                      +:+ "Difference: " +:+ fmt_fixed 6 (difference r) +:+ " s")), s')
           | (Raise e, s') => (Ok (ShowError "Error" (str_exc e)), s')
           end.
End Compare.

(** ** The loop against its contract *)

Section Run.
Context (clock : nat -> Q) (outcome : side -> option exc).

Lemma iteration_ok tot m tr :
  outcome Vanilla = None -> outcome WithModule = None ->
  iteration clock outcome tot (mkC m tr)
  = (Ok (tot.1 + (clock (m + 1) - clock m), tot.2 + (clock (m + 3) - clock (m + 2)))%Q,
     mkC (m + 4) (tr ++ [ClockRead (clock m); Called Vanilla; ClockRead (clock (m + 1));
                         ClockRead (clock (m + 2)); Called WithModule; ClockRead (clock (m + 3))])).
Proof.
  intros Hv Hm. rewrite ?Nat.add_succ_r, ?Nat.add_0_r.
  unfold iteration, mbind, perf_counter, call, log, mret. rewrite Hv, Hm. cbn.
  by rewrite <- !app_assoc.
Qed.

Lemma loop_ok n a b m tr :
  outcome Vanilla = None -> outcome WithModule = None ->
  loop clock outcome n (a, b) (mkC m tr)
  = (Ok (fold_left Qplus (durations clock m n 0) a, fold_left Qplus (durations clock m n 2) b),
     mkC (m + 4 * n) (tr ++ trace_of clock m n)).
Proof.
  intros Hv Hm. revert a b m tr. induction n as [|n IH]; intros a b m tr.
  - cbn. by rewrite Nat.add_0_r, app_nil_r.
  - cbn [loop]. unfold mbind at 1. rewrite iteration_ok by done. cbn [fst snd]. rewrite IH.
    cbn [durations trace_of fold_left]. rewrite !Nat.add_0_r, <- app_assoc.
    repeat (f_equal; try lia).
Qed.

(** C30: when both functions return, [compare_execution_time] computes
    its contract: it reads the clock [4 * repeats] times, calls
    [fct_vanilla] and [fct_with_module] in turn, once per pass, and
    returns the averages of the durations measured around each call and
    their difference ([ZeroDivisionError] for [repeats = 0]). *)
Theorem compare_refines_spec repeats s :
  outcome Vanilla = None -> outcome WithModule = None ->
  compare_execution_time clock outcome repeats s = compare_spec clock repeats s.
Proof.
  intros Hv Hm. destruct s as [m tr]. unfold compare_execution_time, compare_spec, mbind at 1.
  rewrite loop_ok by done. cbn [reads trace fst snd]. unfold Qsum.
  destruct (py_div (fold_left Qplus (durations clock m _ 0) 0%Q) _); [|done].
  by destruct (py_div (fold_left Qplus (durations clock m _ 2) 0%Q) _).
Qed.

(** No pass at all: [0 / 0] raises before any call or clock reading. *)
Lemma compare_zero_repeats s :
  compare_execution_time clock outcome 0 s = (Raise ZeroDivisionError, s).
Proof. done. Qed.

Lemma loop_succ n tot :
  loop clock outcome (S n) tot = mbind (iteration clock outcome tot) (loop clock outcome n).
Proof. done. Qed.

(** A raising [fct_vanilla] stops the first pass after its call. *)
Lemma compare_vanilla_raises repeats m tr e :
  (0 < repeats)%Z -> outcome Vanilla = Some e ->
  compare_execution_time clock outcome repeats (mkC m tr)
  = (Raise e, mkC (S m) (tr ++ [ClockRead (clock m); Called Vanilla])).
Proof.
  intros Hr Hv. destruct (Z.to_nat repeats) as [|n] eqn:En; [lia|].
  unfold compare_execution_time. rewrite En, loop_succ.
  unfold mbind, iteration, perf_counter, call, log; cbn. rewrite Hv. cbn. by rewrite <- app_assoc.
Qed.

(** A raising [fct_with_module] stops the first pass after its call. *)
Lemma compare_module_raises repeats m tr e :
  (0 < repeats)%Z -> outcome Vanilla = None -> outcome WithModule = Some e ->
  compare_execution_time clock outcome repeats (mkC m tr)
  = (Raise e, mkC (S (S (S m))) (tr ++ [ClockRead (clock m); Called Vanilla; ClockRead (clock (S m));
                                         ClockRead (clock (S (S m))); Called WithModule])).
Proof.
  intros Hr Hv Hm. destruct (Z.to_nat repeats) as [|n] eqn:En; [lia|].
  unfold compare_execution_time. rewrite En, loop_succ.
  unfold mbind, iteration, perf_counter, call, log; cbn. rewrite Hv, Hm. cbn. by rewrite <- !app_assoc.
Qed.

(** C31: the first exception ends the run: when [fct_vanilla] raises, the
    exception propagates after one clock reading and that call, and
    [fct_with_module] is never called; when only [fct_with_module] raises,
    it propagates after the first vanilla measurement and that call. *)
Theorem compare_first_exception repeats m tr e :
  (0 < repeats)%Z ->
  (outcome Vanilla = Some e ->
   compare_execution_time clock outcome repeats (mkC m tr)
   = (Raise e, mkC (S m) (tr ++ [ClockRead (clock m); Called Vanilla])))
  /\ (outcome Vanilla = None -> outcome WithModule = Some e ->
      compare_execution_time clock outcome repeats (mkC m tr)
      = (Raise e, mkC (S (S (S m))) (tr ++ [ClockRead (clock m); Called Vanilla; ClockRead (clock (S m));
                                             ClockRead (clock (S (S m))); Called WithModule]))).
Proof.
  intros Hr. split; [apply compare_vanilla_raises|apply compare_module_raises]; done.
Qed.

Lemma durations_nonneg m n off :
  (forall i, clock i <= clock (S i))%Q -> Forall (fun d => 0 <= d)%Q (durations clock m n off).
Proof.
  intros Hc. revert m. induction n as [|n IH]; intros m; constructor; [|apply IH].
  rewrite Nat.add_1_r. exact (proj1 (Qle_minus_iff _ _) (Hc _)).
Qed.

Lemma Qsum_nonneg l : Forall (fun d => 0 <= d)%Q l -> (0 <= Qsum l)%Q.
Proof.
  induction 1 as [|d l Hd _ IH]; [done|]. rewrite Qsum_cons.
  change 0%Q with (0 + 0)%Q at 1. by apply Qplus_le_compat.
Qed.

Lemma Qdiv_sum_nonneg l r :
  (Z.to_nat r = 0%nat -> l = []) -> Forall (fun d => 0 <= d)%Q l -> (0 <= Qsum l / inject_Z r)%Q.
Proof.
  intros Hl Hd. destruct (Z_lt_le_dec 0 r) as [Hr|Hr].
  - apply Qle_shift_div_l; [change 0%Q with (inject_Z 0); by rewrite <- Zlt_Qlt|].
    rewrite Qmult_0_l. by apply Qsum_nonneg.
  - rewrite Hl by lia. unfold Qdiv. rewrite Qmult_0_l. apply Qle_refl.
Qed.

(** With a clock that never goes back, both averages are non-negative. *)
Lemma compare_averages_nonneg repeats s t s' :
  (forall i, clock i <= clock (S i))%Q -> outcome Vanilla = None -> outcome WithModule = None ->
  compare_execution_time clock outcome repeats s = (Ok t, s') -> (0 <= vanilla t)%Q /\ (0 <= modules t)%Q.
Proof.
  intros Hc Hv Hm. rewrite compare_refines_spec by done. unfold compare_spec, py_div.
  destruct (Qeq_bool _ 0); [done|]. intros [= <- _]. cbn [vanilla modules].
  split; apply Qdiv_sum_nonneg; try (by intros ->); by apply durations_nonneg.
Qed.
End Run.

(** ** Examples *)

(** A clock whose [n]-th reading is [n * n]. *)
Definition ex_clock (n : nat) : Q := inject_Z (Z.of_nat (n * n)).

Definition ex_ok (sd : side) : option exc := None.

Definition ex_vanilla_fails (sd : side) : option exc :=
  match sd with Vanilla => Some TypeError | WithModule => None end.

Lemma compare_refines_spec_witness :
  compare_execution_time ex_clock ex_ok 2 (mkC 0 []) = compare_spec ex_clock 2 (mkC 0 []).
Proof. apply compare_refines_spec; reflexivity. Defined.

Lemma compare_first_exception_witness :
  compare_execution_time ex_clock ex_vanilla_fails 3 (mkC 0 [])
  = (Raise TypeError, mkC 1 [ClockRead (ex_clock 0); Called Vanilla]).
Proof.
  destruct (compare_first_exception ex_clock ex_vanilla_fails 3 0 [] TypeError) as [Hv _]; [lia|].
  apply Hv. reflexivity.
Defined.

(** Ten passes on that clock: the vanilla calls last [8i + 1], the others
    [8i + 5]; the window shows their averages 37 and 41. *)
Example show_comparison_example :
  (show_comparison_result ex_clock ex_ok (fun _ => "") (mkC 0 [])).1
  = Ok (ShowInfo "Execution Time Comparison"
          ("Vanilla Python: 37.000000 s" +:+ newline +:+ "Pandas: 41.000000 s" +:+ newline
           +:+ "Difference: -4.000000 s")).
Proof. vm_compute. reflexivity. Qed.
