(* ===== verification/Gui.v ===== *)
(** * The question windows and the export of the desktop GUI (src/app.py)

    [question_data] (lines 375-417) lists the ten questions: a title, the
    pandas and the homemade function, the parameters (label, default,
    type) and whether the user may choose the implementation.  The
    "Answer" window ([open_question_window_with_input], lines 278-365)
    shows one entry per parameter holding [str(default)], a Yes/No toggle
    for pandas, and on "Run" converts the entries ([parse_entry]) and
    calls the chosen function; the two graph questions call the pandas
    function at once.  The export window ([open_export_window], lines
    469-634) converts the same entries with its own rules
    ([parse_export]), calls every question in turn, catching each
    exception, and writes the blocks to [results.txt].

    The query functions, [str(result)] and the file system are the
    interface [Backend]: the theorems hold for every backend.  A window is
    a record of its state and [handle] its reaction to a user event (an
    edit, a toggle, "Run"); [reachable] is the step relation of a window's
    life. *)

From S2P Require Import Prelude PyStr Compare.

(** ** The functions and the questions *)

Module Fn.
(** The query functions app.py imports. *)
Inductive t :=
  | at_least_n_races_nopd | ranking_nopd | driver_mean_grid_nopd | get_driver_with_most_dnfs_nopd
  | at_least_n_races | ranking | driver_mean_grid | get_driver_with_most_dnfs
  | most_dangerous_circuit | constructor_winner | most_constructor_championships_won
  | nationalities | most_technical_issues_constructors | average_pit_stop_time.
End Fn.

(** [func.__name__] *)
Definition func_name (f : Fn.t) : string :=
  match f with
  | Fn.at_least_n_races_nopd => "at_least_n_races_nopd"
  | Fn.ranking_nopd => "ranking_nopd"
  | Fn.driver_mean_grid_nopd => "driver_mean_grid_nopd"
  | Fn.get_driver_with_most_dnfs_nopd => "get_driver_with_most_dnfs_nopd"
  | Fn.at_least_n_races => "at_least_n_races"
  | Fn.ranking => "ranking"
  | Fn.driver_mean_grid => "driver_mean_grid"
  | Fn.get_driver_with_most_dnfs => "get_driver_with_most_dnfs"
  | Fn.most_dangerous_circuit => "most_dangerous_circuit"
  | Fn.constructor_winner => "constructor_winner"
  | Fn.most_constructor_championships_won => "most_constructor_championships_won"
  | Fn.nationalities => "nationalities"
  | Fn.most_technical_issues_constructors => "most_technical_issues_constructors"
  | Fn.average_pit_stop_time => "average_pit_stop_time"
  end.

(** The [type] of a parameter: [int], [str] or [bool]. *)
Inductive ptype := TInt | TStr | TBool.

#[export] Instance ptype_eq_dec : EqDecision ptype.
Proof. solve_decision. Defined.

(** The Python values passed to the query functions. *)
Inductive pyval :=
  | VInt (z : Z)
  | VStr (s : string)
  | VBool (b : bool)
  | VNone.

(** [{"label": ..., "default": ..., "type": ...}] *)
Record param := mkP { label : string; default : pyval; typ : ptype }.

Record question := mkQ {
  title : string;
  func_pd : Fn.t;
  func_np : Fn.t;
  params : list param;
  allow_toggle : bool
}.

Definition question_data : list question := [
  mkQ "Which drivers have won 30 or more races in their careers?"
      Fn.at_least_n_races Fn.at_least_n_races_nopd
      [mkP "Minimum wins:" (VInt 30) TInt] true;
  mkQ "What was the final drivers ranking for the 2023 season?"
      Fn.ranking Fn.ranking_nopd
      [mkP "Year:" (VInt 2023) TInt] true;
  mkQ "What is Lewis Hamilton's average starting position?"
      Fn.driver_mean_grid Fn.driver_mean_grid_nopd
      [mkP "First name:" (VStr "Lewis") TStr; mkP "Last name:" (VStr "Hamilton") TStr] true;
  mkQ "Which drivers have recorded the most DNFs in their careers?"
      Fn.get_driver_with_most_dnfs Fn.get_driver_with_most_dnfs_nopd [] true;
  mkQ "Which circuit has been the most dangerous historically?"
      Fn.most_dangerous_circuit Fn.most_dangerous_circuit
      [mkP "Country:" (VStr "") TStr] false;
  mkQ "Which constructor won the Constructors’ Championship in 2023?"
      Fn.constructor_winner Fn.constructor_winner
      [mkP "Year:" (VInt 2023) TInt] false;
  mkQ "Which constructors have won the most Constructors’ Championships?"
      Fn.most_constructor_championships_won Fn.most_constructor_championships_won [] false;
  mkQ "Which nationality has the highest number of F1 drivers?"
      Fn.nationalities Fn.nationalities [] false;
  mkQ "Which constructors have encountered the most technical failures?"
      Fn.most_technical_issues_constructors Fn.most_technical_issues_constructors
      [mkP "Top:" (VInt 5) TInt] false;
  mkQ "What is the average pit stop time across races?"
      Fn.average_pit_stop_time Fn.average_pit_stop_time
      [mkP "Outliers:" (VStr "False") TBool; mkP "Sup:" (VInt 60) TInt] false
].

(** ** What the GUI needs from the rest of the program *)

Class Backend := {
  (** [str(func(...))] on the arguments, or the exception [func] raises *)
  call_func : Fn.t -> list pyval -> result string;
  (** [func(save_path=path)] of a graph function *)
  save_graph : Fn.t -> string -> result unit;
  (** [str(e)] *)
  str_exc : exc -> string;
  (** [open(path, "w").write(contents)] *)
  write_file : string -> string -> result unit
}.

(** ** The "Answer" window *)

(** [str(v)] *)
Definition py_str (v : pyval) : string :=
  match v with
  | VInt z => str_of_Z z
  | VStr s => s
  | VBool b => if b then "True" else "False"
  | VNone => "None"
  end.

(** [str(info["default"]) if info["default"] is not None else ""] *)
Definition entry_text (v : pyval) : string := match v with VNone => "" | _ => py_str v end.

(** The conversion of one entry in [run] (lines 349-357). *)
Definition parse_entry (text : string) (t : ptype) : result pyval :=
  let val := str_strip text in
  if String.eqb val "" && bool_decide (t <> TStr) then Ok VNone
  else match t with
       | TInt => fmap_result VInt (py_int val)
       | TBool => Ok (VBool (String.eqb (lower val) "true"))
       | TStr => Ok (VStr val)
       end.

(** [func_pandas if allow_toggle and use_pandas.get() else func_nopd] *)
Definition chosen (q : question) (use_pandas : bool) : Fn.t :=
  if allow_toggle q && use_pandas then func_pd q else func_np q.

(** [args = [arg["default"] for arg in p]]: the arguments of the
    "Compare" button of the first four questions (lines 431-436). *)
Definition compare_args (q : question) : list pyval := map default (params q).

(** ** The export window *)

(** A selector of the export window (lines 506-541): its entries start
    at [str(param["default"])], its toggle on pandas. *)
Record selector := mkS { s_question : question; s_texts : list string; s_use_pd : bool }.

Definition make_selector (q : question) : selector :=
  mkS q (map (fun p => py_str (default p)) (params q)) true.

(** The conversion of one entry in [export] (lines 553-559): no case for a
    blank entry. *)
Definition parse_export (text : string) (t : ptype) : result pyval :=
  let val := str_strip text in
  match t with
  | TInt => fmap_result VInt (py_int val)
  | TBool => Ok (VBool (String.eqb (lower val) "true"))
  | TStr => Ok (VStr val)
  end.

(** [os.path.join(dir, name)] for a relative [name]. *)
Definition path_join (dir name : string) : string :=
  if String.eqb dir "" then name
  else if String.eqb (String.substring (String.length dir - 1) 1 dir) "/" then dir +:+ name
  else dir +:+ "/" +:+ name.

(** The functions the export saves as charts, by [__name__]. *)
Definition graph_funcs : list string := ["most_constructor_championships_won"; "nationalities"].

Section Window.
Context `{Backend}.

(** The [values] of [run()], one per entry (lines 348-357). *)
Definition entry_values (q : question) (texts : list string) : result (list pyval) :=
  mapM (fun tp => parse_entry tp.1 (typ tp.2)) (combine texts (params q)).

(** [run()]: the text of the result label, or the error box. *)
Definition run (q : question) (texts : list string) (use_pandas : bool) : result string :=
  let* values := entry_values q texts in
  call_func (chosen q use_pandas) values.

(** The state of an open window: the entries, the toggle, the label. *)
Record window := mkW { w_question : question; w_texts : list string; w_use_pandas : bool; w_label : string }.

(** The two questions answered by a chart, by title (lines 297-305). *)
Definition graph_titles : list string :=
  ["Which constructors have won the most Constructors’ Championships?";
   "Which nationality has the highest number of F1 drivers?"].

(** Pressing "Answer": a chart question calls [func_pandas()] and opens
    nothing (an exception is shown); any other opens the window. *)
Definition open_question_window (q : question) : window + option message :=
  if existsb (String.eqb (title q)) graph_titles then
    inr (match call_func (func_pd q) [] with Ok _ => None | Raise e => Some (ShowError "Error" (str_exc e)) end)
  else inl (mkW q (map (fun p => entry_text (default p)) (params q)) true "").

Inductive ui_event :=
  | Edit (i : nat) (text : string)
  | Toggle (b : bool)
  | RunPressed.

(** The reaction of an open window to an event: an entry only exists for
    a parameter, the radio buttons only for a question with a toggle. *)
Definition handle (w : window) (ev : ui_event) : window * option message :=
  match ev with
  | Edit i text => (mkW (w_question w) (<[i := text]> (w_texts w)) (w_use_pandas w) (w_label w), None)
  | Toggle b =>
      if allow_toggle (w_question w) then (mkW (w_question w) (w_texts w) b (w_label w), None) else (w, None)
  | RunPressed =>
      match run (w_question w) (w_texts w) (w_use_pandas w) with
      | Ok r => (mkW (w_question w) (w_texts w) (w_use_pandas w) r, None)
      | Raise e => (w, Some (ShowError "Error" (str_exc e)))
      end
  end.

(** The windows a question's "Answer" button can lead to. *)
Inductive reachable (q : question) : window -> Prop :=
  | reach_open w : open_question_window q = inl w -> reachable q w
  | reach_step w ev : reachable q w -> reachable q (handle w ev).1.

(** One question of the export (lines 552-575): its line of results.txt,
    or ["Error: " + str(e)]. *)
Definition export_result (dir : string) (sel : selector) : result string :=
  let q := s_question sel in
  let* args := mapM (fun tp => parse_export tp.1 (typ tp.2)) (combine (s_texts sel) (params q)) in
  let func := if allow_toggle q && s_use_pd sel then func_pd q else func_np q in
  if existsb (String.eqb (func_name func)) graph_funcs then
    let graph_path := path_join dir (func_name func +:+ ".png") in
    let* _ := save_graph func graph_path in
    Ok ("Graph saved to " +:+ graph_path)
  else call_func func args.

Definition export_row (dir : string) (sel : selector) : string * string :=
  (title (s_question sel),
   match export_result dir sel with Ok r => r | Raise e => "Error: " +:+ str_exc e end).

(** The [for] loop over [export_data], each pass inside its own [try]. *)
Definition export_rows (dir : string) (sels : list selector) : list (string * string) :=
  fold_left (fun rows sel => rows ++ [export_row dir sel]) sels [].

(** [f.write(f"{title}\n{res}\n\n")] for each row. *)
Definition results_text (rows : list (string * string)) : string :=
  String.concat "" (map (fun tr => tr.1 +:+ newline +:+ tr.2 +:+ newline +:+ newline) rows).

(** [export()]: nothing when the folder dialog is cancelled; otherwise the
    path and contents of results.txt and the message shown. *)
Definition export (sels : list selector) (dir_path : string) : option (string * string * message) :=
  if String.eqb dir_path "" then None
  else
    let filename := path_join dir_path "results.txt" in
    let contents := results_text (export_rows dir_path sels) in
    Some (filename, contents,
          match write_file filename contents with
          | Ok _ => ShowInfo "Export" ("Exported successfully to folder:" +:+ dir_path)
          | Raise e => ShowError "Error" ("Error during export : " +:+ str_exc e)
          end).
End Window.

(** ** The "Compare" button of the first four questions *)

Section CompareButton.
Context `{Backend} (clock : nat -> Q).

(** Whether calling [f] on [args] raises. *)
Definition call_outcome (f : Fn.t) (args : list pyval) : option exc :=
  match call_func f args with Ok _ => None | Raise e => Some e end.

(** [show_comparison_result(lambda: f_np( *args), lambda: f_pd( *args))]
    with the defaults as [args] (lines 431-436): the homemade function is
    [fct_vanilla]. *)
Definition compare_button (q : question) : M message :=
  show_comparison_result clock
    (fun sd => match sd with
               | Vanilla => call_outcome (func_np q) (compare_args q)
               | WithModule => call_outcome (func_pd q) (compare_args q)
               end) str_exc.
End CompareButton.

(** ** Types and arity of the arguments *)

(** A value of the declared type. *)
Definition has_type (v : pyval) (t : ptype) : bool :=
  match v, t with
  | VInt _, TInt | VStr _, TStr | VBool _, TBool => true
  | _, _ => false
  end.

(** A default the "Answer" window gives back unchanged. *)
Definition default_ok (p : param) : bool :=
  match default p, typ p with
  | VInt _, TInt => true
  | VStr s, TStr => String.eqb (str_strip s) s
  | VNone, TInt | VNone, TBool => true
  | _, _ => false
  end.

Lemma parse_entry_typed text t v :
  parse_entry text t = Ok v -> has_type v t = true \/ (v = VNone /\ t <> TStr).
Proof.
  unfold parse_entry. destruct (String.eqb _ "" && bool_decide _) eqn:E.
  - intros [= <-]. right. apply andb_prop in E as [_ E]. split; [done|]. by apply bool_decide_eq_true in E.
  - destruct t; [|intros [= <-]; by left|intros [= <-]; by left].
    unfold fmap_result. destruct (py_int _); [intros [= <-]; by left|discriminate].
Qed.

Lemma Forall2_combine_r {A B C} (R : A * B -> C -> Prop) (l1 : list A) (l2 : list B) vs :
  length l1 = length l2 -> Forall2 R (combine l1 l2) vs -> Forall2 (fun v b => exists a, R (a, b) v) vs l2.
Proof.
  revert l2 vs. induction l1 as [|a l1 IH]; intros [|b l2] vs Hl HR; try discriminate;
    inversion HR; subst; constructor; eauto.
Qed.

Section Reach.
Context `{Backend}.

Lemma reachable_inv q w : reachable q w -> w_question w = q /\ length (w_texts w) = length (params q).
Proof.
  induction 1 as [w Hw|w ev _ [Hq Hl]].
  - unfold open_question_window in Hw. destruct (existsb _ _); [discriminate|].
    injection Hw as <-. cbn. by rewrite length_map.
  - destruct ev as [i text|b|]; cbn.
    + by rewrite length_insert.
    + by destruct (allow_toggle _).
    + by destruct (run _ _ _).
Qed.

(** C32: in every window a question's "Answer" button leads to, through
    any edits, toggles and runs, "Run" passes the chosen function one
    value per parameter, each of the parameter's type or [None] (a blank
    [int] or [bool] entry). *)
Theorem window_call_args q w vals :
  reachable q w -> entry_values q (w_texts w) = Ok vals ->
  Forall2 (fun v p => has_type v (typ p) = true \/ (v = VNone /\ typ p <> TStr)) vals (params q).
Proof.
  intros Hr Hv%mapM_Ok. apply reachable_inv in Hr as [_ Hl].
  apply (Forall2_combine_r _ _ _ _ Hl) in Hv. eapply Forall2_impl; [exact Hv|].
  intros v p [t Ht]. exact (parse_entry_typed _ _ _ Ht).
Qed.
End Reach.

(** ** Untouched entries give back the defaults *)

Lemma parse_entry_default p : default_ok p = true -> parse_entry (entry_text (default p)) (typ p) = Ok (default p).
Proof.
  unfold default_ok, parse_entry. destruct (default p) as [z|s|b|], (typ p); try discriminate; intros Hd.
  - cbn [entry_text py_str]. rewrite str_strip_id by apply str_of_Z_no_space.
    rewrite (proj2 (String.eqb_neq _ _) (str_of_Z_nonempty z)). cbn. by rewrite py_int_str_of_Z.
  - apply String.eqb_eq in Hd. cbn [entry_text py_str]. rewrite Hd. by destruct (String.eqb s "").
  - done.
  - done.
Qed.

Lemma combine_map_self {A B} (f : A -> B) l : combine (map f l) l = map (fun x => (f x, x)) l.
Proof. induction l as [|x l IH]; simpl; [done|]. by rewrite IH. Qed.

Lemma entry_values_defaults q :
  forallb default_ok (params q) = true ->
  entry_values q (map (fun p => entry_text (default p)) (params q)) = Ok (compare_args q).
Proof.
  intros Hd. unfold entry_values, compare_args. rewrite combine_map_self.
  apply mapM_map_Ok. intros p Hp. apply parse_entry_default.
  exact (proj1 (forallb_forall _ _) Hd p Hp).
Qed.

Section Answer.
Context `{Backend}.

Lemma open_window_defaults q w :
  In q (firstn 4 question_data) -> open_question_window q = inl w ->
  entry_values q (w_texts w) = Ok (compare_args q).
Proof.
  intros Hq Hw. unfold open_question_window in Hw. destruct (existsb _ _); [discriminate|].
  injection Hw as <-. apply entry_values_defaults.
  cbn in Hq. repeat (destruct Hq as [<-|Hq]; [reflexivity|]). done.
Qed.

(** C33: for the four questions with a "Compare" button, "Run" in a
    freshly opened window calls the chosen function on exactly the
    arguments the "Compare" button passes to both implementations: the
    entries' texts [str(default)] convert back to the defaults. *)
Theorem answer_defaults_roundtrip q w use_pandas :
  In q (firstn 4 question_data) -> open_question_window q = inl w ->
  run q (w_texts w) use_pandas = call_func (chosen q use_pandas) (compare_args q).
Proof. intros Hq Hw. unfold run. by rewrite (open_window_defaults q w). Qed.

(** C34: a blank [int] entry is read two ways: the "Answer" window passes
    [None] to the function, the export converts it with [int('')] and
    writes ["Error: " + str(ValueError)] for that question. *)
Theorem blank_int_answer_export q p dir b b' :
  params q = [p] -> typ p = TInt ->
  run q [""] b = call_func (chosen q b) [VNone]
  /\ export_row dir (mkS q [""] b') = (title q, "Error: " +:+ str_exc ValueError).
Proof.
  intros Hp Ht. unfold run, entry_values, export_row, export_result. cbn [s_question s_texts].
  rewrite Hp. cbn [combine mapM fst snd]. rewrite Ht. split; reflexivity.
Qed.

(** The export loop writes one row per question, in order: an exception
    in one question only changes its own row. *)
Lemma export_rows_map dir sels : export_rows dir sels = map (export_row dir) sels.
Proof.
  unfold export_rows.
  enough (Hacc : forall acc, fold_left (fun rows sel => rows ++ [export_row dir sel]) sels acc
                             = acc ++ map (export_row dir) sels) by apply Hacc.
  induction sels as [|sel sels IH]; intros acc; cbn; [by rewrite app_nil_r|].
  by rewrite IH, <- app_assoc.
Qed.

(** "Compare" on a question whose homemade answer, with the untouched
    entries, raises [e] shows that error after one clock reading and the
    homemade call; the pandas function is not run. *)
Lemma compare_button_after_answer_error clock q w e m tr :
  In q (firstn 4 question_data) -> open_question_window q = inl w -> run q (w_texts w) false = Raise e ->
  compare_button clock q (mkC m tr)
  = (Ok (ShowError "Error" (str_exc e)), mkC (S m) (tr ++ [ClockRead (clock m); Called Vanilla])).
Proof.
  intros Hq Hw Hrun. unfold run in Hrun. rewrite (open_window_defaults q w Hq Hw) in Hrun.
  cbn [bind] in Hrun. unfold chosen in Hrun. rewrite andb_false_r in Hrun.
  unfold compare_button, show_comparison_result.
  rewrite (compare_vanilla_raises _ _ 10 m tr e); [done|lia|]. by unfold call_outcome; rewrite Hrun.
Qed.
End Answer.

(** The "Answer" window picks the chart questions by title and the export
    by function name: on [question_data] both rules pick the same two
    questions, whatever the toggle. *)
Lemma chart_rules_agree b :
  Forall (fun q => existsb (String.eqb (title q)) graph_titles
                   = existsb (String.eqb (func_name (if allow_toggle q && b then func_pd q else func_np q))) graph_funcs)
         question_data.
Proof. destruct b; repeat constructor. Qed.

(** ** Examples *)

(** A backend that answers with the call it received. *)
#[local] Instance echo_backend : Backend := {|
  call_func f args := Ok (func_name f +:+ "(" +:+ join ", " (map py_str args) +:+ ")");
  save_graph _ _ := Ok tt;
  str_exc _ := "invalid literal";
  write_file _ _ := Ok tt |}.

Definition q_wins : question := Eval cbv in nth 0 question_data (mkQ "" Fn.ranking Fn.ranking [] false).

(** The wins window after the user typed [" 7 "] in its entry. *)
Definition w_edited : window :=
  (handle (mkW q_wins ["30"] true "") (Edit 0 " 7 ")).1.

Lemma window_call_args_witness :
  Forall2 (fun v p => has_type v (typ p) = true \/ (v = VNone /\ typ p <> TStr)) [VInt 7] (params q_wins).
Proof.
  apply (window_call_args q_wins w_edited).
  - apply reach_step, reach_open. reflexivity.
  - reflexivity.
Defined.

Lemma answer_defaults_roundtrip_witness :
  run q_wins ["30"] true = call_func (chosen q_wins true) (compare_args q_wins).
Proof. apply (answer_defaults_roundtrip q_wins (mkW q_wins ["30"] true "")); [left; reflexivity|reflexivity]. Defined.

Lemma blank_int_answer_export_witness :
  run q_wins [""] true = call_func (chosen q_wins true) [VNone]
  /\ export_row "out" (mkS q_wins [""] true) = (title q_wins, "Error: " +:+ str_exc ValueError).
Proof. apply (blank_int_answer_export q_wins (mkP "Minimum wins:" (VInt 30) TInt)); reflexivity. Defined.

(** The export of the untouched selectors: every question gets its row,
    the two charts are saved next to results.txt. *)
Example export_example :
  map snd (export_rows "out" (map make_selector question_data))
  = ["at_least_n_races(30)"; "ranking(2023)"; "driver_mean_grid(Lewis, Hamilton)";
     "get_driver_with_most_dnfs()"; "most_dangerous_circuit()"; "constructor_winner(2023)";
     "Graph saved to out/most_constructor_championships_won.png"; "Graph saved to out/nationalities.png";
     "most_technical_issues_constructors(5)"; "average_pit_stop_time(False, 60)"].
Proof. vm_compute. reflexivity. Qed.
