(* ===== verification/Views.v ===== *)
(** * The text views of the GUI: the CSV preview and the clustering window
      (src/app.py)

    [open_csv_preview] (lines 56-127) reads [data/<title>.csv] and shows
    its first 15 rows in a tree view whose column widths are
    [max(80, min(max_len * 10, 300))], [max_len] being the longest
    [str] of a cell of the first 15 rows or the column name.  The maximum
    of an empty column is [NaN], and Python's [max] and [min] keep their
    first argument unless the second compares greater (smaller), which a
    comparison with [NaN] never does: [num] is an integer or [NaN] and
    [py_max2], [py_min2] are those two builtins.  The reading of the file
    into its header and fields and [str(e)] are section variables; the
    frame is what [read_csv] infers from those fields ([PdCsv]): the
    widths take [str] of each value of its column ([astype(str)]), the
    rows [str] of each value of the row Series of [iterrows], where an
    integer of an all-numeric frame with a float column prints as a
    float.

    [open_kmeans_window] (lines 635-735) shows the PCA contributions, one
    line per feature in a text widget of height [1 + len(pca_contrib)],
    and the first 10 rows of clusters.csv under a three-cluster header in
    a widget of height 12.  The contributions and the rows read back are
    inputs. *)

From S2P Require Import Prelude PyStr PyNum PdCsv.

(** ** Integers that may be [NaN] *)

Inductive num := Fin (z : Z) | NaN.

(** [a > b]: false when either side is [NaN]. *)
Definition num_gt (a b : num) : bool :=
  match a, b with Fin x, Fin y => Z.gtb x y | _, _ => false end.

(** [max(a, b)]: [a] unless [b > a]. *)
Definition py_max2 (a b : num) : num := if num_gt b a then b else a.

(** [min(a, b)]: [a] unless [b < a]. *)
Definition py_min2 (a b : num) : num := if num_gt a b then b else a.

Definition num_mul (a : num) (k : Z) : num := match a with Fin x => Fin (x * k) | NaN => NaN end.

(** [Series.max()] of integers: [NaN] for an empty Series. *)
Definition series_max (l : list Z) : num :=
  match l with [] => NaN | x :: r => Fin (fold_left Z.max r x) end.

(** [len(s)] *)
Definition py_len (s : string) : Z := Z.of_nat (String.length s).

(** ** The CSV preview *)

(** The text of a CSV file as the tokenizer splits it: the header and
    the fields of each record. *)
Record csv_text := mkCsv { header : list string; records : list (list string) }.

(** A DataFrame as the preview uses it: the column names, their types
    and the rows of values. *)
Record frame := mkF { columns : list string; dtypes : list dtype; rows : list (list pdval) }.

(** [pd.read_csv]: each column inferred from its fields, a missing field
    of a short record being empty, hence [NaN]. *)
Definition read_frame (t : csv_text) : frame :=
  let cols := map (fun j => infer_column (map (fun r => nth j r "") (records t))) (seq 0 (length (header t))) in
  mkF (header t) (map fst cols) (map (fun i => map (fun c => nth i c.2 VNaN) cols) (seq 0 (length (records t)))).

(** [max(df[col].astype(str).map(len).head(15).max(), len(col))] for the
    [j]-th column. *)
Definition max_len (df : frame) (j : nat) (col : string) : num :=
  py_max2 (series_max (map (fun r => py_len (str_val (nth j r VNaN))) (firstn 15 (rows df)))) (Fin (py_len col)).

(** [max(80, min(max_len * 10, 300))] *)
Definition col_width (m : num) : num := py_max2 (Fin 80) (py_min2 (num_mul m 10) (Fin 300)).

(** The columns of the tree view with their widths (lines 97-103). *)
Definition tree_columns (df : frame) : list (string * num) :=
  imap (fun j col => (col, col_width (max_len df j col))) (columns df).

(** [[str(val) for val in row.values] for _, row in df.head(15).iterrows()] *)
Definition tree_rows (df : frame) : list (list string) :=
  firstn 15 (map (map (fun v => str_val (upcast (common_dtype (dtypes df)) v))) (rows df)).

Inductive preview :=
  | PreviewTable (wtitle heading : string) (cols : list (string * num)) (body : list (list string))
  | PreviewError (msg : string).

(** The entries of the "Data" menu (lines 121-125). *)
Definition data_tables : list string :=
  ["driver_standings"; "drivers"; "circuits"; "races"; "results"; "seasons";
   "constructor_results"; "constructor_standings"; "status"; "lap_times";
   "pit_stops"; "qualifying"; "sprint_results"].

Section Preview.
Context (read_csv : string -> result csv_text) (str_exc : exc -> string).

Definition open_csv_preview (title : string) : preview :=
  match read_csv ("data/" +:+ title +:+ ".csv") with
  | Ok t => let df := read_frame t in
            PreviewTable ("Preview – " +:+ title) ("Aperçu de " +:+ title +:+ ".csv")
                          (tree_columns df) (tree_rows df)
  | Raise e => PreviewError ("Cannot open " +:+ title +:+ ".csv : " +:+ str_exc e)
  end.

(** What each entry of the "Data" menu opens. *)
Definition data_menu : list preview := map open_csv_preview data_tables.
End Preview.

(** ** The clustering window *)

(** [f"{var:<30} : {row['PC1']:.4f} / {row['PC2']:.4f}\n"] *)
Definition contrib_line (v : string * Q * Q) : string :=
  ljust v.1.1 30 +:+ " : " +:+ fmt_fixed 4 v.1.2 +:+ " / " +:+ fmt_fixed 4 v.2 +:+ newline.

(** The contributions text (lines 699-704). *)
Definition contrib_text (pca : list (string * Q * Q)) : string :=
  "PCA Contributions (PC1 / PC2):" +:+ newline +:+ String.concat "" (map contrib_line pca).

(** [height=1 + len(pca_contrib)] *)
Definition contrib_height (pca : list (string * Q * Q)) : nat := 1 + length pca.

(** [f"{str(col) if pd.notna(col) else '':<30}"] *)
Definition preview_cell (c : option string) : string := ljust (default "" c) 30.

(** The clusters preview (lines 709-719): [clusters.csv] read back, then
    [head(10)]. *)
Definition cluster_preview_text (sample : list (list (option string))) : string :=
  ljust "Cluster 0" 30 +:+ ljust "Cluster 1" 30 +:+ ljust "Cluster 2" 30 +:+ newline
  +:+ str_repeat "-" 30 +:+ str_repeat "-" 30 +:+ str_repeat "-" 30 +:+ newline
  +:+ String.concat "" (map (fun row => String.concat "" (map preview_cell row) +:+ newline) (firstn 10 sample)).

(** [height=12] *)
Definition cluster_preview_height : nat := 12.

(** ** Column widths *)

Lemma col_width_Fin x : col_width (Fin x) = Fin (Z.max 80 (Z.min (x * 10) 300)).
Proof.
  unfold col_width, py_max2, py_min2, num_gt, num_mul.
  destruct (Z.gtb_spec (x * 10) 300) as [H1|H1]; cbn;
    [destruct (Z.gtb_spec 300 80)|destruct (Z.gtb_spec (x * 10) 80)]; f_equal; lia.
Qed.

(** The [NaN] of an empty column goes through [min] and loses against 80. *)
Lemma col_width_NaN : col_width NaN = Fin 80.
Proof. done. Qed.

Lemma col_width_bounds m : exists w, col_width m = Fin w /\ (80 <= w <= 300)%Z.
Proof.
  destruct m as [x|]; [|exists 80%Z; split; [done|lia]].
  rewrite col_width_Fin. eexists. split; [done|lia].
Qed.

Lemma tree_rows_nil df : tree_rows df = [] -> rows df = [].
Proof. unfold tree_rows. by destruct (rows df). Qed.

(** Without rows the column name is ignored. *)
Lemma max_len_no_rows df j col : rows df = [] -> max_len df j col = NaN.
Proof. intros E. unfold max_len. by rewrite E. Qed.

Lemma Forall_imap_intro {A B} (P : B -> Prop) (f : nat -> A -> B) l :
  (forall j x, P (f j x)) -> Forall P (imap f l).
Proof.
  revert f. induction l as [|x l IH]; intros f Hf; [constructor|]. cbn. constructor; [apply Hf|].
  apply IH. intros j y. apply Hf.
Qed.

(** C35: every column of a CSV preview is between 80 and 300 pixels wide
    and at most 15 rows are shown; for a file with no row every column
    is 80 wide, however long its name ([NaN] swallows [len(col)]). *)
Theorem preview_widths_bounded read_csv str_exc title wt h cols body :
  open_csv_preview read_csv str_exc title = PreviewTable wt h cols body ->
  Forall (fun c => exists w, c.2 = Fin w /\ (80 <= w <= 300)%Z) cols /\ (length body <= 15)%nat
  /\ (body = [] -> Forall (fun c => c.2 = Fin 80) cols).
Proof.
  unfold open_csv_preview. destruct (read_csv _) as [t|e]; [|discriminate].
  intros [= _ _ <- <-]. split; [|split].
  - apply Forall_imap_intro. intros j col. apply col_width_bounds.
  - unfold tree_rows. rewrite length_firstn. lia.
  - intros Hb%tree_rows_nil. apply Forall_imap_intro. intros j col. cbn.
    by rewrite max_len_no_rows.
Qed.

(** ** The texts fit their widgets *)

(** The lines a text widget needs for a text: its newline characters. *)
Definition newlines (s : string) : nat :=
  length (List.filter (fun c => Ascii.eqb c "010"%char) (list_ascii_of_string s)).

Lemma newlines_app a b : newlines (a +:+ b) = (newlines a + newlines b)%nat.
Proof. unfold newlines. by rewrite list_ascii_app, List.filter_app, length_app. Qed.

Lemma newlines_concat l : newlines (String.concat "" l) = list_sum (map newlines l).
Proof.
  induction l as [|x [|y l] IH]; [done| |].
  - change (String.concat "" [x]) with x. change (list_sum (map newlines [x])) with (newlines x + 0)%nat. lia.
  - change (String.concat "" (x :: y :: l)) with (x +:+ "" +:+ String.concat "" (y :: l)).
    rewrite !newlines_app, IH. change (list_sum (map newlines (x :: y :: l)))
      with (newlines x + list_sum (map newlines (y :: l)))%nat. change (newlines "") with 0%nat. lia.
Qed.

(** A text without white space has no newline. *)
Lemma newlines_no_space s : Forall (fun c => is_space c = false) (list_ascii_of_string s) -> newlines s = 0%nat.
Proof.
  unfold newlines. induction 1 as [|c l Hc _ IH]; [done|]. cbn.
  destruct (Ascii.eqb_spec c "010"%char) as [->|_]; [discriminate|exact IH].
Qed.

Lemma newlines_str_repeat s n : newlines s = 0%nat -> newlines (str_repeat s n) = 0%nat.
Proof. intros Hs. induction n as [|n IH]; [done|]. cbn [str_repeat]. by rewrite newlines_app, IH, Hs. Qed.

Lemma newlines_ljust s w : newlines (ljust s w) = newlines s.
Proof. unfold ljust, spaces. rewrite newlines_app, newlines_str_repeat by done. lia. Qed.

Lemma newlines_str_of_Z z : newlines (str_of_Z z) = 0%nat.
Proof. apply newlines_no_space, str_of_Z_no_space. Qed.

Lemma newlines_fmt_fixed d q : newlines (fmt_fixed d q) = 0%nat.
Proof.
  unfold fmt_fixed. rewrite !newlines_app, !newlines_str_of_Z.
  assert (Hs : forall b : bool, newlines (if b then "-" else "") = 0%nat) by (intros []; done).
  rewrite Hs. destruct d; [done|]. rewrite !newlines_app, newlines_str_repeat, newlines_str_of_Z by done. done.
Qed.

Lemma newlines_contrib_line v : newlines (contrib_line v) = S (newlines v.1.1).
Proof.
  unfold contrib_line. rewrite !newlines_app, newlines_ljust, !newlines_fmt_fixed. cbn. lia.
Qed.

Lemma list_sum_const {A} (f : A -> nat) k l : Forall (fun x => f x = k) l -> list_sum (map f l) = (k * length l)%nat.
Proof.
  induction 1 as [|x l Hx _ IH]; [cbn; lia|].
  change (list_sum (map f (x :: l))) with (f x + list_sum (map f l))%nat. rewrite Hx, IH. cbn [length]. lia.
Qed.

Lemma newlines_preview_row row :
  Forall (fun c => newlines (default "" c) = 0%nat) row ->
  newlines (String.concat "" (map preview_cell row) +:+ newline) = 1%nat.
Proof.
  intros Hr. rewrite newlines_app, newlines_concat, map_map.
  rewrite (list_sum_const _ 0); [done|]. eapply Forall_impl; [exact Hr|]. intros c Hc.
  unfold preview_cell. by rewrite newlines_ljust.
Qed.

(** C36: the two texts of the clustering window fit their widgets: the
    contributions take exactly the [1 + len(pca_contrib)] lines of their
    widget, and the clusters preview at most the 12 lines of its widget
    ([head(10)] under two header lines), for feature and driver names
    without a line break. *)
Theorem views_fit_widgets pca sample :
  Forall (fun v => newlines v.1.1 = 0%nat) pca ->
  Forall (Forall (fun c => newlines (default "" c) = 0%nat)) sample ->
  newlines (contrib_text pca) = contrib_height pca
  /\ (newlines (cluster_preview_text sample) <= cluster_preview_height)%nat.
Proof.
  intros Hp Hs. split.
  - unfold contrib_text, contrib_height. rewrite !newlines_app, newlines_concat, map_map.
    rewrite (list_sum_const _ 1); [cbn; lia|]. eapply Forall_impl; [exact Hp|].
    intros v Hv. by rewrite newlines_contrib_line, Hv.
  - unfold cluster_preview_text, cluster_preview_height. rewrite !newlines_app, newlines_concat, map_map.
    rewrite (list_sum_const _ 1).
    + rewrite length_firstn, !newlines_ljust, !newlines_str_repeat by done.
      change (newlines newline) with 1%nat. change (newlines "Cluster 0") with 0%nat.
      change (newlines "Cluster 1") with 0%nat. change (newlines "Cluster 2") with 0%nat. lia.
    + apply Forall_take. eapply Forall_impl; [exact Hs|]. intros row Hr. by apply newlines_preview_row.
Qed.

(** ** Examples *)

(** drivers.csv cut to two columns and one row. *)
Definition ex_preview_csv : csv_text :=
  mkCsv ["driverId"; "url"] [["1"; "http://en.wikipedia.org/wiki/Lewis_Hamilton"]].

Definition ex_preview_frame : frame := read_frame ex_preview_csv.

Definition ex_read (path : string) : result csv_text :=
  if String.eqb path "data/drivers.csv" then Ok ex_preview_csv else Raise ValueError.

Lemma preview_widths_bounded_witness :
  Forall (fun c => exists w, c.2 = Fin w /\ (80 <= w <= 300)%Z) (tree_columns ex_preview_frame)
  /\ (length (tree_rows ex_preview_frame) <= 15)%nat
  /\ (tree_rows ex_preview_frame = [] -> Forall (fun c => c.2 = Fin 80) (tree_columns ex_preview_frame)).
Proof.
  apply (preview_widths_bounded ex_read (fun _ => "") "drivers" ("Preview – " +:+ "drivers")
           ("Aperçu de " +:+ "drivers" +:+ ".csv")).
  reflexivity.
Defined.

(** The widths of that file: the URL column is capped at 300; the same
    header without rows gets 80 everywhere, though "constructorStandingsId"
    alone would ask for 220. *)
Example preview_widths_example :
  tree_columns ex_preview_frame = [("driverId", Fin 80); ("url", Fin 300)]
  /\ tree_columns (read_frame (mkCsv ["constructorStandingsId"] [["1"]])) = [("constructorStandingsId", Fin 220)]
  /\ tree_columns (read_frame (mkCsv ["constructorStandingsId"] [])) = [("constructorStandingsId", Fin 80)].
Proof. vm_compute. repeat split. Qed.

(** [iterrows] upcasts: in a frame of an integer and a float column the
    integer is shown as [841.0], while its width counts [841]; with a
    text column beside them it stays [841]. *)
Example preview_upcast_example :
  tree_rows (read_frame (mkCsv ["raceId"; "duration"] [["841"; "22.552"]])) = [["841.0"; "22.552"]]
  /\ tree_rows (read_frame (mkCsv ["raceId"; "duration"; "time"] [["841"; "22.552"; "17:28:08"]]))
     = [["841"; "22.552"; "17:28:08"]]
  /\ max_len (read_frame (mkCsv ["raceId"; "duration"] [["841"; "22.552"]])) 0 "r" = Fin 3.
Proof. vm_compute. repeat split. Qed.

Lemma views_fit_widgets_witness :
  newlines (contrib_text [("win_rate", 1 # 2, -1 # 4)%Q]) = contrib_height [("win_rate", 1 # 2, -1 # 4)%Q]
  /\ (newlines (cluster_preview_text [[Some "Lewis Hamilton"; None; Some "Max Verstappen"]])
      <= cluster_preview_height)%nat.
Proof. apply views_fit_widgets; repeat constructor. Defined.

(** One contributions line: the name padded to 30, four decimals. *)
Example contrib_line_example :
  contrib_line ("win_rate", 1 # 2, -1 # 4)%Q = ljust "win_rate" 30 +:+ " : 0.5000 / -0.2500" +:+ newline.
Proof. vm_compute. reflexivity. Qed.
