(* ===== verification/KMeansRun.v ===== *)
(** * The clustering run and its window over the file system
      (src/learning/clustering.py, src/app.py)

    [cluster_driving_styles(save_outputs)] (clustering.py, lines 9-204)
    scales the feature table, fits KMeans for k = 1..10 (the elbow loop),
    then k = 3, fits a two-component PCA, and, when [save_outputs], saves
    the elbow plot, the PCA scatter plot, the PCA contributions and the
    cluster table in the working directory.  [open_kmeans_window] (app.py,
    lines 635-735) asks for a folder, runs it with [save_outputs=True],
    moves the four files into the folder, reads two of them back and packs
    two images and two text views, then shows a success or an error box.

    The state is the file store (a [gmap] from paths to contents) and the
    widgets packed so far; [FS] is a state and exception monad on it, so a
    file written or a widget packed before an exception stays.  KMeans and
    PCA are the class [Learner], with the checks scikit-learn makes on its
    input as [LearnerLaws].  A file's content is the value written:
    a figure, the contributions (a float's [repr] reads back as the same
    float), or the columns of strings [to_csv] writes; [read_csv] gives
    back the columns with the types pandas infers from those strings
    ([PdCsv]), and the preview prints [str] of each value. *)

From stdpp Require Import gmap.
From S2P Require Import Prelude PySort PyStr PyNum PdCsv PyDict Tables Frame Features Clustering Compare Views.

(** ** Files and widgets *)

(** A saved [matplotlib] figure: the elbow curve (x values, inertias) or
    the PCA scatter plot (one labelled series of points per cluster). *)
Inductive figure :=
  | ElbowPlot (ks : list nat) (inertias : list Q)
  | PcaScatter (series : list (string * list (Q * Q))).

Inductive content :=
  | PngFile (fig : figure)
  | ContribCsv (rows : list (string * Q * Q))
  | TableCsv (cols : list (string * list string)).

(** A widget of the window: an image label or a text view of a height. *)
Inductive widget :=
  | ImageLabel (fig : figure)
  | TextView (height : nat) (text : string).

Record fs := mkFS { files : gmap string content; shown : list widget }.

Definition FS (A : Type) := fs -> result A * fs.

Definition fs_ret {A} (a : A) : FS A := fun s => (Ok a, s).

Definition fs_bind {A B} (m : FS A) (k : A -> FS B) : FS B :=
  fun s => match m s with (Ok a, s') => k a s' | (Raise e, s') => (Raise e, s') end.

Definition fs_lift {A} (r : result A) : FS A := fun s => (r, s).

Declare Scope run_scope.
Delimit Scope run_scope with run.
Notation "x <- m ;; k" := (fs_bind m (fun x => k))
  (at level 100, m at next level, right associativity) : run_scope.
Local Open Scope run_scope.

(** [plt.savefig(name)] and [df.to_csv(name)]: the file is replaced. *)
Definition write_file (name : string) (c : content) : FS unit :=
  fun s => (Ok tt, mkFS (<[name := c]> (files s)) (shown s)).

(** [if save_outputs: ...] *)
Definition when_save (save : bool) (m : FS unit) : FS unit := if save then m else fs_ret tt.

(** [shutil.move(src, dst)]: a rename, replacing [dst]. *)
Definition move (src dst : string) : FS unit :=
  fun s => match files s !! src with
           | Some c => (Ok tt, mkFS (<[dst := c]> (delete src (files s))) (shown s))
           | None => (Raise FileNotFoundError, s)
           end.

(** [pd.read_csv(path, index_col=0)] of the contributions. *)
Definition read_contrib (path : string) : FS (list (string * Q * Q)) :=
  fun s => match files s !! path with
           | Some (ContribCsv rows) => (Ok rows, s)
           | Some _ => (Raise ValueError, s)
           | None => (Raise FileNotFoundError, s)
           end.

(** [pd.read_csv(path)] of the cluster table: each column typed by
    [infer_column]. *)
Definition read_table (path : string) : FS (list (string * list pdval)) :=
  fun s => match files s !! path with
           | Some (TableCsv cols) => (Ok (map (fun c => (c.1, (infer_column c.2).2)) cols), s)
           | Some _ => (Raise ValueError, s)
           | None => (Raise FileNotFoundError, s)
           end.

(** [Image.open(path)] *)
Definition image_open (path : string) : FS figure :=
  fun s => match files s !! path with
           | Some (PngFile f) => (Ok f, s)
           | Some _ => (Raise OSError, s)
           | None => (Raise FileNotFoundError, s)
           end.

(** [widget.pack()] *)
Definition pack (w : widget) : FS unit := fun s => (Ok tt, mkFS (files s) (shown s ++ [w])).

(** ** scikit-learn *)

(** [KMeans(n_clusters=k, random_state=42, n_init=10).fit(X)]: its
    [labels_] and [inertia_]; [PCA(n_components=2).fit_transform(X)] and
    [components_.T]. *)
Class Learner := {
  kmeans_fit : nat -> list (list (option Q)) -> result (list Z * Q);
  pca_fit : list (list (option Q)) -> result (list (Q * Q) * list (Q * Q))
}.

(** The input checks of scikit-learn: KMeans raises [ValueError] when
    [n_samples < n_clusters] and fits any finite matrix otherwise; PCA
    with two components fits a finite matrix of at least two rows and two
    columns, with one component row per feature. *)
Class LearnerLaws `{Learner} := {
  kmeans_too_few k X : (length X < k)%nat -> kmeans_fit k X = Raise ValueError;
  kmeans_fits k X : (1 <= k <= length X)%nat -> Forall (Forall is_Some) X ->
    exists labels inertia, kmeans_fit k X = Ok (labels, inertia) /\ length labels = length X;
  pca_fits X w : (2 <= length X)%nat -> (2 <= w)%nat -> Forall (fun r => length r = w /\ Forall is_Some r) X ->
    exists P C, pca_fit X = Ok (P, C) /\ length P = length X /\ length C = w
}.

(** ** The outputs *)

(** [features.columns]: the twelve feature columns of [df_pilotes]. *)
Definition feature_columns : list string :=
  ["avg_position_gain"; "win_rate"; "podium_rate"; "finish_rate"; "avg_lap_time"; "std_lap_time";
   "mean_qualifying_position"; "avg_pit_stop_time"; "avg_pit_stop_count"; "qualif_vs_race_delta";
   "position_std"; "podium_when_finished_rate"].

(** The elbow loop (lines 140-144): the inertia of each [k] in
    [range(1, 11)], the first exception ending it. *)
Definition elbow `{Learner} (X : list (list (option Q))) : result (list Q) :=
  mapM (fun k => let* fit := kmeans_fit k X in Ok fit.2) (seq 1 10).

(** The scatter plot (lines 169-175): one series per label in the order of
    [df_pilotes['cluster'].unique()], the points of its rows. *)
Definition scatter_series (labels : list Z) (P : list (Q * Q)) : list (string * list (Q * Q)) :=
  map (fun i => (cluster_label i, map snd (List.filter (fun lp => Z.eqb lp.1 i) (combine labels P))))
      (first_occ labels).

(** [pd.DataFrame(pca.components_.T, index=features.columns,
    columns=['PC1', 'PC2'])]: [ValueError] unless there is one row per
    feature. *)
Definition pca_contrib (C : list (Q * Q)) : result (list (string * Q * Q)) :=
  if Nat.eqb (length C) (length feature_columns)
  then Ok (zip_with (fun n pc => (n, pc.1, pc.2)) feature_columns C) else Raise ValueError.

(** [to_csv] of a name of the cluster table: a driver missing from
    drivers.csv was named 0 by [fillna(0)]. *)
Definition csv_cell (o : option string) : string := match o with Some s => s | None => "0" end.

Definition table_csv (t : list (string * list (option string))) : content :=
  TableCsv (map (fun c => (c.1, map csv_cell c.2)) t).

(** [str(col) if pd.notna(col)]: the text of a value that is not [NaN]. *)
Definition notna_str (v : pdval) : option string := if isna v then None else Some (str_val v).

Record outputs := mkO {
  o_elbow : figure; o_scatter : figure;
  o_contrib : list (string * Q * Q); o_table : list (string * list (option string)) }.

Ltac run_steps :=
  repeat (match goal with
          | |- context [match ?r with Ok _ => _ | Raise _ => _ end] => destruct r eqn:?
          | H : context [match ?r with Ok _ => _ | Raise _ => _ end] |- _ => destruct r eqn:?
          end; cbn in *; simplify_eq).

Section Run.
Context `{Learner} (sqrt : Q -> Q).
Context (drivers : list DriverRow.t) (results : list ResultRow.t) (status : list StatusRow.t)
        (laps : list LapTimeRow.t) (quals : list QualifyingRow.t) (stops : list PitStopRow.t).

Definition pilotes : list (Z * option string * list Q) := df_pilotes sqrt drivers results status laps quals stops.

(** [cluster_driving_styles(save_outputs)], in the order of the code. *)
Definition cluster_driving_styles (save : bool) : FS unit :=
  Y <- fs_lift (standard_scale sqrt (features pilotes)) ;;
  inertias <- fs_lift (elbow Y) ;;
  _ <- when_save save (write_file "elbow_method.png" (PngFile (ElbowPlot (seq 1 10) inertias))) ;;
  fit <- fs_lift (kmeans_fit 3 Y) ;;
  pc <- fs_lift (pca_fit Y) ;;
  _ <- when_save save (write_file "pca_visualization.png" (PngFile (PcaScatter (scatter_series fit.1 pc.1)))) ;;
  contrib <- fs_lift (pca_contrib pc.2) ;;
  _ <- when_save save (write_file "pca_contributions.csv" (ContribCsv contrib)) ;;
  table <- fs_lift (cluster_table (map (fun r => r.1.2) pilotes) fit.1) ;;
  when_save save (write_file "clusters.csv" (table_csv table)).

(** The same computation as a function of the data alone: the four
    outputs, or the first exception. *)
Definition cluster_outputs : result outputs :=
  let* Y := standard_scale sqrt (features pilotes) in
  let* inertias := elbow Y in
  let* fit := kmeans_fit 3 Y in
  let* pc := pca_fit Y in
  let* contrib := pca_contrib pc.2 in
  let* table := cluster_table (map (fun r => r.1.2) pilotes) fit.1 in
  Ok (mkO (ElbowPlot (seq 1 10) inertias) (PcaScatter (scatter_series fit.1 pc.1)) contrib table).

Definition in_folder (folder name : string) : string := folder +:+ "/" +:+ name.

Definition output_names : list string :=
  ["elbow_method.png"; "pca_visualization.png"; "pca_contributions.csv"; "clusters.csv"].

(** The body of the [try] of [open_kmeans_window] after the dialog. *)
Definition kmeans_body (folder : string) : FS unit :=
  _ <- cluster_driving_styles true ;;
  _ <- move "elbow_method.png" (in_folder folder "elbow_method.png") ;;
  _ <- move "pca_visualization.png" (in_folder folder "pca_visualization.png") ;;
  _ <- move "pca_contributions.csv" (in_folder folder "pca_contributions.csv") ;;
  _ <- move "clusters.csv" (in_folder folder "clusters.csv") ;;
  pca <- read_contrib (in_folder folder "pca_contributions.csv") ;;
  sample <- read_table (in_folder folder "clusters.csv") ;;
  img1 <- image_open (in_folder folder "elbow_method.png") ;;
  _ <- pack (ImageLabel img1) ;;
  img2 <- image_open (in_folder folder "pca_visualization.png") ;;
  _ <- pack (ImageLabel img2) ;;
  _ <- pack (TextView (contrib_height pca) (contrib_text pca)) ;;
  pack (TextView cluster_preview_height (cluster_preview_text (map (map notna_str) (itertuples VNaN sample)))).

(** The window: its widgets, the box shown, and whether [grab_set] made it
    modal. *)
Record kmeans_window := mkKW { kw_widgets : list widget; kw_box : option message; kw_modal : bool }.

(** [open_kmeans_window()] with [folder] the answer of [askdirectory]
    ([''] when cancelled): the window and the file store after. *)
Definition open_kmeans_window (str_exc : exc -> string) (folder : string) (st : gmap string content)
    : kmeans_window * gmap string content :=
  if String.eqb folder "" then (mkKW [] None false, st)
  else match kmeans_body folder (mkFS st []) with
       | (Ok _, s') => (mkKW (shown s') (Some (ShowInfo "Success" ("Clustering finished. Results exported to : " +:+ folder))) true, files s')
       | (Raise e, s') => (mkKW (shown s') (Some (ShowError "Error" ("Error during clustering execution : " +:+ str_exc e))) true, files s')
       end.


(** ** The files written and exported *)

(** The four outputs of [save_outputs=True] in the working directory. *)
Definition write_outputs (o : outputs) (m : gmap string content) : gmap string content :=
  <["clusters.csv" := table_csv (o_table o)]> (<["pca_contributions.csv" := ContribCsv (o_contrib o)]>
  (<["pca_visualization.png" := PngFile (o_scatter o)]> (<["elbow_method.png" := PngFile (o_elbow o)]> m))).

(** The store after the export: the outputs in the folder, none left in
    the working directory. *)
Definition exported_store (folder : string) (o : outputs) (m : gmap string content) : gmap string content :=
  <[in_folder folder "clusters.csv" := table_csv (o_table o)]>
  (<[in_folder folder "pca_contributions.csv" := ContribCsv (o_contrib o)]>
  (<[in_folder folder "pca_visualization.png" := PngFile (o_scatter o)]>
  (<[in_folder folder "elbow_method.png" := PngFile (o_elbow o)]>
  (foldr delete m output_names)))).

(** clusters.csv as [read_csv] gives it back. *)
Definition read_back (t : list (string * list (option string))) : list (string * list pdval) :=
  map (fun c => (c.1, (infer_column (map csv_cell c.2)).2)) t.

(** The widgets of a successful run, in packing order. *)
Definition kmeans_widgets (o : outputs) : list widget :=
  [ImageLabel (o_elbow o); ImageLabel (o_scatter o);
   TextView (contrib_height (o_contrib o)) (contrib_text (o_contrib o));
   TextView cluster_preview_height (cluster_preview_text (map (map notna_str) (itertuples VNaN (read_back (o_table o)))))].

Fixpoint has_slash (s : string) : bool :=
  match s with EmptyString => false | String c s' => Ascii.eqb c "/" || has_slash s' end.

(** ** Paths *)

Lemma has_slash_app a b : has_slash (a +:+ b) = has_slash a || has_slash b.
Proof.
  induction a as [|c a IH]; [done|]. change (String c a +:+ b) with (String c (a +:+ b)).
  cbn [has_slash]. by rewrite IH, orb_assoc.
Qed.

Lemma string_app_inj_l a x y : a +:+ x = a +:+ y -> x = y.
Proof.
  induction a as [|c a IH]; [done|]. change (String c a +:+ x = String c a +:+ y) with (String c (a +:+ x) = String c (a +:+ y)).
  intros [= E]. by apply IH.
Qed.

(** A path in the folder is never one of the working-directory names. *)
Lemma in_folder_not_output folder n n' : In n' output_names -> in_folder folder n <> n'.
Proof.
  intros Hn E. apply (f_equal has_slash) in E. unfold in_folder in E. rewrite !has_slash_app in E.
  change (has_slash "/") with true in E. rewrite orb_true_r in E.
  by destruct Hn as [<-|[<-|[<-|[<-|[]]]]].
Qed.

Lemma in_folder_inj folder n n' : in_folder folder n = in_folder folder n' -> n = n'.
Proof. unfold in_folder. intros E. apply string_app_inj_l in E. by injection E. Qed.

(** ** Steps of the file store *)

Lemma fs_bind_Ok {A B} (m : FS A) (k : A -> FS B) s a s' : m s = (Ok a, s') -> fs_bind m k s = k a s'.
Proof. unfold fs_bind. by intros ->. Qed.

Lemma move_Ok src dst c s :
  files s !! src = Some c -> move src dst s = (Ok tt, mkFS (<[dst := c]> (delete src (files s))) (shown s)).
Proof. unfold move. by intros ->. Qed.

Lemma read_contrib_Ok path rows s : files s !! path = Some (ContribCsv rows) -> read_contrib path s = (Ok rows, s).
Proof. unfold read_contrib. by intros ->. Qed.

Lemma read_table_Ok path cols s :
  files s !! path = Some (TableCsv cols) -> read_table path s = (Ok (map (fun c => (c.1, (infer_column c.2).2)) cols), s).
Proof. unfold read_table. by intros ->. Qed.

Lemma image_open_Ok path f s : files s !! path = Some (PngFile f) -> image_open path s = (Ok f, s).
Proof. unfold image_open. by intros ->. Qed.

(** A lookup in a store built by inserts and deletes of output names and
    folder paths: split on each key, the impossible cases being a folder
    path equal to a bare name or to another folder path. *)
Ltac store_contra :=
  match goal with
  | H : in_folder _ _ = in_folder _ _ |- _ => apply in_folder_inj in H; discriminate H
  | H : in_folder _ _ = ?n |- _ =>
      refine (in_folder_not_output _ _ n _ H); cbn; by repeat first [left; reflexivity | right]
  | H : ?n = in_folder _ _ |- _ =>
      refine (in_folder_not_output _ _ n _ (eq_sym H)); cbn; by repeat first [left; reflexivity | right]
  | H : _ = _ |- _ => discriminate H
  end.

Ltac store_lookup :=
  repeat first [rewrite lookup_insert | rewrite lookup_delete | case_decide | progress subst];
  first [exfalso; store_contra | done].

Ltac fs_step :=
  erewrite fs_bind_Ok;
  [| first [eapply move_Ok | eapply read_contrib_Ok | eapply read_table_Ok | eapply image_open_Ok | reflexivity];
     cbn [files shown]; unfold write_outputs; store_lookup].

(** [read_csv] of what [to_csv] wrote. *)
Lemma read_table_csv t :
  map (fun c => (c.1, (infer_column c.2).2)) (map (fun c => (c.1, map csv_cell c.2)) t) = read_back t.
Proof. unfold read_back. by rewrite map_map. Qed.

(** The four renames leave the outputs in the folder only. *)
Lemma moves_exported folder o m :
  <[in_folder folder "clusters.csv" := table_csv (o_table o)]> (delete "clusters.csv"
  (<[in_folder folder "pca_contributions.csv" := ContribCsv (o_contrib o)]> (delete "pca_contributions.csv"
  (<[in_folder folder "pca_visualization.png" := PngFile (o_scatter o)]> (delete "pca_visualization.png"
  (<[in_folder folder "elbow_method.png" := PngFile (o_elbow o)]> (delete "elbow_method.png" (write_outputs o m))))))))
  = exported_store folder o m.
Proof.
  apply map_eq. intros p. unfold exported_store, write_outputs. cbn [foldr output_names]. store_lookup.
Qed.




(** ** The run as a function of the data *)

Lemma map_zip_with_names {A} (l : list string) (C : list (A * A)) :
  length C = length l -> map (fun v => v.1.1) (zip_with (fun n pc => (n, pc.1, pc.2)) l C) = l.
Proof.
  revert C. induction l as [|n l IH]; intros [|c C] HC; cbn in *; try done. by rewrite IH by lia.
Qed.




Lemma cluster_driving_styles_ok o s :
  cluster_outputs = Ok o -> cluster_driving_styles true s = (Ok tt, mkFS (write_outputs o (files s)) (shown s)).
Proof.
  unfold cluster_outputs, cluster_driving_styles, fs_bind, fs_lift, when_save, write_file.
  intros Ho. cbn in *. run_steps. by destruct s.
Qed.

(** C28: with [save_outputs=False] the run writes no file on any path,
    errors included: the store and the window are left as they were, and
    the run returns exactly when the four outputs can be computed, raising
    otherwise the exception their computation raises. *)
Theorem cluster_driving_styles_no_save s :
  cluster_driving_styles false s = (fmap_result (fun _ => tt) cluster_outputs, s).
Proof.
  unfold cluster_outputs, cluster_driving_styles, fs_bind, fs_lift, when_save, fs_ret, fmap_result. cbn.
  by run_steps.
Qed.

Lemma elbow_too_few `{!LearnerLaws} Y :
  (length Y < 10)%nat -> Forall (Forall is_Some) Y -> elbow Y = Raise ValueError.
Proof.
  intros Hn HY. unfold elbow.
  replace 10%nat with (length Y + S (9 - length Y))%nat by lia. rewrite seq_app. cbn [seq].
  apply mapM_app_Raise.
  - intros k Hk%in_seq. destruct (kmeans_fits k Y) as (l & i & -> & _); [lia|done|]. by eexists.
  - by rewrite kmeans_too_few by lia.
Qed.

Lemma elbow_fits `{!LearnerLaws} Y :
  (10 <= length Y)%nat -> Forall (Forall is_Some) Y -> exists inertias, elbow Y = Ok inertias /\ length inertias = 10%nat.
Proof.
  intros Hn HY. destruct (mapM_total (fun k => let* fit := kmeans_fit k Y in Ok fit.2) (seq 1 10)) as (ys & E & Hl).
  - intros k Hk%in_seq. destruct (kmeans_fits k Y) as (l & i & -> & _); [lia|done|]. by eexists.
  - exists ys. by rewrite length_seq in Hl.
Qed.

(** The scaler's output on the feature table. *)
Lemma scaled_pilotes :
  features pilotes <> [] ->
  exists Y, standard_scale sqrt (features pilotes) = Ok Y
            /\ length Y = length (features pilotes)
            /\ Forall (fun y => length y = 12%nat /\ Forall is_Some y) Y.
Proof.
  pose proof (features_width sqrt drivers results status laps quals stops) as Hw.
  unfold pilotes. destruct (features _) as [|r X'] eqn:EX; [done|]. intros _.
  eexists. split; [apply (standard_scale_rect sqrt _ 12); [discriminate|exact Hw]|].
  rewrite length_map. split; [done|]. apply scaled_rows_finite.
Qed.

(** Fewer than ten drivers: the elbow loop raises before the first file. *)
Lemma cluster_driving_styles_few `{!LearnerLaws} save s :
  (length (features pilotes) < 10)%nat ->
  cluster_driving_styles save s = (Raise ValueError, s).
Proof.
  intros Hn. cbv beta iota delta [cluster_driving_styles fs_bind fs_lift].
  destruct (decide (features pilotes = [])) as [E|E].
  - by rewrite E, standard_scale_nil.
  - destruct (scaled_pilotes E) as (Y & -> & HY & Hf). rewrite elbow_too_few; [done|lia|].
    eapply Forall_impl; [exact Hf|]. by intros y [_ ?].
Qed.

(** C25: whenever the four outputs can be computed, for any KMeans and
    PCA, [open_kmeans_window] with a chosen folder refines exporting them:
    the folder holds exactly the outputs, none is left in the working
    directory, every other file is unchanged, and the window shows, in
    order, the two figures, the contributions text and the preview of
    clusters.csv as read back, with the success box. *)
Theorem kmeans_window_exports str_exc folder st o :
  folder <> "" -> cluster_outputs = Ok o ->
  open_kmeans_window str_exc folder st
  = (mkKW (kmeans_widgets o) (Some (ShowInfo "Success" ("Clustering finished. Results exported to : " +:+ folder))) true,
     exported_store folder o st).
Proof.
  intros Hf Ho. unfold open_kmeans_window. rewrite (proj2 (String.eqb_neq _ _) Hf).
  unfold kmeans_body. rewrite (fs_bind_Ok _ _ _ _ _ (cluster_driving_styles_ok o _ Ho)).
  repeat fs_step. unfold pack. cbn [files shown app].
  by rewrite moves_exported, read_table_csv.
Qed.
(** C26: for any KMeans and PCA that make scikit-learn's input checks, a
    feature table of fewer than ten drivers makes the window show only the
    error box with [str(ValueError)]: the elbow loop (or, with no driver,
    the scaler) raises before the first file is saved, so nothing is
    written, moved or packed. *)
Theorem kmeans_window_few_drivers `{!LearnerLaws} str_exc folder st :
  folder <> "" -> (length (features pilotes) < 10)%nat ->
  open_kmeans_window str_exc folder st
  = (mkKW [] (Some (ShowError "Error" ("Error during clustering execution : " +:+ str_exc ValueError))) true, st).
Proof.
  intros Hf Hn. unfold open_kmeans_window. rewrite (proj2 (String.eqb_neq _ _) Hf).
  unfold kmeans_body, fs_bind at 1. by rewrite cluster_driving_styles_few.
Qed.

(** C27: for any KMeans and PCA that make scikit-learn's input checks, a
    feature table of at least ten drivers makes the run complete: the four
    outputs exist, [save_outputs=True] writes exactly them, the elbow
    curve has the ten inertias of k = 1..10 and the contributions one row
    per feature column, in order. *)
Theorem cluster_run_completes `{!LearnerLaws} s :
  (10 <= length (features pilotes))%nat ->
  exists o, cluster_outputs = Ok o
    /\ cluster_driving_styles true s = (Ok tt, mkFS (write_outputs o (files s)) (shown s))
    /\ (exists inertias, o_elbow o = ElbowPlot (seq 1 10) inertias /\ length inertias = 10%nat)
    /\ map (fun v => v.1.1) (o_contrib o) = feature_columns.
Proof.
  intros Hn. destruct scaled_pilotes as (Y & HY & HlY & Hf); [intros E; rewrite E in Hn; cbn in Hn; lia|].
  assert (Hs : Forall (Forall is_Some) Y) by (eapply Forall_impl; [exact Hf|]; by intros y [_ ?]).
  destruct (elbow_fits Y) as (ins & Hel & Hil); [lia|done|].
  destruct (kmeans_fits 3 Y) as (labels & inertia & Hk & Hlab); [lia|done|].
  destruct (pca_fits Y 12) as (P & C & Hp & _ & HlC); [lia|lia|done|].
  assert (Htab : exists t, cluster_table (map (fun r => r.1.2) pilotes) labels = Ok t).
  { destruct (cluster_table_columns (map (fun r => r.1.2) pilotes) labels) as (m & Ht & _); [|intros ->; cbn in *; lia|eauto].
    rewrite length_map, Hlab, HlY. unfold features. by rewrite length_map. }
  destruct Htab as [t Ht].
  assert (Ho : cluster_outputs = Ok (mkO (ElbowPlot (seq 1 10) ins) (PcaScatter (scatter_series labels P))
                                         (zip_with (fun n pc => (n, pc.1, pc.2)) feature_columns C) t)).
  { unfold cluster_outputs. rewrite HY, bind_Ok, Hel, bind_Ok, Hk, bind_Ok, Hp, bind_Ok.
    cbn [fst snd]. unfold pca_contrib. by rewrite HlC, Ht. }
  eexists. split; [exact Ho|]. split; [by apply cluster_driving_styles_ok|]. split; [by eexists|].
  cbn [o_contrib]. apply map_zip_with_names. by rewrite HlC.
Qed.

End Run.

(** ** The cluster table read back *)

(** The preview of a cell of a column of strings: its text, or blank
    for a missing-value token. *)
Lemma preview_text_cell s :
  preview_cell (notna_str (if is_na_token s then VNaN else VStr s)) = ljust (if is_na_token s then "" else s) 30.
Proof. by destruct (is_na_token s). Qed.

Lemma nth_map_dflt {A B} (f : A -> B) (da : A) (db : B) l r :
  (r < length l)%nat -> nth r (map f l) db = f (nth r l da).
Proof. intros Hr. rewrite (nth_indep _ db (f da)) by (by rewrite length_map). apply map_nth. Qed.

(** C29: the preview of clusters.csv shows, row by row, the strings
    [to_csv] wrote for the cluster table (padded to 30), with every
    missing-value token of pandas blank (the [''] padding, and a driver
    named [NA] or [None] alike), as long as each column holds a cell that
    pandas cannot read as a number or a boolean, so that it is read as a
    column of strings; a driver without a name is shown as [0]. *)
Theorem clusters_csv_roundtrip t n :
  Forall (fun c => length c.2 = n) t ->
  Forall (fun c => existsb text_cell (map csv_cell c.2) = true) t ->
  map (map (fun v => preview_cell (notna_str v))) (itertuples VNaN (read_back t))
  = map (map (fun o => ljust (if is_na_token (csv_cell o) then "" else csv_cell o) 30)) (itertuples None t).
Proof.
  intros Hn Htext. unfold itertuples, read_back.
  set (rows := match t with [] => 0%nat | c :: _ => length c.2 end).
  assert (Hrows : forall c, In c t -> length c.2 = rows).
  { intros c Hc. unfold rows. destruct t as [|c0 t']; [done|].
    pose proof (proj1 (List.Forall_forall _ _) Hn) as Hall. rewrite (Hall c Hc). symmetry. apply Hall. by left. }
  replace (match _ with [] => 0%nat | c :: _ => length c.2 end) with rows
    by (unfold rows; destruct t; [done|]; cbn; by rewrite infer_column_length, length_map).
  rewrite !map_map. apply map_ext_in. intros r Hr%in_seq. rewrite !map_map. apply map_ext_in. intros c Hc.
  cbn [fst snd]. rewrite infer_text_column by exact (proj1 (List.Forall_forall _ _) Htext c Hc).
  cbn [snd]. rewrite map_map, (nth_map_dflt _ None) by (rewrite (Hrows c Hc); lia).
  apply preview_text_cell.
Qed.

(** ** Examples *)

(** A KMeans that labels the rows in turn and a PCA that projects every
    row on the origin, both making scikit-learn's input checks. *)
Definition toy_learner : Learner := {|
  kmeans_fit k X := if Nat.ltb (length X) k then Raise ValueError
                    else Ok (map (fun i => Z.of_nat (i mod k)) (seq 0 (length X)), 0%Q);
  pca_fit X := if Nat.ltb (length X) 2 then Raise ValueError
               else Ok (map (fun _ => (0, 0)%Q) X, map (fun _ => (1, 0)%Q) (hd [] X)) |}.

(** The laws are satisfiable. *)
Lemma toy_learner_laws : @LearnerLaws toy_learner.
Proof.
  split.
  - intros k X Hk. cbv [kmeans_fit pca_fit toy_learner]. by rewrite (proj2 (Nat.ltb_lt _ _) Hk).
  - intros k X Hk _. cbv [kmeans_fit pca_fit toy_learner]. rewrite (proj2 (Nat.ltb_ge _ _)) by lia.
    do 2 eexists. split; [done|]. by rewrite length_map, length_seq.
  - intros X w Hn Hw HX. cbv [kmeans_fit pca_fit toy_learner]. rewrite (proj2 (Nat.ltb_ge _ _)) by lia.
    do 2 eexists. split; [done|]. rewrite !length_map. split; [done|].
    destruct X as [|r X']; [cbn in Hn; lia|]. inversion HX as [|? ? [Hr _]]. by subst.
Qed.

(** Ten drivers, one race, one lap each. *)
Definition kr_drivers : list DriverRow.t :=
  map (fun i => DriverRow.mk (Z.of_nat i) "Driver" (str_of_Z (Z.of_nat i)) "British") (seq 1 10).
Definition kr_results : list ResultRow.t :=
  map (fun i => ResultRow.mk 18 (Z.of_nat i) 1 (Z.of_nat i) (str_of_Z (Z.of_nat i)) (Z.of_nat i) 1) (seq 1 10).
Definition kr_status : list StatusRow.t := [StatusRow.mk 1 "Finished"].
Definition kr_laps : list LapTimeRow.t := map (fun i => LapTimeRow.mk (Z.of_nat i) (90000 + Z.of_nat i)) (seq 1 10).

Definition kr_outputs : outputs :=
  Eval vm_compute in
  match @cluster_outputs toy_learner (fun q => q) kr_drivers kr_results kr_status kr_laps [] [] with
  | Ok o => o
  | Raise _ => mkO (ElbowPlot [] []) (PcaScatter []) [] []
  end.

Lemma cluster_run_completes_witness :
  (10 <= length (features (pilotes (fun q => q) kr_drivers kr_results kr_status kr_laps [] [])))%nat
  /\ exists o, @cluster_outputs toy_learner (fun q => q) kr_drivers kr_results kr_status kr_laps [] [] = Ok o
               /\ map (fun v => v.1.1) (o_contrib o) = feature_columns.
Proof.
  assert (Hn : (10 <= length (features (pilotes (fun q => q) kr_drivers kr_results kr_status kr_laps [] [])))%nat)
    by (vm_compute; lia).
  split; [exact Hn|].
  destruct (@cluster_run_completes toy_learner (fun q => q) kr_drivers kr_results kr_status kr_laps [] []
              toy_learner_laws (mkFS ∅ []) Hn) as (o & Ho & _ & _ & Hc).
  exists o. split; [exact Ho|exact Hc].
Defined.

Lemma kmeans_window_few_drivers_witness :
  ("out" <> "" /\ (length (features (pilotes (fun q => q) ft_drivers ft_results ft_status ft_laps ft_quals ft_stops)) < 10)%nat)
  /\ @open_kmeans_window toy_learner (fun q => q) ft_drivers ft_results ft_status ft_laps ft_quals ft_stops
       (fun _ => "ValueError") "out" ∅
     = (mkKW [] (Some (ShowError "Error" ("Error during clustering execution : " +:+ "ValueError"))) true, ∅).
Proof.
  assert (H : "out" <> "" /\ (length (features (pilotes (fun q => q) ft_drivers ft_results ft_status ft_laps ft_quals ft_stops)) < 10)%nat)
    by (split; [discriminate|vm_compute; lia]).
  split; [exact H|].
  exact (@kmeans_window_few_drivers toy_learner (fun q => q) ft_drivers ft_results ft_status ft_laps ft_quals ft_stops
           toy_learner_laws (fun _ => "ValueError") "out" ∅ (proj1 H) (proj2 H)).
Defined.

Lemma kmeans_window_exports_witness :
  ("out" <> "" /\ @cluster_outputs toy_learner (fun q => q) kr_drivers kr_results kr_status kr_laps [] [] = Ok kr_outputs)
  /\ @open_kmeans_window toy_learner (fun q => q) kr_drivers kr_results kr_status kr_laps [] [] (fun _ => "") "out" ∅
     = (mkKW (kmeans_widgets kr_outputs) (Some (ShowInfo "Success" ("Clustering finished. Results exported to : " +:+ "out"))) true,
        exported_store "out" kr_outputs ∅).
Proof.
  assert (H : "out" <> "" /\ @cluster_outputs toy_learner (fun q => q) kr_drivers kr_results kr_status kr_laps [] [] = Ok kr_outputs)
    by (split; [discriminate|vm_compute; reflexivity]).
  split; [exact H|].
  exact (@kmeans_window_exports toy_learner (fun q => q) kr_drivers kr_results kr_status kr_laps [] []
           (fun _ => "") "out" ∅ kr_outputs (proj1 H) (proj2 H)).
Defined.

(** Two clusters of two rows: a driver missing from drivers.csv ([None])
    and the padding [''] of the smaller cluster. *)
Definition kr_table : list (string * list (option string)) :=
  [("Cluster 0", [Some "Lewis Hamilton"; None]); ("Cluster 1", [Some "Max Verstappen"; Some ""])].

Lemma clusters_csv_roundtrip_witness :
  (Forall (fun c => length c.2 = 2%nat) kr_table
   /\ Forall (fun c => existsb text_cell (map csv_cell c.2) = true) kr_table)
  /\ map (map (fun v => preview_cell (notna_str v))) (itertuples VNaN (read_back kr_table))
     = map (map (fun o => ljust (if is_na_token (csv_cell o) then "" else csv_cell o) 30)) (itertuples None kr_table).
Proof.
  assert (H : Forall (fun c => length c.2 = 2%nat) kr_table
              /\ Forall (fun c => existsb text_cell (map csv_cell c.2) = true) kr_table)
    by (split; repeat constructor; vm_compute; reflexivity).
  split; [exact H|]. exact (clusters_csv_roundtrip kr_table 2 (proj1 H) (proj2 H)).
Defined.

(** The preview shows the unnamed driver as [0] and the padding blank. *)
Example clusters_preview_example :
  map (map (fun v => preview_cell (notna_str v))) (itertuples VNaN (read_back kr_table))
  = [[ljust "Lewis Hamilton" 30; ljust "Max Verstappen" 30]; [ljust "0" 30; ljust "" 30]].
Proof. vm_compute. reflexivity. Qed.

(** A cluster of unnamed drivers only: its column holds [0] and the
    padding, which pandas reads as floats, and the preview shows [0.0]. *)
Example clusters_preview_float_column :
  map (map (fun v => preview_cell (notna_str v)))
      (itertuples VNaN (read_back [("Cluster 0", [Some "Lewis Hamilton"; Some "Max Verstappen"]);
                                   ("Cluster 1", [None; Some ""])]))
  = [[ljust "Lewis Hamilton" 30; ljust "0.0" 30]; [ljust "Max Verstappen" 30; ljust "" 30]].
Proof. vm_compute. reflexivity. Qed.

(** Cancelling the folder dialog returns before [grab_set]: the window
    stays open, empty and not modal, and no file is touched. *)
Example kmeans_window_cancelled :
  @open_kmeans_window toy_learner (fun q => q) ft_drivers ft_results ft_status ft_laps ft_quals ft_stops
    (fun _ => "") "" ∅ = (mkKW [] None false, ∅).
Proof. reflexivity. Qed.
