(* ===== verification/Windows.v ===== *)
(** * The code and about windows, the question frames and the two charts
      (src/app.py, src/analysis/pandas/q5_graph.py, q6_graph.py)

    [open_code_window] and [open_dual_code_window] (app.py, lines 185-248)
    show [inspect.getsource] of one function, or of the pandas and the
    homemade version of a question under two labels; an exception of
    [getsource] is caught per pane and its text shown in place of the
    source.  [open_about_f1] (lines 134-163) shows about_f1.md or an error
    box.  The loop of lines 421-465 gives each question its frame: for
    the first four a "Compare" button and a two-pane "Code" button, for
    the others a one-pane "Code" button on [func_pandas], and for all an
    "Answer" button.  [getsource], the reading of the file and [str(e)]
    are section variables.  The two chart functions draw a bar chart
    and save it to [save_path] when it is truthy, show it otherwise; a
    chart is the data it draws. *)

From S2P Require Import Prelude PySort PyStr PyDict Tables Frame Champions Failures Compare Gui.

(** ** The code windows *)

Section Code.
Context (getsource : Fn.t -> result string) (str_exc : exc -> string).

(** [text_widget.insert("1.0", inspect.getsource(func))], or the
    message of the [except]. *)
Definition source_text (f : Fn.t) : string :=
  match getsource f with
  | Ok src => src
  | Raise e => "Unable to load source code: " +:+ str_exc e
  end.

(** A code window: title, geometry, heading, and its panes (a label, if
    any, and the text). *)
Record code_window := mkCW {
  cw_title : string; cw_geometry : string; cw_heading : string; cw_panes : list (option string * string) }.

Definition open_code_window (t : string) (f : Fn.t) : code_window :=
  mkCW ("Code – " +:+ t) "800x600" ("Code – " +:+ t) [(None, source_text f)].

(** The loop of lines 232-244, one pane per version. *)
Definition open_dual_code_window (t : string) (fpd fnp : Fn.t) : code_window :=
  mkCW ("Code – " +:+ t) "800x700" ("Code – " +:+ t)
    (map (fun lf => (Some lf.1, source_text lf.2)) [("Pandas version", fpd); ("Vanilla Python version", fnp)]).

End Code.

(** ** The about window *)

Inductive about :=
  | AboutWindow (wtitle heading content : string)
  | AboutError (msg : string).

Definition open_about_f1 (read_file : string -> result string) (str_exc : exc -> string) : about :=
  match read_file "about_f1.md" with
  | Ok content => AboutWindow "About F1" "about_f1.md – Formule 1" content
  | Raise e => AboutError ("Cannot open about_f1.md : " +:+ str_exc e)
  end.

(** ** The frame of each question *)

#[export] Instance fn_eq_dec : EqDecision Fn.t.
Proof. solve_decision. Defined.

Inductive button :=
  | CompareBtn (q : question)
  | DualCodeBtn (t : string) (fpd fnp : Fn.t)
  | CodeBtn (t : string) (f : Fn.t)
  | AnswerBtn (q : question).

(** The label and the buttons of question [i] (lines 421-465). *)
Definition question_frame (i : nat) (q : question) : string * list button :=
  (title q,
   (if Nat.ltb i 4 then [CompareBtn q; DualCodeBtn (title q) (func_pd q) (func_np q)]
    else [CodeBtn (title q) (func_pd q)]) ++ [AnswerBtn q]).

Definition question_frames : list (string * list button) := imap question_frame question_data.

(** What pressing a button does: the comparison box, a code window, or
    the "Answer" window (or the chart question's error). *)
Inductive pressed :=
  | ComparisonShown (m : result message * cstate)
  | CodeShown (w : code_window)
  | AnswerOpened (w : window + option message).

Section Press.
Context `{Backend} (clock : nat -> Q) (getsource : Fn.t -> result string).

Definition press (b : button) (s : cstate) : pressed :=
  match b with
  | CompareBtn q => ComparisonShown (compare_button clock q s)
  | DualCodeBtn t fpd fnp => CodeShown (open_dual_code_window getsource str_exc t fpd fnp)
  | CodeBtn t f => CodeShown (open_code_window getsource str_exc t f)
  | AnswerBtn q => AnswerOpened (open_question_window q)
  end.
End Press.

(** ** The charts *)

(** A bar chart: kind, title, axis labels, the bars in drawing order, the
    text drawn at [(x, row)], whether the y axis is inverted and the x
    axis visible. *)
Record bar_chart := mkBar {
  c_kind : string; c_title : string; c_xlabel : string; c_ylabel : string;
  c_bars : list (option string * nat); c_texts : list (Q * nat * string);
  c_yinverted : bool; c_xaxis_visible : bool }.

Inductive plot_out := SavedTo (path : string) (c : bar_chart) | Shown (c : bar_chart).

Definition plotted (o : plot_out) : bar_chart := match o with SavedTo _ c | Shown c => c end.

(** [if save_path: plt.savefig(save_path) else: plt.show()]: [None] and
    [''] are falsy. *)
Definition show_or_save (save_path : option string) (c : bar_chart) : plot_out :=
  match save_path with
  | Some p => if String.eqb p "" then Shown c else SavedTo p c
  | None => Shown c
  end.

Module Q6Graph.
Section WithSort.
Context `{SortValues}.

(** [nationalities(save_path)] (q6_graph.py, lines 8-38). *)
Definition nationalities_chart (drivers : list DriverRow.t) : bar_chart :=
  mkBar "bar" "Drivers' nationalities since 1950" "Nationality" "Number of drivers"
    (map (fun kv => (Some kv.1, kv.2)) (Q6.nationalities_counts drivers)) [] false true.

Definition nationalities (drivers : list DriverRow.t) (save_path : option string) : plot_out :=
  show_or_save save_path (nationalities_chart drivers).
End WithSort.
End Q6Graph.

Module Q5Graph.
Section WithSort.
Context `{SortValues}.

(** [plt.text(value + 0.1, index, str(value))] for each bar (lines 44-45). *)
Definition championship_texts (top5 : list (option string * nat)) : list (Q * nat * string) :=
  imap (fun i kv => ((inject_Z (Z.of_nat kv.2) + (1 # 10))%Q, i, str_of_Z (Z.of_nat kv.2))) top5.

Definition championships_chart (top5 : list (option string * nat)) : bar_chart :=
  mkBar "barh" "Top 5 Constructors with Most Championships" "Number of Championships" "Constructor"
    top5 (championship_texts top5) true false.

(** [most_constructor_championships_won(save_path)] (q5_graph.py, lines
    8-52): the tally of [Q5], then the chart. *)
Definition most_constructor_championships_won (races : list RaceRow.t) (cs : list ConstructorStandingRow.t)
    (constructors : list ConstructorRow.t) (save_path : option string) : result plot_out :=
  let* top5 := Q5.most_constructor_championships_won races cs constructors in
  Ok (show_or_save save_path (championships_chart top5)).
End WithSort.
End Q5Graph.

(** ** Properties *)

Lemma plotted_show_or_save save_path c : plotted (show_or_save save_path c) = c.
Proof. destruct save_path as [p|]; cbn; [destruct (String.eqb p "")|]; done. Qed.

Lemma show_or_save_saved save_path c p :
  show_or_save save_path c = SavedTo p c <-> save_path = Some p /\ p <> "".
Proof.
  destruct save_path as [p'|]; cbn; [|naive_solver].
  destruct (String.eqb_spec p' "") as [->|Hp]; [naive_solver|]. split; [intros [= ->]|intros [[= ->] _]]; done.
Qed.

(** C17: whatever [save_path], the nationalities chart draws one bar per
    nationality, the tallest first, each as high as the number of
    drivers of that nationality, so that the bars add up to the number
    of drivers; it is saved to [save_path] exactly when [save_path] is a
    non-empty path, and shown otherwise. *)
Theorem nationalities_chart_spec `{SortValues} drivers save_path :
  let c := plotted (Q6Graph.nationalities drivers save_path) in
  list_sum (map snd (c_bars c)) = length drivers
  /\ (forall n k, In (Some n, k) (c_bars c)
                  <-> k = key_count (fun x => x) n (map DriverRow.nationality drivers) /\ k <> 0%nat)
  /\ Sorted (desc_rel snd) (c_bars c)
  /\ (forall p, Q6Graph.nationalities drivers save_path = SavedTo p c <-> save_path = Some p /\ p <> "").
Proof.
  intros c. unfold c, Q6Graph.nationalities. rewrite plotted_show_or_save. cbn [c_bars Q6Graph.nationalities_chart].
  unfold Q6.nationalities_counts. split; [|split; [|split]].
  - rewrite map_map. cbn. unfold value_counts.
    rewrite (Permutation_map snd (sort_values_perm _ _ snd _)), sum_count_by. apply length_map.
  - intros n k. rewrite <- In_value_counts, in_map_iff. split; [intros ([n' k'] & [= -> ->] & Hin)|intros Hin]; [done|].
    by exists (n, k).
  - apply Sorted_map, sort_values_sorted.
  - intros p. apply show_or_save_saved.
Qed.

(** The championships chart draws at most five bars, with one text per
    bar. *)
Lemma championships_chart_bars `{SortValues} races cs constructors save_path o :
  Q5Graph.most_constructor_championships_won races cs constructors save_path = Ok o ->
  (length (c_bars (plotted o)) <= 5)%nat /\ length (c_texts (plotted o)) = length (c_bars (plotted o)).
Proof.
  unfold Q5Graph.most_constructor_championships_won. intros (t & Ht & [= <-])%bind_Ok_inv.
  unfold Q5.most_constructor_championships_won in Ht.
  apply bind_Ok_inv in Ht as (ch & _ & Ht). apply bind_Ok_inv in Ht as (ks & _ & [= <-]).
  rewrite plotted_show_or_save. cbn. unfold Q5Graph.championship_texts.
  rewrite length_imap. split; [|done]. unfold series_head. cbn. rewrite length_firstn. lia.
Qed.

(** ** Examples *)

Definition is_compare (b : button) : bool := match b with CompareBtn _ => true | _ => false end.

(** The hard-coded [i < 4] of line 430 gives a "Compare" button exactly
    to the questions whose two functions differ. *)
Example compare_buttons_two_versions :
  map (fun fr => existsb is_compare fr.2) question_frames
  = map (fun q => negb (bool_decide (func_pd q = func_np q))) question_data.
Proof. vm_compute. reflexivity. Qed.

(** A function whose source cannot be read shows the error in its pane. *)
Example code_window_error :
  open_code_window (fun _ => Raise OSError) (fun _ => "could not get source code") "Q" Fn.ranking
  = mkCW "Code – Q" "800x600" "Code – Q" [(None, "Unable to load source code: could not get source code")].
Proof. reflexivity. Qed.
