(* ===== verification/Tests.v ===== *)
(** * The tests of src/tests

    Each test function is a boolean: pytest's verdict when it calls the
    model of the function under test, an exception being a failure.  The
    parametrised cases are the lists of [@pytest.mark.parametrize].  The
    data files are the section variables, as for the queries.  The
    theorems characterise when each test passes: exactly when the
    function under test returns. *)

From S2P Require Import Prelude PySort PyStr PyNum PyDict Tables Frame Wins Ranking Champions Failures Windows.

(** [needle in hay] on strings. *)
Fixpoint py_in (needle hay : string) : bool :=
  String.prefix needle hay || match hay with EmptyString => false | String _ h => py_in needle h end.

(** The parametrised cases. *)
Definition title_cases : list Z := [20; 30; 50]%Z.
Definition ranking_cases : list Z := [2021; 2022; 2023]%Z.

Section Tests.
Context (drivers : list DriverCsv.t) (results : list ResultCsv.t)
        (standings : list DriverStandingCsv.t) (races : list RaceCsv.t).

(** test_mandatory1.py: [assert f"Drivers who won more than {n} races" in result]. *)
Definition test_at_least_n_races_nopd_title (n : Z) : bool :=
  match Wins.Homemade.at_least_n_races_nopd drivers results n with
  | Ok result => py_in ("Drivers who won more than " +:+ str_of_Z n +:+ " races") result
  | Raise _ => false
  end.

(** test_mandatory2.py: the result is a [str] (always, here), and holds
    ["Rank"] and [f"Season {year}"]. *)
Definition test_ranking_contains_rank_header (year : Z) : bool :=
  match Ranking.Homemade.ranking_nopd drivers results standings races year with
  | Ok result => py_in "Rank" result && py_in ("Season " +:+ str_of_Z year) result
  | Raise _ => false
  end.
End Tests.

(** test_q5_q6_graphs.py: [func(save_path=str(path))], then the file
    exists (and is not empty). *)
Definition test_graph_generation_and_save (out : result plot_out) (path : string) : bool :=
  match out with Ok (SavedTo p _) => String.eqb p path | _ => false end.

(** [tmp_path / filename] *)
Definition tmp_file (tmp_path filename : string) : string := tmp_path +:+ "/" +:+ filename.

Section Graphs.
Context `{SortValues} (races : list RaceRow.t) (cs : list ConstructorStandingRow.t)
        (constructors : list ConstructorRow.t) (drivers : list DriverRow.t) (tmp_path : string).

Definition graph_cases : list (result plot_out * string) :=
  [(Q5Graph.most_constructor_championships_won races cs constructors
      (Some (tmp_file tmp_path "test_championships.png")), tmp_file tmp_path "test_championships.png");
   (Ok (Q6Graph.nationalities drivers (Some (tmp_file tmp_path "test_nationalities.png"))),
      tmp_file tmp_path "test_nationalities.png")].
End Graphs.

(** ** Strings *)

Lemma prefix_app n s : String.prefix n (n +:+ s) = true.
Proof.
  induction n as [|c n IH]; [by destruct s|].
  change (String c n +:+ s) with (String c (n +:+ s)). cbn. by destruct (ascii_dec c c).
Qed.

Lemma py_in_of_prefix n h : String.prefix n h = true -> py_in n h = true.
Proof. intros E. destruct h; cbn [py_in]; by rewrite E. Qed.

Lemma py_in_prefix n s : py_in n (n +:+ s) = true.
Proof. apply py_in_of_prefix, prefix_app. Qed.

Lemma py_in_app_r n a b : py_in n b = true -> py_in n (a +:+ b) = true.
Proof.
  intros Hb. induction a as [|c a IH]; [done|].
  change (String c a +:+ b) with (String c (a +:+ b)). cbn [py_in]. by rewrite IH, orb_true_r.
Qed.

Lemma string_app_assoc a b c : a +:+ (b +:+ c) = (a +:+ b) +:+ c.
Proof.
  induction a as [|x a IH]; [done|].
  change (String x (a +:+ (b +:+ c)) = String x ((a +:+ b) +:+ c)). by f_equal.
Qed.

Lemma string_app_nil_r a : a +:+ "" = a.
Proof. induction a as [|x a IH]; [done|]. change (String x (a +:+ "") = String x a). by f_equal. Qed.

(** A joined text starts with its first line. *)
Lemma join_head sep x l : exists rest, join sep (x :: l) = x +:+ rest.
Proof.
  destruct l as [|y l]; [exists ""; by rewrite string_app_nil_r|].
  by exists (sep +:+ join sep (y :: l)).
Qed.

(** ** What the tests check *)

Ltac bind_steps H :=
  cbv zeta in H; repeat (apply bind_Ok_inv in H as (? & _ & H)); injection H as <-.

(** The table of [format_dict] starts with its title. *)
Lemma format_dict_head label d t s :
  Wins.Homemade.format_dict label d t = Ok s -> exists rest, s = t +:+ rest.
Proof. unfold Wins.Homemade.format_dict. intros H. bind_steps H. by eexists. Qed.

(** The table of [format_list] starts with its title and holds ["Rank"]. *)
Lemma format_list_text standings t s :
  Ranking.Homemade.format_list standings t = Ok s -> py_in "Rank" s = true /\ exists rest, s = t +:+ rest.
Proof.
  unfold Ranking.Homemade.format_list. intros H. bind_steps H. split; [|by eexists].
  do 4 apply py_in_app_r. unfold ljust. rewrite <- !string_app_assoc. apply py_in_prefix.
Qed.

Lemma nonempty_tmp_file tmp_path f : String.eqb (tmp_file tmp_path f) "" = false.
Proof. by destruct tmp_path. Qed.

(** C37: each test of src/tests passes exactly when the function it calls
    returns, on any data: the title test whenever [at_least_n_races_nopd]
    returns, the ranking test whenever [ranking_nopd] returns, the graph
    test of q5 whenever the championship tally returns and that of q6
    always.  A result that returns but is wrong passes. *)
Theorem tests_pass_iff_return `{SortValues} drivers results standings races n year
    races' cs constructors drivers' tmp_path :
  test_at_least_n_races_nopd_title drivers results n
    = negb (raises (Wins.Homemade.at_least_n_races_nopd drivers results n))
  /\ test_ranking_contains_rank_header drivers results standings races year
    = negb (raises (Ranking.Homemade.ranking_nopd drivers results standings races year))
  /\ map (fun c => test_graph_generation_and_save c.1 c.2) (graph_cases races' cs constructors drivers' tmp_path)
    = [negb (raises (Q5.most_constructor_championships_won races' cs constructors)); true].
Proof.
  split; [|split].
  - unfold test_at_least_n_races_nopd_title.
    destruct (Wins.Homemade.at_least_n_races_nopd _ _ _) eqn:E; [|done].
    unfold Wins.Homemade.at_least_n_races_nopd in E. apply bind_Ok_inv in E as (named & _ & E).
    apply format_dict_head in E as (rest & ->). apply py_in_prefix.
  - unfold test_ranking_contains_rank_header.
    destruct (Ranking.Homemade.ranking_nopd _ _ _ _ _) eqn:E; [|done].
    unfold Ranking.Homemade.ranking_nopd in E. cbv zeta in E. do 6 (apply bind_Ok_inv in E as (? & _ & E)).
    apply format_list_text in E as [HR (rest & ->)]. rewrite HR. cbn [andb negb raises].
    unfold Ranking.Homemade.season_title.
    change ("Drivers' ranking - Season " +:+ str_of_Z year)
      with ("Drivers' ranking - " +:+ ("Season " +:+ str_of_Z year)).
    rewrite <- string_app_assoc. apply py_in_app_r, py_in_prefix.
  - unfold graph_cases, Q5Graph.most_constructor_championships_won, Q6Graph.nationalities, show_or_save.
    cbn [map fst snd]. rewrite !nonempty_tmp_file. destruct (Q5.most_constructor_championships_won _ _ _); cbn;
      by rewrite !String.eqb_refl.
Qed.

(** ** Examples *)

(** The ranking test passes on the season of
    [Ranking.ranking_string_max_example], whose standings are
    those after race 999 instead of the last race, 1000. *)
Example ranking_test_passes_wrong_race :
  test_ranking_contains_rank_header (map render_driver rk_drivers) (map render_result rk_results)
    rk_standings (map render_race rk_races) 2018 = true.
Proof. vm_compute. reflexivity. Qed.

(** Without a driver of 50 wins the title test fails: the homemade
    table raises [ValueError]. *)
Example title_test_fails_without_winner :
  test_at_least_n_races_nopd_title [] [] 50 = false.
Proof. vm_compute. reflexivity. Qed.
